(** * The encoding conversion engine of libxml2's [encoding.c]

    A shallow embedding of the built-in transcoders, the encoding detector,
    the alias and handler registries and the chunked conversion front-ends
    of [Source/ThirdParty/libxml/src/encoding.c], with the properties of the
    specification stated and proved (or refuted) against these definitions.

    Conventions of the embedding.
    - A C buffer [(p, len)] is a [list Z] of its [len] bytes; a pointer that
      walks the buffer is the list of bytes still ahead of it.
    - An output buffer [(out, *outlen)] is the capacity [outlen : Z] and the
      list of bytes stored so far; [out - outstart] is its length.
    - A converter stores three results: its return value and the final
      [*outlen] and [*inlen]; they are the fields of [conv_result], next to
      the bytes it stored.
    - [int] and [unsigned int] values are in [Z].  Lengths and sizes of
      buffers fit an [int] and code points lie below [2^21]; where the code
      multiplies a length ([toconv * 4], [toconv * 2]) the product is
      wrapped to 32 bits, as the machine computes it. *)

From Stdlib Require Import ZArith List Bool Lia String Ascii DecimalString.
From stdpp Require Import base gmap list.
Import ListNotations.

Local Open Scope Z_scope.

(** ** Error codes *)

(** Modelled from the spec: the [XML_ENC_ERR_*] enumerators are declared in
    [include/libxml/encoding.h], which lies outside [encoding.c].
    The specification fixes that success is [0] and that every error code is
    negative; the numbering is that of the libxml2 header. *)
Module Err.
Definition XML_ENC_ERR_SUCCESS : Z := 0.
Definition XML_ENC_ERR_SPACE : Z := -1.
Definition XML_ENC_ERR_INPUT : Z := -2.
Definition XML_ENC_ERR_PARTIAL : Z := -3.
Definition XML_ENC_ERR_INTERNAL : Z := -4.
Definition XML_ENC_ERR_MEMORY : Z := -5.
End Err.
Import Err.

(** ** Converter results *)

Record conv_result : Type := mkConv {
  c_ret : Z;            (* the value returned *)
  c_out : list Z;       (* the bytes stored at [out], in order *)
  c_outlen : Z;         (* [*outlen] on return *)
  c_inlen : Z           (* [*inlen] on return *)
}.

Definition with_ret (r : conv_result) (v : Z) : conv_result :=
  mkConv v (c_out r) (c_outlen r) (c_inlen r).

(** [len l] is the pointer difference [end - start] over the bytes [l]. *)
Definition len {A} (l : list A) : Z := Z.of_nat (length l).

(** The common exit of the converters:
    [*outlen = out - outstart; *inlen = processed - base; return( *outlen )]. *)
Definition conv_done (out : list Z) (processed : Z) : conv_result :=
  mkConv (len out) out (len out) processed.

(** The error exit: same stores, but [XML_ENC_ERR_INPUT] is returned. *)
Definition conv_input_error (out : list Z) (processed : Z) : conv_result :=
  mkConv XML_ENC_ERR_INPUT out (len out) processed.

(** ** ASCII to UTF-8 *)

(** The [while] loop of [asciiToUTF8].  [in_] is the input from [in] to
    [inend], [out] the bytes written, [processed] is [processed - base]. *)
Fixpoint asciiToUTF8_loop (outlen : Z) (in_ : list Z) (out : list Z)
    (processed : Z) : conv_result :=
  match in_ with
  | [] => conv_done out processed
  | c :: in' =>
      if len out + 5 <? outlen then
        if outlen <=? len out then conv_done out processed
        else if c <? 0x80 then
          asciiToUTF8_loop outlen in' (out ++ [c]) (processed + 1)
        else conv_input_error out processed
      else conv_done out processed
  end.

Definition asciiToUTF8 (outlen : Z) (inb : list Z) : conv_result :=
  asciiToUTF8_loop outlen inb [] 0.

(** ** The handler record and the chunk functions *)

Definition xmlCharEncodingInputFunc : Type := Z -> list Z -> conv_result.

(** An output function may be called with [in == NULL] (initialisation):
    its input is an [option]. *)
Definition xmlCharEncodingOutputFunc : Type :=
  Z -> option (list Z) -> conv_result.

(** Modelled from the spec: [struct _xmlCharEncodingHandler] is declared in
    [include/libxml/encoding.h], outside [encoding.c].  A handler
    is "canonical name + a backend"; for the built-in backend, in a build
    without iconv and ICU, that is the name and the two function pointers,
    [None] for [NULL]. *)
Record xmlCharEncodingHandler : Type := mkHandler {
  h_name : string;
  h_input : option xmlCharEncodingInputFunc;
  h_output : option xmlCharEncodingOutputFunc
}.

(** The block under [if (ret >= 0)], textually the same in
    [xmlEncInputChunk] and [xmlEncOutputChunk]: the built-in converters do
    not signal [XML_ENC_ERR_SPACE], the counts do. *)
Definition classify_counts (oldinlen : Z) (r : conv_result) : conv_result :=
  if 0 <=? c_ret r then
    if c_inlen r <? oldinlen then
      if 0 <? c_outlen r then with_ret r XML_ENC_ERR_SPACE
      else with_ret r XML_ENC_ERR_PARTIAL
    else with_ret r XML_ENC_ERR_SUCCESS
  else r.

(** The value of [ret] before the final test on [XML_ENC_ERR_PARTIAL]. *)
Definition xmlEncInputChunk_raw (handler : xmlCharEncodingHandler)
    (outlen : Z) (inb : list Z) : conv_result :=
  match h_input handler with
  | Some f => classify_counts (len inb) (f outlen inb)
  | None => mkConv XML_ENC_ERR_INTERNAL [] 0 0
  end.

Definition xmlEncInputChunk (handler : xmlCharEncodingHandler)
    (outlen : Z) (inb : list Z) : conv_result :=
  let r := xmlEncInputChunk_raw handler outlen inb in
  (* Ignore partial errors when reading. *)
  if c_ret r =? XML_ENC_ERR_PARTIAL then with_ret r XML_ENC_ERR_SUCCESS
  else r.

(** [*inlen] on entry: the length of the input, [0] for the [NULL] input of
    the initialisation call (the callers pass [toconv = 0] with it). *)
Definition inlen_of (inb : option (list Z)) : Z :=
  match inb with Some l => len l | None => 0 end.

Definition xmlEncOutputChunk_raw (handler : xmlCharEncodingHandler)
    (outlen : Z) (inb : option (list Z)) : conv_result :=
  match h_output handler with
  | Some f => classify_counts (inlen_of inb) (f outlen inb)
  | None => mkConv XML_ENC_ERR_INTERNAL [] 0 0
  end.

Definition xmlEncOutputChunk (handler : xmlCharEncodingHandler)
    (outlen : Z) (inb : option (list Z)) : conv_result :=
  let r := xmlEncOutputChunk_raw handler outlen inb in
  (* We shouldn't generate partial sequences when writing. *)
  if c_ret r =? XML_ENC_ERR_PARTIAL then with_ret r XML_ENC_ERR_INTERNAL
  else r.

(** ** UTF-8 to ASCII *)

(** The lead-byte dispatch shared by the UTF-8 readers: [Some (c, trailing)]
    or [None] for the two branches that return [XML_ENC_ERR_INPUT]
    (a trailing byte in leading position, or a lead byte [>= 0xF8]). *)
Definition utf8_lead (d : Z) : option (Z * nat) :=
  if d <? 0x80 then Some (d, 0%nat)
  else if d <? 0xC0 then None
  else if d <? 0xE0 then Some (Z.land d 0x1F, 1%nat)
  else if d <? 0xF0 then Some (Z.land d 0x0F, 2%nat)
  else if d <? 0xF8 then Some (Z.land d 0x07, 3%nat)
  else None.

(** [for ( ; trailing; trailing--)]: stops at the end of the input or at a
    byte that is no continuation byte; such a byte has already been stepped
    over by [*in++] when the loop is left. *)
Fixpoint utf8_trailing (trailing : nat) (c : Z) (in_ : list Z) : Z * list Z :=
  match trailing with
  | O => (c, in_)
  | S t =>
      match in_ with
      | [] => (c, in_)
      | d :: in' =>
          if Z.land d 0xC0 =? 0x80 then
            utf8_trailing t (Z.lor (Z.shiftl c 6) (Z.land d 0x3F)) in'
          else (c, in')
      end
  end.

(** The [while (in < inend)] loop of [UTF8Toascii].  [inlen] is [*inlen] on
    entry, so that [in - instart] is [inlen - len in_].  Every turn steps
    over one byte at least: [fuel] is the length of the input. *)
Fixpoint UTF8Toascii_loop (fuel : nat) (inlen outlen : Z) (in_ : list Z)
    (out : list Z) (processed : Z) : conv_result :=
  match fuel, in_ with
  | S fuel', d :: in1 =>
      match utf8_lead d with
      | None => conv_input_error out processed
      | Some (c, trailing) =>
          if len in1 <? Z.of_nat trailing then conv_done out processed
          else
            let '(c, in2) := utf8_trailing trailing c in1 in
            if c <? 0x80 then
              if outlen <=? len out then conv_done out processed
              else UTF8Toascii_loop fuel' inlen outlen in2 (out ++ [c])
                     (inlen - len in2)
            else conv_input_error out processed
      end
  | _, _ => conv_done out processed
  end.

Definition UTF8Toascii (outlen : Z) (inb : option (list Z)) : conv_result :=
  match inb with
  | None => mkConv 0 [] 0 0          (* initialization nothing to do *)
  | Some l => UTF8Toascii_loop (length l) (len l) outlen l [] 0
  end.

(** ** UTF-16 to UTF-8 *)

(** A native [unsigned short] load from two consecutive bytes.
    [xmlInitEncodingInternal] sets [xmlLittleEndian] from the byte order of
    the machine, so the flag also tells how a native load assembles them. *)
Definition load16 (xmlLittleEndian : bool) (b0 b1 : Z) : Z :=
  if xmlLittleEndian then Z.lor b0 (Z.shiftl b1 8)
  else Z.lor (Z.shiftl b0 8) b1.

(** Reading one UTF-16LE unit in [UTF16LEToUTF8]. *)
Definition unitLE (xmlLittleEndian : bool) (b0 b1 : Z) : Z :=
  if xmlLittleEndian then load16 xmlLittleEndian b0 b1
  else Z.lor b0 (Z.shiftl b1 8).

(** Reading one UTF-16BE unit in [UTF16BEToUTF8]. *)
Definition unitBE (xmlLittleEndian : bool) (b0 b1 : Z) : Z :=
  if xmlLittleEndian then Z.lor (Z.shiftl b0 8) b1
  else load16 xmlLittleEndian b0 b1.

(** [for ( ; bits >= 0; bits -= 6)] with its [out >= outend] test; [k] is
    the number of turns left, [bits = 6 * (k - 1)]. *)
Fixpoint put_continuation (k : nat) (outlen c : Z) (out : list Z) : list Z :=
  match k with
  | O => out
  | S k' =>
      if outlen <=? len out then out
      else put_continuation k' outlen c
             (out ++ [Z.lor (Z.land (Z.shiftr c (6 * Z.of_nat k')) 0x3F) 0x80])
  end.

(** The four-way store of the first byte followed by the [bits] loop. *)
Definition put_utf8 (outlen c : Z) (out : list Z) : list Z :=
  if c <? 0x80 then put_continuation 0 outlen c (out ++ [c])
  else if c <? 0x800 then
    put_continuation 1 outlen c
      (out ++ [Z.lor (Z.land (Z.shiftr c 6) 0x1F) 0xC0])
  else if c <? 0x10000 then
    put_continuation 2 outlen c
      (out ++ [Z.lor (Z.land (Z.shiftr c 12) 0x0F) 0xE0])
  else
    put_continuation 3 outlen c
      (out ++ [Z.lor (Z.land (Z.shiftr c 18) 0x07) 0xF0]).

(** The surrogate combination of the decoders:
    [c &= 0x03FF; c <<= 10; c |= d & 0x03FF; c += 0x10000]. *)
Definition combine_surrogates (c d : Z) : Z :=
  Z.lor (Z.shiftl (Z.land c 0x03FF) 10) (Z.land d 0x03FF) + 0x10000.

(** The [while] loop of [UTF16LEToUTF8] and of [UTF16BEToUTF8], which differ
    in the way a unit is read only ([unit]).  The input is walked two bytes
    at a time: [inend] is [in + *inlenb / 2] units, so an odd last byte is
    never read, and with fewer than two bytes left [in >= inend] holds. *)
Fixpoint UTF16ToUTF8_loop (unit : Z -> Z -> Z) (outlen : Z) (in_ : list Z)
    (out : list Z) (processed : Z) {struct in_} : conv_result :=
  match in_ with
  | b0 :: b1 :: in1 =>
      if len out + 5 <? outlen then
        let c := unit b0 b1 in
        if Z.land c 0xFC00 =? 0xD800 then
          match in1 with
          | d0 :: d1 :: in2 =>
              let d := unit d0 d1 in
              if Z.land d 0xFC00 =? 0xDC00 then
                let c := combine_surrogates c d in
                if outlen <=? len out then conv_done out processed
                else UTF16ToUTF8_loop unit outlen in2 (put_utf8 outlen c out)
                       (processed + 4)
              else conv_input_error out processed
          | _ => conv_done out processed
          end
        else
          if outlen <=? len out then conv_done out processed
          else UTF16ToUTF8_loop unit outlen in1 (put_utf8 outlen c out)
                 (processed + 2)
      else conv_done out processed
  | _ => conv_done out processed
  end.

Definition UTF16LEToUTF8 (xmlLittleEndian : bool) (outlen : Z)
    (inb : list Z) : conv_result :=
  if outlen =? 0 then mkConv 0 [] outlen 0
  else UTF16ToUTF8_loop (unitLE xmlLittleEndian) outlen inb [] 0.

Definition UTF16BEToUTF8 (xmlLittleEndian : bool) (outlen : Z)
    (inb : list Z) : conv_result :=
  if outlen =? 0 then mkConv 0 [] outlen 0
  else UTF16ToUTF8_loop (unitBE xmlLittleEndian) outlen inb [] 0.

(** ** UTF-8 to UTF-16LE *)

(** Storing one unit through the [unsigned short *out] of [UTF8ToUTF16LE]:
    a native store when the machine is little-endian, two byte stores with
    explicit truncation otherwise.  Both lay down the low byte first. *)
Definition store16 (xmlLittleEndian : bool) (v : Z) : list Z :=
  if xmlLittleEndian then [Z.land v 0xFF; Z.land (Z.shiftr v 8) 0xFF]
  else [v mod 256; Z.shiftr v 8 mod 256].

(** The [while (in < inend)] loop of [UTF8ToUTF16LE].  [out] holds the units
    stored so far ([out - outstart] is its length) and [outend] is
    [*outlen / 2] units away from [outstart]. *)
Fixpoint UTF8ToUTF16LE_loop (fuel : nat) (inlen outlen : Z) (in_ : list Z)
    (out : list Z) (processed : Z) : Z * list Z * Z :=
  match fuel, in_ with
  | S fuel', d :: in1 =>
      match utf8_lead d with
      | None => (XML_ENC_ERR_INPUT, out, processed)
      | Some (c, trailing) =>
          if len in1 <? Z.of_nat trailing then (len out * 2, out, processed)
          else
            let '(c, in2) := utf8_trailing trailing c in1 in
            if c <? 0x10000 then
              if Z.quot outlen 2 <=? len out then (len out * 2, out, processed)
              else UTF8ToUTF16LE_loop fuel' inlen outlen in2 (out ++ [c])
                     (inlen - len in2)
            else if c <? 0x110000 then
              if Z.quot outlen 2 <=? len out + 1 then
                (len out * 2, out, processed)
              else
                let c := c - 0x10000 in
                UTF8ToUTF16LE_loop fuel' inlen outlen in2
                  (out ++ [Z.lor 0xD800 (Z.shiftr c 10);
                           Z.lor 0xDC00 (Z.land c 0x03FF)])
                  (inlen - len in2)
            else (len out * 2, out, processed)
      end
  | _, _ => (len out * 2, out, processed)
  end.

(** The bytes behind the units, as [store16] laid them down. *)
Definition unit_bytes (xmlLittleEndian : bool) (units : list Z) : list Z :=
  flat_map (store16 xmlLittleEndian) units.

Definition UTF8ToUTF16LE (xmlLittleEndian : bool) (outlen : Z)
    (inb : option (list Z)) : conv_result :=
  match inb with
  | None => mkConv 0 [] 0 0
  | Some l =>
      let '(r, units, processed) :=
        UTF8ToUTF16LE_loop (length l) (len l) outlen l [] 0 in
      mkConv r (unit_bytes xmlLittleEndian units) (len units * 2) processed
  end.

(** ** Encoding detection *)

(** Modelled from the spec: the enumeration [xmlCharEncoding], the
    "EncodingTag" of the specification, is declared in
    [include/libxml/encoding.h], outside [encoding.c].  These are
    the values [xmlDetectCharEncoding] returns. *)
Inductive xmlCharEncoding : Type :=
  | XML_CHAR_ENCODING_NONE
  | XML_CHAR_ENCODING_UTF8
  | XML_CHAR_ENCODING_UTF16LE
  | XML_CHAR_ENCODING_UTF16BE
  | XML_CHAR_ENCODING_UCS4LE
  | XML_CHAR_ENCODING_UCS4BE
  | XML_CHAR_ENCODING_EBCDIC
  | XML_CHAR_ENCODING_UCS4_2143
  | XML_CHAR_ENCODING_UCS4_3412.

(** [in[i]] for an index the tests of the function have shown to be below
    [len]; the default is never looked at. *)
Definition byte_at (inb : list Z) (i : nat) : Z := nth i inb (-1).

(** [in[0] == a && in[1] == b && in[2] == c && in[3] == d]. *)
Definition match4 (inb : list Z) (a b c d : Z) : bool :=
  (byte_at inb 0 =? a) && (byte_at inb 1 =? b) &&
  (byte_at inb 2 =? c) && (byte_at inb 3 =? d).

Definition match3 (inb : list Z) (a b c : Z) : bool :=
  (byte_at inb 0 =? a) && (byte_at inb 1 =? b) && (byte_at inb 2 =? c).

Definition match2 (inb : list Z) (a b : Z) : bool :=
  (byte_at inb 0 =? a) && (byte_at inb 1 =? b).

(** The [if (len >= 4)] block; [None] when it falls through. *)
Definition detect4 (inb : list Z) : option xmlCharEncoding :=
  if match4 inb 0x00 0x00 0x00 0x3C then Some XML_CHAR_ENCODING_UCS4BE
  else if match4 inb 0x3C 0x00 0x00 0x00 then Some XML_CHAR_ENCODING_UCS4LE
  else if match4 inb 0x00 0x00 0x3C 0x00 then Some XML_CHAR_ENCODING_UCS4_2143
  else if match4 inb 0x00 0x3C 0x00 0x00 then Some XML_CHAR_ENCODING_UCS4_3412
  else if match4 inb 0x4C 0x6F 0xA7 0x94 then Some XML_CHAR_ENCODING_EBCDIC
  else if match4 inb 0x3C 0x3F 0x78 0x6D then Some XML_CHAR_ENCODING_UTF8
  else if match4 inb 0x3C 0x00 0x3F 0x00 then Some XML_CHAR_ENCODING_UTF16LE
  else if match4 inb 0x00 0x3C 0x00 0x3F then Some XML_CHAR_ENCODING_UTF16BE
  else None.

(** The [if (len >= 3)] block. *)
Definition detect3 (inb : list Z) : option xmlCharEncoding :=
  if match3 inb 0xEF 0xBB 0xBF then Some XML_CHAR_ENCODING_UTF8 else None.

(** The [if (len >= 2)] block. *)
Definition detect2 (inb : list Z) : option xmlCharEncoding :=
  if match2 inb 0xFE 0xFF then Some XML_CHAR_ENCODING_UTF16BE
  else if match2 inb 0xFF 0xFE then Some XML_CHAR_ENCODING_UTF16LE
  else None.

(** A block guarded by [if (len >= n)], falling through to [rest]. *)
Definition guarded (cond : bool) (block : option xmlCharEncoding)
    (rest : xmlCharEncoding) : xmlCharEncoding :=
  if cond then match block with Some e => e | None => rest end else rest.

(** [xmlDetectCharEncoding(in, len)]; [None] is the [NULL] buffer. *)
Definition xmlDetectCharEncoding (inb : option (list Z)) (n : Z)
    : xmlCharEncoding :=
  match inb with
  | None => XML_CHAR_ENCODING_NONE
  | Some b =>
      guarded (4 <=? n) (detect4 b)
        (guarded (3 <=? n) (detect3 b)
           (guarded (2 <=? n) (detect2 b) XML_CHAR_ENCODING_NONE))
  end.

(** Detection on a buffer passed with its own length. *)
Definition detect (b : list Z) : xmlCharEncoding :=
  xmlDetectCharEncoding (Some b) (len b).

(** The patterns of the function as a table, in the order of the tests. *)
Definition detect_patterns : list (list Z * xmlCharEncoding) :=
  [ ([0x00; 0x00; 0x00; 0x3C], XML_CHAR_ENCODING_UCS4BE);
    ([0x3C; 0x00; 0x00; 0x00], XML_CHAR_ENCODING_UCS4LE);
    ([0x00; 0x00; 0x3C; 0x00], XML_CHAR_ENCODING_UCS4_2143);
    ([0x00; 0x3C; 0x00; 0x00], XML_CHAR_ENCODING_UCS4_3412);
    ([0x4C; 0x6F; 0xA7; 0x94], XML_CHAR_ENCODING_EBCDIC);
    ([0x3C; 0x3F; 0x78; 0x6D], XML_CHAR_ENCODING_UTF8);
    ([0x3C; 0x00; 0x3F; 0x00], XML_CHAR_ENCODING_UTF16LE);
    ([0x00; 0x3C; 0x00; 0x3F], XML_CHAR_ENCODING_UTF16BE);
    ([0xEF; 0xBB; 0xBF], XML_CHAR_ENCODING_UTF8);
    ([0xFE; 0xFF], XML_CHAR_ENCODING_UTF16BE);
    ([0xFF; 0xFE], XML_CHAR_ENCODING_UTF16LE) ].

(** [b] starts with the bytes [p]. *)
Definition starts_with (p b : list Z) : Prop := exists rest, b = p ++ rest.

(** ** The alias registry *)

(** [toupper] in the "C" locale, on one [char]. *)
Definition toupper (c : ascii) : ascii :=
  let n := N_of_ascii c in
  if ((97 <=? n) && (n <=? 122))%N then ascii_of_N (n - 32) else c.

(** The loop that fills [char upper[100]]: at most 99 characters of the
    alias, each through [toupper], then the terminating zero. *)
Fixpoint upper_loop (n : nat) (s : string) : string :=
  match n, s with
  | S n', String c s' => String (toupper c) (upper_loop n' s')
  | _, _ => EmptyString
  end.

Definition upper99 (alias : string) : string := upper_loop 99 alias.

Record xmlCharEncodingAlias : Type := mkAlias {
  a_name : string;
  a_alias : string
}.

(** The three globals of the registry.  [None] is the [NULL] table; the
    list holds the [xmlCharEncodingAliasesNb] entries in use, in order. *)
Record alias_state : Type := mkAliases {
  xmlCharEncodingAliases : option (list xmlCharEncodingAlias);
  xmlCharEncodingAliasesMax : Z
}.

Definition xmlCharEncodingAliasesNb (st : alias_state) : Z :=
  match xmlCharEncodingAliases st with Some t => len t | None => 0 end.

Definition alias_entries (st : alias_state) : list xmlCharEncodingAlias :=
  match xmlCharEncodingAliases st with Some t => t | None => [] end.

(** The state before any call. *)
Definition alias_init : alias_state := mkAliases None 0.

(** Outcome of the allocations a call makes, in the order it makes them. *)
Record alloc_oracle : Type := mkOracle {
  realloc_ok : bool;
  name_dup_ok : bool;
  alias_dup_ok : bool
}.


(** The walk of the table, [strcmp] against the key; first match. *)
Fixpoint find_alias (key : string) (t : list xmlCharEncodingAlias)
    : option xmlCharEncodingAlias :=
  match t with
  | [] => None
  | e :: t' => if String.eqb (a_alias e) key then Some e else find_alias key t'
  end.

(** [xmlGetEncodingAlias]; [None] is the [NULL] result. *)
Definition xmlGetEncodingAlias (st : alias_state) (alias : string)
    : option string :=
  match xmlCharEncodingAliases st with
  | None => None
  | Some t =>
      match find_alias (upper99 alias) t with
      | Some e => Some (a_name e)
      | None => None
      end
  end.

(** Replace the name of the first entry whose alias is [key]. *)
Fixpoint replace_alias (key name : string) (t : list xmlCharEncodingAlias)
    : option (list xmlCharEncodingAlias) :=
  match t with
  | [] => None
  | e :: t' =>
      if String.eqb (a_alias e) key then Some (mkAlias name (a_alias e) :: t')
      else option_map (cons e) (replace_alias key name t')
  end.

(** [xmlAddEncodingAlias]: the result ([0] or [-1]) and the new state. *)
Definition xmlAddEncodingAlias (m : alloc_oracle) (st : alias_state)
    (name alias : string) : Z * alias_state :=
  let upper := upper99 alias in
  let grown :=
    if xmlCharEncodingAliasesMax st <=? xmlCharEncodingAliasesNb st then
      if realloc_ok m then
        Some (mkAliases (Some (alias_entries st))
                (if xmlCharEncodingAliasesMax st =? 0 then 20
                 else xmlCharEncodingAliasesMax st * 2))
      else None
    else Some st in
  match grown with
  | None => (-1, st)
  | Some st1 =>
      match replace_alias upper name (alias_entries st1) with
      | Some t' =>
          if name_dup_ok m then
            (0, mkAliases (Some t') (xmlCharEncodingAliasesMax st1))
          else (-1, st1)
      | None =>
          if name_dup_ok m then
            if alias_dup_ok m then
              (0, mkAliases (Some (alias_entries st1 ++ [mkAlias name upper]))
                    (xmlCharEncodingAliasesMax st1))
            else (-1, st1)
          else (-1, st1)
      end
  end.

(** Drop the first entry whose alias is [key] ([memmove] of the tail). *)
Fixpoint remove_alias (key : string) (t : list xmlCharEncodingAlias)
    : option (list xmlCharEncodingAlias) :=
  match t with
  | [] => None
  | e :: t' =>
      if String.eqb (a_alias e) key then Some t'
      else option_map (cons e) (remove_alias key t')
  end.

(** [xmlDelEncodingAlias]: the key is compared as it is given. *)
Definition xmlDelEncodingAlias (st : alias_state) (alias : string)
    : Z * alias_state :=
  match xmlCharEncodingAliases st with
  | None => (-1, st)
  | Some t =>
      match remove_alias alias t with
      | Some t' => (0, mkAliases (Some t') (xmlCharEncodingAliasesMax st))
      | None => (-1, st)
      end
  end.

(** ** The handler registry *)

Definition MAX_ENCODING_HANDLERS : Z := 50.

(** Addresses of [xmlMalloc]ed blocks. *)
Definition ptr : Type := positive.

(** What a live block holds: the characters of a name, or a handler whose
    [name] field points to another block (or is [NULL]). *)
Inductive block : Type :=
  | BString (s : string)
  | BHandler (name : option ptr).

(** The two globals [handlers] and [nbCharEncodingHandler], and the blocks
    that have been allocated and not freed.  The table, once allocated, has
    [MAX_ENCODING_HANDLERS] slots; a slot never written holds [None]. *)
Record registry : Type := mkRegistry {
  heap : gmap ptr block;
  handlers : option (list (option ptr));
  nbCharEncodingHandler : Z
}.

Definition registry_init (hp : gmap ptr block) : registry :=
  mkRegistry hp None 0.

(** The code under the label [free_handler]. *)
Definition free_handler (hp : gmap ptr block) (handler : ptr)
    : gmap ptr block :=
  match hp !! handler with
  | Some (BHandler (Some n)) => delete handler (delete n hp)
  | _ => delete handler hp
  end.

(** [xmlRegisterCharEncodingHandler]; [malloc_ok] tells whether the
    allocation of the table, if it is attempted, succeeds. *)
Definition xmlRegisterCharEncodingHandler (malloc_ok : bool) (st : registry)
    (handler : option ptr) : registry :=
  match handler with
  | None => st
  | Some h =>
      let table :=
        match handlers st with
        | Some t => Some t
        | None =>
            if malloc_ok
            then Some (replicate (Z.to_nat MAX_ENCODING_HANDLERS) None)
            else None
        end in
      match table with
      | None =>
          mkRegistry (free_handler (heap st) h) None
            (nbCharEncodingHandler st)
      | Some t =>
          if MAX_ENCODING_HANDLERS <=? nbCharEncodingHandler st then
            mkRegistry (free_handler (heap st) h) (Some t)
              (nbCharEncodingHandler st)
          else
            mkRegistry (heap st)
              (Some (<[Z.to_nat (nbCharEncodingHandler st) := Some h]> t))
              (nbCharEncodingHandler st + 1)
      end
  end.

(** A run of registrations, each with its allocation outcome. *)
Definition register_all (regs : list (bool * option ptr)) (st : registry)
    : registry :=
  fold_left (fun s r => xmlRegisterCharEncodingHandler (fst r) s (snd r))
    regs st.

(** The handlers the registry holds: the first [nbCharEncodingHandler]
    slots of the table. *)
Definition registered (st : registry) : list (option ptr) :=
  match handlers st with
  | Some t => take (Z.to_nat (nbCharEncodingHandler st)) t
  | None => []
  end.

(** ** Machine integers *)

(** The value an [int] holds when the result of an operation is [z]:
    32 bits in two's complement. *)
Definition wrap_int (z : Z) : Z := (z + 2 ^ 31) mod 2 ^ 32 - 2 ^ 31.

(** The same for an [unsigned int]. *)
Definition wrap_uint (z : Z) : Z := z mod 2 ^ 32.

(** ** Buffers *)

(** Modelled from the spec: [struct _xmlBuffer] is declared in
    [include/libxml/tree.h], outside [encoding.c].  Of the
    "growable byte-buffer abstraction" the functions here read three
    fields: the [use] bytes of [content] and the allocated [size]. *)
Record xmlBuffer : Type := mkBuffer {
  content : list Z;
  size : Z
}.

Definition use (b : xmlBuffer) : Z := len (content b).

(** Modelled from the spec: [xmlBufferGrow] lives in [tree.c], outside
    [encoding.c].  The buffer abstraction "supplies capacity": when
    fewer than [n + 1] bytes are free the allocation grows, to twice its
    size if that is more than [n] and to [use + n + 100] otherwise; the
    bytes in use are kept. *)
Definition xmlBufferGrow (b : xmlBuffer) (n : Z) : xmlBuffer :=
  if n <? size b - use b then b
  else if n <? size b then mkBuffer (content b) (size b * 2)
  else mkBuffer (content b) (use b + n + 100).

(** Modelled from the spec: [xmlBufferShrink] lives in [tree.c].  The
    buffer "shrinks from the front": [n] bytes are removed there, and
    nothing happens when [n] is more than the bytes in use. *)
Definition xmlBufferShrink (b : xmlBuffer) (n : Z) : xmlBuffer :=
  if use b <? n then b
  else mkBuffer (drop (Z.to_nat n) (content b)) (size b).

(** [stored] more bytes in use behind those of [b]. *)
Definition buffer_add (b : xmlBuffer) (stored : list Z) : xmlBuffer :=
  mkBuffer (content b ++ stored) (size b).

(** [out->use += written] after a converter has stored its bytes at
    [&out->content[out->use]] and has reported [written] of them in
    [*outlen]: the buffer gains the first [written] of the bytes stored.
    No converter here reports more than it has stored; [UTF8ToUTF16BE]
    reports less when it returns [XML_ENC_ERR_INPUT]. *)
Definition buffer_add_len (b : xmlBuffer) (r : conv_result) : xmlBuffer :=
  buffer_add b (take (Z.to_nat (c_outlen r)) (c_out r)).

(** [utf[i]]; a buffer keeps a zero after its last byte. *)
Definition utf_at (utf : list Z) (i : nat) : Z := nth i utf 0.

(** Modelled from the spec: [xmlGetUTF8Char] lives in [xmlstring.c].  It
    "decodes exactly one UTF-8 code point from the current source
    position": the value and the number of bytes read, or [-1] and [0]
    when the [n] bytes at hand do not start with the UTF-8 sequence of a
    code point, which is neither too long for its value, nor that of a
    surrogate, nor above U+10FFFF. *)
Definition xmlGetUTF8Char (utf : list Z) (n : Z) : Z * Z :=
  let error := (-1, 0) in
  let continues i := Z.land (utf_at utf i) 0xC0 =? 0x80 in
  let low i := Z.land (utf_at utf i) 0x3F in
  let c := utf_at utf 0 in
  if n <? 1 then error
  else if c <? 0x80 then (c, 1)
  else if c <? 0xC2 then error
  else if c <? 0xE0 then
    if (2 <=? n) && continues 1%nat then
      (Z.lor (Z.shiftl (Z.land c 0x1F) 6) (low 1%nat), 2)
    else error
  else if c <? 0xF0 then
    if (3 <=? n) && continues 1%nat && continues 2%nat then
      let v :=
        Z.lor (Z.lor (Z.shiftl (Z.land c 0xF) 12) (Z.shiftl (low 1%nat) 6))
          (low 2%nat) in
      if (v <? 0x800) || ((0xD800 <=? v) && (v <? 0xE000)) then error
      else (v, 3)
    else error
  else if c <? 0xF8 then
    if (4 <=? n) && continues 1%nat && continues 2%nat && continues 3%nat
    then
      let v :=
        Z.lor (Z.lor (Z.lor (Z.shiftl (Z.land c 0x7) 18)
                        (Z.shiftl (low 1%nat) 12))
                 (Z.shiftl (low 2%nat) 6))
          (low 3%nat) in
      if (v <? 0x10000) || (0x110000 <=? v) then error else (v, 4)
    else error
  else error.

(** The characters of a string as bytes. *)
Definition bytes_of_string (s : string) : list Z :=
  map (fun a => Z.of_N (N_of_ascii a)) (list_ascii_of_string s).

(** [snprintf(charref, sizeof(charref), "&#%d;", cur)]: the text stored.
    A positive [int] gives 13 characters at most, so nothing is cut by the
    20 bytes of [charref]. *)
Definition format_charref (cur : Z) : list Z :=
  bytes_of_string ("&#" ++ NilZero.string_of_int (Z.to_int cur) ++ ";").

(** ** The encode front-end *)

(** What [xmlCharEncOutFunc] leaves behind: its return value and the two
    buffers. *)
Record out_result : Type := mkOut {
  o_ret : Z;
  o_out : xmlBuffer;
  o_in : option xmlBuffer
}.

(** [written = out->size - out->use; if (written > 0) written--;] *)
Definition out_avail (out : xmlBuffer) : Z :=
  let written := size out - use out in
  if 0 <? written then written - 1 else written.

(** [if (toconv * 4 >= written) { xmlBufferGrow(out, toconv * 4);
    written = out->size - out->use - 1; }]: the buffer and [written].
    The product is an [int]; [xmlBufferGrow] takes an [unsigned int]. *)
Definition out_room (out : xmlBuffer) (toconv : Z) : xmlBuffer * Z :=
  let written := out_avail out in
  let toconv4 := wrap_int (toconv * 4) in
  if written <=? toconv4 then
    let out := xmlBufferGrow out (wrap_uint toconv4) in
    (out, size out - use out - 1)
  else (out, written).

(** How the block under [if (ret == XML_ENC_ERR_INPUT)] is left: by a
    [return] or by [goto retry]. *)
Inductive fallback : Type :=
  | FReturn (r : out_result)
  | FRetry (out inb : xmlBuffer) (writtentot : Z).

(** The block under [if (ret == XML_ENC_ERR_INPUT)] of
    [xmlCharEncOutFunc]; [ret] is the value that led there.  [charrefLen]
    is below 20, so [charrefLen * 4] holds its value. *)
Definition charref_fallback (handler : xmlCharEncodingHandler) (ret : Z)
    (out inb : xmlBuffer) (writtentot : Z) : fallback :=
  let '(cur, n) := xmlGetUTF8Char (content inb) (use inb) in
  if cur <=? 0 then FReturn (mkOut ret out (Some inb))
  else
    let charref := format_charref cur in
    let charrefLen := len charref in
    let inb := xmlBufferShrink inb n in
    let out := xmlBufferGrow out (charrefLen * 4) in
    let written := size out - use out - 1 in
    let r2 := xmlEncOutputChunk handler written (Some charref) in
    if (c_ret r2 <? 0) || negb (c_inlen r2 =? charrefLen) then
      FReturn (mkOut XML_ENC_ERR_INTERNAL out (Some inb))
    else
      FRetry (buffer_add_len out r2) inb (writtentot + c_outlen r2).

(** [xmlCharEncOutFunc] from the label [retry] on, with [writtentot] as it
    stands there.  Each [goto retry] takes one unit of [fuel]; [None] means
    the fuel ran out. *)
Fixpoint xmlCharEncOutFunc_retry (fuel : nat)
    (handler : xmlCharEncodingHandler) (out : xmlBuffer)
    (in_ : option xmlBuffer) (writtentot : Z) : option out_result :=
  match fuel with
  | O => None
  | S fuel' =>
      match in_ with
      | None =>
          let r := xmlEncOutputChunk handler (out_avail out) None in
          Some (mkOut 0 (buffer_add_len out r) None)
      | Some inb =>
          let '(out, written) := out_room out (use inb) in
          let r := xmlEncOutputChunk handler written (Some (content inb)) in
          let inb := xmlBufferShrink inb (c_inlen r) in
          let out := buffer_add_len out r in
          let writtentot := writtentot + c_outlen r in
          if c_ret r =? XML_ENC_ERR_SPACE then
            xmlCharEncOutFunc_retry fuel' handler out (Some inb) writtentot
          else if c_ret r =? XML_ENC_ERR_INPUT then
            match charref_fallback handler (c_ret r) out inb writtentot with
            | FReturn res => Some res
            | FRetry out inb writtentot =>
                xmlCharEncOutFunc_retry fuel' handler out (Some inb)
                  writtentot
            end
          else
            Some (mkOut (if writtentot =? 0 then c_ret r else writtentot)
                    out (Some inb))
      end
  end.

Definition xmlCharEncOutFunc (fuel : nat) (handler : xmlCharEncodingHandler)
    (out : xmlBuffer) (in_ : option xmlBuffer) : option out_result :=
  xmlCharEncOutFunc_retry fuel handler out in_ 0.

(** ** The encode front-end of the output buffers *)

(** Modelled from the spec: [xmlParserErrors] is declared in
    [include/libxml/xmlerror.h], outside [encoding.c].  These are
    the four values [xmlEncConvertError] produces. *)
Inductive xmlParserErrors : Type :=
  | XML_ERR_OK
  | XML_ERR_INTERNAL_ERROR
  | XML_ERR_NO_MEMORY
  | XML_ERR_INVALID_ENCODING.

Definition xmlEncConvertError (code : Z) : xmlParserErrors :=
  if code =? XML_ENC_ERR_SUCCESS then XML_ERR_OK
  else if code =? XML_ENC_ERR_INPUT then XML_ERR_INVALID_ENCODING
  else if code =? XML_ENC_ERR_MEMORY then XML_ERR_NO_MEMORY
  else XML_ERR_INTERNAL_ERROR.

(** Modelled from the spec: the [xmlBuf] functions live in [buf.c],
    outside [encoding.c].  They are the same "growable byte-buffer
    abstraction" as [xmlBuffer], read here on the same record:
    [xmlBufAvail] is the room left before the terminating zero,
    [xmlBufGrow] fails on a negative length only and otherwise grows as
    [xmlBufferGrow] does, returning the room left. *)
Definition xmlBufAvail (b : xmlBuffer) : Z :=
  if use b <? size b then size b - use b - 1 else 0.

(** Modelled from the spec: [xmlBufGrow] of [buf.c]; the value returned
    (negative on failure) and the buffer. *)
Definition xmlBufGrow (b : xmlBuffer) (n : Z) : Z * xmlBuffer :=
  if n <? 0 then (-1, b)
  else if n =? 0 then (0, b)
  else let b' := xmlBufferGrow b n in (size b' - use b' - 1, b').

(** Modelled from the spec: [struct _xmlOutputBuffer] is declared in
    [include/libxml/xmlIO.h], outside [encoding.c].  These are the
    fields [xmlCharEncOutput] touches. *)
Record xmlOutputBuffer : Type := mkOutput {
  encoder : option xmlCharEncodingHandler;
  buffer : option xmlBuffer;
  conv : option xmlBuffer;
  error : xmlParserErrors
}.

(** The code under the label [error] of [xmlCharEncOutput]. *)
Definition xmlCharEncOutput_error (handler : option xmlCharEncodingHandler)
    (err : xmlParserErrors) (ret writtentot : Z) (out inb : xmlBuffer)
    : Z * xmlOutputBuffer :=
  if ((writtentot <=? 0) && negb (ret =? 0)) || (ret =? XML_ENC_ERR_MEMORY)
  then
    (ret, mkOutput handler (Some inb) (Some out)
            (match err with XML_ERR_OK => xmlEncConvertError ret | e => e end))
  else (writtentot, mkOutput handler (Some inb) (Some out) err).

(** [toconv = xmlBufUse(in); if (toconv > 64 * 1024) toconv = 64 * 1024;] *)
Definition output_toconv (inb : xmlBuffer) : Z :=
  let toconv := use inb in
  if 64 * 1024 <? toconv then 64 * 1024 else toconv.

(** From [if (toconv * 4 >= written)] to the cap of [written] at 256 KiB:
    the buffer and [written], or [None] when [xmlBufGrow] fails
    ([ret = XML_ENC_ERR_MEMORY; goto error]). *)
Definition output_room (out : xmlBuffer) (toconv : Z)
    : option (xmlBuffer * Z) :=
  let written := xmlBufAvail out in
  let grown :=
    if written <=? toconv * 4 then
      let '(g, out') := xmlBufGrow out (toconv * 4) in
      if g <? 0 then None else Some (out', xmlBufAvail out')
    else Some (out, written) in
  match grown with
  | None => None
  | Some (out, written) =>
      Some (out, if 256 * 1024 <? written then 256 * 1024 else written)
  end.

(** [xmlCharEncOutput] from the label [retry] on; [out] is [output->conv]
    and [inb] is [output->buffer].  [None] means the fuel ran out. *)
Fixpoint xmlCharEncOutput_retry (fuel : nat)
    (handler : xmlCharEncodingHandler) (err : xmlParserErrors) (init : bool)
    (out inb : xmlBuffer) (writtentot : Z) : option (Z * xmlOutputBuffer) :=
  match fuel with
  | O => None
  | S fuel' =>
      if init then
        let r := xmlEncOutputChunk handler (xmlBufAvail out) None in
        Some (c_outlen r,
              mkOutput (Some handler) (Some inb)
                (Some (buffer_add_len out r)) err)
      else
        let toconv := output_toconv inb in
        match output_room out toconv with
        | None =>
            Some (xmlCharEncOutput_error (Some handler) err
                    XML_ENC_ERR_MEMORY writtentot out inb)
        | Some (out, written) =>
            let r :=
              xmlEncOutputChunk handler written
                (Some (take (Z.to_nat toconv) (content inb))) in
            let inb := xmlBufferShrink inb (c_inlen r) in
            let out := buffer_add_len out r in
            let writtentot := writtentot + c_outlen r in
            if c_ret r =? XML_ENC_ERR_SPACE then
              xmlCharEncOutput_retry fuel' handler err init out inb
                writtentot
            else if c_ret r =? XML_ENC_ERR_INPUT then
              let '(cur, n) := xmlGetUTF8Char (content inb) (use inb) in
              if cur <=? 0 then
                Some (xmlCharEncOutput_error (Some handler) err (c_ret r)
                        writtentot out inb)
              else
                let charref := format_charref cur in
                let charrefLen := len charref in
                let out := snd (xmlBufGrow out (charrefLen * 4)) in
                let r2 :=
                  xmlEncOutputChunk handler (xmlBufAvail out)
                    (Some charref) in
                if (c_ret r2 <? 0) || negb (c_inlen r2 =? charrefLen) then
                  Some (xmlCharEncOutput_error (Some handler) err
                          XML_ENC_ERR_INTERNAL writtentot out inb)
                else
                  xmlCharEncOutput_retry fuel' handler err init
                    (buffer_add_len out r2) (xmlBufferShrink inb n)
                    (writtentot + c_outlen r2)
            else
              Some (xmlCharEncOutput_error (Some handler) err (c_ret r)
                      writtentot out inb)
        end
  end.

(** [xmlCharEncOutput(output, init)]. *)
Definition xmlCharEncOutput (fuel : nat) (output : xmlOutputBuffer)
    (init : bool) : option (Z * xmlOutputBuffer) :=
  match encoder output, buffer output, conv output with
  | Some handler, Some inb, Some out =>
      xmlCharEncOutput_retry fuel handler (error output) init out inb 0
  | _, _, _ => Some (XML_ENC_ERR_INTERNAL, output)
  end.

(** The built-in handler [defaultHandlers[4]], "ASCII". *)
Definition xmlAsciiHandler : xmlCharEncodingHandler :=
  mkHandler "ASCII" (Some asciiToUTF8) (Some UTF8Toascii).

(** ** Callers and reference notions used by the properties *)

(** [n] conversion calls in a row through the decode engine, each into a
    fresh destination of [cap] bytes; after a call the caller steps over the
    [*inlen] bytes it consumed, as the loop of [xmlCharEncInput] does
    ([inData += c_in]).  The per-call results and what is left of the
    source. *)
Fixpoint convert_calls (n : nat) (handler : xmlCharEncodingHandler)
    (cap : Z) (src : list Z) : list conv_result * list Z :=
  match n with
  | O => ([], src)
  | S n' =>
      let r := xmlEncInputChunk handler cap src in
      let '(rs, rest) :=
        convert_calls n' handler cap (drop (Z.to_nat (c_inlen r)) src) in
      (r :: rs, rest)
  end.

(** [n] calls into a destination of [cap] bytes consume [per_call] bytes
    each, leave nothing of the source, and their outputs put end to end are
    the source: no byte is dropped and none comes twice. *)
Definition chunked_in (n : nat) (handler : xmlCharEncodingHandler) (cap : Z)
    (per_call : Z) (src : list Z) : Prop :=
  Forall (fun r => c_inlen r = per_call)
    (fst (convert_calls n handler cap src)) /\
  snd (convert_calls n handler cap src) = [] /\
  concat (map c_out (fst (convert_calls n handler cap src))) = src.

(** The same "after enough calls". *)
Definition chunked_exactly (handler : xmlCharEncodingHandler) (cap : Z)
    (per_call : Z) (src : list Z) : Prop :=
  exists n, chunked_in n handler cap per_call src.

(** The classification rule read off the counts alone: output produced and
    input left over means [XML_ENC_ERR_SPACE]. *)
Definition space_by_counts (handler : xmlCharEncodingHandler) (outlen : Z)
    (inb : list Z) : Prop :=
  let r := xmlEncInputChunk handler outlen inb in
  0 < c_outlen r -> c_inlen r < len inb -> c_ret r = XML_ENC_ERR_SPACE.

(** The table is allocated before it is counted, no alias is stored twice,
    and every stored alias is in the spelling [upper99] gives. *)
Definition alias_wf (st : alias_state) : Prop :=
  (xmlCharEncodingAliases st = None -> xmlCharEncodingAliasesMax st = 0) /\
  Forall (fun e => upper99 (a_alias e) = a_alias e) (alias_entries st) /\
  NoDup (map a_alias (alias_entries st)).

(** The table is allocated before anything is counted, has its
    [MAX_ENCODING_HANDLERS] slots, and the count stays within them. *)
Definition registry_wf (st : registry) : Prop :=
  0 <= nbCharEncodingHandler st <= MAX_ENCODING_HANDLERS /\
  match handlers st with
  | None => nbCharEncodingHandler st = 0
  | Some t => len t = MAX_ENCODING_HANDLERS
  end.

(** A registry filled by fifty registrations of the handlers at the
    addresses 2, 4, ..., 100, next to a live handler at address 1000 whose
    name is the block at address 1001. *)
Definition fifty_handlers : list (bool * option ptr) :=
  map (fun i => (true, Some (Pos.of_nat (2 * S i)))) (seq 0 50).

Definition extra_heap : gmap ptr block :=
  {[ 1000%positive := BHandler (Some 1001%positive);
     1001%positive := BString "X-EXTRA" ]}.

Definition full_registry : registry :=
  register_all fifty_handlers (registry_init extra_heap).

(** The fallback that cannot decode the offender, for one call
    of [xmlCharEncOutFunc]: the chunk stops with [XML_ENC_ERR_INPUT],
    [xmlGetUTF8Char] gives nothing above zero for what is then at the head
    of the source, and the call returns [XML_ENC_ERR_INTERNAL]. *)
Definition undecodable_offender (handler : xmlCharEncodingHandler)
    (out inb : xmlBuffer) : Prop :=
  let r :=
    xmlEncOutputChunk handler (snd (out_room out (use inb)))
      (Some (content inb)) in
  let inb' := xmlBufferShrink inb (c_inlen r) in
  c_ret r = XML_ENC_ERR_INPUT /\
  fst (xmlGetUTF8Char (content inb') (use inb')) <= 0.

Definition returns_code (code : Z) (fuel : nat)
    (handler : xmlCharEncodingHandler) (out inb : xmlBuffer) : Prop :=
  exists res,
    xmlCharEncOutFunc fuel handler out (Some inb) = Some res /\
    o_ret res = code.

(** The UTF-8 text "A€B", with U+20AC as [E2 82 AC]. *)
Definition euro_text : list Z := [0x41; 0xE2; 0x82; 0xAC; 0x42].

(** The UTF-16 units of a code point, as [UTF8ToUTF16LE] stores them. *)
Definition utf16_units (c : Z) : list Z :=
  if c <? 0x10000 then [c]
  else [Z.lor 0xD800 (Z.shiftr (c - 0x10000) 10);
        Z.lor 0xDC00 (Z.land (c - 0x10000) 0x03FF)].

(** The little-endian units of a byte sequence, two bytes each. *)
Fixpoint utf16le_units (b : list Z) : list Z :=
  match b with
  | b0 :: b1 :: rest => (b0 + 256 * b1) :: utf16le_units rest
  | _ => []
  end.

(** [f] holds on the [n] integers from [lo] on: a check by enumeration for
    the facts on bytes and six-bit groups. *)
Fixpoint forall_range (n : nat) (lo : Z) (f : Z -> bool) : bool :=
  match n with
  | O => true
  | S k => f lo && forall_range k (lo + 1) f
  end.

Definition is_byte (b : Z) : Prop := 0 <= b < 256.

Definition is_ascii (b : Z) : Prop := 0 <= b < 0x80.

Definition is_high_surrogate (u : Z) : bool := (0xD800 <=? u) && (u <=? 0xDBFF).

Definition is_low_surrogate (u : Z) : bool := (0xDC00 <=? u) && (u <=? 0xDFFF).

(** The rule on surrogates read without the room of the output, for the
    little-endian decoder: behind [p], a high surrogate followed by a unit
    that is no low surrogate makes the call return [XML_ENC_ERR_INPUT]. *)
Definition unpaired_high_fails (xmlLittleEndian : bool) (outlen : Z)
    (p : list Z) (h0 h1 d0 d1 : Z) : Prop :=
  is_high_surrogate (h0 + 256 * h1) = true ->
  is_low_surrogate (d0 + 256 * d1) = false ->
  c_ret (UTF16LEToUTF8 xmlLittleEndian outlen (p ++ [h0; h1; d0; d1]))
  = XML_ENC_ERR_INPUT.

(** Well-formed UTF-16LE: an even number of bytes, every high surrogate
    followed by a low one, and no low surrogate elsewhere. *)
Fixpoint valid_utf16le (b : list Z) : bool :=
  match b with
  | [] => true
  | b0 :: b1 :: rest =>
      let u := b0 + 256 * b1 in
      if is_high_surrogate u then
        match rest with
        | d0 :: d1 :: rest' =>
            is_low_surrogate (d0 + 256 * d1) && valid_utf16le rest'
        | _ => false
        end
      else negb (is_low_surrogate u) && valid_utf16le rest
  | _ => false
  end.

(** The UTF-8 bytes of a code point, with no output limit in the way. *)
Definition utf8_seq (c : Z) : list Z :=
  let cont bits := Z.lor (Z.land (Z.shiftr c bits) 0x3F) 0x80 in
  if c <? 0x80 then [c]
  else if c <? 0x800 then
    [Z.lor (Z.land (Z.shiftr c 6) 0x1F) 0xC0; cont 0]
  else if c <? 0x10000 then
    [Z.lor (Z.land (Z.shiftr c 12) 0x0F) 0xE0; cont 6; cont 0]
  else
    [Z.lor (Z.land (Z.shiftr c 18) 0x07) 0xF0; cont 12; cont 6; cont 0].

(** ** ISO Latin 1 to UTF-8 *)

(** The inner loop of [isolat1ToUTF8],
    [while ((in < instop) && ( *in < 0x80)) *out++ = *in++;].
    [pos] is [in - base] and [instop] the offset of the pointer of that
    name, which never lies behind [inend]: at the end of the input
    [in < instop] fails. *)
Fixpoint isolat1_copy (instop : Z) (in_ : list Z) (pos : Z) (out : list Z)
    : list Z * Z * list Z :=
  match in_ with
  | c :: in' =>
      if (pos <? instop) && (c <? 0x80)
      then isolat1_copy instop in' (pos + 1) (out ++ [c])
      else (in_, pos, out)
  | [] => (in_, pos, out)
  end.

(** The outer loop, [while ((in < inend) && (out < outend - 1))]: what is
    left of the input, [in - base] and the bytes stored when it is left.
    Every turn steps over one byte at least: [fuel] is the length of the
    input. *)
Fixpoint isolat1ToUTF8_loop (fuel : nat) (outlen : Z) (in_ : list Z)
    (pos instop : Z) (out : list Z) : list Z * Z * list Z :=
  match fuel, in_ with
  | S fuel', c :: in' =>
      if len out <? outlen - 1 then
        let '(in1, pos1, out1) :=
          if 0x80 <=? c then
            (in', pos + 1,
             out ++ [Z.lor (Z.land (Z.shiftr c 6) 0x1F) 0xC0;
                     Z.lor (Z.land c 0x3F) 0x80])
          else (in_, pos, out) in
        let instop1 :=
          if outlen - len out1 <? instop - pos1
          then pos1 + (outlen - len out1) else instop in
        let '(in2, pos2, out2) := isolat1_copy instop1 in1 pos1 out1 in
        isolat1ToUTF8_loop fuel' outlen in2 pos2 instop1 out2
      else (in_, pos, out)
  | _, _ => (in_, pos, out)
  end.

(** [isolat1ToUTF8(out, outlen, in, inlen)] on buffers that are not
    [NULL]: the loop, then the single copy under
    [if ((in < inend) && (out < outend) && ( *in < 0x80))]. *)
Definition isolat1ToUTF8 (outlen : Z) (inb : list Z) : conv_result :=
  let '(in_, pos, out) :=
    isolat1ToUTF8_loop (length inb) outlen inb 0 (len inb) [] in
  match in_ with
  | c :: _ =>
      if (len out <? outlen) && (c <? 0x80)
      then conv_done (out ++ [c]) (pos + 1)
      else conv_done out pos
  | [] => conv_done out pos
  end.

(** ** UTF-8 to UTF-8 *)

(** [UTF8ToUTF8]: [memcpy] of the smaller of the two lengths. *)
Definition UTF8ToUTF8 (outlen : Z) (inb : option (list Z)) : conv_result :=
  match inb with
  | None => mkConv 0 [] 0 0     (* inb == NULL means output is initialized *)
  | Some l =>
      let n := if len l <? outlen then len l else outlen in
      if n <? 0 then mkConv XML_ENC_ERR_INTERNAL [] outlen (len l)
      else mkConv n (take (Z.to_nat n) l) n n
  end.

(** ** UTF-8 to ISO Latin 1 *)

(** The [for ( ; trailing; trailing--)] loop of [UTF8Toisolat1]: unlike
    that of the other readers it returns [XML_ENC_ERR_INPUT] ([None]) on a
    byte that is no continuation byte. *)
Fixpoint isolat1_trailing (trailing : nat) (c : Z) (in_ : list Z)
    : option (Z * list Z) :=
  match trailing with
  | O => Some (c, in_)
  | S t =>
      match in_ with
      | [] => Some (c, in_)
      | d :: in' =>
          if Z.land d 0xC0 =? 0x80 then
            isolat1_trailing t (Z.lor (Z.shiftl c 6) (Z.land d 0x3F)) in'
          else None
      end
  end.

(** The [while (in < inend)] loop of [UTF8Toisolat1]. *)
Fixpoint UTF8Toisolat1_loop (fuel : nat) (inlen outlen : Z) (in_ : list Z)
    (out : list Z) (processed : Z) : conv_result :=
  match fuel, in_ with
  | S fuel', d :: in1 =>
      match utf8_lead d with
      | None => conv_input_error out processed
      | Some (c, trailing) =>
          if len in1 <? Z.of_nat trailing then conv_done out processed
          else
            match isolat1_trailing trailing c in1 with
            | None => conv_input_error out processed
            | Some (c, in2) =>
                if c <=? 0xFF then
                  if outlen <=? len out then conv_done out processed
                  else UTF8Toisolat1_loop fuel' inlen outlen in2 (out ++ [c])
                         (inlen - len in2)
                else conv_input_error out processed
            end
      end
  | _, _ => conv_done out processed
  end.

Definition UTF8Toisolat1 (outlen : Z) (inb : option (list Z)) : conv_result :=
  match inb with
  | None => mkConv 0 [] 0 0          (* initialization nothing to do *)
  | Some l => UTF8Toisolat1_loop (length l) (len l) outlen l [] 0
  end.

(** ** UTF-8 to UTF-16 and to UTF-16BE *)

(** [UTF8ToUTF16]: the byte order mark of UTF-16LE on the initialisation
    call, [UTF8ToUTF16LE] otherwise. *)
Definition UTF8ToUTF16 (xmlLittleEndian : bool) (outlen : Z)
    (inb : option (list Z)) : conv_result :=
  match inb with
  | None =>
      if 2 <=? outlen then mkConv 2 [0xFF; 0xFE] 2 0
      else mkConv 0 [] 0 0
  | Some _ => UTF8ToUTF16LE xmlLittleEndian outlen inb
  end.

(** Storing one unit in [UTF8ToUTF16BE]: two byte stores, the second with
    an explicit truncation, when the machine is little-endian, a native
    store otherwise.  Both lay down the high byte first. *)
Definition store16BE (xmlLittleEndian : bool) (v : Z) : list Z :=
  if xmlLittleEndian then [Z.shiftr v 8 mod 256; v mod 256]
  else [Z.land (Z.shiftr v 8) 0xFF; Z.land v 0xFF].

Definition unit_bytesBE (xmlLittleEndian : bool) (units : list Z) : list Z :=
  flat_map (store16BE xmlLittleEndian) units.

(** [UTF8ToUTF16BE].  Its loop is that of [UTF8ToUTF16LE] statement for
    statement but for the stores of the units, so [UTF8ToUTF16LE_loop]
    stands for it; the other difference is that the two exits with
    [XML_ENC_ERR_INPUT] store [out - outstart], a count of units, in
    [*outlen], where the normal exit stores [(out - outstart) * 2]. *)
Definition UTF8ToUTF16BE (xmlLittleEndian : bool) (outlen : Z)
    (inb : option (list Z)) : conv_result :=
  match inb with
  | None => mkConv 0 [] 0 0
  | Some l =>
      let '(r, units, processed) :=
        UTF8ToUTF16LE_loop (length l) (len l) outlen l [] 0 in
      mkConv r (unit_bytesBE xmlLittleEndian units)
        (if r =? XML_ENC_ERR_INPUT then len units else len units * 2)
        processed
  end.

(** ** The built-in handlers *)

(** [defaultHandlers[0]], [[1]], [[2]] and [[3]], and [xmlUTF8Handler]. *)
Definition xmlUTF16LEHandler (xmlLittleEndian : bool)
    : xmlCharEncodingHandler :=
  mkHandler "UTF-16LE" (Some (UTF16LEToUTF8 xmlLittleEndian))
    (Some (UTF8ToUTF16LE xmlLittleEndian)).

Definition xmlUTF16BEHandler (xmlLittleEndian : bool)
    : xmlCharEncodingHandler :=
  mkHandler "UTF-16BE" (Some (UTF16BEToUTF8 xmlLittleEndian))
    (Some (UTF8ToUTF16BE xmlLittleEndian)).

Definition xmlUTF16Handler (xmlLittleEndian : bool)
    : xmlCharEncodingHandler :=
  mkHandler "UTF-16" (Some (UTF16LEToUTF8 xmlLittleEndian))
    (Some (UTF8ToUTF16 xmlLittleEndian)).

Definition xmlLatin1Handler : xmlCharEncodingHandler :=
  mkHandler "ISO-8859-1" (Some isolat1ToUTF8) (Some UTF8Toisolat1).

Definition xmlUTF8Handler : xmlCharEncodingHandler :=
  mkHandler "UTF-8" (Some (fun outlen inb => UTF8ToUTF8 outlen (Some inb)))
    (Some UTF8ToUTF8).

(** ** The decode front-end *)

(** [xmlCharEncInFunc(handler, out, in)] on arguments that are not [NULL]:
    the value returned and the two buffers.  [toconv * 2] is an [int];
    added to [out->size] it is an [unsigned int]. *)
Definition xmlCharEncInFunc (handler : xmlCharEncodingHandler)
    (out inb : xmlBuffer) : Z * xmlBuffer * xmlBuffer :=
  let toconv := use inb in
  if toconv =? 0 then (0, out, inb)
  else
    let written := size out - use out - 1 in      (* count '\0' *)
    let toconv2 := wrap_int (toconv * 2) in
    let '(out, written) :=
      if written <=? toconv2 then
        let out := xmlBufferGrow out (wrap_uint (size out + toconv2)) in
        (out, size out - use out - 1)
      else (out, written) in
    let r := xmlEncInputChunk handler written (content inb) in
    let inb := xmlBufferShrink inb (c_inlen r) in
    let out := buffer_add_len out r in
    (if c_outlen r =? 0 then c_ret r else c_outlen r, out, inb).

(** [xmlCharEncFirstLine] only calls [xmlCharEncInFunc]. *)
Definition xmlCharEncFirstLine (handler : xmlCharEncodingHandler)
    (out inb : xmlBuffer) : Z * xmlBuffer * xmlBuffer :=
  xmlCharEncInFunc handler out inb.

(** ** Reference notions for UTF-16 in either byte order *)

(** The unit two bytes hold, high byte first ([big]) or low byte first. *)
Definition unit_val (big : bool) (b0 b1 : Z) : Z :=
  if big then 256 * b0 + b1 else b0 + 256 * b1.

Fixpoint utf16_units_of (big : bool) (b : list Z) : list Z :=
  match b with
  | b0 :: b1 :: rest => unit_val big b0 b1 :: utf16_units_of big rest
  | _ => []
  end.

(** An even number of bytes in which a low surrogate follows every high
    surrogate.  A low surrogate with no high surrogate in front of it is
    not excluded. *)
Fixpoint decodable_utf16 (big : bool) (b : list Z) : bool :=
  match b with
  | [] => true
  | b0 :: b1 :: rest =>
      if is_high_surrogate (unit_val big b0 b1) then
        match rest with
        | d0 :: d1 :: rest' =>
            is_low_surrogate (unit_val big d0 d1) && decodable_utf16 big rest'
        | _ => false
        end
      else decodable_utf16 big rest
  | _ => false
  end.

(** ** The contract on the counts *)

(** What a caller relies on after a call with the capacity [outlen] on the
    input [inb]: no more than [outlen] bytes have been stored, [*outlen] is
    their number, [*inlen] lies within the input, and the value returned is
    [*outlen] or [XML_ENC_ERR_INPUT]. *)
Definition within_bounds (outlen : Z) (inb : list Z) (r : conv_result)
    : Prop :=
  len (c_out r) <= Z.max 0 outlen /\
  c_outlen r = len (c_out r) /\
  0 <= c_inlen r <= len inb /\
  (c_ret r = c_outlen r \/ c_ret r = XML_ENC_ERR_INPUT).

(** [n] calls in a row through the decode engine leave nothing of the
    source, each returns [XML_ENC_ERR_SUCCESS] or [XML_ENC_ERR_SPACE], and
    their outputs put end to end are [text]. *)
Definition delivers (n : nat) (handler : xmlCharEncodingHandler) (cap : Z)
    (src text : list Z) : Prop :=
  snd (convert_calls n handler cap src) = [] /\
  concat (map c_out (fst (convert_calls n handler cap src))) = text /\
  Forall (fun r => c_ret r = XML_ENC_ERR_SUCCESS \/
                   c_ret r = XML_ENC_ERR_SPACE)
    (fst (convert_calls n handler cap src)).

(** ** Reference notions for the escape of the encode front-end *)

(** A Unicode scalar value: a code point up to U+10FFFF that is no
    surrogate. *)
Definition is_scalar_value (c : Z) : Prop :=
  0 <= c < 0xD800 \/ 0xE000 <= c < 0x110000.

(** What a code point becomes when written through the ASCII handler: the
    byte itself, or its decimal character reference. *)
Definition escape_ascii (c : Z) : list Z :=
  if c <? 0x80 then [c] else format_charref c.

(** ** The alias registry over time *)

(** [xmlCleanupEncodingAliases]: nothing without a table; otherwise the
    counters are zeroed and the table is freed. *)
Definition xmlCleanupEncodingAliases (st : alias_state) : alias_state :=
  match xmlCharEncodingAliases st with
  | None => st
  | Some _ => mkAliases None 0
  end.

(** A call of one of the three functions that change the registry, an
    addition with the outcome of its allocations. *)
Inductive alias_call : Type :=
  | CallAdd (m : alloc_oracle) (name alias : string)
  | CallDel (alias : string)
  | CallCleanup.

Definition alias_step (st : alias_state) (c : alias_call) : alias_state :=
  match c with
  | CallAdd m name alias => snd (xmlAddEncodingAlias m st name alias)
  | CallDel alias => snd (xmlDelEncodingAlias st alias)
  | CallCleanup => xmlCleanupEncodingAliases st
  end.

(** The registry after a sequence of calls. *)
Definition alias_run (calls : list alias_call) (st : alias_state)
    : alias_state :=
  fold_left alias_step calls st.

(** The entries in use fit the allocated table. *)
Definition alias_fits (st : alias_state) : Prop :=
  xmlCharEncodingAliasesNb st <= xmlCharEncodingAliasesMax st.

(** ** The handler registry over time *)

(** The loop of [xmlCleanupCharEncodingHandlers], from the slot
    [nbCharEncodingHandler - 1] down to the slot 0: a slot that is not
    [NULL] has its name and its handler freed, the statements that stand
    under the label [free_handler] as well. *)
Fixpoint free_handlers (n : nat) (t : list (option ptr))
    (hp : gmap ptr block) : gmap ptr block :=
  match n with
  | O => hp
  | S n' =>
      free_handlers n' t
        (match t !! n' with
         | Some (Some h) => free_handler hp h
         | _ => hp
         end)
  end.

(** [xmlCleanupCharEncodingHandlers]: the aliases are cleaned up first;
    without a table nothing else happens. *)
Definition xmlCleanupCharEncodingHandlers (aliases : alias_state)
    (st : registry) : alias_state * registry :=
  let aliases := xmlCleanupEncodingAliases aliases in
  match handlers st with
  | None => (aliases, st)
  | Some t =>
      (aliases,
       mkRegistry
         (free_handlers (Z.to_nat (nbCharEncodingHandler st)) t (heap st))
         None 0)
  end.

(** The loop that fills [char upper[500]] in [xmlNewCharEncodingHandler]:
    at most 499 characters. *)
Definition upper499 (name : string) : string := upper_loop 499 name.

(** [xmlNewCharEncodingHandler(name, input, output)]: the pointer returned
    and the registry.  [up] and [handler] are what [xmlMemStrdup] and
    [xmlMalloc] return, [None] when they fail; the heap records of the new
    handler what [block] holds, the pointer to its name. *)
Definition xmlNewCharEncodingHandler (aliases : alias_state)
    (up handler : option ptr) (malloc_ok : bool) (st : registry)
    (name : option string) : option ptr * registry :=
  (* Do the alias resolution *)
  let name :=
    match name with
    | Some n =>
        match xmlGetEncodingAlias aliases n with
        | Some alias => Some alias
        | None => Some n
        end
    | None => None
    end in
  match name, up with
  | None, _ => (None, st)
  | Some _, None => (None, st)
  | Some n, Some u =>
      let hp := <[u := BString (upper499 n)]> (heap st) in
      match handler with
      | None =>
          (None,
           mkRegistry (delete u hp) (handlers st) (nbCharEncodingHandler st))
      | Some h =>
          let hp := <[h := BHandler (Some u)]> hp in
          (Some h,
           xmlRegisterCharEncodingHandler malloc_ok
             (mkRegistry hp (handlers st) (nbCharEncodingHandler st))
             (Some h))
      end
  end.

(** The handlers passed by a run of registrations, in order. *)
Definition submitted (regs : list (bool * option ptr)) : list ptr :=
  flat_map (fun r => match snd r with Some h => [h] | None => [] end) regs.

(** How a registry stands to the heap [hp] it started from and to the
    handlers [hs] passed to it so far: blocks are only ever freed; each
    handler passed is either freed with its name or registered and
    untouched; a block that is neither one of these handlers nor the name
    of one is as it was; and only these handlers are registered. *)
Definition tracks (hp : gmap ptr block) (hs : list ptr) (st : registry)
    : Prop :=
  (forall p, heap st !! p = None \/ heap st !! p = hp !! p) /\
  (forall h, In h hs ->
     (heap st !! h = None /\
      forall n, hp !! h = Some (BHandler (Some n)) -> heap st !! n = None) \/
     (In (Some h) (registered st) /\ heap st !! h = hp !! h)) /\
  (forall p,
     (forall h, In h hs -> p <> h /\ hp !! h <> Some (BHandler (Some p))) ->
     heap st !! p = hp !! p) /\
  (forall x, In x (registered st) -> exists h, x = Some h /\ In h hs).

(** Each handler is passed once, and none is the name of a handler. *)
Definition owned_apart (hp : gmap ptr block) (hs : list ptr) : Prop :=
  NoDup hs /\
  forall h h', In h hs -> In h' hs -> hp !! h' <> Some (BHandler (Some h)).

(** ** Encoding names *)

(** Modelled from the spec: the enumeration [xmlCharEncoding] of
    [include/libxml/encoding.h] in full.  The values the detector returns
    are those of the type [xmlCharEncoding] above, taken over by
    [Detectable]; the others are the enumerators the two functions on
    names know besides. *)
Inductive xmlCharEncodingTag : Type :=
  | Detectable (e : xmlCharEncoding)
  | XML_CHAR_ENCODING_ERROR
  | XML_CHAR_ENCODING_UCS2
  | XML_CHAR_ENCODING_8859_1
  | XML_CHAR_ENCODING_8859_2
  | XML_CHAR_ENCODING_8859_3
  | XML_CHAR_ENCODING_8859_4
  | XML_CHAR_ENCODING_8859_5
  | XML_CHAR_ENCODING_8859_6
  | XML_CHAR_ENCODING_8859_7
  | XML_CHAR_ENCODING_8859_8
  | XML_CHAR_ENCODING_8859_9
  | XML_CHAR_ENCODING_2022_JP
  | XML_CHAR_ENCODING_SHIFT_JIS
  | XML_CHAR_ENCODING_EUC_JP
  | XML_CHAR_ENCODING_ASCII.

(** The chain of [strcmp] tests of [xmlParseCharEncoding] on [upper]. *)
Definition parse_upper (upper : string) : xmlCharEncodingTag :=
  if String.eqb upper "" then Detectable XML_CHAR_ENCODING_NONE
  else if String.eqb upper "UTF-8" then Detectable XML_CHAR_ENCODING_UTF8
  else if String.eqb upper "UTF8" then Detectable XML_CHAR_ENCODING_UTF8
  else if String.eqb upper "UTF-16" then Detectable XML_CHAR_ENCODING_UTF16LE
  else if String.eqb upper "UTF16" then Detectable XML_CHAR_ENCODING_UTF16LE
  else if String.eqb upper "ISO-10646-UCS-2" then XML_CHAR_ENCODING_UCS2
  else if String.eqb upper "UCS-2" then XML_CHAR_ENCODING_UCS2
  else if String.eqb upper "UCS2" then XML_CHAR_ENCODING_UCS2
  else if String.eqb upper "ISO-10646-UCS-4"
       then Detectable XML_CHAR_ENCODING_UCS4LE
  else if String.eqb upper "UCS-4" then Detectable XML_CHAR_ENCODING_UCS4LE
  else if String.eqb upper "UCS4" then Detectable XML_CHAR_ENCODING_UCS4LE
  else if String.eqb upper "ISO-8859-1" then XML_CHAR_ENCODING_8859_1
  else if String.eqb upper "ISO-LATIN-1" then XML_CHAR_ENCODING_8859_1
  else if String.eqb upper "ISO LATIN 1" then XML_CHAR_ENCODING_8859_1
  else if String.eqb upper "ISO-8859-2" then XML_CHAR_ENCODING_8859_2
  else if String.eqb upper "ISO-LATIN-2" then XML_CHAR_ENCODING_8859_2
  else if String.eqb upper "ISO LATIN 2" then XML_CHAR_ENCODING_8859_2
  else if String.eqb upper "ISO-8859-3" then XML_CHAR_ENCODING_8859_3
  else if String.eqb upper "ISO-8859-4" then XML_CHAR_ENCODING_8859_4
  else if String.eqb upper "ISO-8859-5" then XML_CHAR_ENCODING_8859_5
  else if String.eqb upper "ISO-8859-6" then XML_CHAR_ENCODING_8859_6
  else if String.eqb upper "ISO-8859-7" then XML_CHAR_ENCODING_8859_7
  else if String.eqb upper "ISO-8859-8" then XML_CHAR_ENCODING_8859_8
  else if String.eqb upper "ISO-8859-9" then XML_CHAR_ENCODING_8859_9
  else if String.eqb upper "ISO-2022-JP" then XML_CHAR_ENCODING_2022_JP
  else if String.eqb upper "SHIFT_JIS" then XML_CHAR_ENCODING_SHIFT_JIS
  else if String.eqb upper "EUC-JP" then XML_CHAR_ENCODING_EUC_JP
  else XML_CHAR_ENCODING_ERROR.

(** [xmlParseCharEncoding(name)], with the alias registry it consults. *)
Definition xmlParseCharEncoding (aliases : alias_state)
    (name : option string) : xmlCharEncodingTag :=
  match name with
  | None => Detectable XML_CHAR_ENCODING_NONE
  | Some n =>
      (* Do the alias resolution *)
      let n :=
        match xmlGetEncodingAlias aliases n with
        | Some alias => alias
        | None => n
        end in
      parse_upper (upper499 n)
  end.

(** [xmlGetCharEncodingName(enc)]; [None] is [NULL]. *)
Definition xmlGetCharEncodingName (enc : xmlCharEncodingTag)
    : option string :=
  match enc with
  | XML_CHAR_ENCODING_ERROR => None
  | Detectable XML_CHAR_ENCODING_NONE => None
  | Detectable XML_CHAR_ENCODING_UTF8 => Some "UTF-8"
  | Detectable XML_CHAR_ENCODING_UTF16LE => Some "UTF-16"
  | Detectable XML_CHAR_ENCODING_UTF16BE => Some "UTF-16"
  | Detectable XML_CHAR_ENCODING_EBCDIC => Some "EBCDIC"
  | Detectable XML_CHAR_ENCODING_UCS4LE => Some "ISO-10646-UCS-4"
  | Detectable XML_CHAR_ENCODING_UCS4BE => Some "ISO-10646-UCS-4"
  | Detectable XML_CHAR_ENCODING_UCS4_2143 => Some "ISO-10646-UCS-4"
  | Detectable XML_CHAR_ENCODING_UCS4_3412 => Some "ISO-10646-UCS-4"
  | XML_CHAR_ENCODING_UCS2 => Some "ISO-10646-UCS-2"
  | XML_CHAR_ENCODING_8859_1 => Some "ISO-8859-1"
  | XML_CHAR_ENCODING_8859_2 => Some "ISO-8859-2"
  | XML_CHAR_ENCODING_8859_3 => Some "ISO-8859-3"
  | XML_CHAR_ENCODING_8859_4 => Some "ISO-8859-4"
  | XML_CHAR_ENCODING_8859_5 => Some "ISO-8859-5"
  | XML_CHAR_ENCODING_8859_6 => Some "ISO-8859-6"
  | XML_CHAR_ENCODING_8859_7 => Some "ISO-8859-7"
  | XML_CHAR_ENCODING_8859_8 => Some "ISO-8859-8"
  | XML_CHAR_ENCODING_8859_9 => Some "ISO-8859-9"
  | XML_CHAR_ENCODING_2022_JP => Some "ISO-2022-JP"
  | XML_CHAR_ENCODING_SHIFT_JIS => Some "Shift-JIS"
  | XML_CHAR_ENCODING_EUC_JP => Some "EUC-JP"
  | XML_CHAR_ENCODING_ASCII => None
  end%string.

(** ** UTF-8 to and from ISO-8859-2 .. ISO-8859-16 *)

(** The exit of [UTF8ToISO8859x] on a sequence cut by the end of the
    input. *)
Definition conv_partial (out : list Z) (processed : Z) : conv_result :=
  mkConv XML_ENC_ERR_PARTIAL out (len out) processed.

(** [table[i]]; the tables are as long as their indices need, the default
    is never looked at. *)
Definition table_at (table : list Z) (i : Z) : Z := nth (Z.to_nat i) table 0.

(** The [while (in < inend)] loop of [UTF8ToISO8859x], through the
    two-level table [xlattable].  Nothing in it looks at the capacity of
    the output. *)
Fixpoint UTF8ToISO8859x_loop (xlattable : list Z) (inlen : Z)
    (in_ : list Z) (out : list Z) (processed : Z) {struct in_}
    : conv_result :=
  match in_ with
  | [] => conv_done out processed
  | d :: in1 =>
      if d <? 0x80 then
        UTF8ToISO8859x_loop xlattable inlen in1 (out ++ [d])
          (inlen - len in1)
      else if d <? 0xC0 then
        (* trailing byte in leading position *)
        conv_input_error out processed
      else if d <? 0xE0 then
        match in1 with
        | [] => conv_partial out processed
        | c :: in2 =>
            if negb (Z.land c 0xC0 =? 0x80) then
              conv_input_error out processed
            else
              let c := Z.land c 0x3F in
              let d := Z.land d 0x1F in
              let d :=
                table_at xlattable (48 + c + table_at xlattable d * 64) in
              if d =? 0 then conv_input_error out processed
              else UTF8ToISO8859x_loop xlattable inlen in2 (out ++ [d])
                     (inlen - len in2)
        end
      else if d <? 0xF0 then
        match in1 with
        | c1 :: c2 :: in3 =>
            if negb (Z.land c1 0xC0 =? 0x80) then
              conv_input_error out processed
            else if negb (Z.land c2 0xC0 =? 0x80) then
              conv_input_error out processed
            else
              let c1 := Z.land c1 0x3F in
              let c2 := Z.land c2 0x3F in
              let d := Z.land d 0x0F in
              let d :=
                table_at xlattable
                  (48 + c2 +
                   table_at xlattable
                     (48 + c1 + table_at xlattable (32 + d) * 64) * 64) in
              if d =? 0 then conv_input_error out processed
              else UTF8ToISO8859x_loop xlattable inlen in3 (out ++ [d])
                     (inlen - len in3)
        | _ => conv_partial out processed
        end
      else
        (* cannot transcode >= U+010000 *)
        conv_input_error out processed
  end.

Definition UTF8ToISO8859x (xlattable : list Z) (outlen : Z)
    (inb : option (list Z)) : conv_result :=
  match inb with
  | None => mkConv 0 [] 0 0          (* initialization nothing to do *)
  | Some l => UTF8ToISO8859x_loop xlattable (len l) l [] 0
  end.

(** What the outer loop of [ISO8859xToUTF8] is left with: an undefined
    code point, where the function returns at once, or the end of the
    loop. *)
Inductive iso_loop_exit : Type :=
  | IsoUndefined (pos : Z) (out : list Z)
  | IsoLeft (in_ : list Z) (pos : Z) (out : list Z).

(** The loop [while ((in < inend) && (out < outend - 2))] of
    [ISO8859xToUTF8].  Its inner loop is that of [isolat1ToUTF8] with the
    two tests the other way round.  Every turn steps over one byte at
    least: [fuel] is the length of the input. *)
Fixpoint ISO8859xToUTF8_loop (fuel : nat) (unicodetable : list Z)
    (outlen : Z) (in_ : list Z) (pos instop : Z) (out : list Z)
    : iso_loop_exit :=
  match fuel, in_ with
  | S fuel', b :: in' =>
      if len out <? outlen - 2 then
        let step :=
          if 0x80 <=? b then
            let c := table_at unicodetable (b - 0x80) in
            if c =? 0 then None           (* undefined code point *)
            else if c <? 0x800 then
              Some (in', pos + 1,
                    out ++ [Z.lor (Z.land (Z.shiftr c 6) 0x1F) 0xC0;
                            Z.lor (Z.land c 0x3F) 0x80])
            else
              Some (in', pos + 1,
                    out ++ [Z.lor (Z.land (Z.shiftr c 12) 0x0F) 0xE0;
                            Z.lor (Z.land (Z.shiftr c 6) 0x3F) 0x80;
                            Z.lor (Z.land c 0x3F) 0x80])
          else Some (in_, pos, out) in
        match step with
        | None => IsoUndefined pos out
        | Some (in1, pos1, out1) =>
            let instop1 :=
              if outlen - len out1 <? instop - pos1
              then pos1 + (outlen - len out1) else instop in
            let '(in2, pos2, out2) :=
              isolat1_copy instop1 in1 pos1 out1 in
            ISO8859xToUTF8_loop fuel' unicodetable outlen in2 pos2 instop1
              out2
        end
      else IsoLeft in_ pos out
  | _, _ => IsoLeft in_ pos out
  end.

(** One of the two statements
    [if ((in < inend) && (out < outend) && ( *in < 0x80)) *out++ = *in++;]
    that follow the loop. *)
Definition iso_copy_one (outlen : Z) (s : list Z * Z * list Z)
    : list Z * Z * list Z :=
  let '(in_, pos, out) := s in
  match in_ with
  | c :: in' =>
      if (len out <? outlen) && (c <? 0x80) then (in', pos + 1, out ++ [c])
      else s
  | [] => s
  end.

Definition ISO8859xToUTF8 (unicodetable : list Z) (outlen : Z)
    (inb : list Z) : conv_result :=
  match ISO8859xToUTF8_loop (length inb) unicodetable outlen inb 0 (len inb)
          [] with
  | IsoUndefined pos out => conv_input_error out pos
  | IsoLeft in_ pos out =>
      let '(_, pos, out) :=
        iso_copy_one outlen (iso_copy_one outlen (in_, pos, out)) in
      conv_done out pos
  end.

(** *** The tables *)

(** The value of a hexadecimal digit. *)
Definition hex_digit (a : ascii) : Z :=
  let n := Z.of_nat (nat_of_ascii a) in
  if (48 <=? n) && (n <=? 57) then n - 48
  else if (97 <=? n) && (n <=? 102) then n - 87
  else if (65 <=? n) && (n <=? 70) then n - 55
  else 0.

(** The bytes a C string literal made of [\xHH] escapes stands for. *)
Fixpoint c_escapes (s : string) : list Z :=
  match s with
  | String "\" (String "x" (String h (String l rest))) =>
      (16 * hex_digit h + hex_digit l) :: c_escapes rest
  | _ => []
  end.

(** Adjacent string literals are one array: the transcoding tables are
    written in the source as rows of sixteen escapes; the tables of code
    points as rows of eight numbers. *)
Definition c_string_literal (rows : list string) : list Z :=
  flat_map c_escapes rows.

Definition xmlunicodetable_ISO8859_2 : list Z :=
  [0x0080; 0x0081; 0x0082; 0x0083; 0x0084; 0x0085; 0x0086; 0x0087] ++
  [0x0088; 0x0089; 0x008a; 0x008b; 0x008c; 0x008d; 0x008e; 0x008f] ++
  [0x0090; 0x0091; 0x0092; 0x0093; 0x0094; 0x0095; 0x0096; 0x0097] ++
  [0x0098; 0x0099; 0x009a; 0x009b; 0x009c; 0x009d; 0x009e; 0x009f] ++
  [0x00a0; 0x0104; 0x02d8; 0x0141; 0x00a4; 0x013d; 0x015a; 0x00a7] ++
  [0x00a8; 0x0160; 0x015e; 0x0164; 0x0179; 0x00ad; 0x017d; 0x017b] ++
  [0x00b0; 0x0105; 0x02db; 0x0142; 0x00b4; 0x013e; 0x015b; 0x02c7] ++
  [0x00b8; 0x0161; 0x015f; 0x0165; 0x017a; 0x02dd; 0x017e; 0x017c] ++
  [0x0154; 0x00c1; 0x00c2; 0x0102; 0x00c4; 0x0139; 0x0106; 0x00c7] ++
  [0x010c; 0x00c9; 0x0118; 0x00cb; 0x011a; 0x00cd; 0x00ce; 0x010e] ++
  [0x0110; 0x0143; 0x0147; 0x00d3; 0x00d4; 0x0150; 0x00d6; 0x00d7] ++
  [0x0158; 0x016e; 0x00da; 0x0170; 0x00dc; 0x00dd; 0x0162; 0x00df] ++
  [0x0155; 0x00e1; 0x00e2; 0x0103; 0x00e4; 0x013a; 0x0107; 0x00e7] ++
  [0x010d; 0x00e9; 0x0119; 0x00eb; 0x011b; 0x00ed; 0x00ee; 0x010f] ++
  [0x0111; 0x0144; 0x0148; 0x00f3; 0x00f4; 0x0151; 0x00f6; 0x00f7] ++
  [0x0159; 0x016f; 0x00fa; 0x0171; 0x00fc; 0x00fd; 0x0163; 0x02d9].

(** [48 + 6 * 64] bytes. *)
Definition xmltranscodetable_ISO8859_2 : list Z :=
  c_string_literal [
    "\x00\x00\x01\x05\x02\x04\x00\x00\x00\x00\x00\x03\x00\x00\x00\x00";
    "\x00\x00\x00\x00\x00\x00\x00\x00\x00\x00\x00\x00\x00\x00\x00\x00";
    "\x00\x00\x00\x00\x00\x00\x00\x00\x00\x00\x00\x00\x00\x00\x00\x00";
    "\x00\x00\x00\x00\x00\x00\x00\x00\x00\x00\x00\x00\x00\x00\x00\x00";
    "\x00\x00\x00\x00\x00\x00\x00\x00\x00\x00\x00\x00\x00\x00\x00\x00";
    "\x00\x00\x00\x00\x00\x00\x00\x00\x00\x00\x00\x00\x00\x00\x00\x00";
    "\x00\x00\x00\x00\x00\x00\x00\x00\x00\x00\x00\x00\x00\x00\x00\x00";
    "\x80\x81\x82\x83\x84\x85\x86\x87\x88\x89\x8a\x8b\x8c\x8d\x8e\x8f";
    "\x90\x91\x92\x93\x94\x95\x96\x97\x98\x99\x9a\x9b\x9c\x9d\x9e\x9f";
    "\xa0\x00\x00\x00\xa4\x00\x00\xa7\xa8\x00\x00\x00\x00\xad\x00\x00";
    "\xb0\x00\x00\x00\xb4\x00\x00\x00\xb8\x00\x00\x00\x00\x00\x00\x00";
    "\x00\x00\xc3\xe3\xa1\xb1\xc6\xe6\x00\x00\x00\x00\xc8\xe8\xcf\xef";
    "\xd0\xf0\x00\x00\x00\x00\x00\x00\xca\xea\xcc\xec\x00\x00\x00\x00";
    "\x00\x00\x00\x00\x00\x00\x00\x00\x00\x00\x00\x00\x00\x00\x00\x00";
    "\x00\x00\x00\x00\x00\x00\x00\x00\x00\xc5\xe5\x00\x00\xa5\xb5\x00";
    "\x00\x00\x00\x00\x00\x00\x00\xb7\x00\x00\x00\x00\x00\x00\x00\x00";
    "\x00\x00\x00\x00\x00\x00\x00\x00\xa2\xff\x00\xb2\x00\xbd\x00\x00";
    "\x00\x00\x00\x00\x00\x00\x00\x00\x00\x00\x00\x00\x00\x00\x00\x00";
    "\x00\x00\x00\x00\x00\x00\x00\x00\x00\x00\x00\x00\x00\x00\x00\x00";
    "\x00\xa3\xb3\xd1\xf1\x00\x00\xd2\xf2\x00\x00\x00\x00\x00\x00\x00";
    "\xd5\xf5\x00\x00\xc0\xe0\x00\x00\xd8\xf8\xa6\xb6\x00\x00\xaa\xba";
    "\xa9\xb9\xde\xfe\xab\xbb\x00\x00\x00\x00\x00\x00\x00\x00\xd9\xf9";
    "\xdb\xfb\x00\x00\x00\x00\x00\x00\x00\xac\xbc\xaf\xbf\xae\xbe\x00";
    "\x00\xc1\xc2\x00\xc4\x00\x00\xc7\x00\xc9\x00\xcb\x00\xcd\xce\x00";
    "\x00\x00\x00\xd3\xd4\x00\xd6\xd7\x00\x00\xda\x00\xdc\xdd\x00\xdf";
    "\x00\xe1\xe2\x00\xe4\x00\x00\xe7\x00\xe9\x00\xeb\x00\xed\xee\x00";
    "\x00\x00\x00\xf3\xf4\x00\xf6\xf7\x00\x00\xfa\x00\xfc\xfd\x00\x00"
  ]%string.

Definition xmlunicodetable_ISO8859_3 : list Z :=
  [0x0080; 0x0081; 0x0082; 0x0083; 0x0084; 0x0085; 0x0086; 0x0087] ++
  [0x0088; 0x0089; 0x008a; 0x008b; 0x008c; 0x008d; 0x008e; 0x008f] ++
  [0x0090; 0x0091; 0x0092; 0x0093; 0x0094; 0x0095; 0x0096; 0x0097] ++
  [0x0098; 0x0099; 0x009a; 0x009b; 0x009c; 0x009d; 0x009e; 0x009f] ++
  [0x00a0; 0x0126; 0x02d8; 0x00a3; 0x00a4; 0x0000; 0x0124; 0x00a7] ++
  [0x00a8; 0x0130; 0x015e; 0x011e; 0x0134; 0x00ad; 0x0000; 0x017b] ++
  [0x00b0; 0x0127; 0x00b2; 0x00b3; 0x00b4; 0x00b5; 0x0125; 0x00b7] ++
  [0x00b8; 0x0131; 0x015f; 0x011f; 0x0135; 0x00bd; 0x0000; 0x017c] ++
  [0x00c0; 0x00c1; 0x00c2; 0x0000; 0x00c4; 0x010a; 0x0108; 0x00c7] ++
  [0x00c8; 0x00c9; 0x00ca; 0x00cb; 0x00cc; 0x00cd; 0x00ce; 0x00cf] ++
  [0x0000; 0x00d1; 0x00d2; 0x00d3; 0x00d4; 0x0120; 0x00d6; 0x00d7] ++
  [0x011c; 0x00d9; 0x00da; 0x00db; 0x00dc; 0x016c; 0x015c; 0x00df] ++
  [0x00e0; 0x00e1; 0x00e2; 0x0000; 0x00e4; 0x010b; 0x0109; 0x00e7] ++
  [0x00e8; 0x00e9; 0x00ea; 0x00eb; 0x00ec; 0x00ed; 0x00ee; 0x00ef] ++
  [0x0000; 0x00f1; 0x00f2; 0x00f3; 0x00f4; 0x0121; 0x00f6; 0x00f7] ++
  [0x011d; 0x00f9; 0x00fa; 0x00fb; 0x00fc; 0x016d; 0x015d; 0x02d9].

(** [48 + 7 * 64] bytes. *)
Definition xmltranscodetable_ISO8859_3 : list Z :=
  c_string_literal [
    "\x04\x00\x01\x06\x02\x05\x00\x00\x00\x00\x00\x03\x00\x00\x00\x00";
    "\x00\x00\x00\x00\x00\x00\x00\x00\x00\x00\x00\x00\x00\x00\x00\x00";
    "\x00\x00\x00\x00\x00\x00\x00\x00\x00\x00\x00\x00\x00\x00\x00\x00";
    "\x00\x00\x00\x00\x00\x00\x00\x00\x00\x00\x00\x00\x00\x00\x00\x00";
    "\x00\x00\x00\x00\x00\x00\x00\x00\x00\x00\x00\x00\x00\x00\x00\x00";
    "\x00\x00\x00\x00\x00\x00\x00\x00\x00\x00\x00\x00\x00\x00\x00\x00";
    "\x00\x00\x00\x00\x00\x00\x00\x00\x00\x00\x00\x00\x00\x00\x00\x00";
    "\x80\x81\x82\x83\x84\x85\x86\x87\x88\x89\x8a\x8b\x8c\x8d\x8e\x8f";
    "\x90\x91\x92\x93\x94\x95\x96\x97\x98\x99\x9a\x9b\x9c\x9d\x9e\x9f";
    "\xa0\x00\x00\xa3\xa4\x00\x00\xa7\xa8\x00\x00\x00\x00\xad\x00\x00";
    "\xb0\x00\xb2\xb3\xb4\xb5\x00\xb7\xb8\x00\x00\x00\x00\xbd\x00\x00";
    "\x00\x00\x00\x00\x00\x00\x00\x00\xc6\xe6\xc5\xe5\x00\x00\x00\x00";
    "\x00\x00\x00\x00\x00\x00\x00\x00\x00\x00\x00\x00\xd8\xf8\xab\xbb";
    "\xd5\xf5\x00\x00\xa6\xb6\xa1\xb1\x00\x00\x00\x00\x00\x00\x00\x00";
    "\xa9\xb9\x00\x00\xac\xbc\x00\x00\x00\x00\x00\x00\x00\x00\x00\x00";
    "\x00\x00\x00\x00\x00\x00\x00\x00\x00\x00\x00\x00\x00\x00\x00\x00";
    "\x00\x00\x00\x00\x00\x00\x00\x00\xa2\xff\x00\x00\x00\x00\x00\x00";
    "\x00\x00\x00\x00\x00\x00\x00\x00\x00\x00\x00\x00\x00\x00\x00\x00";
    "\x00\x00\x00\x00\x00\x00\x00\x00\x00\x00\x00\x00\x00\x00\x00\x00";
    "\xf0\x00\x00\x00\x00\x00\x00\x00\x00\x00\x00\x00\x00\x00\x00\x00";
    "\x00\x00\x00\x00\x00\x00\x00\x00\x00\x00\x00\x00\x00\x00\x00\x00";
    "\x00\x00\x00\x00\x00\x00\x00\x00\x00\x00\x00\x00\x00\x00\x00\x00";
    "\x00\x00\x00\x00\x00\x00\x00\x00\x00\x00\x00\x00\x00\x00\x00\x00";
    "\x00\x00\x00\x00\x00\x00\x00\x00\x00\x00\x00\x00\x00\x00\x00\x00";
    "\x00\x00\x00\x00\x00\x00\x00\x00\x00\x00\x00\x00\xde\xfe\xaa\xba";
    "\x00\x00\x00\x00\x00\x00\x00\x00\x00\x00\x00\x00\xdd\xfd\x00\x00";
    "\x00\x00\x00\x00\x00\x00\x00\x00\x00\x00\x00\xaf\xbf\x00\x00\x00";
    "\xc0\xc1\xc2\x00\xc4\x00\x00\xc7\xc8\xc9\xca\xcb\xcc\xcd\xce\xcf";
    "\x00\xd1\xd2\xd3\xd4\x00\xd6\xd7\x00\xd9\xda\xdb\xdc\x00\x00\xdf";
    "\xe0\xe1\xe2\x00\xe4\x00\x00\xe7\xe8\xe9\xea\xeb\xec\xed\xee\xef";
    "\x00\xf1\xf2\xf3\xf4\x00\xf6\xf7\x00\xf9\xfa\xfb\xfc\x00\x00\x00"
  ]%string.

Definition xmlunicodetable_ISO8859_4 : list Z :=
  [0x0080; 0x0081; 0x0082; 0x0083; 0x0084; 0x0085; 0x0086; 0x0087] ++
  [0x0088; 0x0089; 0x008a; 0x008b; 0x008c; 0x008d; 0x008e; 0x008f] ++
  [0x0090; 0x0091; 0x0092; 0x0093; 0x0094; 0x0095; 0x0096; 0x0097] ++
  [0x0098; 0x0099; 0x009a; 0x009b; 0x009c; 0x009d; 0x009e; 0x009f] ++
  [0x00a0; 0x0104; 0x0138; 0x0156; 0x00a4; 0x0128; 0x013b; 0x00a7] ++
  [0x00a8; 0x0160; 0x0112; 0x0122; 0x0166; 0x00ad; 0x017d; 0x00af] ++
  [0x00b0; 0x0105; 0x02db; 0x0157; 0x00b4; 0x0129; 0x013c; 0x02c7] ++
  [0x00b8; 0x0161; 0x0113; 0x0123; 0x0167; 0x014a; 0x017e; 0x014b] ++
  [0x0100; 0x00c1; 0x00c2; 0x00c3; 0x00c4; 0x00c5; 0x00c6; 0x012e] ++
  [0x010c; 0x00c9; 0x0118; 0x00cb; 0x0116; 0x00cd; 0x00ce; 0x012a] ++
  [0x0110; 0x0145; 0x014c; 0x0136; 0x00d4; 0x00d5; 0x00d6; 0x00d7] ++
  [0x00d8; 0x0172; 0x00da; 0x00db; 0x00dc; 0x0168; 0x016a; 0x00df] ++
  [0x0101; 0x00e1; 0x00e2; 0x00e3; 0x00e4; 0x00e5; 0x00e6; 0x012f] ++
  [0x010d; 0x00e9; 0x0119; 0x00eb; 0x0117; 0x00ed; 0x00ee; 0x012b] ++
  [0x0111; 0x0146; 0x014d; 0x0137; 0x00f4; 0x00f5; 0x00f6; 0x00f7] ++
  [0x00f8; 0x0173; 0x00fa; 0x00fb; 0x00fc; 0x0169; 0x016b; 0x02d9].

(** [48 + 6 * 64] bytes. *)
Definition xmltranscodetable_ISO8859_4 : list Z :=
  c_string_literal [
    "\x00\x00\x01\x05\x02\x03\x00\x00\x00\x00\x00\x04\x00\x00\x00\x00";
    "\x00\x00\x00\x00\x00\x00\x00\x00\x00\x00\x00\x00\x00\x00\x00\x00";
    "\x00\x00\x00\x00\x00\x00\x00\x00\x00\x00\x00\x00\x00\x00\x00\x00";
    "\x00\x00\x00\x00\x00\x00\x00\x00\x00\x00\x00\x00\x00\x00\x00\x00";
    "\x00\x00\x00\x00\x00\x00\x00\x00\x00\x00\x00\x00\x00\x00\x00\x00";
    "\x00\x00\x00\x00\x00\x00\x00\x00\x00\x00\x00\x00\x00\x00\x00\x00";
    "\x00\x00\x00\x00\x00\x00\x00\x00\x00\x00\x00\x00\x00\x00\x00\x00";
    "\x80\x81\x82\x83\x84\x85\x86\x87\x88\x89\x8a\x8b\x8c\x8d\x8e\x8f";
    "\x90\x91\x92\x93\x94\x95\x96\x97\x98\x99\x9a\x9b\x9c\x9d\x9e\x9f";
    "\xa0\x00\x00\x00\xa4\x00\x00\xa7\xa8\x00\x00\x00\x00\xad\x00\xaf";
    "\xb0\x00\x00\x00\xb4\x00\x00\x00\xb8\x00\x00\x00\x00\x00\x00\x00";
    "\xc0\xe0\x00\x00\xa1\xb1\x00\x00\x00\x00\x00\x00\xc8\xe8\x00\x00";
    "\xd0\xf0\xaa\xba\x00\x00\xcc\xec\xca\xea\x00\x00\x00\x00\x00\x00";
    "\x00\x00\xab\xbb\x00\x00\x00\x00\xa5\xb5\xcf\xef\x00\x00\xc7\xe7";
    "\x00\x00\x00\x00\x00\x00\xd3\xf3\xa2\x00\x00\xa6\xb6\x00\x00\x00";
    "\x00\x00\x00\x00\x00\xd1\xf1\x00\x00\x00\xbd\xbf\xd2\xf2\x00\x00";
    "\x00\x00\x00\x00\x00\x00\xa3\xb3\x00\x00\x00\x00\x00\x00\x00\x00";
    "\xa9\xb9\x00\x00\x00\x00\xac\xbc\xdd\xfd\xde\xfe\x00\x00\x00\x00";
    "\x00\x00\xd9\xf9\x00\x00\x00\x00\x00\x00\x00\x00\x00\xae\xbe\x00";
    "\x00\x00\x00\x00\x00\x00\x00\xb7\x00\x00\x00\x00\x00\x00\x00\x00";
    "\x00\x00\x00\x00\x00\x00\x00\x00\x00\xff\x00\xb2\x00\x00\x00\x00";
    "\x00\x00\x00\x00\x00\x00\x00\x00\x00\x00\x00\x00\x00\x00\x00\x00";
    "\x00\x00\x00\x00\x00\x00\x00\x00\x00\x00\x00\x00\x00\x00\x00\x00";
    "\x00\xc1\xc2\xc3\xc4\xc5\xc6\x00\x00\xc9\x00\xcb\x00\xcd\xce\x00";
    "\x00\x00\x00\x00\xd4\xd5\xd6\xd7\xd8\x00\xda\xdb\xdc\x00\x00\xdf";
    "\x00\xe1\xe2\xe3\xe4\xe5\xe6\x00\x00\xe9\x00\xeb\x00\xed\xee\x00";
    "\x00\x00\x00\x00\xf4\xf5\xf6\xf7\xf8\x00\xfa\xfb\xfc\x00\x00\x00"
  ]%string.

Definition xmlunicodetable_ISO8859_5 : list Z :=
  [0x0080; 0x0081; 0x0082; 0x0083; 0x0084; 0x0085; 0x0086; 0x0087] ++
  [0x0088; 0x0089; 0x008a; 0x008b; 0x008c; 0x008d; 0x008e; 0x008f] ++
  [0x0090; 0x0091; 0x0092; 0x0093; 0x0094; 0x0095; 0x0096; 0x0097] ++
  [0x0098; 0x0099; 0x009a; 0x009b; 0x009c; 0x009d; 0x009e; 0x009f] ++
  [0x00a0; 0x0401; 0x0402; 0x0403; 0x0404; 0x0405; 0x0406; 0x0407] ++
  [0x0408; 0x0409; 0x040a; 0x040b; 0x040c; 0x00ad; 0x040e; 0x040f] ++
  [0x0410; 0x0411; 0x0412; 0x0413; 0x0414; 0x0415; 0x0416; 0x0417] ++
  [0x0418; 0x0419; 0x041a; 0x041b; 0x041c; 0x041d; 0x041e; 0x041f] ++
  [0x0420; 0x0421; 0x0422; 0x0423; 0x0424; 0x0425; 0x0426; 0x0427] ++
  [0x0428; 0x0429; 0x042a; 0x042b; 0x042c; 0x042d; 0x042e; 0x042f] ++
  [0x0430; 0x0431; 0x0432; 0x0433; 0x0434; 0x0435; 0x0436; 0x0437] ++
  [0x0438; 0x0439; 0x043a; 0x043b; 0x043c; 0x043d; 0x043e; 0x043f] ++
  [0x0440; 0x0441; 0x0442; 0x0443; 0x0444; 0x0445; 0x0446; 0x0447] ++
  [0x0448; 0x0449; 0x044a; 0x044b; 0x044c; 0x044d; 0x044e; 0x044f] ++
  [0x2116; 0x0451; 0x0452; 0x0453; 0x0454; 0x0455; 0x0456; 0x0457] ++
  [0x0458; 0x0459; 0x045a; 0x045b; 0x045c; 0x00a7; 0x045e; 0x045f].

(** [48 + 6 * 64] bytes. *)
Definition xmltranscodetable_ISO8859_5 : list Z :=
  c_string_literal [
    "\x00\x00\x01\x00\x00\x00\x00\x00\x00\x00\x00\x00\x00\x00\x00\x00";
    "\x02\x03\x00\x00\x00\x00\x00\x00\x00\x00\x00\x00\x00\x00\x00\x00";
    "\x00\x00\x04\x00\x00\x00\x00\x00\x00\x00\x00\x00\x00\x00\x00\x00";
    "\x00\x00\x00\x00\x00\x00\x00\x00\x00\x00\x00\x00\x00\x00\x00\x00";
    "\x00\x00\x00\x00\x00\x00\x00\x00\x00\x00\x00\x00\x00\x00\x00\x00";
    "\x00\x00\x00\x00\x00\x00\x00\x00\x00\x00\x00\x00\x00\x00\x00\x00";
    "\x00\x00\x00\x00\x00\x00\x00\x00\x00\x00\x00\x00\x00\x00\x00\x00";
    "\x80\x81\x82\x83\x84\x85\x86\x87\x88\x89\x8a\x8b\x8c\x8d\x8e\x8f";
    "\x90\x91\x92\x93\x94\x95\x96\x97\x98\x99\x9a\x9b\x9c\x9d\x9e\x9f";
    "\xa0\x00\x00\x00\x00\x00\x00\xfd\x00\x00\x00\x00\x00\xad\x00\x00";
    "\x00\x00\x00\x00\x00\x00\x00\x00\x00\x00\x00\x00\x00\x00\x00\x00";
    "\x00\xa1\xa2\xa3\xa4\xa5\xa6\xa7\xa8\xa9\xaa\xab\xac\x00\xae\xaf";
    "\xb0\xb1\xb2\xb3\xb4\xb5\xb6\xb7\xb8\xb9\xba\xbb\xbc\xbd\xbe\xbf";
    "\xc0\xc1\xc2\xc3\xc4\xc5\xc6\xc7\xc8\xc9\xca\xcb\xcc\xcd\xce\xcf";
    "\xd0\xd1\xd2\xd3\xd4\xd5\xd6\xd7\xd8\xd9\xda\xdb\xdc\xdd\xde\xdf";
    "\xe0\xe1\xe2\xe3\xe4\xe5\xe6\xe7\xe8\xe9\xea\xeb\xec\xed\xee\xef";
    "\x00\xf1\xf2\xf3\xf4\xf5\xf6\xf7\xf8\xf9\xfa\xfb\xfc\x00\xfe\xff";
    "\x00\x00\x00\x00\x00\x00\x00\x00\x00\x00\x00\x00\x00\x00\x00\x00";
    "\x00\x00\x00\x00\x00\x00\x00\x00\x00\x00\x00\x00\x00\x00\x00\x00";
    "\x00\x00\x00\x00\x05\x00\x00\x00\x00\x00\x00\x00\x00\x00\x00\x00";
    "\x00\x00\x00\x00\x00\x00\x00\x00\x00\x00\x00\x00\x00\x00\x00\x00";
    "\x00\x00\x00\x00\x00\x00\x00\x00\x00\x00\x00\x00\x00\x00\x00\x00";
    "\x00\x00\x00\x00\x00\x00\x00\x00\x00\x00\x00\x00\x00\x00\x00\x00";
    "\x00\x00\x00\x00\x00\x00\x00\x00\x00\x00\x00\x00\x00\x00\x00\x00";
    "\x00\x00\x00\x00\x00\x00\xf0\x00\x00\x00\x00\x00\x00\x00\x00\x00";
    "\x00\x00\x00\x00\x00\x00\x00\x00\x00\x00\x00\x00\x00\x00\x00\x00";
    "\x00\x00\x00\x00\x00\x00\x00\x00\x00\x00\x00\x00\x00\x00\x00\x00"
  ]%string.

Definition xmlunicodetable_ISO8859_6 : list Z :=
  [0x0080; 0x0081; 0x0082; 0x0083; 0x0084; 0x0085; 0x0086; 0x0087] ++
  [0x0088; 0x0089; 0x008a; 0x008b; 0x008c; 0x008d; 0x008e; 0x008f] ++
  [0x0090; 0x0091; 0x0092; 0x0093; 0x0094; 0x0095; 0x0096; 0x0097] ++
  [0x0098; 0x0099; 0x009a; 0x009b; 0x009c; 0x009d; 0x009e; 0x009f] ++
  [0x00a0; 0x0000; 0x0000; 0x0000; 0x00a4; 0x0000; 0x0000; 0x0000] ++
  [0x0000; 0x0000; 0x0000; 0x0000; 0x060c; 0x00ad; 0x0000; 0x0000] ++
  [0x0000; 0x0000; 0x0000; 0x0000; 0x0000; 0x0000; 0x0000; 0x0000] ++
  [0x0000; 0x0000; 0x0000; 0x061b; 0x0000; 0x0000; 0x0000; 0x061f] ++
  [0x0000; 0x0621; 0x0622; 0x0623; 0x0624; 0x0625; 0x0626; 0x0627] ++
  [0x0628; 0x0629; 0x062a; 0x062b; 0x062c; 0x062d; 0x062e; 0x062f] ++
  [0x0630; 0x0631; 0x0632; 0x0633; 0x0634; 0x0635; 0x0636; 0x0637] ++
  [0x0638; 0x0639; 0x063a; 0x0000; 0x0000; 0x0000; 0x0000; 0x0000] ++
  [0x0640; 0x0641; 0x0642; 0x0643; 0x0644; 0x0645; 0x0646; 0x0647] ++
  [0x0648; 0x0649; 0x064a; 0x064b; 0x064c; 0x064d; 0x064e; 0x064f] ++
  [0x0650; 0x0651; 0x0652; 0x0000; 0x0000; 0x0000; 0x0000; 0x0000] ++
  [0x0000; 0x0000; 0x0000; 0x0000; 0x0000; 0x0000; 0x0000; 0x0000].

(** [48 + 5 * 64] bytes. *)
Definition xmltranscodetable_ISO8859_6 : list Z :=
  c_string_literal [
    "\x02\x00\x01\x00\x00\x00\x00\x00\x00\x00\x00\x00\x00\x00\x00\x00";
    "\x00\x00\x00\x00\x00\x00\x00\x00\x03\x04\x00\x00\x00\x00\x00\x00";
    "\x00\x00\x00\x00\x00\x00\x00\x00\x00\x00\x00\x00\x00\x00\x00\x00";
    "\x00\x00\x00\x00\x00\x00\x00\x00\x00\x00\x00\x00\x00\x00\x00\x00";
    "\x00\x00\x00\x00\x00\x00\x00\x00\x00\x00\x00\x00\x00\x00\x00\x00";
    "\x00\x00\x00\x00\x00\x00\x00\x00\x00\x00\x00\x00\x00\x00\x00\x00";
    "\x00\x00\x00\x00\x00\x00\x00\x00\x00\x00\x00\x00\x00\x00\x00\x00";
    "\x80\x81\x82\x83\x84\x85\x86\x87\x88\x89\x8a\x8b\x8c\x8d\x8e\x8f";
    "\x90\x91\x92\x93\x94\x95\x96\x97\x98\x99\x9a\x9b\x9c\x9d\x9e\x9f";
    "\xa0\x00\x00\x00\xa4\x00\x00\x00\x00\x00\x00\x00\x00\xad\x00\x00";
    "\x00\x00\x00\x00\x00\x00\x00\x00\x00\x00\x00\x00\x00\x00\x00\x00";
    "\xff\x00\x00\x00\x00\x00\x00\x00\x00\x00\x00\x00\x00\x00\x00\x00";
    "\x00\x00\x00\x00\x00\x00\x00\x00\x00\x00\x00\x00\x00\x00\x00\x00";
    "\x00\x00\x00\x00\x00\x00\x00\x00\x00\x00\x00\x00\x00\x00\x00\x00";
    "\x00\x00\x00\x00\x00\x00\x00\x00\x00\x00\x00\x00\x00\x00\x00\x00";
    "\x00\x00\x00\x00\x00\x00\x00\x00\x00\x00\x00\x00\xac\x00\x00\x00";
    "\x00\x00\x00\x00\x00\x00\x00\x00\x00\x00\x00\xbb\x00\x00\x00\xbf";
    "\x00\xc1\xc2\xc3\xc4\xc5\xc6\xc7\xc8\xc9\xca\xcb\xcc\xcd\xce\xcf";
    "\xd0\xd1\xd2\xd3\xd4\xd5\xd6\xd7\xd8\xd9\xda\x00\x00\x00\x00\x00";
    "\xe0\xe1\xe2\xe3\xe4\xe5\xe6\xe7\xe8\xe9\xea\xeb\xec\xed\xee\xef";
    "\xf0\xf1\xf2\x00\x00\x00\x00\x00\x00\x00\x00\x00\x00\x00\x00\x00";
    "\x00\x00\x00\x00\x00\x00\x00\x00\x00\x00\x00\x00\x00\x00\x00\x00";
    "\x00\x00\x00\x00\x00\x00\x00\x00\x00\x00\x00\x00\x00\x00\x00\x00"
  ]%string.

Definition xmlunicodetable_ISO8859_7 : list Z :=
  [0x0080; 0x0081; 0x0082; 0x0083; 0x0084; 0x0085; 0x0086; 0x0087] ++
  [0x0088; 0x0089; 0x008a; 0x008b; 0x008c; 0x008d; 0x008e; 0x008f] ++
  [0x0090; 0x0091; 0x0092; 0x0093; 0x0094; 0x0095; 0x0096; 0x0097] ++
  [0x0098; 0x0099; 0x009a; 0x009b; 0x009c; 0x009d; 0x009e; 0x009f] ++
  [0x00a0; 0x2018; 0x2019; 0x00a3; 0x0000; 0x0000; 0x00a6; 0x00a7] ++
  [0x00a8; 0x00a9; 0x0000; 0x00ab; 0x00ac; 0x00ad; 0x0000; 0x2015] ++
  [0x00b0; 0x00b1; 0x00b2; 0x00b3; 0x0384; 0x0385; 0x0386; 0x00b7] ++
  [0x0388; 0x0389; 0x038a; 0x00bb; 0x038c; 0x00bd; 0x038e; 0x038f] ++
  [0x0390; 0x0391; 0x0392; 0x0393; 0x0394; 0x0395; 0x0396; 0x0397] ++
  [0x0398; 0x0399; 0x039a; 0x039b; 0x039c; 0x039d; 0x039e; 0x039f] ++
  [0x03a0; 0x03a1; 0x0000; 0x03a3; 0x03a4; 0x03a5; 0x03a6; 0x03a7] ++
  [0x03a8; 0x03a9; 0x03aa; 0x03ab; 0x03ac; 0x03ad; 0x03ae; 0x03af] ++
  [0x03b0; 0x03b1; 0x03b2; 0x03b3; 0x03b4; 0x03b5; 0x03b6; 0x03b7] ++
  [0x03b8; 0x03b9; 0x03ba; 0x03bb; 0x03bc; 0x03bd; 0x03be; 0x03bf] ++
  [0x03c0; 0x03c1; 0x03c2; 0x03c3; 0x03c4; 0x03c5; 0x03c6; 0x03c7] ++
  [0x03c8; 0x03c9; 0x03ca; 0x03cb; 0x03cc; 0x03cd; 0x03ce; 0x0000].

(** [48 + 7 * 64] bytes. *)
Definition xmltranscodetable_ISO8859_7 : list Z :=
  c_string_literal [
    "\x04\x00\x01\x00\x00\x00\x00\x00\x00\x00\x00\x00\x00\x00\x05\x06";
    "\x00\x00\x00\x00\x00\x00\x00\x00\x00\x00\x00\x00\x00\x00\x00\x00";
    "\x00\x00\x02\x00\x00\x00\x00\x00\x00\x00\x00\x00\x00\x00\x00\x00";
    "\x00\x00\x00\x00\x00\x00\x00\x00\x00\x00\x00\x00\x00\x00\x00\x00";
    "\x00\x00\x00\x00\x00\x00\x00\x00\x00\x00\x00\x00\x00\x00\x00\x00";
    "\x00\x00\x00\x00\x00\x00\x00\x00\x00\x00\x00\x00\x00\x00\x00\x00";
    "\x00\x00\x00\x00\x00\x00\x00\x00\x00\x00\x00\x00\x00\x00\x00\x00";
    "\x80\x81\x82\x83\x84\x85\x86\x87\x88\x89\x8a\x8b\x8c\x8d\x8e\x8f";
    "\x90\x91\x92\x93\x94\x95\x96\x97\x98\x99\x9a\x9b\x9c\x9d\x9e\x9f";
    "\xa0\x00\x00\xa3\x00\x00\xa6\xa7\xa8\xa9\x00\xab\xac\xad\x00\x00";
    "\xb0\xb1\xb2\xb3\x00\x00\x00\xb7\x00\x00\x00\xbb\x00\xbd\x00\x00";
    "\x03\x00\x00\x00\x00\x00\x00\x00\x00\x00\x00\x00\x00\x00\x00\x00";
    "\x00\x00\x00\x00\x00\x00\x00\x00\x00\x00\x00\x00\x00\x00\x00\x00";
    "\x00\x00\x00\x00\x00\x00\x00\x00\x00\x00\x00\x00\x00\x00\x00\x00";
    "\x00\x00\x00\x00\x00\x00\x00\x00\x00\x00\x00\x00\x00\x00\x00\x00";
    "\x00\x00\x00\x00\x00\x00\x00\x00\x00\x00\x00\x00\x00\x00\x00\x00";
    "\x00\x00\x00\x00\x00\xaf\x00\x00\xa1\xa2\x00\x00\x00\x00\x00\x00";
    "\x00\x00\x00\x00\x00\x00\x00\x00\x00\x00\x00\x00\x00\x00\x00\x00";
    "\x00\x00\x00\x00\x00\x00\x00\x00\x00\x00\x00\x00\x00\x00\x00\x00";
    "\xff\x00\x00\x00\x00\x00\x00\x00\x00\x00\x00\x00\x00\x00\x00\x00";
    "\x00\x00\x00\x00\x00\x00\x00\x00\x00\x00\x00\x00\x00\x00\x00\x00";
    "\x00\x00\x00\x00\x00\x00\x00\x00\x00\x00\x00\x00\x00\x00\x00\x00";
    "\x00\x00\x00\x00\x00\x00\x00\x00\x00\x00\x00\x00\x00\x00\x00\x00";
    "\x00\x00\x00\x00\xb4\xb5\xb6\x00\xb8\xb9\xba\x00\xbc\x00\xbe\xbf";
    "\xc0\xc1\xc2\xc3\xc4\xc5\xc6\xc7\xc8\xc9\xca\xcb\xcc\xcd\xce\xcf";
    "\xd0\xd1\x00\xd3\xd4\xd5\xd6\xd7\xd8\xd9\xda\xdb\xdc\xdd\xde\xdf";
    "\xe0\xe1\xe2\xe3\xe4\xe5\xe6\xe7\xe8\xe9\xea\xeb\xec\xed\xee\xef";
    "\xf0\xf1\xf2\xf3\xf4\xf5\xf6\xf7\xf8\xf9\xfa\xfb\xfc\xfd\xfe\x00";
    "\x00\x00\x00\x00\x00\x00\x00\x00\x00\x00\x00\x00\x00\x00\x00\x00";
    "\x00\x00\x00\x00\x00\x00\x00\x00\x00\x00\x00\x00\x00\x00\x00\x00";
    "\x00\x00\x00\x00\x00\x00\x00\x00\x00\x00\x00\x00\x00\x00\x00\x00"
  ]%string.

Definition xmlunicodetable_ISO8859_8 : list Z :=
  [0x0080; 0x0081; 0x0082; 0x0083; 0x0084; 0x0085; 0x0086; 0x0087] ++
  [0x0088; 0x0089; 0x008a; 0x008b; 0x008c; 0x008d; 0x008e; 0x008f] ++
  [0x0090; 0x0091; 0x0092; 0x0093; 0x0094; 0x0095; 0x0096; 0x0097] ++
  [0x0098; 0x0099; 0x009a; 0x009b; 0x009c; 0x009d; 0x009e; 0x009f] ++
  [0x00a0; 0x0000; 0x00a2; 0x00a3; 0x00a4; 0x00a5; 0x00a6; 0x00a7] ++
  [0x00a8; 0x00a9; 0x00d7; 0x00ab; 0x00ac; 0x00ad; 0x00ae; 0x00af] ++
  [0x00b0; 0x00b1; 0x00b2; 0x00b3; 0x00b4; 0x00b5; 0x00b6; 0x00b7] ++
  [0x00b8; 0x00b9; 0x00f7; 0x00bb; 0x00bc; 0x00bd; 0x00be; 0x0000] ++
  [0x0000; 0x0000; 0x0000; 0x0000; 0x0000; 0x0000; 0x0000; 0x0000] ++
  [0x0000; 0x0000; 0x0000; 0x0000; 0x0000; 0x0000; 0x0000; 0x0000] ++
  [0x0000; 0x0000; 0x0000; 0x0000; 0x0000; 0x0000; 0x0000; 0x0000] ++
  [0x0000; 0x0000; 0x0000; 0x0000; 0x0000; 0x0000; 0x0000; 0x2017] ++
  [0x05d0; 0x05d1; 0x05d2; 0x05d3; 0x05d4; 0x05d5; 0x05d6; 0x05d7] ++
  [0x05d8; 0x05d9; 0x05da; 0x05db; 0x05dc; 0x05dd; 0x05de; 0x05df] ++
  [0x05e0; 0x05e1; 0x05e2; 0x05e3; 0x05e4; 0x05e5; 0x05e6; 0x05e7] ++
  [0x05e8; 0x05e9; 0x05ea; 0x0000; 0x0000; 0x200e; 0x200f; 0x0000].

(** [48 + 7 * 64] bytes. *)
Definition xmltranscodetable_ISO8859_8 : list Z :=
  c_string_literal [
    "\x02\x00\x01\x03\x00\x00\x00\x00\x00\x00\x00\x00\x00\x00\x00\x00";
    "\x00\x00\x00\x00\x00\x00\x00\x06\x00\x00\x00\x00\x00\x00\x00\x00";
    "\x00\x00\x04\x00\x00\x00\x00\x00\x00\x00\x00\x00\x00\x00\x00\x00";
    "\x00\x00\x00\x00\x00\x00\x00\x00\x00\x00\x00\x00\x00\x00\x00\x00";
    "\x00\x00\x00\x00\x00\x00\x00\x00\x00\x00\x00\x00\x00\x00\x00\x00";
    "\x00\x00\x00\x00\x00\x00\x00\x00\x00\x00\x00\x00\x00\x00\x00\x00";
    "\x00\x00\x00\x00\x00\x00\x00\x00\x00\x00\x00\x00\x00\x00\x00\x00";
    "\x80\x81\x82\x83\x84\x85\x86\x87\x88\x89\x8a\x8b\x8c\x8d\x8e\x8f";
    "\x90\x91\x92\x93\x94\x95\x96\x97\x98\x99\x9a\x9b\x9c\x9d\x9e\x9f";
    "\xa0\x00\xa2\xa3\xa4\xa5\xa6\xa7\xa8\xa9\x00\xab\xac\xad\xae\xaf";
    "\xb0\xb1\xb2\xb3\xb4\xb5\xb6\xb7\xb8\xb9\x00\xbb\xbc\xbd\xbe\x00";
    "\xff\x00\x00\x00\x00\x00\x00\x00\x00\x00\x00\x00\x00\x00\x00\x00";
    "\x00\x00\x00\x00\x00\x00\x00\x00\x00\x00\x00\x00\x00\x00\x00\x00";
    "\x00\x00\x00\x00\x00\x00\x00\x00\x00\x00\x00\x00\x00\x00\x00\x00";
    "\x00\x00\x00\x00\x00\x00\x00\x00\x00\x00\x00\x00\x00\x00\x00\x00";
    "\x00\x00\x00\x00\x00\x00\x00\x00\x00\x00\x00\x00\x00\x00\x00\x00";
    "\x00\x00\x00\x00\x00\x00\x00\xaa\x00\x00\x00\x00\x00\x00\x00\x00";
    "\x00\x00\x00\x00\x00\x00\x00\x00\x00\x00\x00\x00\x00\x00\x00\x00";
    "\x00\x00\x00\x00\x00\x00\x00\xba\x00\x00\x00\x00\x00\x00\x00\x00";
    "\x05\x00\x00\x00\x00\x00\x00\x00\x00\x00\x00\x00\x00\x00\x00\x00";
    "\x00\x00\x00\x00\x00\x00\x00\x00\x00\x00\x00\x00\x00\x00\x00\x00";
    "\x00\x00\x00\x00\x00\x00\x00\x00\x00\x00\x00\x00\x00\x00\x00\x00";
    "\x00\x00\x00\x00\x00\x00\x00\x00\x00\x00\x00\x00\x00\x00\x00\x00";
    "\x00\x00\x00\x00\x00\x00\x00\x00\x00\x00\x00\x00\x00\x00\xfd\xfe";
    "\x00\x00\x00\x00\x00\x00\x00\xdf\x00\x00\x00\x00\x00\x00\x00\x00";
    "\x00\x00\x00\x00\x00\x00\x00\x00\x00\x00\x00\x00\x00\x00\x00\x00";
    "\x00\x00\x00\x00\x00\x00\x00\x00\x00\x00\x00\x00\x00\x00\x00\x00";
    "\x00\x00\x00\x00\x00\x00\x00\x00\x00\x00\x00\x00\x00\x00\x00\x00";
    "\xe0\xe1\xe2\xe3\xe4\xe5\xe6\xe7\xe8\xe9\xea\xeb\xec\xed\xee\xef";
    "\xf0\xf1\xf2\xf3\xf4\xf5\xf6\xf7\xf8\xf9\xfa\x00\x00\x00\x00\x00";
    "\x00\x00\x00\x00\x00\x00\x00\x00\x00\x00\x00\x00\x00\x00\x00\x00"
  ]%string.

Definition xmlunicodetable_ISO8859_9 : list Z :=
  [0x0080; 0x0081; 0x0082; 0x0083; 0x0084; 0x0085; 0x0086; 0x0087] ++
  [0x0088; 0x0089; 0x008a; 0x008b; 0x008c; 0x008d; 0x008e; 0x008f] ++
  [0x0090; 0x0091; 0x0092; 0x0093; 0x0094; 0x0095; 0x0096; 0x0097] ++
  [0x0098; 0x0099; 0x009a; 0x009b; 0x009c; 0x009d; 0x009e; 0x009f] ++
  [0x00a0; 0x00a1; 0x00a2; 0x00a3; 0x00a4; 0x00a5; 0x00a6; 0x00a7] ++
  [0x00a8; 0x00a9; 0x00aa; 0x00ab; 0x00ac; 0x00ad; 0x00ae; 0x00af] ++
  [0x00b0; 0x00b1; 0x00b2; 0x00b3; 0x00b4; 0x00b5; 0x00b6; 0x00b7] ++
  [0x00b8; 0x00b9; 0x00ba; 0x00bb; 0x00bc; 0x00bd; 0x00be; 0x00bf] ++
  [0x00c0; 0x00c1; 0x00c2; 0x00c3; 0x00c4; 0x00c5; 0x00c6; 0x00c7] ++
  [0x00c8; 0x00c9; 0x00ca; 0x00cb; 0x00cc; 0x00cd; 0x00ce; 0x00cf] ++
  [0x011e; 0x00d1; 0x00d2; 0x00d3; 0x00d4; 0x00d5; 0x00d6; 0x00d7] ++
  [0x00d8; 0x00d9; 0x00da; 0x00db; 0x00dc; 0x0130; 0x015e; 0x00df] ++
  [0x00e0; 0x00e1; 0x00e2; 0x00e3; 0x00e4; 0x00e5; 0x00e6; 0x00e7] ++
  [0x00e8; 0x00e9; 0x00ea; 0x00eb; 0x00ec; 0x00ed; 0x00ee; 0x00ef] ++
  [0x011f; 0x00f1; 0x00f2; 0x00f3; 0x00f4; 0x00f5; 0x00f6; 0x00f7] ++
  [0x00f8; 0x00f9; 0x00fa; 0x00fb; 0x00fc; 0x0131; 0x015f; 0x00ff].

(** [48 + 5 * 64] bytes. *)
Definition xmltranscodetable_ISO8859_9 : list Z :=
  c_string_literal [
    "\x00\x00\x01\x02\x03\x04\x00\x00\x00\x00\x00\x00\x00\x00\x00\x00";
    "\x00\x00\x00\x00\x00\x00\x00\x00\x00\x00\x00\x00\x00\x00\x00\x00";
    "\x00\x00\x00\x00\x00\x00\x00\x00\x00\x00\x00\x00\x00\x00\x00\x00";
    "\x00\x00\x00\x00\x00\x00\x00\x00\x00\x00\x00\x00\x00\x00\x00\x00";
    "\x00\x00\x00\x00\x00\x00\x00\x00\x00\x00\x00\x00\x00\x00\x00\x00";
    "\x00\x00\x00\x00\x00\x00\x00\x00\x00\x00\x00\x00\x00\x00\x00\x00";
    "\x00\x00\x00\x00\x00\x00\x00\x00\x00\x00\x00\x00\x00\x00\x00\x00";
    "\x80\x81\x82\x83\x84\x85\x86\x87\x88\x89\x8a\x8b\x8c\x8d\x8e\x8f";
    "\x90\x91\x92\x93\x94\x95\x96\x97\x98\x99\x9a\x9b\x9c\x9d\x9e\x9f";
    "\xa0\xa1\xa2\xa3\xa4\xa5\xa6\xa7\xa8\xa9\xaa\xab\xac\xad\xae\xaf";
    "\xb0\xb1\xb2\xb3\xb4\xb5\xb6\xb7\xb8\xb9\xba\xbb\xbc\xbd\xbe\xbf";
    "\xc0\xc1\xc2\xc3\xc4\xc5\xc6\xc7\xc8\xc9\xca\xcb\xcc\xcd\xce\xcf";
    "\x00\xd1\xd2\xd3\xd4\xd5\xd6\xd7\xd8\xd9\xda\xdb\xdc\x00\x00\xdf";
    "\xe0\xe1\xe2\xe3\xe4\xe5\xe6\xe7\xe8\xe9\xea\xeb\xec\xed\xee\xef";
    "\x00\xf1\xf2\xf3\xf4\xf5\xf6\xf7\xf8\xf9\xfa\xfb\xfc\x00\x00\xff";
    "\x00\x00\x00\x00\x00\x00\x00\x00\x00\x00\x00\x00\x00\x00\x00\x00";
    "\x00\x00\x00\x00\x00\x00\x00\x00\x00\x00\x00\x00\x00\x00\xd0\xf0";
    "\x00\x00\x00\x00\x00\x00\x00\x00\x00\x00\x00\x00\x00\x00\x00\x00";
    "\xdd\xfd\x00\x00\x00\x00\x00\x00\x00\x00\x00\x00\x00\x00\x00\x00";
    "\x00\x00\x00\x00\x00\x00\x00\x00\x00\x00\x00\x00\x00\x00\x00\x00";
    "\x00\x00\x00\x00\x00\x00\x00\x00\x00\x00\x00\x00\x00\x00\xde\xfe";
    "\x00\x00\x00\x00\x00\x00\x00\x00\x00\x00\x00\x00\x00\x00\x00\x00";
    "\x00\x00\x00\x00\x00\x00\x00\x00\x00\x00\x00\x00\x00\x00\x00\x00"
  ]%string.

Definition xmlunicodetable_ISO8859_10 : list Z :=
  [0x0080; 0x0081; 0x0082; 0x0083; 0x0084; 0x0085; 0x0086; 0x0087] ++
  [0x0088; 0x0089; 0x008a; 0x008b; 0x008c; 0x008d; 0x008e; 0x008f] ++
  [0x0090; 0x0091; 0x0092; 0x0093; 0x0094; 0x0095; 0x0096; 0x0097] ++
  [0x0098; 0x0099; 0x009a; 0x009b; 0x009c; 0x009d; 0x009e; 0x009f] ++
  [0x00a0; 0x0104; 0x0112; 0x0122; 0x012a; 0x0128; 0x0136; 0x00a7] ++
  [0x013b; 0x0110; 0x0160; 0x0166; 0x017d; 0x00ad; 0x016a; 0x014a] ++
  [0x00b0; 0x0105; 0x0113; 0x0123; 0x012b; 0x0129; 0x0137; 0x00b7] ++
  [0x013c; 0x0111; 0x0161; 0x0167; 0x017e; 0x2015; 0x016b; 0x014b] ++
  [0x0100; 0x00c1; 0x00c2; 0x00c3; 0x00c4; 0x00c5; 0x00c6; 0x012e] ++
  [0x010c; 0x00c9; 0x0118; 0x00cb; 0x0116; 0x00cd; 0x00ce; 0x00cf] ++
  [0x00d0; 0x0145; 0x014c; 0x00d3; 0x00d4; 0x00d5; 0x00d6; 0x0168] ++
  [0x00d8; 0x0172; 0x00da; 0x00db; 0x00dc; 0x00dd; 0x00de; 0x00df] ++
  [0x0101; 0x00e1; 0x00e2; 0x00e3; 0x00e4; 0x00e5; 0x00e6; 0x012f] ++
  [0x010d; 0x00e9; 0x0119; 0x00eb; 0x0117; 0x00ed; 0x00ee; 0x00ef] ++
  [0x00f0; 0x0146; 0x014d; 0x00f3; 0x00f4; 0x00f5; 0x00f6; 0x0169] ++
  [0x00f8; 0x0173; 0x00fa; 0x00fb; 0x00fc; 0x00fd; 0x00fe; 0x0138].

(** [48 + 7 * 64] bytes. *)
Definition xmltranscodetable_ISO8859_10 : list Z :=
  c_string_literal [
    "\x00\x00\x01\x06\x02\x03\x00\x00\x00\x00\x00\x00\x00\x00\x00\x00";
    "\x00\x00\x00\x00\x00\x00\x00\x00\x00\x00\x00\x00\x00\x00\x00\x00";
    "\x00\x00\x04\x00\x00\x00\x00\x00\x00\x00\x00\x00\x00\x00\x00\x00";
    "\x00\x00\x00\x00\x00\x00\x00\x00\x00\x00\x00\x00\x00\x00\x00\x00";
    "\x00\x00\x00\x00\x00\x00\x00\x00\x00\x00\x00\x00\x00\x00\x00\x00";
    "\x00\x00\x00\x00\x00\x00\x00\x00\x00\x00\x00\x00\x00\x00\x00\x00";
    "\x00\x00\x00\x00\x00\x00\x00\x00\x00\x00\x00\x00\x00\x00\x00\x00";
    "\x80\x81\x82\x83\x84\x85\x86\x87\x88\x89\x8a\x8b\x8c\x8d\x8e\x8f";
    "\x90\x91\x92\x93\x94\x95\x96\x97\x98\x99\x9a\x9b\x9c\x9d\x9e\x9f";
    "\xa0\x00\x00\x00\x00\x00\x00\xa7\x00\x00\x00\x00\x00\xad\x00\x00";
    "\xb0\x00\x00\x00\x00\x00\x00\xb7\x00\x00\x00\x00\x00\x00\x00\x00";
    "\xc0\xe0\x00\x00\xa1\xb1\x00\x00\x00\x00\x00\x00\xc8\xe8\x00\x00";
    "\xa9\xb9\xa2\xb2\x00\x00\xcc\xec\xca\xea\x00\x00\x00\x00\x00\x00";
    "\x00\x00\xa3\xb3\x00\x00\x00\x00\xa5\xb5\xa4\xb4\x00\x00\xc7\xe7";
    "\x00\x00\x00\x00\x00\x00\xa6\xb6\xff\x00\x00\xa8\xb8\x00\x00\x00";
    "\x00\x00\x00\x00\x00\xd1\xf1\x00\x00\x00\xaf\xbf\xd2\xf2\x00\x00";
    "\x00\x00\x00\x00\x00\x00\x00\x00\x00\x00\x00\x00\x00\x00\x00\x00";
    "\xaa\xba\x00\x00\x00\x00\xab\xbb\xd7\xf7\xae\xbe\x00\x00\x00\x00";
    "\x00\x00\xd9\xf9\x00\x00\x00\x00\x00\x00\x00\x00\x00\xac\xbc\x00";
    "\x05\x00\x00\x00\x00\x00\x00\x00\x00\x00\x00\x00\x00\x00\x00\x00";
    "\x00\x00\x00\x00\x00\x00\x00\x00\x00\x00\x00\x00\x00\x00\x00\x00";
    "\x00\x00\x00\x00\x00\x00\x00\x00\x00\x00\x00\x00\x00\x00\x00\x00";
    "\x00\x00\x00\x00\x00\x00\x00\x00\x00\x00\x00\x00\x00\x00\x00\x00";
    "\x00\x00\x00\x00\x00\x00\x00\x00\x00\x00\x00\x00\x00\x00\x00\x00";
    "\x00\x00\x00\x00\x00\xbd\x00\x00\x00\x00\x00\x00\x00\x00\x00\x00";
    "\x00\x00\x00\x00\x00\x00\x00\x00\x00\x00\x00\x00\x00\x00\x00\x00";
    "\x00\x00\x00\x00\x00\x00\x00\x00\x00\x00\x00\x00\x00\x00\x00\x00";
    "\x00\xc1\xc2\xc3\xc4\xc5\xc6\x00\x00\xc9\x00\xcb\x00\xcd\xce\xcf";
    "\xd0\x00\x00\xd3\xd4\xd5\xd6\x00\xd8\x00\xda\xdb\xdc\xdd\xde\xdf";
    "\x00\xe1\xe2\xe3\xe4\xe5\xe6\x00\x00\xe9\x00\xeb\x00\xed\xee\xef";
    "\xf0\x00\x00\xf3\xf4\xf5\xf6\x00\xf8\x00\xfa\xfb\xfc\xfd\xfe\x00"
  ]%string.

Definition xmlunicodetable_ISO8859_11 : list Z :=
  [0x0080; 0x0081; 0x0082; 0x0083; 0x0084; 0x0085; 0x0086; 0x0087] ++
  [0x0088; 0x0089; 0x008a; 0x008b; 0x008c; 0x008d; 0x008e; 0x008f] ++
  [0x0090; 0x0091; 0x0092; 0x0093; 0x0094; 0x0095; 0x0096; 0x0097] ++
  [0x0098; 0x0099; 0x009a; 0x009b; 0x009c; 0x009d; 0x009e; 0x009f] ++
  [0x00a0; 0x0e01; 0x0e02; 0x0e03; 0x0e04; 0x0e05; 0x0e06; 0x0e07] ++
  [0x0e08; 0x0e09; 0x0e0a; 0x0e0b; 0x0e0c; 0x0e0d; 0x0e0e; 0x0e0f] ++
  [0x0e10; 0x0e11; 0x0e12; 0x0e13; 0x0e14; 0x0e15; 0x0e16; 0x0e17] ++
  [0x0e18; 0x0e19; 0x0e1a; 0x0e1b; 0x0e1c; 0x0e1d; 0x0e1e; 0x0e1f] ++
  [0x0e20; 0x0e21; 0x0e22; 0x0e23; 0x0e24; 0x0e25; 0x0e26; 0x0e27] ++
  [0x0e28; 0x0e29; 0x0e2a; 0x0e2b; 0x0e2c; 0x0e2d; 0x0e2e; 0x0e2f] ++
  [0x0e30; 0x0e31; 0x0e32; 0x0e33; 0x0e34; 0x0e35; 0x0e36; 0x0e37] ++
  [0x0e38; 0x0e39; 0x0e3a; 0x0000; 0x0000; 0x0000; 0x0000; 0x0e3f] ++
  [0x0e40; 0x0e41; 0x0e42; 0x0e43; 0x0e44; 0x0e45; 0x0e46; 0x0e47] ++
  [0x0e48; 0x0e49; 0x0e4a; 0x0e4b; 0x0e4c; 0x0e4d; 0x0e4e; 0x0e4f] ++
  [0x0e50; 0x0e51; 0x0e52; 0x0e53; 0x0e54; 0x0e55; 0x0e56; 0x0e57] ++
  [0x0e58; 0x0e59; 0x0e5a; 0x0e5b; 0x0000; 0x0000; 0x0000; 0x0000].

(** [48 + 6 * 64] bytes. *)
Definition xmltranscodetable_ISO8859_11 : list Z :=
  c_string_literal [
    "\x04\x00\x01\x00\x00\x00\x00\x00\x00\x00\x00\x00\x00\x00\x00\x00";
    "\x00\x00\x00\x00\x00\x00\x00\x00\x00\x00\x00\x00\x00\x00\x00\x00";
    "\x02\x00\x00\x00\x00\x00\x00\x00\x00\x00\x00\x00\x00\x00\x00\x00";
    "\x00\x00\x00\x00\x00\x00\x00\x00\x00\x00\x00\x00\x00\x00\x00\x00";
    "\x00\x00\x00\x00\x00\x00\x00\x00\x00\x00\x00\x00\x00\x00\x00\x00";
    "\x00\x00\x00\x00\x00\x00\x00\x00\x00\x00\x00\x00\x00\x00\x00\x00";
    "\x00\x00\x00\x00\x00\x00\x00\x00\x00\x00\x00\x00\x00\x00\x00\x00";
    "\x80\x81\x82\x83\x84\x85\x86\x87\x88\x89\x8a\x8b\x8c\x8d\x8e\x8f";
    "\x90\x91\x92\x93\x94\x95\x96\x97\x98\x99\x9a\x9b\x9c\x9d\x9e\x9f";
    "\xa0\x00\x00\x00\x00\x00\x00\x00\x00\x00\x00\x00\x00\x00\x00\x00";
    "\x00\x00\x00\x00\x00\x00\x00\x00\x00\x00\x00\x00\x00\x00\x00\x00";
    "\x00\x00\x00\x00\x00\x00\x00\x00\x00\x00\x00\x00\x00\x00\x00\x00";
    "\x00\x00\x00\x00\x00\x00\x00\x00\x00\x00\x00\x00\x00\x00\x00\x00";
    "\x00\x00\x00\x00\x00\x00\x00\x00\x00\x00\x00\x00\x00\x00\x00\x00";
    "\x00\x00\x00\x00\x00\x00\x00\x00\x03\x05\x00\x00\x00\x00\x00\x00";
    "\x00\xa1\xa2\xa3\xa4\xa5\xa6\xa7\xa8\xa9\xaa\xab\xac\xad\xae\xaf";
    "\xb0\xb1\xb2\xb3\xb4\xb5\xb6\xb7\xb8\xb9\xba\xbb\xbc\xbd\xbe\xbf";
    "\xc0\xc1\xc2\xc3\xc4\xc5\xc6\xc7\xc8\xc9\xca\xcb\xcc\xcd\xce\xcf";
    "\xd0\xd1\xd2\xd3\xd4\xd5\xd6\xd7\xd8\xd9\xda\x00\x00\x00\x00\xdf";
    "\xff\x00\x00\x00\x00\x00\x00\x00\x00\x00\x00\x00\x00\x00\x00\x00";
    "\x00\x00\x00\x00\x00\x00\x00\x00\x00\x00\x00\x00\x00\x00\x00\x00";
    "\x00\x00\x00\x00\x00\x00\x00\x00\x00\x00\x00\x00\x00\x00\x00\x00";
    "\x00\x00\x00\x00\x00\x00\x00\x00\x00\x00\x00\x00\x00\x00\x00\x00";
    "\xe0\xe1\xe2\xe3\xe4\xe5\xe6\xe7\xe8\xe9\xea\xeb\xec\xed\xee\xef";
    "\xf0\xf1\xf2\xf3\xf4\xf5\xf6\xf7\xf8\xf9\xfa\xfb\x00\x00\x00\x00";
    "\x00\x00\x00\x00\x00\x00\x00\x00\x00\x00\x00\x00\x00\x00\x00\x00";
    "\x00\x00\x00\x00\x00\x00\x00\x00\x00\x00\x00\x00\x00\x00\x00\x00"
  ]%string.

Definition xmlunicodetable_ISO8859_13 : list Z :=
  [0x0080; 0x0081; 0x0082; 0x0083; 0x0084; 0x0085; 0x0086; 0x0087] ++
  [0x0088; 0x0089; 0x008a; 0x008b; 0x008c; 0x008d; 0x008e; 0x008f] ++
  [0x0090; 0x0091; 0x0092; 0x0093; 0x0094; 0x0095; 0x0096; 0x0097] ++
  [0x0098; 0x0099; 0x009a; 0x009b; 0x009c; 0x009d; 0x009e; 0x009f] ++
  [0x00a0; 0x201d; 0x00a2; 0x00a3; 0x00a4; 0x201e; 0x00a6; 0x00a7] ++
  [0x00d8; 0x00a9; 0x0156; 0x00ab; 0x00ac; 0x00ad; 0x00ae; 0x00c6] ++
  [0x00b0; 0x00b1; 0x00b2; 0x00b3; 0x201c; 0x00b5; 0x00b6; 0x00b7] ++
  [0x00f8; 0x00b9; 0x0157; 0x00bb; 0x00bc; 0x00bd; 0x00be; 0x00e6] ++
  [0x0104; 0x012e; 0x0100; 0x0106; 0x00c4; 0x00c5; 0x0118; 0x0112] ++
  [0x010c; 0x00c9; 0x0179; 0x0116; 0x0122; 0x0136; 0x012a; 0x013b] ++
  [0x0160; 0x0143; 0x0145; 0x00d3; 0x014c; 0x00d5; 0x00d6; 0x00d7] ++
  [0x0172; 0x0141; 0x015a; 0x016a; 0x00dc; 0x017b; 0x017d; 0x00df] ++
  [0x0105; 0x012f; 0x0101; 0x0107; 0x00e4; 0x00e5; 0x0119; 0x0113] ++
  [0x010d; 0x00e9; 0x017a; 0x0117; 0x0123; 0x0137; 0x012b; 0x013c] ++
  [0x0161; 0x0144; 0x0146; 0x00f3; 0x014d; 0x00f5; 0x00f6; 0x00f7] ++
  [0x0173; 0x0142; 0x015b; 0x016b; 0x00fc; 0x017c; 0x017e; 0x2019].

(** [48 + 7 * 64] bytes. *)
Definition xmltranscodetable_ISO8859_13 : list Z :=
  c_string_literal [
    "\x00\x00\x01\x04\x06\x05\x00\x00\x00\x00\x00\x00\x00\x00\x00\x00";
    "\x00\x00\x00\x00\x00\x00\x00\x00\x00\x00\x00\x00\x00\x00\x00\x00";
    "\x00\x00\x02\x00\x00\x00\x00\x00\x00\x00\x00\x00\x00\x00\x00\x00";
    "\x00\x00\x00\x00\x00\x00\x00\x00\x00\x00\x00\x00\x00\x00\x00\x00";
    "\x00\x00\x00\x00\x00\x00\x00\x00\x00\x00\x00\x00\x00\x00\x00\x00";
    "\x00\x00\x00\x00\x00\x00\x00\x00\x00\x00\x00\x00\x00\x00\x00\x00";
    "\x00\x00\x00\x00\x00\x00\x00\x00\x00\x00\x00\x00\x00\x00\x00\x00";
    "\x80\x81\x82\x83\x84\x85\x86\x87\x88\x89\x8a\x8b\x8c\x8d\x8e\x8f";
    "\x90\x91\x92\x93\x94\x95\x96\x97\x98\x99\x9a\x9b\x9c\x9d\x9e\x9f";
    "\xa0\x00\xa2\xa3\xa4\x00\xa6\xa7\x00\xa9\x00\xab\xac\xad\xae\x00";
    "\xb0\xb1\xb2\xb3\x00\xb5\xb6\xb7\x00\xb9\x00\xbb\xbc\xbd\xbe\x00";
    "\x03\x00\x00\x00\x00\x00\x00\x00\x00\x00\x00\x00\x00\x00\x00\x00";
    "\x00\x00\x00\x00\x00\x00\x00\x00\x00\x00\x00\x00\x00\x00\x00\x00";
    "\x00\x00\x00\x00\x00\x00\x00\x00\x00\x00\x00\x00\x00\x00\x00\x00";
    "\x00\x00\x00\x00\x00\x00\x00\x00\x00\x00\x00\x00\x00\x00\x00\x00";
    "\x00\x00\x00\x00\x00\x00\x00\x00\x00\x00\x00\x00\x00\x00\x00\x00";
    "\x00\x00\x00\x00\x00\x00\x00\x00\x00\xff\x00\x00\xb4\xa1\xa5\x00";
    "\x00\x00\x00\x00\x00\x00\x00\x00\x00\x00\x00\x00\x00\x00\x00\x00";
    "\x00\x00\x00\x00\x00\x00\x00\x00\x00\x00\x00\x00\x00\x00\x00\x00";
    "\x00\x00\x00\x00\xc4\xc5\xaf\x00\x00\xc9\x00\x00\x00\x00\x00\x00";
    "\x00\x00\x00\xd3\x00\xd5\xd6\xd7\xa8\x00\x00\x00\xdc\x00\x00\xdf";
    "\x00\x00\x00\x00\xe4\xe5\xbf\x00\x00\xe9\x00\x00\x00\x00\x00\x00";
    "\x00\x00\x00\xf3\x00\xf5\xf6\xf7\xb8\x00\x00\x00\xfc\x00\x00\x00";
    "\x00\xd9\xf9\xd1\xf1\xd2\xf2\x00\x00\x00\x00\x00\xd4\xf4\x00\x00";
    "\x00\x00\x00\x00\x00\x00\xaa\xba\x00\x00\xda\xfa\x00\x00\x00\x00";
    "\xd0\xf0\x00\x00\x00\x00\x00\x00\x00\x00\xdb\xfb\x00\x00\x00\x00";
    "\x00\x00\xd8\xf8\x00\x00\x00\x00\x00\xca\xea\xdd\xfd\xde\xfe\x00";
    "\xc2\xe2\x00\x00\xc0\xe0\xc3\xe3\x00\x00\x00\x00\xc8\xe8\x00\x00";
    "\x00\x00\xc7\xe7\x00\x00\xcb\xeb\xc6\xe6\x00\x00\x00\x00\x00\x00";
    "\x00\x00\xcc\xec\x00\x00\x00\x00\x00\x00\xce\xee\x00\x00\xc1\xe1";
    "\x00\x00\x00\x00\x00\x00\xcd\xed\x00\x00\x00\xcf\xef\x00\x00\x00"
  ]%string.

Definition xmlunicodetable_ISO8859_14 : list Z :=
  [0x0080; 0x0081; 0x0082; 0x0083; 0x0084; 0x0085; 0x0086; 0x0087] ++
  [0x0088; 0x0089; 0x008a; 0x008b; 0x008c; 0x008d; 0x008e; 0x008f] ++
  [0x0090; 0x0091; 0x0092; 0x0093; 0x0094; 0x0095; 0x0096; 0x0097] ++
  [0x0098; 0x0099; 0x009a; 0x009b; 0x009c; 0x009d; 0x009e; 0x009f] ++
  [0x00a0; 0x1e02; 0x1e03; 0x00a3; 0x010a; 0x010b; 0x1e0a; 0x00a7] ++
  [0x1e80; 0x00a9; 0x1e82; 0x1e0b; 0x1ef2; 0x00ad; 0x00ae; 0x0178] ++
  [0x1e1e; 0x1e1f; 0x0120; 0x0121; 0x1e40; 0x1e41; 0x00b6; 0x1e56] ++
  [0x1e81; 0x1e57; 0x1e83; 0x1e60; 0x1ef3; 0x1e84; 0x1e85; 0x1e61] ++
  [0x00c0; 0x00c1; 0x00c2; 0x00c3; 0x00c4; 0x00c5; 0x00c6; 0x00c7] ++
  [0x00c8; 0x00c9; 0x00ca; 0x00cb; 0x00cc; 0x00cd; 0x00ce; 0x00cf] ++
  [0x0174; 0x00d1; 0x00d2; 0x00d3; 0x00d4; 0x00d5; 0x00d6; 0x1e6a] ++
  [0x00d8; 0x00d9; 0x00da; 0x00db; 0x00dc; 0x00dd; 0x0176; 0x00df] ++
  [0x00e0; 0x00e1; 0x00e2; 0x00e3; 0x00e4; 0x00e5; 0x00e6; 0x00e7] ++
  [0x00e8; 0x00e9; 0x00ea; 0x00eb; 0x00ec; 0x00ed; 0x00ee; 0x00ef] ++
  [0x0175; 0x00f1; 0x00f2; 0x00f3; 0x00f4; 0x00f5; 0x00f6; 0x1e6b] ++
  [0x00f8; 0x00f9; 0x00fa; 0x00fb; 0x00fc; 0x00fd; 0x0177; 0x00ff].

(** [48 + 10 * 64] bytes. *)
Definition xmltranscodetable_ISO8859_14 : list Z :=
  c_string_literal [
    "\x00\x00\x01\x09\x04\x07\x00\x00\x00\x00\x00\x00\x00\x00\x00\x00";
    "\x00\x00\x00\x00\x00\x00\x00\x00\x00\x00\x00\x00\x00\x00\x00\x00";
    "\x00\x02\x00\x00\x00\x00\x00\x00\x00\x00\x00\x00\x00\x00\x00\x00";
    "\x00\x00\x00\x00\x00\x00\x00\x00\x00\x00\x00\x00\x00\x00\x00\x00";
    "\x00\x00\x00\x00\x00\x00\x00\x00\x00\x00\x00\x00\x00\x00\x00\x00";
    "\x00\x00\x00\x00\x00\x00\x00\x00\x00\x00\x00\x00\x00\x00\x00\x00";
    "\x00\x00\x00\x00\x00\x00\x00\x00\x00\x00\x00\x00\x00\x00\x00\x00";
    "\x80\x81\x82\x83\x84\x85\x86\x87\x88\x89\x8a\x8b\x8c\x8d\x8e\x8f";
    "\x90\x91\x92\x93\x94\x95\x96\x97\x98\x99\x9a\x9b\x9c\x9d\x9e\x9f";
    "\xa0\x00\x00\xa3\x00\x00\x00\xa7\x00\xa9\x00\x00\x00\xad\xae\x00";
    "\x00\x00\x00\x00\x00\x00\xb6\x00\x00\x00\x00\x00\x00\x00\x00\x00";
    "\x00\x00\x00\x00\x00\x00\x00\x00\x00\x00\x00\x00\x00\x00\x00\x00";
    "\x00\x00\x00\x00\x00\x00\x00\x00\x00\x00\x00\x00\x00\x00\x00\x00";
    "\x00\x00\x00\x00\x00\x00\x00\x00\x00\x00\x00\x00\x00\x00\x00\x00";
    "\x00\x00\x00\x00\x00\x00\x00\x00\x03\x08\x05\x06\x00\x00\x00\x00";
    "\x00\x00\xa1\xa2\x00\x00\x00\x00\x00\x00\xa6\xab\x00\x00\x00\x00";
    "\x00\x00\x00\x00\x00\x00\x00\x00\x00\x00\x00\x00\x00\x00\xb0\xb1";
    "\x00\x00\x00\x00\x00\x00\x00\x00\x00\x00\x00\x00\x00\x00\x00\x00";
    "\x00\x00\x00\x00\x00\x00\x00\x00\x00\x00\x00\x00\x00\x00\x00\x00";
    "\x00\x00\x00\x00\x00\x00\x00\x00\x00\x00\xa4\xa5\x00\x00\x00\x00";
    "\x00\x00\x00\x00\x00\x00\x00\x00\x00\x00\x00\x00\x00\x00\x00\x00";
    "\xb2\xb3\x00\x00\x00\x00\x00\x00\x00\x00\x00\x00\x00\x00\x00\x00";
    "\x00\x00\x00\x00\x00\x00\x00\x00\x00\x00\x00\x00\x00\x00\x00\x00";
    "\xa8\xb8\xaa\xba\xbd\xbe\x00\x00\x00\x00\x00\x00\x00\x00\x00\x00";
    "\x00\x00\x00\x00\x00\x00\x00\x00\x00\x00\x00\x00\x00\x00\x00\x00";
    "\x00\x00\x00\x00\x00\x00\x00\x00\x00\x00\x00\x00\x00\x00\x00\x00";
    "\x00\x00\x00\x00\x00\x00\x00\x00\x00\x00\x00\x00\x00\x00\x00\x00";
    "\x00\x00\x00\x00\x00\x00\x00\x00\x00\x00\x00\x00\x00\x00\x00\x00";
    "\x00\x00\x00\x00\x00\x00\x00\x00\x00\x00\x00\x00\x00\x00\x00\x00";
    "\x00\x00\x00\x00\x00\x00\x00\x00\x00\x00\x00\x00\x00\x00\x00\x00";
    "\x00\x00\xac\xbc\x00\x00\x00\x00\x00\x00\x00\x00\x00\x00\x00\x00";
    "\x00\x00\x00\x00\x00\x00\x00\x00\x00\x00\x00\x00\x00\x00\x00\x00";
    "\x00\x00\x00\x00\x00\x00\x00\x00\x00\x00\x00\x00\x00\x00\x00\x00";
    "\x00\x00\x00\x00\x00\x00\x00\x00\x00\x00\x00\x00\x00\x00\x00\x00";
    "\x00\x00\x00\x00\xd0\xf0\xde\xfe\xaf\x00\x00\x00\x00\x00\x00\x00";
    "\xb4\xb5\x00\x00\x00\x00\x00\x00\x00\x00\x00\x00\x00\x00\x00\x00";
    "\x00\x00\x00\x00\x00\x00\xb7\xb9\x00\x00\x00\x00\x00\x00\x00\x00";
    "\xbb\xbf\x00\x00\x00\x00\x00\x00\x00\x00\xd7\xf7\x00\x00\x00\x00";
    "\x00\x00\x00\x00\x00\x00\x00\x00\x00\x00\x00\x00\x00\x00\x00\x00";
    "\xc0\xc1\xc2\xc3\xc4\xc5\xc6\xc7\xc8\xc9\xca\xcb\xcc\xcd\xce\xcf";
    "\x00\xd1\xd2\xd3\xd4\xd5\xd6\x00\xd8\xd9\xda\xdb\xdc\xdd\x00\xdf";
    "\xe0\xe1\xe2\xe3\xe4\xe5\xe6\xe7\xe8\xe9\xea\xeb\xec\xed\xee\xef";
    "\x00\xf1\xf2\xf3\xf4\xf5\xf6\x00\xf8\xf9\xfa\xfb\xfc\xfd\x00\xff"
  ]%string.

Definition xmlunicodetable_ISO8859_15 : list Z :=
  [0x0080; 0x0081; 0x0082; 0x0083; 0x0084; 0x0085; 0x0086; 0x0087] ++
  [0x0088; 0x0089; 0x008a; 0x008b; 0x008c; 0x008d; 0x008e; 0x008f] ++
  [0x0090; 0x0091; 0x0092; 0x0093; 0x0094; 0x0095; 0x0096; 0x0097] ++
  [0x0098; 0x0099; 0x009a; 0x009b; 0x009c; 0x009d; 0x009e; 0x009f] ++
  [0x00a0; 0x00a1; 0x00a2; 0x00a3; 0x20ac; 0x00a5; 0x0160; 0x00a7] ++
  [0x0161; 0x00a9; 0x00aa; 0x00ab; 0x00ac; 0x00ad; 0x00ae; 0x00af] ++
  [0x00b0; 0x00b1; 0x00b2; 0x00b3; 0x017d; 0x00b5; 0x00b6; 0x00b7] ++
  [0x017e; 0x00b9; 0x00ba; 0x00bb; 0x0152; 0x0153; 0x0178; 0x00bf] ++
  [0x00c0; 0x00c1; 0x00c2; 0x00c3; 0x00c4; 0x00c5; 0x00c6; 0x00c7] ++
  [0x00c8; 0x00c9; 0x00ca; 0x00cb; 0x00cc; 0x00cd; 0x00ce; 0x00cf] ++
  [0x00d0; 0x00d1; 0x00d2; 0x00d3; 0x00d4; 0x00d5; 0x00d6; 0x00d7] ++
  [0x00d8; 0x00d9; 0x00da; 0x00db; 0x00dc; 0x00dd; 0x00de; 0x00df] ++
  [0x00e0; 0x00e1; 0x00e2; 0x00e3; 0x00e4; 0x00e5; 0x00e6; 0x00e7] ++
  [0x00e8; 0x00e9; 0x00ea; 0x00eb; 0x00ec; 0x00ed; 0x00ee; 0x00ef] ++
  [0x00f0; 0x00f1; 0x00f2; 0x00f3; 0x00f4; 0x00f5; 0x00f6; 0x00f7] ++
  [0x00f8; 0x00f9; 0x00fa; 0x00fb; 0x00fc; 0x00fd; 0x00fe; 0x00ff].

(** [48 + 6 * 64] bytes. *)
Definition xmltranscodetable_ISO8859_15 : list Z :=
  c_string_literal [
    "\x00\x00\x01\x05\x00\x04\x00\x00\x00\x00\x00\x00\x00\x00\x00\x00";
    "\x00\x00\x00\x00\x00\x00\x00\x00\x00\x00\x00\x00\x00\x00\x00\x00";
    "\x00\x00\x02\x00\x00\x00\x00\x00\x00\x00\x00\x00\x00\x00\x00\x00";
    "\x00\x00\x00\x00\x00\x00\x00\x00\x00\x00\x00\x00\x00\x00\x00\x00";
    "\x00\x00\x00\x00\x00\x00\x00\x00\x00\x00\x00\x00\x00\x00\x00\x00";
    "\x00\x00\x00\x00\x00\x00\x00\x00\x00\x00\x00\x00\x00\x00\x00\x00";
    "\x00\x00\x00\x00\x00\x00\x00\x00\x00\x00\x00\x00\x00\x00\x00\x00";
    "\x80\x81\x82\x83\x84\x85\x86\x87\x88\x89\x8a\x8b\x8c\x8d\x8e\x8f";
    "\x90\x91\x92\x93\x94\x95\x96\x97\x98\x99\x9a\x9b\x9c\x9d\x9e\x9f";
    "\xa0\xa1\xa2\xa3\x00\xa5\x00\xa7\x00\xa9\xaa\xab\xac\xad\xae\xaf";
    "\xb0\xb1\xb2\xb3\x00\xb5\xb6\xb7\x00\xb9\xba\xbb\x00\x00\x00\xbf";
    "\x00\x00\x03\x00\x00\x00\x00\x00\x00\x00\x00\x00\x00\x00\x00\x00";
    "\x00\x00\x00\x00\x00\x00\x00\x00\x00\x00\x00\x00\x00\x00\x00\x00";
    "\x00\x00\x00\x00\x00\x00\x00\x00\x00\x00\x00\x00\x00\x00\x00\x00";
    "\x00\x00\x00\x00\x00\x00\x00\x00\x00\x00\x00\x00\x00\x00\x00\x00";
    "\x00\x00\x00\x00\x00\x00\x00\x00\x00\x00\x00\x00\x00\x00\x00\x00";
    "\x00\x00\x00\x00\x00\x00\x00\x00\x00\x00\x00\x00\x00\x00\x00\x00";
    "\x00\x00\x00\x00\x00\x00\x00\x00\x00\x00\x00\x00\xa4\x00\x00\x00";
    "\x00\x00\x00\x00\x00\x00\x00\x00\x00\x00\x00\x00\x00\x00\x00\x00";
    "\x00\x00\x00\x00\x00\x00\x00\x00\x00\x00\x00\x00\x00\x00\x00\x00";
    "\x00\x00\xbc\xbd\x00\x00\x00\x00\x00\x00\x00\x00\x00\x00\x00\x00";
    "\xa6\xa8\x00\x00\x00\x00\x00\x00\x00\x00\x00\x00\x00\x00\x00\x00";
    "\x00\x00\x00\x00\x00\x00\x00\x00\xbe\x00\x00\x00\x00\xb4\xb8\x00";
    "\xc0\xc1\xc2\xc3\xc4\xc5\xc6\xc7\xc8\xc9\xca\xcb\xcc\xcd\xce\xcf";
    "\xd0\xd1\xd2\xd3\xd4\xd5\xd6\xd7\xd8\xd9\xda\xdb\xdc\xdd\xde\xdf";
    "\xe0\xe1\xe2\xe3\xe4\xe5\xe6\xe7\xe8\xe9\xea\xeb\xec\xed\xee\xef";
    "\xf0\xf1\xf2\xf3\xf4\xf5\xf6\xf7\xf8\xf9\xfa\xfb\xfc\xfd\xfe\xff"
  ]%string.

Definition xmlunicodetable_ISO8859_16 : list Z :=
  [0x0080; 0x0081; 0x0082; 0x0083; 0x0084; 0x0085; 0x0086; 0x0087] ++
  [0x0088; 0x0089; 0x008a; 0x008b; 0x008c; 0x008d; 0x008e; 0x008f] ++
  [0x0090; 0x0091; 0x0092; 0x0093; 0x0094; 0x0095; 0x0096; 0x0097] ++
  [0x0098; 0x0099; 0x009a; 0x009b; 0x009c; 0x009d; 0x009e; 0x009f] ++
  [0x00a0; 0x0104; 0x0105; 0x0141; 0x20ac; 0x201e; 0x0160; 0x00a7] ++
  [0x0161; 0x00a9; 0x0218; 0x00ab; 0x0179; 0x00ad; 0x017a; 0x017b] ++
  [0x00b0; 0x00b1; 0x010c; 0x0142; 0x017d; 0x201d; 0x00b6; 0x00b7] ++
  [0x017e; 0x010d; 0x0219; 0x00bb; 0x0152; 0x0153; 0x0178; 0x017c] ++
  [0x00c0; 0x00c1; 0x00c2; 0x0102; 0x00c4; 0x0106; 0x00c6; 0x00c7] ++
  [0x00c8; 0x00c9; 0x00ca; 0x00cb; 0x00cc; 0x00cd; 0x00ce; 0x00cf] ++
  [0x0110; 0x0143; 0x00d2; 0x00d3; 0x00d4; 0x0150; 0x00d6; 0x015a] ++
  [0x0170; 0x00d9; 0x00da; 0x00db; 0x00dc; 0x0118; 0x021a; 0x00df] ++
  [0x00e0; 0x00e1; 0x00e2; 0x0103; 0x00e4; 0x0107; 0x00e6; 0x00e7] ++
  [0x00e8; 0x00e9; 0x00ea; 0x00eb; 0x00ec; 0x00ed; 0x00ee; 0x00ef] ++
  [0x0111; 0x0144; 0x00f2; 0x00f3; 0x00f4; 0x0151; 0x00f6; 0x015b] ++
  [0x0171; 0x00f9; 0x00fa; 0x00fb; 0x00fc; 0x0119; 0x021b; 0x00ff].

(** [48 + 9 * 64] bytes. *)
Definition xmltranscodetable_ISO8859_16 : list Z :=
  c_string_literal [
    "\x00\x00\x01\x08\x02\x03\x00\x00\x07\x00\x00\x00\x00\x00\x00\x00";
    "\x00\x00\x00\x00\x00\x00\x00\x00\x00\x00\x00\x00\x00\x00\x00\x00";
    "\x00\x00\x04\x00\x00\x00\x00\x00\x00\x00\x00\x00\x00\x00\x00\x00";
    "\x00\x00\x00\x00\x00\x00\x00\x00\x00\x00\x00\x00\x00\x00\x00\x00";
    "\x00\x00\x00\x00\x00\x00\x00\x00\x00\x00\x00\x00\x00\x00\x00\x00";
    "\x00\x00\x00\x00\x00\x00\x00\x00\x00\x00\x00\x00\x00\x00\x00\x00";
    "\x00\x00\x00\x00\x00\x00\x00\x00\x00\x00\x00\x00\x00\x00\x00\x00";
    "\x80\x81\x82\x83\x84\x85\x86\x87\x88\x89\x8a\x8b\x8c\x8d\x8e\x8f";
    "\x90\x91\x92\x93\x94\x95\x96\x97\x98\x99\x9a\x9b\x9c\x9d\x9e\x9f";
    "\xa0\x00\x00\x00\x00\x00\x00\xa7\x00\xa9\x00\xab\x00\xad\x00\x00";
    "\xb0\xb1\x00\x00\x00\x00\xb6\xb7\x00\x00\x00\xbb\x00\x00\x00\x00";
    "\x00\x00\xc3\xe3\xa1\xa2\xc5\xe5\x00\x00\x00\x00\xb2\xb9\x00\x00";
    "\xd0\xf0\x00\x00\x00\x00\x00\x00\xdd\xfd\x00\x00\x00\x00\x00\x00";
    "\x00\x00\x00\x00\x00\x00\x00\x00\x00\x00\x00\x00\x00\x00\x00\x00";
    "\x00\x00\x00\x00\x00\x00\x00\x00\x00\x00\x00\x00\x00\x00\x00\x00";
    "\x00\xa3\xb3\xd1\xf1\x00\x00\x00\x00\x00\x00\x00\x00\x00\x00\x00";
    "\xd5\xf5\xbc\xbd\x00\x00\x00\x00\x00\x00\xd7\xf7\x00\x00\x00\x00";
    "\xa6\xa8\x00\x00\x00\x00\x00\x00\x00\x00\x00\x00\x00\x00\x00\x00";
    "\xd8\xf8\x00\x00\x00\x00\x00\x00\xbe\xac\xae\xaf\xbf\xb4\xb8\x00";
    "\x06\x00\x05\x00\x00\x00\x00\x00\x00\x00\x00\x00\x00\x00\x00\x00";
    "\x00\x00\x00\x00\x00\x00\x00\x00\x00\x00\x00\x00\x00\x00\x00\x00";
    "\x00\x00\x00\x00\x00\x00\x00\x00\x00\x00\x00\x00\x00\x00\x00\x00";
    "\x00\x00\x00\x00\x00\x00\x00\x00\x00\x00\x00\x00\x00\x00\x00\x00";
    "\x00\x00\x00\x00\x00\x00\x00\x00\x00\x00\x00\x00\x00\x00\x00\x00";
    "\x00\x00\x00\x00\x00\x00\x00\x00\x00\x00\x00\x00\x00\x00\x00\x00";
    "\x00\x00\x00\x00\x00\x00\x00\x00\x00\x00\x00\x00\xa4\x00\x00\x00";
    "\x00\x00\x00\x00\x00\x00\x00\x00\x00\x00\x00\x00\x00\x00\x00\x00";
    "\x00\x00\x00\x00\x00\x00\x00\x00\x00\x00\x00\x00\x00\x00\x00\x00";
    "\x00\x00\x00\x00\x00\x00\x00\x00\x00\x00\x00\x00\x00\xb5\xa5\x00";
    "\x00\x00\x00\x00\x00\x00\x00\x00\x00\x00\x00\x00\x00\x00\x00\x00";
    "\x00\x00\x00\x00\x00\x00\x00\x00\x00\x00\x00\x00\x00\x00\x00\x00";
    "\x00\x00\x00\x00\x00\x00\x00\x00\x00\x00\x00\x00\x00\x00\x00\x00";
    "\x00\x00\x00\x00\x00\x00\x00\x00\xaa\xba\xde\xfe\x00\x00\x00\x00";
    "\x00\x00\x00\x00\x00\x00\x00\x00\x00\x00\x00\x00\x00\x00\x00\x00";
    "\x00\x00\x00\x00\x00\x00\x00\x00\x00\x00\x00\x00\x00\x00\x00\x00";
    "\xc0\xc1\xc2\x00\xc4\x00\xc6\xc7\xc8\xc9\xca\xcb\xcc\xcd\xce\xcf";
    "\x00\x00\xd2\xd3\xd4\x00\xd6\x00\x00\xd9\xda\xdb\xdc\x00\x00\xdf";
    "\xe0\xe1\xe2\x00\xe4\x00\xe6\xe7\xe8\xe9\xea\xeb\xec\xed\xee\xef";
    "\x00\x00\xf2\xf3\xf4\x00\xf6\x00\x00\xf9\xfa\xfb\xfc\x00\x00\xff"
  ]%string.

(** The auto-generated functions for ISO-8859-2 .. ISO-8859-16 call
    [ISO8859xToUTF8] and [UTF8ToISO8859x] with these pairs of tables. *)
Definition iso8859_tables : list (string * (list Z * list Z)) :=
  [ ("ISO-8859-2"%string,
     (xmlunicodetable_ISO8859_2, xmltranscodetable_ISO8859_2));
    ("ISO-8859-3"%string,
     (xmlunicodetable_ISO8859_3, xmltranscodetable_ISO8859_3));
    ("ISO-8859-4"%string,
     (xmlunicodetable_ISO8859_4, xmltranscodetable_ISO8859_4));
    ("ISO-8859-5"%string,
     (xmlunicodetable_ISO8859_5, xmltranscodetable_ISO8859_5));
    ("ISO-8859-6"%string,
     (xmlunicodetable_ISO8859_6, xmltranscodetable_ISO8859_6));
    ("ISO-8859-7"%string,
     (xmlunicodetable_ISO8859_7, xmltranscodetable_ISO8859_7));
    ("ISO-8859-8"%string,
     (xmlunicodetable_ISO8859_8, xmltranscodetable_ISO8859_8));
    ("ISO-8859-9"%string,
     (xmlunicodetable_ISO8859_9, xmltranscodetable_ISO8859_9));
    ("ISO-8859-10"%string,
     (xmlunicodetable_ISO8859_10, xmltranscodetable_ISO8859_10));
    ("ISO-8859-11"%string,
     (xmlunicodetable_ISO8859_11, xmltranscodetable_ISO8859_11));
    ("ISO-8859-13"%string,
     (xmlunicodetable_ISO8859_13, xmltranscodetable_ISO8859_13));
    ("ISO-8859-14"%string,
     (xmlunicodetable_ISO8859_14, xmltranscodetable_ISO8859_14));
    ("ISO-8859-15"%string,
     (xmlunicodetable_ISO8859_15, xmltranscodetable_ISO8859_15));
    ("ISO-8859-16"%string,
     (xmlunicodetable_ISO8859_16, xmltranscodetable_ISO8859_16)) ].

(** *** Reference notions for the tables *)

(** The look-up [UTF8ToISO8859x] makes for a code point below U+10000,
    written on the code point instead of on the bytes of its sequence:
    the six-bit groups of [c] are the indices into the blocks. *)
Definition xlat_of (xlattable : list Z) (c : Z) : Z :=
  if c <? 0x800 then
    table_at xlattable (48 + c mod 64 + table_at xlattable (c / 64) * 64)
  else
    table_at xlattable
      (48 + c mod 64 +
       table_at xlattable
         (48 + c / 64 mod 64 + table_at xlattable (32 + c / 4096) * 64)
       * 64).

(** The code point of a byte: itself below 0x80, the table above. *)
Definition iso_code_point (unicodetable : list Z) (b : Z) : Z :=
  if b <? 0x80 then b else table_at unicodetable (b - 0x80).

(** A byte that has a code point: any byte below 0x80, and above, a byte
    whose entry in the table is not zero. *)
Definition iso_defined (unicodetable : list Z) (b : Z) : Prop :=
  0 <= b < 0x100 /\ (0x80 <= b -> table_at unicodetable (b - 0x80) <> 0).

(** The UTF-8 text of a sequence of bytes of the character set. *)
Definition iso_text (unicodetable : list Z) (b : list Z) : list Z :=
  flat_map (fun x => utf8_seq (iso_code_point unicodetable x)) b.

(** The handler [defaultHandlers] holds for a pair of tables. *)
Definition iso8859_handler (t : string * (list Z * list Z))
    : xmlCharEncodingHandler :=
  mkHandler (fst t) (Some (ISO8859xToUTF8 (fst (snd t))))
    (Some (UTF8ToISO8859x (snd (snd t)))).

(** The two tables of a character set agree on the byte [b]: if [b] has a
    code point, the code point lies between U+0080 and U+FFFF and the
    transcoding table leads from it back to [b]. *)
Definition tables_agree_at (unicodetable xlattable : list Z) (b : Z)
    : bool :=
  let c := table_at unicodetable (b - 0x80) in
  (c =? 0) ||
  ((0x80 <=? c) && (c <? 0x10000) && (xlat_of xlattable c =? b)).

Definition tables_agree (unicodetable xlattable : list Z) : bool :=
  forall_range 128 0x80 (tables_agree_at unicodetable xlattable).

(** * Properties *)

(** ** The definitions at work *)

Example asciiToUTF8_copies :
  asciiToUTF8 16 [0x68; 0x69] = mkConv 2 [0x68; 0x69] 2 2.
Proof. reflexivity. Qed.

Example asciiToUTF8_high_bit :
  asciiToUTF8 16 [0x41; 0x80] = mkConv XML_ENC_ERR_INPUT [0x41] 1 1.
Proof. reflexivity. Qed.

Example UTF8Toascii_refuses_euro :
  UTF8Toascii 16 (Some euro_text) = mkConv XML_ENC_ERR_INPUT [0x41] 1 1.
Proof. reflexivity. Qed.

Example UTF8Toascii_truncated_sequence :
  UTF8Toascii 16 (Some [0x41; 0xE2; 0x82]) = mkConv 1 [0x41] 1 1.
Proof. reflexivity. Qed.

Example UTF16LEToUTF8_euro :
  UTF16LEToUTF8 true 16 [0xAC; 0x20] = mkConv 3 [0xE2; 0x82; 0xAC] 3 2.
Proof. reflexivity. Qed.

Example UTF16BEToUTF8_euro :
  UTF16BEToUTF8 true 16 [0x20; 0xAC] = mkConv 3 [0xE2; 0x82; 0xAC] 3 2.
Proof. reflexivity. Qed.

Example UTF16LEToUTF8_split_pair :
  UTF16LEToUTF8 true 16 [0x41; 0x00; 0x3D; 0xD8] = mkConv 1 [0x41] 1 2.
Proof. reflexivity. Qed.

Example UTF16LEToUTF8_odd_byte :
  UTF16LEToUTF8 false 16 [0x41; 0x00; 0x42] = mkConv 1 [0x41] 1 2.
Proof. reflexivity. Qed.

Example UTF8ToUTF16LE_pair :
  UTF8ToUTF16LE false 16 (Some [0xF0; 0x9F; 0x98; 0x80])
    = mkConv 4 [0x3D; 0xD8; 0x00; 0xDE] 4 4.
Proof. reflexivity. Qed.

Example UTF8ToUTF16LE_no_room_for_pair :
  UTF8ToUTF16LE true 3 (Some [0x41; 0xF0; 0x9F; 0x98; 0x80])
    = mkConv 2 [0x41; 0x00] 2 1.
Proof. reflexivity. Qed.

Example detect_utf8_bom :
  detect [0xEF; 0xBB; 0xBF; 0x3C] = XML_CHAR_ENCODING_UTF8.
Proof. reflexivity. Qed.

Example detect_needs_length :
  xmlDetectCharEncoding (Some [0xFF; 0xFE]) 1 = XML_CHAR_ENCODING_NONE.
Proof. reflexivity. Qed.

Example upper99_latin1 : upper99 "latin1" = "LATIN1"%string.
Proof. reflexivity. Qed.

Example xmlGetUTF8Char_euro :
  xmlGetUTF8Char [0xE2; 0x82; 0xAC; 0x42] 4 = (0x20AC, 3).
Proof. reflexivity. Qed.

Example xmlGetUTF8Char_lone_continuation :
  xmlGetUTF8Char [0x80] 1 = (-1, 0).
Proof. reflexivity. Qed.

Example format_charref_euro :
  format_charref 0x20AC = bytes_of_string "&#8364;".
Proof. reflexivity. Qed.

Example xmlCharEncOutFunc_init_call :
  xmlCharEncOutFunc 1 xmlAsciiHandler (mkBuffer [0x41] 8) None
    = Some (mkOut 0 (mkBuffer [0x41] 8) None).
Proof. reflexivity. Qed.

(** ** Lengths *)

Lemma len_nil {A} : len (@nil A) = 0.
Proof. reflexivity. Qed.

Lemma len_cons {A} (x : A) l : len (x :: l) = len l + 1.
Proof. unfold len. cbn [length]. lia. Qed.

Lemma len_app {A} (l1 l2 : list A) : len (l1 ++ l2) = len l1 + len l2.
Proof. unfold len. rewrite length_app. lia. Qed.

Lemma len_nonneg {A} (l : list A) : 0 <= len l.
Proof. unfold len. lia. Qed.

Lemma len_snoc {A} (l : list A) x : len (l ++ [x]) = len l + 1.
Proof. rewrite len_app, len_cons, len_nil. lia. Qed.

Ltac len_simpl :=
  repeat first
    [ rewrite len_snoc | rewrite len_app | rewrite len_cons
    | progress change (len (@nil Z)) with 0 ].

(** Settle the boolean comparisons of the goal from the arithmetic facts at
    hand. *)
Ltac zbool :=
  repeat match goal with
  | |- context [?a <? ?b] =>
      first [ rewrite (proj2 (Z.ltb_lt a b)) by lia
            | rewrite (proj2 (Z.ltb_ge a b)) by lia ]
  | |- context [?a <=? ?b] =>
      first [ rewrite (proj2 (Z.leb_le a b)) by lia
            | rewrite (proj2 (Z.leb_gt a b)) by lia ]
  | |- context [?a =? ?b] =>
      first [ rewrite (proj2 (Z.eqb_eq a b)) by lia
            | rewrite (proj2 (Z.eqb_neq a b)) by lia ]
  end.

(** ** ASCII to UTF-8 *)

(** On ASCII input the loop copies as many bytes as the guard
    [out - outstart + 5 < *outlen] lets through. *)
Lemma asciiToUTF8_loop_ascii outlen r : forall out p,
  Forall is_ascii r ->
  asciiToUTF8_loop outlen r out p =
    conv_done
      (out ++ take (Z.to_nat (Z.min (len r) (outlen - 5 - len out))) r)
      (p + Z.max 0 (Z.min (len r) (outlen - 5 - len out))).
Proof.
  induction r as [|c r IH]; intros out p Hr.
  - cbn [asciiToUTF8_loop]. rewrite take_nil, app_nil_r. len_simpl.
    pose proof (len_nonneg out). f_equal. lia.
  - inversion Hr as [|? ? Hc Hr']; subst. cbn [asciiToUTF8_loop].
    pose proof (len_nonneg out). pose proof (len_nonneg r).
    destruct (Z.ltb_spec (len out + 5) outlen) as [Hlt|Hge].
    + destruct Hc. zbool.
      rewrite IH by assumption. len_simpl.
      replace (Z.to_nat (Z.min (len r + 1) (outlen - 5 - len out)))
        with (S (Z.to_nat (Z.min (len r) (outlen - 5 - (len out + 1)))))
        by lia.
      cbn [take]. rewrite <- app_assoc. cbn [app]. f_equal. lia.
    + replace (Z.to_nat _) with 0%nat by (len_simpl; lia).
      rewrite take_0, app_nil_r. f_equal. len_simpl. lia.
Qed.

Lemma asciiToUTF8_ascii outlen src :
  Forall is_ascii src ->
  asciiToUTF8 outlen src =
    conv_done (take (Z.to_nat (Z.min (len src) (outlen - 5))) src)
      (Z.max 0 (Z.min (len src) (outlen - 5))).
Proof.
  intros H. unfold asciiToUTF8.
  rewrite asciiToUTF8_loop_ascii by assumption.
  len_simpl. rewrite Z.sub_0_r. reflexivity.
Qed.

(** The loop stops at once when the guard fails, whatever the input. *)
Lemma asciiToUTF8_loop_small outlen r out p :
  outlen <= len out + 5 ->
  asciiToUTF8_loop outlen r out p = conv_done out p.
Proof.
  destruct r as [|c r]; intros H; cbn [asciiToUTF8_loop]; [reflexivity|].
  zbool. reflexivity.
Qed.

(** Counts only grow along the loop. *)
Lemma asciiToUTF8_loop_mono outlen r : forall out p,
  p <= c_inlen (asciiToUTF8_loop outlen r out p) /\
  len out <= c_outlen (asciiToUTF8_loop outlen r out p).
Proof.
  induction r as [|d r IH]; intros out p; cbn [asciiToUTF8_loop].
  - cbn. lia.
  - repeat (case_match; cbn [conv_done conv_input_error c_inlen c_outlen];
            try lia).
    specialize (IH (out ++ [d]) (p + 1)). rewrite len_snoc in IH. lia.
Qed.

(** C10: a call of the ASCII decoder with room for at most 5 bytes consumes
    nothing, produces nothing and returns 0, whatever the input; hence a
    call that consumes something has room for 6 bytes at least, and with 6
    bytes or more an ASCII byte at the head of the input is consumed. *)
Theorem asciiToUTF8_needs_six_bytes (outlen : Z) (inb : list Z) :
  (outlen <= 5 -> asciiToUTF8 outlen inb = mkConv 0 [] 0 0) /\
  (0 < c_inlen (asciiToUTF8 outlen inb) -> 6 <= outlen) /\
  (forall c rest, inb = c :: rest -> is_ascii c -> 6 <= outlen ->
     0 < c_inlen (asciiToUTF8 outlen inb) /\
     0 < c_outlen (asciiToUTF8 outlen inb)).
Proof.
  assert (Hsmall : outlen <= 5 -> asciiToUTF8 outlen inb = mkConv 0 [] 0 0).
  { intros H. unfold asciiToUTF8.
    rewrite asciiToUTF8_loop_small by (len_simpl; lia). reflexivity. }
  split; [exact Hsmall|]. split.
  - intros Hpos. destruct (Z.le_gt_cases outlen 5) as [Hle|Hgt]; [|lia].
    rewrite (Hsmall Hle) in Hpos. cbn in Hpos. lia.
  - intros c rest -> [Hc0 Hc] Hcap. unfold asciiToUTF8.
    cbn [asciiToUTF8_loop]. len_simpl. zbool.
    pose proof (asciiToUTF8_loop_mono outlen rest ([] ++ [c]) (0 + 1)) as Hm.
    rewrite len_snoc in Hm. change (len (@nil Z)) with 0 in Hm. lia.
Qed.

Lemma asciiToUTF8_needs_six_bytes_witness :
  asciiToUTF8 5 [0x41; 0x42; 0x43] = mkConv 0 [] 0 0.
Proof.
  apply (proj1 (asciiToUTF8_needs_six_bytes 5 [0x41; 0x42; 0x43])). lia.
Defined.

(** ** The chunk functions *)

Lemma classify_counts_counts oldinlen r :
  c_out (classify_counts oldinlen r) = c_out r /\
  c_outlen (classify_counts oldinlen r) = c_outlen r /\
  c_inlen (classify_counts oldinlen r) = c_inlen r.
Proof. unfold classify_counts. repeat case_match; auto. Qed.

Lemma classify_counts_ret oldinlen r :
  0 <= c_ret r ->
  c_ret (classify_counts oldinlen r) =
    if c_inlen r <? oldinlen then
      if 0 <? c_outlen r then XML_ENC_ERR_SPACE else XML_ENC_ERR_PARTIAL
    else XML_ENC_ERR_SUCCESS.
Proof.
  intros H. unfold classify_counts. zbool. repeat case_match; reflexivity.
Qed.

(** An error of the converter goes through the classification as it is. *)
Lemma classify_counts_error oldinlen r :
  c_ret r < 0 -> classify_counts oldinlen r = r.
Proof. intros H. unfold classify_counts. zbool. reflexivity. Qed.

Lemma c_ret_if (b : bool) r v :
  c_ret (if b then with_ret r v else r) = if b then v else c_ret r.
Proof. destruct b; reflexivity. Qed.

(** The decode engine never returns [XML_ENC_ERR_PARTIAL]. *)
Lemma xmlEncInputChunk_not_partial handler outlen inb :
  c_ret (xmlEncInputChunk handler outlen inb) <> XML_ENC_ERR_PARTIAL.
Proof.
  unfold xmlEncInputChunk.
  destruct (Z.eqb_spec (c_ret (xmlEncInputChunk_raw handler outlen inb))
              XML_ENC_ERR_PARTIAL); cbn; [discriminate|assumption].
Qed.

(** Nor does the encode engine. *)
Lemma xmlEncOutputChunk_not_partial handler outlen inb :
  c_ret (xmlEncOutputChunk handler outlen inb) <> XML_ENC_ERR_PARTIAL.
Proof.
  unfold xmlEncOutputChunk.
  destruct (Z.eqb_spec (c_ret (xmlEncOutputChunk_raw handler outlen inb))
              XML_ENC_ERR_PARTIAL); cbn; [discriminate|assumption].
Qed.

(** C1, as the code has it: when the converter of a built-in handler returns
    a non-negative value and has not consumed all its input, the outcome is
    classified [XML_ENC_ERR_SPACE] if output was produced and
    [XML_ENC_ERR_PARTIAL] if none was; the decode engine then turns
    [XML_ENC_ERR_PARTIAL] into [XML_ENC_ERR_SUCCESS] and the encode engine
    turns it into [XML_ENC_ERR_INTERNAL], so that neither ever returns
    [XML_ENC_ERR_PARTIAL]; a negative return of the converter is handed on
    unchanged. *)
Theorem chunk_classification (handler : xmlCharEncodingHandler)
    (outlen : Z) (inb : list Z) :
  (forall fin, h_input handler = Some fin ->
     let r := fin outlen inb in
     (0 <= c_ret r -> c_inlen r < len inb ->
        (0 < c_outlen r ->
           c_ret (xmlEncInputChunk_raw handler outlen inb)
             = XML_ENC_ERR_SPACE /\
           c_ret (xmlEncInputChunk handler outlen inb) = XML_ENC_ERR_SPACE) /\
        (c_outlen r <= 0 ->
           c_ret (xmlEncInputChunk_raw handler outlen inb)
             = XML_ENC_ERR_PARTIAL /\
           c_ret (xmlEncInputChunk handler outlen inb)
             = XML_ENC_ERR_SUCCESS)) /\
     (c_ret r < 0 -> xmlEncInputChunk_raw handler outlen inb = r)) /\
  (forall fout, h_output handler = Some fout ->
     let r := fout outlen (Some inb) in
     (0 <= c_ret r -> c_inlen r < len inb ->
        (0 < c_outlen r ->
           c_ret (xmlEncOutputChunk_raw handler outlen (Some inb))
             = XML_ENC_ERR_SPACE /\
           c_ret (xmlEncOutputChunk handler outlen (Some inb))
             = XML_ENC_ERR_SPACE) /\
        (c_outlen r <= 0 ->
           c_ret (xmlEncOutputChunk_raw handler outlen (Some inb))
             = XML_ENC_ERR_PARTIAL /\
           c_ret (xmlEncOutputChunk handler outlen (Some inb))
             = XML_ENC_ERR_INTERNAL)) /\
     (c_ret r < 0 -> xmlEncOutputChunk_raw handler outlen (Some inb) = r)) /\
  c_ret (xmlEncInputChunk handler outlen inb) <> XML_ENC_ERR_PARTIAL /\
  c_ret (xmlEncOutputChunk handler outlen (Some inb)) <> XML_ENC_ERR_PARTIAL.
Proof.
  split; [|split; [|split]].
  - intros fin Hin r.
    unfold xmlEncInputChunk, xmlEncInputChunk_raw. rewrite Hin. fold r.
    split; [|intros; apply classify_counts_error; assumption].
    intros Hret Hlt. split; intros Ho;
      rewrite c_ret_if, !classify_counts_ret by assumption; zbool;
      split; reflexivity.
  - intros fout Hout r.
    unfold xmlEncOutputChunk, xmlEncOutputChunk_raw. rewrite Hout. fold r.
    cbn [inlen_of].
    split; [|intros; apply classify_counts_error; assumption].
    intros Hret Hlt. split; intros Ho;
      rewrite c_ret_if, !classify_counts_ret by assumption; zbool;
      split; reflexivity.
  - apply xmlEncInputChunk_not_partial.
  - apply xmlEncOutputChunk_not_partial.
Qed.

(** The built-in ASCII handler on two ASCII bytes with room for one. *)
Lemma chunk_classification_witness :
  c_ret (xmlEncInputChunk xmlAsciiHandler 6 [0x41; 0x42])
    = XML_ENC_ERR_SPACE.
Proof.
  pose proof (chunk_classification xmlAsciiHandler 6 [0x41; 0x42])
    as [H _].
  destruct (H asciiToUTF8 eq_refl) as [Hcount _].
  apply Hcount; vm_compute; first [reflexivity | discriminate].
Defined.

(** C1 as stated fails: the ASCII decoder on ["A"; 0x80] produces one byte
    and leaves one byte unconsumed, and the outcome is
    [XML_ENC_ERR_INPUT], not [XML_ENC_ERR_SPACE]. *)
Lemma chunk_error_is_not_space :
  ~ space_by_counts xmlAsciiHandler 16 [0x41; 0x80].
Proof.
  unfold space_by_counts. vm_compute. intros H.
  specialize (H eq_refl eq_refl). discriminate.
Qed.

(** ** Chunked conversion of an ASCII source *)

Lemma xmlEncInputChunk_ascii cap src :
  Forall is_ascii src -> 6 <= cap -> cap - 5 <= len src ->
  let r := xmlEncInputChunk xmlAsciiHandler cap src in
  c_out r = take (Z.to_nat (cap - 5)) src /\
  c_outlen r = cap - 5 /\
  c_inlen r = cap - 5 /\
  c_ret r = (if cap - 5 <? len src then XML_ENC_ERR_SPACE
             else XML_ENC_ERR_SUCCESS).
Proof.
  intros Hsrc Hcap Hlen.
  unfold xmlEncInputChunk, xmlEncInputChunk_raw. cbn [h_input xmlAsciiHandler].
  rewrite asciiToUTF8_ascii by assumption.
  replace (Z.min (len src) (cap - 5)) with (cap - 5) by lia.
  replace (Z.max 0 (cap - 5)) with (cap - 5) by lia.
  assert (Hl : len (take (Z.to_nat (cap - 5)) src) = cap - 5).
  { unfold len in *. rewrite length_take. lia. }
  unfold classify_counts, conv_done. cbn [c_ret c_inlen c_outlen c_out].
  rewrite Hl. zbool.
  destruct (Z.ltb_spec (cap - 5) (len src)); cbn; auto.
Qed.

(** With room for 5 bytes or fewer nothing is ever consumed. *)
Lemma convert_calls_stuck cap src : forall n,
  cap <= 5 ->
  convert_calls n xmlAsciiHandler cap src
    = (replicate n (mkConv XML_ENC_ERR_SUCCESS [] 0 0), src).
Proof.
  induction n as [|n IH]; intros Hcap; [reflexivity|].
  cbn [convert_calls].
  assert (Hr : xmlEncInputChunk xmlAsciiHandler cap src
               = mkConv XML_ENC_ERR_SUCCESS [] 0 0).
  { unfold xmlEncInputChunk, xmlEncInputChunk_raw.
    cbn [h_input xmlAsciiHandler].
    unfold asciiToUTF8.
    rewrite asciiToUTF8_loop_small by (len_simpl; lia).
    unfold classify_counts, conv_done. len_simpl. cbn [c_ret c_inlen c_outlen].
    destruct (0 <? len src); reflexivity. }
  rewrite Hr. change (drop _ src) with src. rewrite IH by assumption.
  reflexivity.
Qed.

Lemma convert_calls_S n handler cap src :
  convert_calls (S n) handler cap src =
    let r := xmlEncInputChunk handler cap src in
    let rest := drop (Z.to_nat (c_inlen r)) src in
    (r :: fst (convert_calls n handler cap rest),
     snd (convert_calls n handler cap rest)).
Proof.
  cbn [convert_calls]. cbv zeta.
  destruct (convert_calls n handler cap _); reflexivity.
Qed.

(** A source of [k] times [cap - 5] ASCII bytes goes through in [k] calls
    of [cap - 5] bytes each. *)
Lemma convert_calls_ascii cap : forall k src,
  6 <= cap ->
  Forall is_ascii src ->
  len src = Z.of_nat k * (cap - 5) ->
  chunked_in k xmlAsciiHandler cap (cap - 5) src.
Proof.
  unfold chunked_in.
  induction k as [|k IH]; intros src Hcap Hsrc Hlen.
  - destruct src as [|b src]; [|rewrite len_cons in Hlen;
      pose proof (len_nonneg src); lia].
    cbn. auto.
  - rewrite convert_calls_S. cbv zeta. cbn [fst snd].
    assert (Hper : cap - 5 <= len src) by nia.
    destruct (xmlEncInputChunk_ascii cap src Hsrc Hcap Hper)
      as (Hout & _ & Hin & _).
    rewrite Hin.
    destruct (IH (drop (Z.to_nat (cap - 5)) src)) as (Hall & Hrest & Hcat).
    + assumption.
    + apply Forall_drop. assumption.
    + unfold len in *. rewrite length_drop. lia.
    + split; [|split].
      * constructor; assumption.
      * assumption.
      * cbn [map concat]. rewrite Hcat, Hout. apply take_drop.
Qed.

(** C6, as the code has it: an ASCII source of 10,000 bytes driven into a
    destination of 9 bytes is consumed 4 bytes per call, and after 2500
    calls nothing is left and the outputs put end to end are the source;
    driven into a destination of 4 bytes no call consumes anything. *)
Theorem ascii_source_in_chunks (src : list Z) :
  Forall is_ascii src ->
  len src = 10000 ->
  chunked_in 2500 xmlAsciiHandler 9 4 src /\
  (forall n, convert_calls n xmlAsciiHandler 4 src
             = (replicate n (mkConv XML_ENC_ERR_SUCCESS [] 0 0), src)).
Proof.
  intros Hsrc Hlen. split.
  - apply (convert_calls_ascii 9 2500 src); [lia|assumption|].
    rewrite Hlen. reflexivity.
  - intros n. apply convert_calls_stuck. lia.
Qed.

Lemma replicate_ascii n : Forall is_ascii (replicate n 0x41).
Proof. apply Forall_replicate. unfold is_ascii. lia. Qed.

Lemma ascii_source_in_chunks_witness :
  chunked_in 2500 xmlAsciiHandler 9 4 (replicate (Z.to_nat 10000) 0x41).
Proof.
  apply (ascii_source_in_chunks (replicate (Z.to_nat 10000) 0x41)).
  - apply replicate_ascii.
  - unfold len. rewrite length_replicate. reflexivity.
Defined.

(** C6 as stated fails: with a destination of 4 bytes the guard of
    [asciiToUTF8] never lets the copy loop run, so no number of calls
    consumes the 10,000 bytes, let alone 4 bytes each. *)
Lemma four_byte_destination_stuck :
  ~ chunked_exactly xmlAsciiHandler 4 4 (replicate (Z.to_nat 10000) 0x41).
Proof.
  intros [n (_ & Hrest & _)].
  rewrite convert_calls_stuck in Hrest by lia. cbn [snd] in Hrest.
  apply (f_equal length) in Hrest. rewrite length_replicate in Hrest.
  cbn [length] in Hrest. lia.
Qed.

(** ** Encoding detection *)

Lemma match4_starts inb a b c d :
  match4 inb a b c d = true -> 4 <= len inb -> starts_with [a; b; c; d] inb.
Proof.
  unfold match4, byte_at. intros H Hl.
  destruct inb as [|x0 [|x1 [|x2 [|x3 rest]]]];
    repeat rewrite len_cons in Hl; change (len (@nil Z)) with 0 in Hl;
    try lia.
  cbn [nth] in H. rewrite !andb_true_iff, !Z.eqb_eq in H.
  destruct H as [[[-> ->] ->] ->]. exists rest. reflexivity.
Qed.

Lemma match3_starts inb a b c :
  match3 inb a b c = true -> 3 <= len inb -> starts_with [a; b; c] inb.
Proof.
  unfold match3, byte_at. intros H Hl.
  destruct inb as [|x0 [|x1 [|x2 rest]]];
    repeat rewrite len_cons in Hl; change (len (@nil Z)) with 0 in Hl;
    try lia.
  cbn [nth] in H. rewrite !andb_true_iff, !Z.eqb_eq in H.
  destruct H as [[-> ->] ->]. exists rest. reflexivity.
Qed.

Lemma match2_starts inb a b :
  match2 inb a b = true -> 2 <= len inb -> starts_with [a; b] inb.
Proof.
  unfold match2, byte_at. intros H Hl.
  destruct inb as [|x0 [|x1 rest]];
    repeat rewrite len_cons in Hl; change (len (@nil Z)) with 0 in Hl;
    try lia.
  cbn [nth] in H. rewrite !andb_true_iff, !Z.eqb_eq in H.
  destruct H as [-> ->]. exists rest. reflexivity.
Qed.

(** Below two bytes nothing is looked at. *)
Lemma xmlDetectCharEncoding_short inb n :
  n < 2 -> xmlDetectCharEncoding inb n = XML_CHAR_ENCODING_NONE.
Proof.
  intros H. destruct inb as [b|]; [|reflexivity].
  unfold xmlDetectCharEncoding, guarded. zbool. reflexivity.
Qed.

(** Whatever is found is one of the patterns, at the head of the input. *)
Lemma detect_sound b e :
  detect b = e -> e <> XML_CHAR_ENCODING_NONE ->
  exists p, In (p, e) detect_patterns /\ starts_with p b.
Proof.
  unfold detect, xmlDetectCharEncoding, guarded, detect4, detect3, detect2.
  destruct (Z.leb_spec 4 (len b)) as [H4|H4];
  destruct (Z.leb_spec 3 (len b)) as [H3|H3];
  destruct (Z.leb_spec 2 (len b)) as [H2|H2]; try lia.
  all: repeat match goal with
       | |- context [match4 ?l ?x0 ?x1 ?x2 ?x3] =>
           let E := fresh "E" in
           destruct (match4 l x0 x1 x2 x3) eqn:E;
           [ apply match4_starts in E; [|assumption]; intros <- _;
             eexists; split; [|exact E]; cbn; tauto | ]
       | |- context [match3 ?l ?x0 ?x1 ?x2] =>
           let E := fresh "E" in
           destruct (match3 l x0 x1 x2) eqn:E;
           [ apply match3_starts in E; [|lia]; intros <- _;
             eexists; split; [|exact E]; cbn; tauto | ]
       | |- context [match2 ?l ?x0 ?x1] =>
           let E := fresh "E" in
           destruct (match2 l x0 x1) eqn:E;
           [ apply match2_starts in E; [|lia]; intros <- _;
             eexists; split; [|exact E]; cbn; tauto | ]
       end.
  all: congruence.
Qed.

(** Only the first four bytes are looked at. *)
Lemma detect_leading_four b : detect b = detect (take 4 b).
Proof.
  destruct b as [|x0 [|x1 [|x2 [|x3 rest]]]]; try reflexivity.
  unfold detect, xmlDetectCharEncoding, guarded.
  pose proof (len_nonneg rest). cbn [take]. len_simpl. zbool. reflexivity.
Qed.

(** C4: the four literal vectors of the specification; the inputs of fewer
    than two bytes; the inputs that start with none of the patterns; and
    the result depends on the first four bytes only. *)
Theorem detect_leading_bytes :
  detect [0x3C; 0x3F; 0x78; 0x6D] = XML_CHAR_ENCODING_UTF8 /\
  detect [0xFE; 0xFF] = XML_CHAR_ENCODING_UTF16BE /\
  detect [0xFF; 0xFE] = XML_CHAR_ENCODING_UTF16LE /\
  detect [0x00; 0x00; 0x00; 0x3C] = XML_CHAR_ENCODING_UCS4BE /\
  detect [] = XML_CHAR_ENCODING_NONE /\
  (forall x, detect [x] = XML_CHAR_ENCODING_NONE) /\
  (forall inb n, n < 2 ->
     xmlDetectCharEncoding inb n = XML_CHAR_ENCODING_NONE) /\
  (forall b,
     (forall p e, In (p, e) detect_patterns -> ~ starts_with p b) ->
     detect b = XML_CHAR_ENCODING_NONE) /\
  (forall b, detect b = detect (take 4 b)).
Proof.
  repeat split; try reflexivity.
  - intros inb n H. apply xmlDetectCharEncoding_short. assumption.
  - intros b Hno.
    destruct (detect b) eqn:E; try reflexivity.
    all: destruct (detect_sound b _ E) as (p & Hin & Hp); [discriminate|].
    all: exfalso; exact (Hno _ _ Hin Hp).
  - apply detect_leading_four.
Qed.

Lemma detect_leading_bytes_witness :
  detect [0x41; 0x42; 0x43; 0x44] = XML_CHAR_ENCODING_NONE.
Proof.
  destruct detect_leading_bytes as (_ & _ & _ & _ & _ & _ & _ & H & _).
  apply H.
  intros p e Hin [rest Hrest]. cbn in Hin.
  repeat (destruct Hin as [Hin|Hin];
          [injection Hin as <- <-; discriminate Hrest|]).
  exact Hin.
Defined.

(** ** The alias registry *)

Lemma toupper_idem c : toupper (toupper c) = toupper c.
Proof. destruct c as [[] [] [] [] [] [] [] []]; reflexivity. Qed.

Lemma upper_loop_idem n : forall m s,
  (n <= m)%nat -> upper_loop m (upper_loop n s) = upper_loop n s.
Proof.
  induction n as [|n IH]; intros m s Hm; [destruct m; reflexivity|].
  destruct s as [|c s]; [destruct m; reflexivity|].
  destruct m as [|m]; [lia|]. cbn [upper_loop].
  rewrite toupper_idem, IH by lia. reflexivity.
Qed.

(** What [add] stores is left alone by a second uppercasing. *)
Lemma upper99_idem s : upper99 (upper99 s) = upper99 s.
Proof. apply upper_loop_idem. lia. Qed.

Lemma alias_init_wf : alias_wf alias_init.
Proof. repeat split; [constructor|constructor]. Qed.

Lemma find_alias_none key t :
  find_alias key t = None <-> ~ In key (map a_alias t).
Proof.
  induction t as [|e t IH]; cbn; [tauto|].
  destruct (String.eqb_spec (a_alias e) key); [|tauto].
  split; [discriminate|]. tauto.
Qed.

Lemma replace_alias_none key name t :
  replace_alias key name t = None <-> ~ In key (map a_alias t).
Proof.
  induction t as [|e t IH]; cbn; [tauto|].
  destruct (String.eqb_spec (a_alias e) key); [split; [discriminate|tauto]|].
  destruct (replace_alias key name t); cbn; [|tauto].
  split; [discriminate|]. intros H.
  assert (Hx : Some l = None) by (apply IH; tauto). discriminate.
Qed.

Lemma replace_alias_some key name t t' :
  replace_alias key name t = Some t' ->
  map a_alias t' = map a_alias t /\
  find_alias key t' = Some (mkAlias name key).
Proof.
  revert t'. induction t as [|e t IH]; intros t'; cbn; [discriminate|].
  destruct (String.eqb_spec (a_alias e) key) as [->|Hne].
  - intros [= <-]. cbn. rewrite String.eqb_refl. auto.
  - destruct (replace_alias key name t) as [t1|]; [|discriminate].
    intros [= <-]. destruct (IH t1 eq_refl) as [Hm Hf]. cbn.
    rewrite Hm, Hf. destruct (String.eqb_spec (a_alias e) key); tauto.
Qed.

Lemma Forall_same_aliases (P : string -> Prop) t t' :
  map a_alias t' = map a_alias t ->
  Forall (fun e => P (a_alias e)) t -> Forall (fun e => P (a_alias e)) t'.
Proof.
  intros Hmap H. rewrite List.Forall_forall in *. intros e He.
  assert (Hin : In (a_alias e) (map a_alias t))
    by (rewrite <- Hmap; apply in_map; assumption).
  apply in_map_iff in Hin as (e0 & Heq & He0).
  rewrite <- Heq. apply H. exact He0.
Qed.



Lemma remove_alias_some key t t' :
  remove_alias key t = Some t' ->
  NoDup (map a_alias t) ->
  ~ In key (map a_alias t') /\ NoDup (map a_alias t') /\
  (forall e, In e t' -> In e t).
Proof.
  revert t'. induction t as [|e t IH]; intros t'; cbn; [discriminate|].
  destruct (String.eqb_spec (a_alias e) key) as [->|Hne].
  - intros H Hnd. apply NoDup_cons in Hnd as [Hnotin Hnd].
    injection H as <-. rewrite list_elem_of_In in Hnotin. auto.
  - destruct (remove_alias key t) as [t1|]; [|discriminate].
    intros H Hnd. apply NoDup_cons in Hnd as [Hnotin Hnd].
    injection H as <-. destruct (IH t1 eq_refl Hnd) as (H1 & H2 & H3).
    cbn. split; [tauto|]. split.
    + apply NoDup_cons. split; [|assumption].
      rewrite list_elem_of_In in *. intros Hin. apply Hnotin.
      apply in_map_iff in Hin as (x & <- & Hx). apply in_map. auto.
    + intros x [->|Hx]; auto.
Qed.

Lemma alias_entries_mk t m : alias_entries (mkAliases (Some t) m) = t.
Proof. reflexivity. Qed.






(** ** The handler registry *)

Lemma registry_init_wf hp : registry_wf (registry_init hp).
Proof. unfold registry_wf, MAX_ENCODING_HANDLERS. cbn. lia. Qed.

(** After [free_handler] the block of the handler is gone, and so is the
    block of its name; every other block is as before. *)
Lemma free_handler_spec hp h :
  free_handler hp h !! h = None /\
  (forall n, hp !! h = Some (BHandler (Some n)) ->
     free_handler hp h !! n = None) /\
  (forall p, p <> h -> hp !! h <> Some (BHandler (Some p)) ->
     free_handler hp h !! p = hp !! p).
Proof.
  unfold free_handler.
  destruct (hp !! h) as [[s|[n|]]|] eqn:Hh.
  - split; [apply lookup_delete_eq|]. split; [discriminate|].
    intros p Hp _. apply lookup_delete_ne. congruence.
  - split; [apply lookup_delete_eq|]. split.
    + intros n' [= <-]. destruct (decide (h = n)) as [->|Hne].
      * apply lookup_delete_eq.
      * rewrite lookup_delete_ne by assumption. apply lookup_delete_eq.
    + intros p Hp Hn. rewrite lookup_delete_ne by congruence.
      apply lookup_delete_ne. congruence.
  - split; [apply lookup_delete_eq|]. split; [discriminate|].
    intros p Hp _. apply lookup_delete_ne. congruence.
  - split; [apply lookup_delete_eq|]. split; [discriminate|].
    intros p Hp _. apply lookup_delete_ne. congruence.
Qed.

(** One registration keeps the invariant. *)
Lemma xmlRegisterCharEncodingHandler_wf ok st handler :
  registry_wf st -> registry_wf (xmlRegisterCharEncodingHandler ok st handler).
Proof.
  unfold registry_wf, xmlRegisterCharEncodingHandler, MAX_ENCODING_HANDLERS.
  intros [Hnb Ht]. destruct handler as [h|]; [|auto].
  destruct (handlers st) as [t|]; [|destruct ok].
  - destruct (Z.leb_spec 50 (nbCharEncodingHandler st)); cbn; [auto|].
    split; [lia|]. unfold len in *. rewrite length_insert. assumption.
  - rewrite Ht. cbn. split; [lia|]. reflexivity.
  - cbn. auto.
Qed.

Lemma register_all_wf regs : forall st,
  registry_wf st -> registry_wf (register_all regs st).
Proof.
  induction regs as [|r regs IH]; intros st H; [assumption|].
  cbn. apply IH, xmlRegisterCharEncodingHandler_wf, H.
Qed.

Lemma registered_length st :
  registry_wf st -> len (registered st) = nbCharEncodingHandler st.
Proof.
  unfold registry_wf, registered. intros [Hnb Ht]. revert Ht.
  destruct (handlers st) as [t|]; intros Ht;
    [|change (len (@nil (option ptr))) with 0; lia].
  unfold len in *. rewrite length_take. lia.
Qed.

(** C8: registering into a full registry changes neither the table nor the
    count and frees the rejected handler together with its name; and
    whatever registrations are made from the empty registry, it never
    holds more than 50 handlers. *)
Theorem registry_capacity (ok : bool) (st : registry) (h : ptr) :
  registry_wf st ->
  nbCharEncodingHandler st = MAX_ENCODING_HANDLERS ->
  let st' := xmlRegisterCharEncodingHandler ok st (Some h) in
  (handlers st' = handlers st /\
   nbCharEncodingHandler st' = nbCharEncodingHandler st /\
   registered st' = registered st) /\
  (heap st' !! h = None /\
   (forall n, heap st !! h = Some (BHandler (Some n)) ->
      heap st' !! n = None) /\
   (forall p, p <> h -> heap st !! h <> Some (BHandler (Some p)) ->
      heap st' !! p = heap st !! p)) /\
  (forall regs hp,
     let final := register_all regs (registry_init hp) in
     nbCharEncodingHandler final <= 50 /\
     len (registered final) <= 50).
Proof.
  intros [Hnb Ht] Hfull st'. subst st'.
  unfold xmlRegisterCharEncodingHandler.
  destruct (handlers st) as [t|] eqn:Hh;
    [|unfold MAX_ENCODING_HANDLERS in *; lia].
  rewrite Hfull, Z.leb_refl.
  split; [|split].
  - unfold registered. cbn [handlers nbCharEncodingHandler].
    rewrite Hh, Hfull. auto.
  - cbn [heap]. apply free_handler_spec.
  - intros regs hp. cbv zeta.
    pose proof (register_all_wf regs _ (registry_init_wf hp)) as Hwf.
    rewrite registered_length by assumption.
    destruct Hwf as [Hb _]. unfold MAX_ENCODING_HANDLERS in Hb. lia.
Qed.

(** A fifty-first registration into [full_registry]. *)
Lemma registry_capacity_witness :
  nbCharEncodingHandler
    (xmlRegisterCharEncodingHandler true full_registry (Some 1000%positive))
    = 50 /\
  heap (xmlRegisterCharEncodingHandler true full_registry
          (Some 1000%positive)) !! 1000%positive = None /\
  heap (xmlRegisterCharEncodingHandler true full_registry
          (Some 1000%positive)) !! 1001%positive = None.
Proof.
  assert (Hwf : registry_wf full_registry)
    by (apply register_all_wf, registry_init_wf).
  assert (Hfull : nbCharEncodingHandler full_registry = MAX_ENCODING_HANDLERS)
    by (vm_compute; reflexivity).
  destruct (registry_capacity true full_registry 1000%positive Hwf Hfull)
    as ((_ & Hnb & _) & (Hh & Hn & _) & _).
  split; [exact (eq_trans Hnb Hfull)|]. split; [exact Hh|].
  apply Hn. vm_compute. reflexivity.
Defined.

(** ** The encode front-end *)

Lemma use_add b stored : use (buffer_add b stored) = use b + len stored.
Proof. unfold use, buffer_add. cbn [content]. apply len_app. Qed.

(** A value within the range of the type is not changed by the wrap. *)
Lemma wrap_int_small z : - 2 ^ 31 <= z < 2 ^ 31 -> wrap_int z = z.
Proof.
  intros H. unfold wrap_int. rewrite Z.mod_small by lia. lia.
Qed.

Lemma wrap_uint_small z : 0 <= z < 2 ^ 32 -> wrap_uint z = z.
Proof. intros H. unfold wrap_uint. apply Z.mod_small. lia. Qed.

(** A converter that reports all the bytes it stored adds them all. *)
Lemma buffer_add_len_stored b r :
  c_outlen r = len (c_out r) ->
  buffer_add_len b r = buffer_add b (c_out r).
Proof.
  intros H. unfold buffer_add_len. rewrite H. unfold len.
  rewrite Nat2Z.id, take_ge by lia. reflexivity.
Qed.

(** [xmlBufferGrow] keeps the bytes and leaves more than [n] bytes free. *)
Lemma xmlBufferGrow_spec b n :
  use b <= size b -> 0 <= n ->
  content (xmlBufferGrow b n) = content b /\
  use (xmlBufferGrow b n) = use b /\
  n < size (xmlBufferGrow b n) - use b.
Proof.
  intros Hwf Hn. unfold xmlBufferGrow.
  destruct (Z.ltb_spec n (size b - use b)); [auto|].
  destruct (Z.ltb_spec n (size b)); unfold use; cbn [content size];
    fold (use b); repeat split; lia.
Qed.

(** While [toconv * 4] fits an [int], the room secured is at least that
    product. *)
Lemma out_room_spec out toconv :
  use out <= size out -> 0 <= toconv -> toconv * 4 < 2 ^ 31 ->
  content (fst (out_room out toconv)) = content out /\
  snd (out_room out toconv)
    = size (fst (out_room out toconv)) - use out - 1 /\
  toconv * 4 <= snd (out_room out toconv).
Proof.
  intros Hwf Ht Hint. unfold out_room, out_avail.
  rewrite wrap_int_small, wrap_uint_small by lia.
  destruct (Z.leb_spec (if 0 <? size out - use out
                        then size out - use out - 1
                        else size out - use out) (toconv * 4)) as [Hle|Hgt].
  - destruct (xmlBufferGrow_spec out (toconv * 4) Hwf) as (Hc & Hu & Hr);
      [lia|].
    cbn [fst snd]. rewrite Hu. repeat split; [assumption|lia].
  - cbn [fst snd]. destruct (Z.ltb_spec 0 (size out - use out));
      repeat split; lia.
Qed.

(** One turn of the loop of [UTF8Toascii] on an ASCII byte. *)
Lemma UTF8Toascii_loop_head fuel inlen outlen d l out p :
  is_ascii d -> len out < outlen ->
  UTF8Toascii_loop (S fuel) inlen outlen (d :: l) out p
    = UTF8Toascii_loop fuel inlen outlen l (out ++ [d]) (inlen - len l).
Proof.
  intros [Hd0 Hd] Hroom. pose proof (len_nonneg l).
  cbn [UTF8Toascii_loop]. unfold utf8_lead. zbool.
  cbn [utf8_trailing]. change (Z.of_nat 0) with 0. zbool. reflexivity.
Qed.

(** On ASCII input with room for all of it [UTF8Toascii] copies it. *)
Lemma UTF8Toascii_loop_ascii inlen outlen l : forall fuel out p,
  (length l <= fuel)%nat ->
  Forall is_ascii l ->
  len out + len l <= outlen ->
  p = inlen - len l ->
  UTF8Toascii_loop fuel inlen outlen l out p = conv_done (out ++ l) inlen.
Proof.
  induction l as [|d l IH]; intros fuel out p Hf Hl Hroom Hp.
  - rewrite app_nil_r. change (len (@nil Z)) with 0 in Hp.
    replace p with inlen by lia. destruct fuel; reflexivity.
  - destruct fuel as [|fuel]; [cbn in Hf; lia|].
    inversion Hl as [|? ? [Hd0 Hd] Hl']; subst.
    rewrite len_cons in Hroom. pose proof (len_nonneg l).
    rewrite UTF8Toascii_loop_head by (unfold is_ascii; lia).
    rewrite IH; [|cbn in Hf; lia|assumption|len_simpl; lia|reflexivity].
    rewrite <- app_assoc. reflexivity.
Qed.

Lemma UTF8Toascii_ascii outlen l :
  Forall is_ascii l -> len l <= outlen ->
  UTF8Toascii outlen (Some l) = conv_done l (len l).
Proof.
  intros Hl Hroom. unfold UTF8Toascii.
  rewrite (UTF8Toascii_loop_ascii (len l) outlen l (length l) [] 0);
    [reflexivity|lia|assumption|len_simpl; lia|lia].
Qed.

Lemma xmlEncOutputChunk_ascii outlen l :
  Forall is_ascii l -> len l <= outlen ->
  xmlEncOutputChunk xmlAsciiHandler outlen (Some l)
    = mkConv XML_ENC_ERR_SUCCESS l (len l) (len l).
Proof.
  intros Hl Hroom. unfold xmlEncOutputChunk, xmlEncOutputChunk_raw.
  cbn [h_output xmlAsciiHandler inlen_of].
  rewrite UTF8Toascii_ascii by assumption.
  unfold classify_counts, conv_done. cbn [c_ret c_inlen c_outlen].
  pose proof (len_nonneg l). zbool. reflexivity.
Qed.


Ltac ascii_list :=
  repeat (apply List.Forall_cons; [unfold is_ascii; lia|]);
  apply List.Forall_nil.




(** ** The fallback that cannot decode the offender *)

(** What the code under [error] returns for [XML_ENC_ERR_INPUT]. *)
Lemma xmlCharEncOutput_error_input handler err wt out inb :
  xmlCharEncOutput_error handler err XML_ENC_ERR_INPUT wt out inb
  = if wt <=? 0 then
      (XML_ENC_ERR_INPUT,
       mkOutput handler (Some inb) (Some out)
         (match err with XML_ERR_OK => XML_ERR_INVALID_ENCODING | e => e end))
    else (wt, mkOutput handler (Some inb) (Some out) err).
Proof.
  unfold xmlCharEncOutput_error.
  change (XML_ENC_ERR_INPUT =? 0) with false.
  change (XML_ENC_ERR_INPUT =? XML_ENC_ERR_MEMORY) with false.
  change (xmlEncConvertError XML_ENC_ERR_INPUT) with XML_ERR_INVALID_ENCODING.
  cbn [negb]. rewrite andb_true_r, orb_false_r. reflexivity.
Qed.

(** C9, as the code has it.  When the chunk of a turn stops with
    [XML_ENC_ERR_INPUT], having reported no more bytes than it stored, and
    [xmlGetUTF8Char] cannot decode what is then at the head of the source,
    [xmlCharEncOutFunc] returns that [XML_ENC_ERR_INPUT], and
    [xmlCharEncOutput] returns it as well when the call has written
    nothing (recording an invalid-encoding error if none was recorded),
    and the number of bytes written otherwise: neither returns
    [XML_ENC_ERR_INTERNAL].  The output has gained the bytes the converter
    reported, and the source has lost those it consumed. *)
Theorem undecodable_offender_is_input_error (fuel : nat)
    (handler : xmlCharEncodingHandler) (out inb : xmlBuffer) (wt : Z)
    (err : xmlParserErrors) (o : xmlBuffer) (w : Z) :
  (let r :=
     xmlEncOutputChunk handler (snd (out_room out (use inb)))
       (Some (content inb)) in
   undecodable_offender handler out inb ->
   0 <= c_outlen r <= len (c_out r) ->
   xmlCharEncOutFunc_retry (S fuel) handler out (Some inb) wt
   = Some (mkOut XML_ENC_ERR_INPUT
             (buffer_add_len (fst (out_room out (use inb))) r)
             (Some (xmlBufferShrink inb (c_inlen r))))) /\
  (output_room out (output_toconv inb) = Some (o, w) ->
   let r :=
     xmlEncOutputChunk handler w
       (Some (take (Z.to_nat (output_toconv inb)) (content inb))) in
   let inb' := xmlBufferShrink inb (c_inlen r) in
   let wt' := wt + c_outlen r in
   c_ret r = XML_ENC_ERR_INPUT ->
   0 <= c_outlen r <= len (c_out r) ->
   fst (xmlGetUTF8Char (content inb') (use inb')) <= 0 ->
   exists output',
     xmlCharEncOutput_retry (S fuel) handler err false out inb wt
     = Some (if wt' <=? 0 then XML_ENC_ERR_INPUT else wt', output') /\
     fst (if wt' <=? 0 then XML_ENC_ERR_INPUT else wt', output')
       <> XML_ENC_ERR_INTERNAL /\
     conv output' = Some (buffer_add_len o r) /\
     buffer output' = Some inb' /\
     (wt' <= 0 ->
      error output' = match err with
                      | XML_ERR_OK => XML_ERR_INVALID_ENCODING
                      | e => e
                      end)).
Proof.
  split.
  - unfold undecodable_offender. cbv zeta. intros [Hret Hcur] _.
    cbn [xmlCharEncOutFunc_retry].
    destruct (out_room out (use inb)) as [o1 w1]. cbn [fst snd] in *.
    rewrite Hret.
    change (XML_ENC_ERR_INPUT =? XML_ENC_ERR_SPACE) with false.
    change (XML_ENC_ERR_INPUT =? XML_ENC_ERR_INPUT) with true.
    cbv iota. unfold charref_fallback.
    destruct (xmlGetUTF8Char _ _) as [cur n]. cbn [fst] in Hcur.
    zbool. reflexivity.
  - intros Hroom r inb' wt' Hret _ Hcur.
    cbn [xmlCharEncOutput_retry]. rewrite Hroom. fold r. rewrite Hret.
    change (XML_ENC_ERR_INPUT =? XML_ENC_ERR_SPACE) with false.
    change (XML_ENC_ERR_INPUT =? XML_ENC_ERR_INPUT) with true.
    cbv iota. fold inb'.
    destruct (xmlGetUTF8Char (content inb') (use inb')) as [cur n].
    cbn [fst] in Hcur. zbool. fold wt'.
    rewrite xmlCharEncOutput_error_input.
    destruct (Z.leb_spec wt' 0) as [Hle|Hgt].
    + eexists. split; [reflexivity|]. cbn [fst conv buffer error].
      repeat split; discriminate.
    + eexists. split; [reflexivity|]. cbn [fst conv buffer error].
      repeat split; [unfold XML_ENC_ERR_INTERNAL|]; lia.
Qed.

(** The ASCII handler on the single byte [0x80], which is no UTF-8
    sequence: both front-ends return [XML_ENC_ERR_INPUT]. *)
Lemma undecodable_offender_is_input_error_witness :
  xmlCharEncOutFunc 1 xmlAsciiHandler (mkBuffer [] 1)
    (Some (mkBuffer [0x80] 2))
  = Some (mkOut XML_ENC_ERR_INPUT (mkBuffer [] 104)
            (Some (mkBuffer [0x80] 2))) /\
  exists output',
    xmlCharEncOutput 1
      (mkOutput (Some xmlAsciiHandler) (Some (mkBuffer [0x80] 2))
         (Some (mkBuffer [] 1)) XML_ERR_OK) false
    = Some (XML_ENC_ERR_INPUT, output') /\
    error output' = XML_ERR_INVALID_ENCODING.
Proof.
  pose proof (undecodable_offender_is_input_error 0 xmlAsciiHandler
                (mkBuffer [] 1) (mkBuffer [0x80] 2) 0 XML_ERR_OK
                (mkBuffer [] 104) 103) as [HA HB].
  split.
  - apply HA.
    + vm_compute. split; [reflexivity|discriminate].
    + vm_compute. split; discriminate.
  - destruct HB as (output' & Hrun & _ & _ & _ & Herr);
      [reflexivity|reflexivity|vm_compute; split; discriminate
      |vm_compute; discriminate|].
    exists output'. split; [exact Hrun|]. apply Herr. vm_compute.
    discriminate.
Defined.

(** C9 as stated fails: with the ASCII handler and the source [0x80] the
    offender cannot be decoded, and the call returns
    [XML_ENC_ERR_INPUT], not [XML_ENC_ERR_INTERNAL]. *)
Lemma undecodable_offender_not_internal :
  ~ (undecodable_offender xmlAsciiHandler (mkBuffer [] 1) (mkBuffer [0x80] 2)
     -> returns_code XML_ENC_ERR_INTERNAL 1 xmlAsciiHandler
          (mkBuffer [] 1) (mkBuffer [0x80] 2)).
Proof.
  intros H. destruct H as (res & Hrun & Hcode).
  - vm_compute. split; [reflexivity|discriminate].
  - vm_compute in Hrun. injection Hrun as <-. discriminate Hcode.
Qed.

(** ** Bit arithmetic of the transcoders *)

Local Ltac Zify.zify_post_hook ::= Z.to_euclidean_division_equations.

(** Masking with [2^m - 1] after a right shift is division and remainder. *)
Lemma land_shiftr_ones c k m :
  0 <= k -> 0 <= m ->
  Z.land (Z.shiftr c k) (Z.ones m) = (c / 2 ^ k) mod 2 ^ m.
Proof.
  intros Hk Hm. rewrite Z.shiftr_div_pow2, Z.land_ones by assumption.
  reflexivity.
Qed.

(** Bits below [k] and bits from [k] up do not meet. *)
Lemma land_shiftl_low a g k :
  0 <= k -> 0 <= g < 2 ^ k -> Z.land (Z.shiftl a k) g = 0.
Proof.
  intros Hk Hg.
  rewrite <- (Z.mod_small g (2 ^ k)) by assumption.
  rewrite <- Z.land_ones by assumption.
  rewrite (Z.land_comm g), Z.land_assoc, Z.land_ones by assumption.
  rewrite Z.shiftl_mul_pow2 by assumption.
  rewrite Z.mod_mul by (apply Z.pow_nonzero; lia).
  apply Z.land_0_l.
Qed.

(** [(a << k) | g] is [a * 2^k + g] when [g] fits in [k] bits. *)
Lemma lor_shiftl_add a g k :
  0 <= k -> 0 <= g < 2 ^ k -> Z.lor (Z.shiftl a k) g = a * 2 ^ k + g.
Proof.
  intros Hk Hg.
  rewrite <- Z.lxor_lor, <- Z.add_nocarry_lxor
    by (apply land_shiftl_low; assumption).
  rewrite Z.shiftl_mul_pow2 by assumption. reflexivity.
Qed.

Lemma lor_add_low a g k :
  0 <= k -> 0 <= g < 2 ^ k -> Z.lor (a * 2 ^ k) g = a * 2 ^ k + g.
Proof.
  intros Hk Hg. rewrite <- lor_shiftl_add by assumption.
  rewrite Z.shiftl_mul_pow2 by assumption. reflexivity.
Qed.

(** The six-bit group of [c] at [bits], as the continuation byte holds it. *)
Lemma group_div_mod c bits :
  0 <= bits ->
  Z.land (Z.shiftr c bits) 0x3F = (c / 2 ^ bits) mod 64.
Proof. intros H. apply (land_shiftr_ones c bits 6); lia. Qed.

Lemma forall_range_spec f : forall n lo,
  forall_range n lo f = true ->
  forall z, lo <= z < lo + Z.of_nat n -> f z = true.
Proof.
  induction n as [|n IH]; intros lo H z Hz; [lia|].
  cbn [forall_range] in H. apply andb_true_iff in H as [H0 H].
  destruct (Z.eq_dec z lo) as [->|Hne]; [assumption|].
  apply (IH (lo + 1)); [assumption|lia].
Qed.

Lemma forall_range_Z f n lo :
  forall_range (Z.to_nat n) lo f = true ->
  forall z, lo <= z < lo + n -> f z = true.
Proof.
  intros H z Hz. apply (forall_range_spec f (Z.to_nat n) lo H). lia.
Qed.

(** Prove [f z = true] for [lo <= z < lo + n] by running [f]. *)
Ltac by_enumeration f n lo :=
  let H := fresh in
  assert (H : forall_range (Z.to_nat n) lo f = true)
    by (vm_compute; reflexivity);
  apply (forall_range_Z f n lo H); lia.

(** A continuation byte: its two top bits are [10], its low six bits are
    the group. *)
Lemma continuation_byte g :
  0 <= g < 64 ->
  Z.lor g 0x80 = g + 128 /\
  Z.land (Z.lor g 0x80) 0xC0 = 0x80 /\
  Z.land (Z.lor g 0x80) 0x3F = g.
Proof.
  intros Hg.
  pose (f := fun g => (Z.lor g 0x80 =? g + 128) &&
                        (Z.land (Z.lor g 0x80) 0xC0 =? 0x80) &&
                        (Z.land (Z.lor g 0x80) 0x3F =? g)).
  assert (H : f g = true) by (by_enumeration f 64 0).
  subst f.
  cbv beta in H. rewrite !andb_true_iff, !Z.eqb_eq in H. tauto.
Qed.

(** The lead bytes of two, three and four byte sequences. *)
Lemma lead_byte_2 x :
  0 <= x < 32 ->
  0xC0 <= Z.lor x 0xC0 < 0xE0 /\ Z.land (Z.lor x 0xC0) 0x1F = x.
Proof.
  intros Hx.
  pose (f := fun x => (0xC0 <=? Z.lor x 0xC0) && (Z.lor x 0xC0 <? 0xE0) &&
                        (Z.land (Z.lor x 0xC0) 0x1F =? x)).
  assert (H : f x = true) by (by_enumeration f 32 0).
  subst f.
  cbv beta in H. rewrite !andb_true_iff, Z.eqb_eq, Z.leb_le, Z.ltb_lt in H.
  tauto.
Qed.

Lemma lead_byte_3 x :
  0 <= x < 16 ->
  0xE0 <= Z.lor x 0xE0 < 0xF0 /\ Z.land (Z.lor x 0xE0) 0x0F = x.
Proof.
  intros Hx.
  pose (f := fun x => (0xE0 <=? Z.lor x 0xE0) && (Z.lor x 0xE0 <? 0xF0) &&
                        (Z.land (Z.lor x 0xE0) 0x0F =? x)).
  assert (H : f x = true) by (by_enumeration f 16 0).
  subst f.
  cbv beta in H. rewrite !andb_true_iff, Z.eqb_eq, Z.leb_le, Z.ltb_lt in H.
  tauto.
Qed.

Lemma lead_byte_4 x :
  0 <= x < 8 ->
  0xF0 <= Z.lor x 0xF0 < 0xF8 /\ Z.land (Z.lor x 0xF0) 0x07 = x.
Proof.
  intros Hx.
  pose (f := fun x => (0xF0 <=? Z.lor x 0xF0) && (Z.lor x 0xF0 <? 0xF8) &&
                        (Z.land (Z.lor x 0xF0) 0x07 =? x)).
  assert (H : f x = true) by (by_enumeration f 8 0).
  subst f.
  cbv beta in H. rewrite !andb_true_iff, Z.eqb_eq, Z.leb_le, Z.ltb_lt in H.
  tauto.
Qed.

(** The surrogate tests of the decoders, on a 16-bit unit. *)
Lemma surrogate_tests u :
  0 <= u < 65536 ->
  (Z.land u 0xFC00 =? 0xD800) = is_high_surrogate u /\
  (Z.land u 0xFC00 =? 0xDC00) = is_low_surrogate u.
Proof.
  intros Hu.
  pose (f := fun u => Bool.eqb (Z.land u 0xFC00 =? 0xD800) (is_high_surrogate u) &&
                 Bool.eqb (Z.land u 0xFC00 =? 0xDC00) (is_low_surrogate u)).
  assert (H : f u = true) by (by_enumeration f 65536 0).
  subst f.
  cbv beta in H. rewrite andb_true_iff, !Bool.eqb_true_iff in H. exact H.
Qed.

(** A surrogate is its base plus its low ten bits. *)
Lemma surrogate_low_bits u :
  0 <= u < 65536 ->
  (is_high_surrogate u = true -> Z.land u 0x3FF = u - 0xD800) /\
  (is_low_surrogate u = true -> Z.land u 0x3FF = u - 0xDC00).
Proof.
  intros Hu. change 0x3FF with (Z.ones 10).
  rewrite Z.land_ones by lia. unfold is_high_surrogate, is_low_surrogate.
  rewrite !andb_true_iff, !Z.leb_le. split; intros [H1 H2]; lia.
Qed.

(** ** UTF-16 units and their bytes *)

Lemma unitLE_val le b0 b1 :
  is_byte b0 -> is_byte b1 -> unitLE le b0 b1 = b0 + 256 * b1.
Proof.
  unfold is_byte. intros H0 H1.
  assert (H : Z.lor b0 (Z.shiftl b1 8) = b0 + 256 * b1).
  { rewrite Z.lor_comm, (lor_shiftl_add b1 b0 8) by lia. lia. }
  unfold unitLE, load16. destruct le; exact H.
Qed.

Lemma unitBE_val le b0 b1 :
  is_byte b0 -> is_byte b1 -> unitBE le b0 b1 = 256 * b0 + b1.
Proof.
  unfold is_byte. intros H0 H1.
  assert (H : Z.lor (Z.shiftl b0 8) b1 = 256 * b0 + b1).
  { rewrite (lor_shiftl_add b0 b1 8) by lia. lia. }
  unfold unitBE, load16. destruct le; exact H.
Qed.

(** Storing the unit of two bytes gives the two bytes back. *)
Lemma store16_unit le b0 b1 :
  is_byte b0 -> is_byte b1 -> store16 le (b0 + 256 * b1) = [b0; b1].
Proof.
  unfold is_byte. intros H0 H1. unfold store16.
  change 0xFF with (Z.ones 8).
  rewrite !Z.land_ones, Z.shiftr_div_pow2 by lia.
  change (2 ^ 8) with 256.
  destruct le; f_equal; try f_equal; lia.
Qed.

(** ** The UTF-8 bytes of a code point *)

(** With the room the loop guard leaves, [put_utf8] stores the whole
    sequence. *)
Lemma put_utf8_room outlen c out :
  len out + 5 < outlen -> put_utf8 outlen c out = out ++ utf8_seq c.
Proof.
  intros Hroom. pose proof (len_nonneg out).
  unfold put_utf8, utf8_seq.
  repeat case_match; cbn [put_continuation];
    change (6 * Z.of_nat 0) with 0; change (6 * Z.of_nat 1) with 6;
    change (6 * Z.of_nat 2) with 12;
    repeat (len_simpl; zbool); rewrite <- ?app_assoc; reflexivity.
Qed.

Lemma utf8_seq_length c :
  1 <= len (utf8_seq c) <= 4 /\ (c < 0x10000 -> len (utf8_seq c) <= 3).
Proof.
  unfold utf8_seq. repeat case_match; len_simpl; lia.
Qed.

(** The sequence in arithmetic: a lead byte and six-bit groups. *)
Lemma utf8_seq_arith c :
  0 <= c < 0x200000 ->
  utf8_seq c =
    if c <? 0x80 then [c]
    else if c <? 0x800 then
      [Z.lor (c / 64) 0xC0; Z.lor (c mod 64) 0x80]
    else if c <? 0x10000 then
      [Z.lor (c / 4096) 0xE0; Z.lor (c / 64 mod 64) 0x80;
       Z.lor (c mod 64) 0x80]
    else
      [Z.lor (c / 262144) 0xF0; Z.lor (c / 4096 mod 64) 0x80;
       Z.lor (c / 64 mod 64) 0x80; Z.lor (c mod 64) 0x80].
Proof.
  intros Hc. unfold utf8_seq.
  change 0x1F with (Z.ones 5). change 0x0F with (Z.ones 4).
  change 0x07 with (Z.ones 3). change 0x3F with (Z.ones 6).
  rewrite !land_shiftr_ones by lia.
  change (2 ^ 0) with 1. change (2 ^ 3) with 8. change (2 ^ 4) with 16.
  change (2 ^ 5) with 32. change (2 ^ 6) with 64.
  change (2 ^ 12) with 4096. change (2 ^ 18) with 262144.
  rewrite Z.div_1_r.
  destruct (Z.ltb_spec c 0x80); [reflexivity|].
  destruct (Z.ltb_spec c 0x800);
    [rewrite (Z.mod_small (c / 64) 32) by lia; reflexivity|].
  destruct (Z.ltb_spec c 0x10000);
    [rewrite (Z.mod_small (c / 4096) 16) by lia; reflexivity|].
  rewrite (Z.mod_small (c / 262144) 8) by lia; reflexivity.
Qed.

(** One turn of the trailing loop on a continuation byte. *)
Lemma utf8_trailing_continuation t acc g rest :
  0 <= g < 64 ->
  utf8_trailing (S t) acc (Z.lor g 0x80 :: rest)
    = utf8_trailing t (acc * 64 + g) rest.
Proof.
  intros Hg. cbn [utf8_trailing].
  destruct (continuation_byte g Hg) as (_ & HC0 & H3F).
  rewrite HC0, H3F. change (0x80 =? 0x80) with true. cbv iota.
  rewrite (lor_shiftl_add acc g 6) by lia. reflexivity.
Qed.

(** The trailing loop only moves forward. *)
Lemma utf8_trailing_length t : forall c l,
  (length (snd (utf8_trailing t c l)) <= length l)%nat.
Proof.
  induction t as [|t IH]; intros c l; cbn [utf8_trailing]; [cbn; lia|].
  destruct l as [|d l]; [cbn; lia|].
  destruct (Z.land d 0xC0 =? 0x80); [|cbn; lia].
  specialize (IH (Z.lor (Z.shiftl c 6) (Z.land d 0x3F)) l). cbn [length]. lia.
Qed.

(** Every turn of the loops over UTF-8 input steps over a byte at least, so
    a fuel equal to the length of the input never runs out: any larger
    fuel gives the same result. *)
Lemma UTF8Toascii_loop_fuel inlen outlen : forall f1 f2 l out p,
  (length l <= f1)%nat -> (length l <= f2)%nat ->
  UTF8Toascii_loop f1 inlen outlen l out p
    = UTF8Toascii_loop f2 inlen outlen l out p.
Proof.
  induction f1 as [|f1 IH]; intros f2 l out p H1 H2.
  - destruct l; [|cbn in H1; lia]. destruct f2; reflexivity.
  - destruct l as [|d l]; [destruct f2; reflexivity|].
    destruct f2 as [|f2]; [cbn in H2; lia|].
    cbn [UTF8Toascii_loop]. destruct (utf8_lead d) as [[c t]|]; [|reflexivity].
    pose proof (utf8_trailing_length t c l) as Hlen.
    destruct (utf8_trailing t c l) as [c' l']. cbn [snd] in Hlen.
    repeat case_match; try reflexivity.
    apply IH; cbn in H1, H2; lia.
Qed.

Lemma UTF8ToUTF16LE_loop_fuel inlen outlen : forall f1 f2 l out p,
  (length l <= f1)%nat -> (length l <= f2)%nat ->
  UTF8ToUTF16LE_loop f1 inlen outlen l out p
    = UTF8ToUTF16LE_loop f2 inlen outlen l out p.
Proof.
  induction f1 as [|f1 IH]; intros f2 l out p H1 H2.
  - destruct l; [|cbn in H1; lia]. destruct f2; reflexivity.
  - destruct l as [|d l]; [destruct f2; reflexivity|].
    destruct f2 as [|f2]; [cbn in H2; lia|].
    cbn [UTF8ToUTF16LE_loop].
    destruct (utf8_lead d) as [[c t]|]; [|reflexivity].
    pose proof (utf8_trailing_length t c l) as Hlen.
    destruct (utf8_trailing t c l) as [c' l']. cbn [snd] in Hlen.
    repeat case_match; try reflexivity; apply IH; cbn in H1, H2; lia.
Qed.

(** Reading back the sequence of a code point: the lead byte gives the
    count of trailing bytes, the trailing loop rebuilds the code point and
    stops in front of what follows. *)
Lemma utf8_read_back c rest :
  0 <= c < 0x200000 ->
  exists d l c0 t,
    utf8_seq c ++ rest = d :: l ++ rest /\
    utf8_lead d = Some (c0, t) /\
    Z.of_nat t <= len (l ++ rest) /\
    utf8_trailing t c0 (l ++ rest) = (c, rest).
Proof.
  intros Hc. rewrite utf8_seq_arith by assumption.
  pose proof (len_nonneg rest) as Hrest.
  destruct (Z.ltb_spec c 0x80).
  { exists c, [], c, 0%nat. unfold utf8_lead. zbool.
    repeat split. cbn. lia. }
  destruct (Z.ltb_spec c 0x800).
  { destruct (lead_byte_2 (c / 64)) as [Hr Hl]; [lia|].
    exists (Z.lor (c / 64) 0xC0), [Z.lor (c mod 64) 0x80], (c / 64), 1%nat.
    unfold utf8_lead. zbool. rewrite Hl.
    repeat split; [len_simpl; lia|]. cbn [app].
    rewrite utf8_trailing_continuation by lia.
    cbn [utf8_trailing]. f_equal. lia. }
  destruct (Z.ltb_spec c 0x10000).
  { destruct (lead_byte_3 (c / 4096)) as [Hr Hl]; [lia|].
    exists (Z.lor (c / 4096) 0xE0),
      [Z.lor (c / 64 mod 64) 0x80; Z.lor (c mod 64) 0x80],
      (c / 4096), 2%nat.
    unfold utf8_lead. zbool. rewrite Hl.
    repeat split; [len_simpl; lia|]. cbn [app].
    rewrite !utf8_trailing_continuation by lia.
    cbn [utf8_trailing]. f_equal. lia. }
  destruct (lead_byte_4 (c / 262144)) as [Hr Hl]; [lia|].
  exists (Z.lor (c / 262144) 0xF0),
    [Z.lor (c / 4096 mod 64) 0x80; Z.lor (c / 64 mod 64) 0x80;
     Z.lor (c mod 64) 0x80],
    (c / 262144), 3%nat.
  unfold utf8_lead. zbool. rewrite Hl.
  repeat split; [len_simpl; lia|]. cbn [app].
  rewrite !utf8_trailing_continuation by lia.
  cbn [utf8_trailing]. f_equal. lia.
Qed.

(** ** One turn of the UTF-16LE encoder *)

(** On the sequence of a code point the loop of [UTF8ToUTF16LE] stores its
    units and goes on behind it. *)
Lemma UTF8ToUTF16LE_loop_step c s fuel inlen cap uout upr :
  0 <= c < 0x110000 ->
  len uout + len (utf16_units c) <= Z.quot cap 2 ->
  UTF8ToUTF16LE_loop (S fuel) inlen cap (utf8_seq c ++ s) uout upr
    = UTF8ToUTF16LE_loop fuel inlen cap s (uout ++ utf16_units c)
        (inlen - len s).
Proof.
  intros Hc Hroom.
  destruct (utf8_read_back c s) as (d & l & c0 & t & Heq & Hlead & Hlen & Htr);
    [lia|].
  rewrite Heq. cbn [UTF8ToUTF16LE_loop]. rewrite Hlead.
  zbool. rewrite Htr. unfold utf16_units in *.
  destruct (Z.ltb_spec c 0x10000).
  - revert Hroom. len_simpl. intros Hroom. zbool. reflexivity.
  - revert Hroom. len_simpl. intros Hroom. zbool. reflexivity.
Qed.

(** A surrogate pair, combined and split again. *)
Lemma surrogate_pair_back u d :
  0 <= u < 65536 -> 0 <= d < 65536 ->
  is_high_surrogate u = true -> is_low_surrogate d = true ->
  0x10000 <= combine_surrogates u d < 0x110000 /\
  utf16_units (combine_surrogates u d) = [u; d].
Proof.
  intros Hu Hd Hhi Hlo.
  destruct (surrogate_low_bits u Hu) as [Hu' _].
  destruct (surrogate_low_bits d Hd) as [_ Hd'].
  specialize (Hu' Hhi). specialize (Hd' Hlo).
  unfold is_high_surrogate in Hhi. unfold is_low_surrogate in Hlo.
  rewrite andb_true_iff, !Z.leb_le in Hhi, Hlo.
  unfold combine_surrogates. rewrite Hu', Hd'.
  rewrite (lor_shiftl_add (u - 0xD800) (d - 0xDC00) 10) by lia.
  change (2 ^ 10) with 1024.
  split; [lia|]. unfold utf16_units. zbool.
  replace ((u - 0xD800) * 1024 + (d - 0xDC00) + 0x10000 - 0x10000)
    with ((u - 0xD800) * 1024 + (d - 0xDC00)) by lia.
  rewrite Z.shiftr_div_pow2 by lia. change 0x03FF with (Z.ones 10).
  rewrite Z.land_ones by lia. change (2 ^ 10) with 1024.
  replace (((u - 0xD800) * 1024 + (d - 0xDC00)) / 1024) with (u - 0xD800)
    by lia.
  replace (((u - 0xD800) * 1024 + (d - 0xDC00)) mod 1024) with (d - 0xDC00)
    by lia.
  change 0xD800 with (54 * 2 ^ 10). change 0xDC00 with (55 * 2 ^ 10).
  rewrite !lor_add_low by lia. f_equal; [lia|f_equal; lia].
Qed.

(** The units of a well-formed sequence are its bytes again. *)
Lemma unit_bytes_units le : forall n b,
  (length b <= n)%nat ->
  Forall is_byte b -> valid_utf16le b = true ->
  unit_bytes le (utf16le_units b) = b /\ len (utf16le_units b) * 2 = len b.
Proof.
  induction n as [|n IH]; intros b Hn Hb Hv.
  - destruct b; [split; reflexivity|cbn in Hn; lia].
  - destruct b as [|b0 [|b1 b']]; [split; reflexivity|discriminate|].
    inversion Hb as [|? ? H0 Hb1]; subst.
    inversion Hb1 as [|? ? H1 Hb']; subst.
    assert (Hv' : valid_utf16le b' = true \/
                  exists d0 d1 b'', b' = d0 :: d1 :: b'' /\
                                    valid_utf16le b'' = true).
    { cbn [valid_utf16le] in Hv.
      destruct (is_high_surrogate (b0 + 256 * b1)).
      - destruct b' as [|d0 [|d1 b'']]; try discriminate.
        apply andb_true_iff in Hv as [_ Hv]. right. eauto.
      - apply andb_true_iff in Hv as [_ Hv]. left. assumption. }
    cbn [utf16le_units unit_bytes flat_map].
    rewrite store16_unit by assumption. fold (unit_bytes le (utf16le_units b')).
    destruct Hv' as [Hv'|(d0 & d1 & b'' & -> & Hv'')].
    + destruct (IH b') as [Hbytes Hlen]; [cbn in Hn; lia|assumption..|].
      rewrite Hbytes. split; [reflexivity|]. len_simpl. lia.
    + inversion Hb' as [|? ? Hd0 Hb1']; subst.
      inversion Hb1' as [|? ? Hd1 Hb'']; subst.
      destruct (IH b'') as [Hbytes Hlen]; [cbn in Hn; lia|assumption..|].
      cbn [utf16le_units unit_bytes flat_map].
      rewrite store16_unit by assumption.
      fold (unit_bytes le (utf16le_units b'')). rewrite Hbytes.
      split; [reflexivity|]. len_simpl. lia.
Qed.

(** ** The UTF-16LE round trip *)

Lemma is_byte_unit b0 b1 :
  is_byte b0 -> is_byte b1 -> 0 <= b0 + 256 * b1 < 65536.
Proof. unfold is_byte. lia. Qed.

(** Decoder and encoder, turn by turn.  The decoder started on a
    well-formed [b] with enough room consumes all of it, and what it
    appends, [s], takes the encoder through the units of [b]. *)
Lemma round_trip_loops le cap1 cap2 : forall n b,
  (length b <= n)%nat ->
  Forall is_byte b -> valid_utf16le b = true ->
  forall out pr,
  2 * len out + 3 * len b + 10 < 2 * cap1 ->
  exists s,
    UTF16ToUTF8_loop (unitLE le) cap1 b out pr
      = conv_done (out ++ s) (pr + len b) /\
    forall fuel inlen uout upr,
      (length s <= fuel)%nat ->
      upr = inlen - len s ->
      2 * len uout + len b <= cap2 ->
      UTF8ToUTF16LE_loop fuel inlen cap2 s uout upr
        = (len (uout ++ utf16le_units b) * 2, uout ++ utf16le_units b, inlen).
Proof.
  induction n as [|n IH]; intros b Hn Hb Hv out pr Hcap.
  { destruct b; [|cbn in Hn; lia]. exists []. split.
    - cbn. rewrite app_nil_r. f_equal. change (len (@nil Z)) with 0. lia.
    - intros fuel inlen uout upr _ -> _. cbn [utf16le_units].
      rewrite app_nil_r. change (len (@nil Z)) with 0. rewrite Z.sub_0_r.
      destruct fuel; reflexivity. }
  destruct b as [|b0 [|b1 b']].
  { exists []. split.
    - cbn. rewrite app_nil_r. f_equal. change (len (@nil Z)) with 0. lia.
    - intros fuel inlen uout upr _ -> _. cbn [utf16le_units].
      rewrite app_nil_r. change (len (@nil Z)) with 0. rewrite Z.sub_0_r.
      destruct fuel; reflexivity. }
  { discriminate. }
  inversion Hb as [|? ? H0 Hb1]; subst.
  inversion Hb1 as [|? ? H1 Hb']; subst.
  pose proof (is_byte_unit b0 b1 H0 H1) as Hu.
  pose proof (len_nonneg out) as Hout. pose proof (len_nonneg b') as Hb'len.
  revert Hcap. len_simpl. intros Hcap.
  cbn [UTF16ToUTF8_loop valid_utf16le] in Hv |- *.
  rewrite unitLE_val by assumption.
  destruct (surrogate_tests _ Hu) as [-> _]. zbool.
  destruct (is_high_surrogate (b0 + 256 * b1)) eqn:Hhi.
  - (* a surrogate pair *)
    destruct b' as [|d0 [|d1 b'']]; try discriminate.
    apply andb_true_iff in Hv as [Hlo Hv].
    inversion Hb' as [|? ? Hd0 Hb1']; subst.
    inversion Hb1' as [|? ? Hd1 Hb'']; subst.
    pose proof (is_byte_unit d0 d1 Hd0 Hd1) as Hd.
    revert Hcap. len_simpl. intros Hcap. pose proof (len_nonneg b'').
    rewrite unitLE_val by assumption.
    destruct (surrogate_tests _ Hd) as [_ ->]. rewrite Hlo.
    rewrite put_utf8_room by lia.
    destruct (surrogate_pair_back _ _ Hu Hd Hhi Hlo) as [Hc Hunits].
    set (c := combine_surrogates (b0 + 256 * b1) (d0 + 256 * d1)) in *.
    destruct (utf8_seq_length c) as [Hlen _].
    destruct (IH b'') with (out := out ++ utf8_seq c) (pr := pr + 4)
      as (s & Hdec & Henc); [cbn in Hn; lia|assumption|assumption| |].
    { len_simpl. lia. }
    exists (utf8_seq c ++ s). split.
    + rewrite Hdec, app_assoc. f_equal. lia.
    + intros fuel inlen uout upr Hfuel -> Hroom.
      destruct fuel as [|fuel];
        [rewrite length_app in Hfuel; unfold len in Hlen; lia|].
      rewrite UTF8ToUTF16LE_loop_step;
        [|lia|rewrite Hunits; len_simpl; lia].
      rewrite Hunits, Henc;
        [|rewrite length_app in Hfuel; unfold len in Hlen; lia
         |reflexivity|len_simpl; lia].
      cbn [utf16le_units]. rewrite <- !app_assoc. reflexivity.
  - (* a unit on its own *)
    apply andb_true_iff in Hv as [_ Hv].
    rewrite put_utf8_room by lia.
    set (c := b0 + 256 * b1) in *.
    destruct (utf8_seq_length c) as [Hlen Hlen3].
    destruct (IH b') with (out := out ++ utf8_seq c) (pr := pr + 2)
      as (s & Hdec & Henc); [cbn in Hn; lia|assumption|assumption| |].
    { len_simpl. lia. }
    assert (Hunits : utf16_units c = [c]) by (unfold utf16_units; zbool; reflexivity).
    exists (utf8_seq c ++ s). split.
    + rewrite Hdec, app_assoc. f_equal. lia.
    + intros fuel inlen uout upr Hfuel -> Hroom.
      destruct fuel as [|fuel];
        [rewrite length_app in Hfuel; unfold len in Hlen; lia|].
      rewrite UTF8ToUTF16LE_loop_step;
        [|lia|rewrite Hunits; len_simpl; lia].
      rewrite Hunits, Henc;
        [|rewrite length_app in Hfuel; unfold len in Hlen; lia
         |reflexivity|len_simpl; lia].
      cbn [utf16le_units]. rewrite <- !app_assoc. reflexivity.
Qed.

(** C2: every well-formed UTF-16LE byte sequence, surrogate pairs
    included, decoded by [UTF16LEToUTF8] into a buffer of at least twice
    its length plus 6 bytes, is consumed whole without error, and
    [UTF8ToUTF16LE] given room for as many bytes turns the result back
    into the very same bytes, consuming all of it. *)
Theorem utf16le_round_trip (le : bool) (b : list Z) (cap1 cap2 : Z) :
  Forall is_byte b ->
  valid_utf16le b = true ->
  2 * len b + 6 <= cap1 ->
  len b <= cap2 ->
  let r := UTF16LEToUTF8 le cap1 b in
  c_ret r = len (c_out r) /\
  c_outlen r = len (c_out r) /\
  c_inlen r = len b /\
  UTF8ToUTF16LE le cap2 (Some (c_out r))
    = mkConv (len b) b (len b) (len (c_out r)).
Proof.
  intros Hb Hv Hcap1 Hcap2. cbv zeta.
  pose proof (len_nonneg b) as Hlen.
  destruct (round_trip_loops le cap1 cap2 (length b) b) with (out := @nil Z)
    (pr := 0) as (s & Hdec & Henc); [lia|assumption|assumption| |].
  { change (len (@nil Z)) with 0. lia. }
  unfold UTF16LEToUTF8. zbool. rewrite Hdec. cbn [app conv_done c_ret c_out
    c_outlen c_inlen].
  split; [reflexivity|]. split; [reflexivity|]. split; [lia|].
  unfold UTF8ToUTF16LE.
  rewrite (Henc (length s) (len s) [] 0);
    [|lia|lia|change (len (@nil Z)) with 0; lia].
  cbn [app].
  destruct (unit_bytes_units le (length b) b) as [Hbytes Hunits];
    [lia|assumption|assumption|].
  rewrite Hbytes, Hunits. reflexivity.
Qed.

(** "A", U+1F600 as the pair D83D DE00, and U+20AC. *)
Lemma utf16le_round_trip_witness :
  UTF8ToUTF16LE true 8
    (Some (c_out (UTF16LEToUTF8 true 22
                    [0x41; 0x00; 0x3D; 0xD8; 0x00; 0xDE; 0xAC; 0x20])))
  = mkConv 8 [0x41; 0x00; 0x3D; 0xD8; 0x00; 0xDE; 0xAC; 0x20] 8 8.
Proof.
  apply (utf16le_round_trip true
           [0x41; 0x00; 0x3D; 0xD8; 0x00; 0xDE; 0xAC; 0x20] 22 8).
  - repeat (apply List.Forall_cons; [unfold is_byte; lia|]).
    apply List.Forall_nil.
  - reflexivity.
  - vm_compute. discriminate.
  - vm_compute. discriminate.
Defined.

(** ** Surrogates in the UTF-16 decoders *)

Lemma conv_done_inj out pr o pr' :
  conv_done out pr = conv_done o pr' -> out = o /\ pr = pr'.
Proof. unfold conv_done. intros [= _ -> _ ->]. auto. Qed.

Lemma conv_error_not_done out pr o pr' :
  conv_input_error out pr <> conv_done o pr'.
Proof.
  unfold conv_done, conv_input_error. intros [= H _ _ _].
  pose proof (len_nonneg o). unfold XML_ENC_ERR_INPUT in H. lia.
Qed.

(** A prefix that the loop consumes whole on its own is consumed the same
    way when more input follows, and the loop goes on from there. *)
Lemma UTF16ToUTF8_loop_app unit outlen s : forall n p,
  (length p <= n)%nat ->
  forall out pr o,
  UTF16ToUTF8_loop unit outlen p out pr = conv_done o (pr + len p) ->
  UTF16ToUTF8_loop unit outlen (p ++ s) out pr
    = UTF16ToUTF8_loop unit outlen s o (pr + len p).
Proof.
  induction n as [|n IH]; intros p Hn out pr o H.
  { destruct p; [|cbn in Hn; lia]. cbn in H.
    apply conv_done_inj in H as [-> _]. cbn [app].
    change (len (@nil Z)) with 0. rewrite Z.add_0_r. reflexivity. }
  destruct p as [|b0 [|b1 p1]].
  { cbn in H. apply conv_done_inj in H as [-> _]. cbn [app].
    change (len (@nil Z)) with 0. rewrite Z.add_0_r. reflexivity. }
  { cbn in H. apply conv_done_inj in H as [_ H]. revert H. len_simpl. lia. }
  pose proof (len_nonneg p1) as Hp1.
  cbn [app]. cbn [UTF16ToUTF8_loop] in H |- *.
  destruct (len out + 5 <? outlen);
    [|apply conv_done_inj in H as [_ H]; revert H; len_simpl; lia].
  destruct (Z.land (unit b0 b1) 0xFC00 =? 0xD800).
  - destruct p1 as [|d0 [|d1 p2]];
      try (apply conv_done_inj in H as [_ H]; revert H; len_simpl; lia).
    pose proof (len_nonneg p2) as Hp2. cbn [app].
    destruct (Z.land (unit d0 d1) 0xFC00 =? 0xDC00);
      [|exfalso; exact (conv_error_not_done _ _ _ _ H)].
    destruct (outlen <=? len out);
      [apply conv_done_inj in H as [_ H]; revert H; len_simpl; lia|].
    rewrite (IH p2) with (o := o); [| cbn in Hn; lia|].
    + f_equal. len_simpl. lia.
    + rewrite H. f_equal. len_simpl. lia.
  - destruct (outlen <=? len out);
      [apply conv_done_inj in H as [_ H]; revert H; len_simpl; lia|].
    rewrite (IH p1) with (o := o); [| cbn in Hn; lia|].
    + f_equal. len_simpl. lia.
    + rewrite H. f_equal. len_simpl. lia.
Qed.

(** The loop in front of a high surrogate and the unit after it. *)
Lemma UTF16ToUTF8_loop_surrogate unit outlen hi lo h0 h1 d0 d1 rest out pr :
  unit h0 h1 = hi -> unit d0 d1 = lo ->
  0 <= hi < 65536 -> 0 <= lo < 65536 ->
  len out + 5 < outlen ->
  is_high_surrogate hi = true ->
  (is_low_surrogate lo = false ->
   UTF16ToUTF8_loop unit outlen (h0 :: h1 :: d0 :: d1 :: rest) out pr
     = conv_input_error out pr) /\
  (is_low_surrogate lo = true ->
   UTF16ToUTF8_loop unit outlen (h0 :: h1 :: d0 :: d1 :: rest) out pr
     = UTF16ToUTF8_loop unit outlen rest
         (out ++ utf8_seq
                   (Z.lor (Z.shiftl (Z.land hi 0x3FF) 10) (Z.land lo 0x3FF)
                    + 0x10000))
         (pr + 4)).
Proof.
  intros Hhi Hlo Hh Hl Hroom Hhigh. pose proof (len_nonneg out).
  cbn [UTF16ToUTF8_loop]. rewrite Hhi, Hlo.
  destruct (surrogate_tests hi Hh) as [-> _].
  destruct (surrogate_tests lo Hl) as [_ ->].
  rewrite Hhigh. zbool. split; intros ->; [reflexivity|].
  rewrite put_utf8_room by lia. reflexivity.
Qed.

(** With fewer than six bytes of room the loop is left before the unit
    is read. *)
Lemma UTF16ToUTF8_loop_no_room unit outlen in_ out pr :
  outlen <= len out + 5 ->
  UTF16ToUTF8_loop unit outlen in_ out pr = conv_done out pr.
Proof.
  intros H. destruct in_ as [|b0 [|b1 in1]]; try reflexivity.
  cbn [UTF16ToUTF8_loop]. zbool. reflexivity.
Qed.

(** C7, as the code has it: in both decoders, once the input in front of
    it has been decoded, a high surrogate and the unit after it are read
    when six bytes of room or more are left in the output.  Then a unit
    that is no low surrogate makes the call return [XML_ENC_ERR_INPUT]
    with the counts of the prefix in front of the pair, and a low
    surrogate is decoded with the high one to the code point
    [((high & 0x3FF) << 10 | (low & 0x3FF)) + 0x10000].  With less room
    the pair is not read: the call returns the bytes of the prefix and no
    error, whatever follows the high surrogate. *)
Theorem surrogate_decoding (le : bool) (outlen : Z) (p rest o : list Z)
    (h0 h1 d0 d1 : Z) :
  is_byte h0 -> is_byte h1 -> is_byte d0 -> is_byte d1 ->
  (UTF16LEToUTF8 le outlen p = conv_done o (len p) ->
   is_high_surrogate (h0 + 256 * h1) = true ->
   (len o + 5 < outlen ->
    is_low_surrogate (d0 + 256 * d1) = false ->
    UTF16LEToUTF8 le outlen (p ++ h0 :: h1 :: d0 :: d1 :: rest)
      = conv_input_error o (len p)) /\
   (len o + 5 < outlen ->
    is_low_surrogate (d0 + 256 * d1) = true ->
    UTF16LEToUTF8 le outlen (p ++ h0 :: h1 :: d0 :: d1 :: rest)
      = UTF16ToUTF8_loop (unitLE le) outlen rest
          (o ++ utf8_seq
                  (Z.lor (Z.shiftl (Z.land (h0 + 256 * h1) 0x3FF) 10)
                     (Z.land (d0 + 256 * d1) 0x3FF) + 0x10000))
          (len p + 4)) /\
   (outlen <= len o + 5 ->
    UTF16LEToUTF8 le outlen (p ++ h0 :: h1 :: d0 :: d1 :: rest)
      = conv_done o (len p))) /\
  (UTF16BEToUTF8 le outlen p = conv_done o (len p) ->
   is_high_surrogate (256 * h0 + h1) = true ->
   (len o + 5 < outlen ->
    is_low_surrogate (256 * d0 + d1) = false ->
    UTF16BEToUTF8 le outlen (p ++ h0 :: h1 :: d0 :: d1 :: rest)
      = conv_input_error o (len p)) /\
   (len o + 5 < outlen ->
    is_low_surrogate (256 * d0 + d1) = true ->
    UTF16BEToUTF8 le outlen (p ++ h0 :: h1 :: d0 :: d1 :: rest)
      = UTF16ToUTF8_loop (unitBE le) outlen rest
          (o ++ utf8_seq
                  (Z.lor (Z.shiftl (Z.land (256 * h0 + h1) 0x3FF) 10)
                     (Z.land (256 * d0 + d1) 0x3FF) + 0x10000))
          (len p + 4)) /\
   (outlen <= len o + 5 ->
    UTF16BEToUTF8 le outlen (p ++ h0 :: h1 :: d0 :: d1 :: rest)
      = conv_done o (len p))).
Proof.
  intros Hh0 Hh1 Hd0 Hd1. pose proof (len_nonneg o) as Ho.
  unfold UTF16LEToUTF8, UTF16BEToUTF8.
  destruct (Z.eqb_spec outlen 0) as [Hz|Hnz].
  { split; intros Hp _; (split; [lia|split; [lia|intros _; exact Hp]]). }
  split; intros Hp Hhigh.
  - rewrite (UTF16ToUTF8_loop_app _ _ _ (length p) p (Nat.le_refl _) [] 0 o Hp).
    split; [|split]; intros Hroom;
      [| |apply UTF16ToUTF8_loop_no_room, Hroom];
      (destruct (UTF16ToUTF8_loop_surrogate (unitLE le) outlen
                   (h0 + 256 * h1) (d0 + 256 * d1) h0 h1 d0 d1 rest o
                   (0 + len p)) as [H1 H2];
       [apply unitLE_val; assumption|apply unitLE_val; assumption
       |unfold is_byte in *; lia|unfold is_byte in *; lia
       |assumption|assumption|assumption]).
  - rewrite (UTF16ToUTF8_loop_app _ _ _ (length p) p (Nat.le_refl _) [] 0 o Hp).
    split; [|split]; intros Hroom;
      [| |apply UTF16ToUTF8_loop_no_room, Hroom];
      (destruct (UTF16ToUTF8_loop_surrogate (unitBE le) outlen
                   (256 * h0 + h1) (256 * d0 + d1) h0 h1 d0 d1 rest o
                   (0 + len p)) as [H1 H2];
       [apply unitBE_val; assumption|apply unitBE_val; assumption
       |unfold is_byte in *; lia|unfold is_byte in *; lia
       |assumption|assumption|assumption]).
Qed.

(** After "A": little-endian D800 followed by 0041 is refused at offset 2
    with one byte produced; big-endian D83D DE00 is U+1F600. *)
Lemma surrogate_decoding_witness :
  UTF16LEToUTF8 true 16 [0x41; 0x00; 0x00; 0xD8; 0x41; 0x00]
    = conv_input_error [0x41] 2 /\
  UTF16BEToUTF8 true 16 [0x00; 0x41; 0xD8; 0x3D; 0xDE; 0x00]
    = conv_done ([0x41] ++ utf8_seq 0x1F600) 6.
Proof.
  split.
  - apply (surrogate_decoding true 16 [0x41; 0x00] [] [0x41]
             0x00 0xD8 0x41 0x00); unfold is_byte; try lia; reflexivity.
  - apply (surrogate_decoding true 16 [0x00; 0x41] [] [0x41]
             0xD8 0x3D 0xDE 0x00); unfold is_byte; try lia; reflexivity.
Defined.

(** C7 as stated fails: into five bytes of room the little-endian decoder
    does not read the unit D800 that the unit 0041 follows, and returns 0,
    not [XML_ENC_ERR_INPUT]. *)
Lemma unpaired_high_surrogate_unread :
  ~ unpaired_high_fails true 5 [] 0x00 0xD8 0x41 0x00.
Proof.
  unfold unpaired_high_fails. intros H.
  specialize (H eq_refl eq_refl). vm_compute in H. discriminate.
Qed.

(** * Further properties of the code *)

(** ** ISO Latin 1 *)

(** An ASCII byte is its own UTF-8 sequence. *)
Lemma flat_map_utf8_ascii a :
  Forall is_ascii a -> flat_map utf8_seq a = a.
Proof.
  induction 1 as [|c a [Hc0 Hc] _ IH]; [reflexivity|].
  cbn [flat_map]. rewrite IH. unfold utf8_seq. zbool. reflexivity.
Qed.

(** The inner copy loop steps over a run of ASCII bytes, no further than
    [instop], and at least one byte far when it may. *)
Lemma isolat1_copy_spec instop : forall in_ pos out,
  Forall is_byte in_ ->
  exists a rest,
    in_ = a ++ rest /\ Forall is_ascii a /\
    isolat1_copy instop in_ pos out = (rest, pos + len a, out ++ a) /\
    len a <= Z.max 0 (instop - pos) /\
    (pos + len in_ <= instop ->
     rest = [] \/ exists c t, rest = c :: t /\ 0x80 <= c) /\
    (forall c t, in_ = c :: t -> c < 0x80 -> pos < instop -> a <> []).
Proof.
  induction in_ as [|c in' IH]; intros pos out Hb.
  - exists [], []. repeat split; [constructor| | |auto|discriminate].
    + cbn. rewrite app_nil_r. f_equal. f_equal.
      change (len (@nil Z)) with 0. lia.
    + change (len (@nil Z)) with 0. lia.
  - inversion Hb as [|? ? [Hc0 Hc] Hb']; subst.
    pose proof (len_nonneg in').
    cbn [isolat1_copy].
    destruct (Z.ltb_spec pos instop) as [Hpos|Hpos]; cbn [andb].
    + destruct (Z.ltb_spec c 0x80) as [Hlt|Hge].
      * destruct (IH (pos + 1) (out ++ [c]) Hb')
          as (a & rest & -> & Ha & Heq & Hbound & Hend & _).
        exists (c :: a), rest. pose proof (len_nonneg a).
        repeat split.
        -- constructor; [split; lia|assumption].
        -- rewrite Heq. rewrite <- app_assoc. cbn [app]. f_equal. f_equal.
           len_simpl. lia.
        -- len_simpl. lia.
        -- intros Hstop. apply Hend. revert Hstop. len_simpl. lia.
        -- discriminate.
      * exists [], (c :: in'). repeat split; [constructor| | | |].
        -- rewrite app_nil_r. f_equal. f_equal.
           change (len (@nil Z)) with 0. lia.
        -- change (len (@nil Z)) with 0. lia.
        -- intros _. right. exists c, in'. split; [reflexivity|lia].
        -- intros c' t [= -> ->] Hc'. lia.
    + exists [], (c :: in'). repeat split; [constructor| | | |].
      * rewrite app_nil_r. f_equal. f_equal.
        change (len (@nil Z)) with 0. lia.
      * change (len (@nil Z)) with 0. lia.
      * rewrite len_cons. lia.
      * intros c' t [= -> ->] Hc' Hlt. lia.
Qed.

(** The two bytes [isolat1ToUTF8] stores for a byte with the high bit set
    are its UTF-8 sequence. *)
Lemma utf8_seq_latin1 c :
  0x80 <= c < 0x100 ->
  utf8_seq c = [Z.lor (Z.land (Z.shiftr c 6) 0x1F) 0xC0;
                Z.lor (Z.land c 0x3F) 0x80].
Proof. intros Hc. unfold utf8_seq. zbool. reflexivity. Qed.

(** With two bytes of room for every byte of the input, the loop of
    [isolat1ToUTF8] runs to the end of the input. *)
Lemma isolat1ToUTF8_loop_room outlen : forall fuel in_ pos out,
  (length in_ <= fuel)%nat ->
  Forall is_byte in_ ->
  len out + 2 * len in_ <= outlen ->
  isolat1ToUTF8_loop fuel outlen in_ pos (pos + len in_) out
    = ([], pos + len in_, out ++ flat_map utf8_seq in_).
Proof.
  induction fuel as [|fuel IH]; intros in_ pos out Hf Hb Hroom.
  { destruct in_; [|cbn in Hf; lia]. cbn. rewrite app_nil_r.
    change (len (@nil Z)) with 0. rewrite Z.add_0_r. reflexivity. }
  destruct in_ as [|c in'].
  { cbn. rewrite app_nil_r. change (len (@nil Z)) with 0.
    rewrite Z.add_0_r. reflexivity. }
  inversion Hb as [|? ? [Hc0 Hc] Hb']; subst.
  rewrite len_cons in *. pose proof (len_nonneg in') as Hin'.
  pose proof (len_nonneg out) as Hout.
  cbn [isolat1ToUTF8_loop]. zbool.
  destruct (Z.leb_spec 0x80 c) as [Hhi|Hlo].
  - (* a byte with the high bit set, then the run behind it *)
    len_simpl. zbool.
    destruct (isolat1_copy_spec (pos + (len in' + 1)) in' (pos + 1)
                (out ++ [Z.lor (Z.land (Z.shiftr c 6) 0x1F) 0xC0;
                         Z.lor (Z.land c 0x3F) 0x80]) Hb')
      as (a & rest & -> & Ha & -> & _).
    apply Forall_app in Hb' as [_ Hrest].
    cbn [length] in Hf. revert Hf Hroom. rewrite length_app. len_simpl.
    intros Hf Hroom.
    pose proof (len_nonneg a). pose proof (len_nonneg rest).
    replace (pos + (len a + len rest + 1)) with (pos + 1 + len a + len rest)
      by lia.
    rewrite IH; [|lia|assumption|len_simpl; lia].
    cbn [flat_map]. rewrite flat_map_app, (flat_map_utf8_ascii a) by assumption.
    rewrite utf8_seq_latin1 by lia. rewrite <- !app_assoc. cbn [app].
    f_equal; try f_equal; lia.
  - (* a run of ASCII bytes *)
    zbool.
    destruct (isolat1_copy_spec (pos + (len in' + 1)) (c :: in') pos out)
      as (a & rest & Heq & Ha & -> & _ & _ & Hne);
      [constructor; [split; lia|assumption]|].
    assert (Hane : a <> []) by (apply (Hne c in'); [reflexivity|lia|lia]).
    assert (Hlen : len a + len rest = len in' + 1).
    { apply (f_equal len) in Heq. revert Heq. len_simpl. lia. }
    assert (Hlena : (length rest < length (c :: in'))%nat).
    { rewrite Heq, length_app. destruct a; [congruence|cbn; lia]. }
    assert (Hrest : Forall is_byte rest).
    { assert (Hall : Forall is_byte (c :: in'))
        by (constructor; [split; lia|assumption]).
      rewrite Heq in Hall. apply Forall_app in Hall as [_ Hall]. exact Hall. }
    pose proof (len_nonneg a). pose proof (len_nonneg rest).
    replace (pos + (len in' + 1)) with (pos + len a + len rest) by lia.
    rewrite IH; [|cbn in Hlena, Hf; lia|assumption|len_simpl; lia].
    rewrite Heq, flat_map_app, (flat_map_utf8_ascii a) by assumption.
    rewrite <- !app_assoc. f_equal; try f_equal; lia.
Qed.

Lemma isolat1ToUTF8_room outlen b :
  Forall is_byte b -> 2 * len b <= outlen ->
  isolat1ToUTF8 outlen b = conv_done (flat_map utf8_seq b) (len b).
Proof.
  intros Hb Hroom. unfold isolat1ToUTF8.
  pose proof (isolat1ToUTF8_loop_room outlen (length b) b 0 []) as H.
  change (0 + len b) with (len b) in H.
  rewrite H; [reflexivity|lia|assumption|change (len (@nil Z)) with 0; lia].
Qed.

(** One turn of the trailing loop of [UTF8Toisolat1] on a continuation
    byte. *)
Lemma isolat1_trailing_continuation t acc g rest :
  0 <= g < 64 ->
  isolat1_trailing (S t) acc (Z.lor g 0x80 :: rest)
    = isolat1_trailing t (acc * 64 + g) rest.
Proof.
  intros Hg. cbn [isolat1_trailing].
  destruct (continuation_byte g Hg) as (_ & HC0 & H3F).
  rewrite HC0, H3F. change (0x80 =? 0x80) with true. cbv iota.
  rewrite (lor_shiftl_add acc g 6) by lia. reflexivity.
Qed.

(** One turn of the loop of [UTF8Toisolat1] on the sequence of a Latin 1
    character. *)
Lemma UTF8Toisolat1_loop_step c s fuel inlen outlen out pr :
  0 <= c < 0x100 -> len out < outlen ->
  UTF8Toisolat1_loop (S fuel) inlen outlen (utf8_seq c ++ s) out pr
    = UTF8Toisolat1_loop fuel inlen outlen s (out ++ [c]) (inlen - len s).
Proof.
  intros Hc Hroom. pose proof (len_nonneg s).
  rewrite utf8_seq_arith by lia.
  destruct (Z.ltb_spec c 0x80).
  - cbn [app UTF8Toisolat1_loop]. unfold utf8_lead. zbool.
    cbn [isolat1_trailing]. change (Z.of_nat 0) with 0. zbool. reflexivity.
  - zbool. destruct (lead_byte_2 (c / 64)) as [Hr Hl]; [lia|].
    cbn [app UTF8Toisolat1_loop]. unfold utf8_lead. zbool. rewrite Hl.
    len_simpl. change (Z.of_nat 1) with 1. zbool.
    rewrite isolat1_trailing_continuation by lia.
    cbn [isolat1_trailing].
    replace (c / 64 * 64 + c mod 64) with c by lia. zbool. reflexivity.
Qed.

Lemma UTF8Toisolat1_loop_latin1 inlen outlen : forall b fuel out pr,
  (length (flat_map utf8_seq b) <= fuel)%nat ->
  Forall is_byte b ->
  len out + len b <= outlen ->
  pr = inlen - len (flat_map utf8_seq b) ->
  UTF8Toisolat1_loop fuel inlen outlen (flat_map utf8_seq b) out pr
    = conv_done (out ++ b) inlen.
Proof.
  induction b as [|c b IH]; intros fuel out pr Hf Hb Hroom Hpr.
  - cbn [flat_map] in *. rewrite app_nil_r.
    change (len (@nil Z)) with 0 in Hpr. replace pr with inlen by lia.
    destruct fuel; reflexivity.
  - inversion Hb as [|? ? Hc Hb']; subst. cbn [flat_map] in *.
    destruct (utf8_seq_length c) as [Hlen _].
    rewrite length_app in Hf. unfold len in Hlen.
    destruct fuel as [|fuel]; [lia|].
    rewrite len_cons in Hroom. pose proof (len_nonneg b).
    rewrite UTF8Toisolat1_loop_step by (unfold is_byte in Hc; lia).
    rewrite IH; [|lia|assumption|len_simpl; lia|reflexivity].
    rewrite <- app_assoc. reflexivity.
Qed.

(** X1: with two bytes of room for every input byte [isolat1ToUTF8]
    consumes the whole input, never fails, and stores the UTF-8 sequence of
    every byte, in order. *)
Theorem isolat1ToUTF8_encodes (outlen : Z) (b : list Z) :
  Forall is_byte b ->
  2 * len b <= outlen ->
  isolat1ToUTF8 outlen b = conv_done (flat_map utf8_seq b) (len b).
Proof. apply isolat1ToUTF8_room. Qed.

Lemma isolat1ToUTF8_encodes_witness :
  isolat1ToUTF8 8 [0x41; 0xE9; 0x42; 0xFF]
    = conv_done (flat_map utf8_seq [0x41; 0xE9; 0x42; 0xFF]) 4.
Proof.
  apply (isolat1ToUTF8_encodes 8 [0x41; 0xE9; 0x42; 0xFF]).
  - repeat (apply List.Forall_cons; [unfold is_byte; lia|]).
    apply List.Forall_nil.
  - vm_compute. discriminate.
Defined.

(** X2: the Latin 1 round trip.  Any bytes, converted by [isolat1ToUTF8]
    into a buffer of twice their number, come back unchanged from
    [UTF8Toisolat1] given room for as many bytes, which consumes all of
    the UTF-8 text. *)
Theorem latin1_round_trip (b : list Z) (cap1 cap2 : Z) :
  Forall is_byte b ->
  2 * len b <= cap1 ->
  len b <= cap2 ->
  let r := isolat1ToUTF8 cap1 b in
  c_ret r = len (c_out r) /\
  c_inlen r = len b /\
  UTF8Toisolat1 cap2 (Some (c_out r)) = conv_done b (len (c_out r)).
Proof.
  intros Hb Hcap1 Hcap2. cbv zeta.
  rewrite isolat1ToUTF8_room by assumption.
  cbn [conv_done c_ret c_out c_inlen]. split; [reflexivity|].
  split; [reflexivity|]. unfold UTF8Toisolat1.
  rewrite (UTF8Toisolat1_loop_latin1 _ cap2 b _ [] 0);
    [reflexivity|lia|assumption|change (len (@nil Z)) with 0; lia|lia].
Qed.

Lemma latin1_round_trip_witness :
  UTF8Toisolat1 4 (Some (c_out (isolat1ToUTF8 8 [0x41; 0xE9; 0x42; 0xFF])))
    = conv_done [0x41; 0xE9; 0x42; 0xFF]
        (len (c_out (isolat1ToUTF8 8 [0x41; 0xE9; 0x42; 0xFF]))).
Proof.
  apply (latin1_round_trip [0x41; 0xE9; 0x42; 0xFF] 8 4).
  - repeat (apply List.Forall_cons; [unfold is_byte; lia|]).
    apply List.Forall_nil.
  - vm_compute. discriminate.
  - vm_compute. discriminate.
Defined.

(** Every turn of the loop of [isolat1ToUTF8] steps over a byte at least,
    as long as [instop] is where the code keeps it (not before the nearer
    of the end of the input and the byte at which the room runs out): a
    fuel equal to the length of the input never runs out. *)
Lemma isolat1ToUTF8_loop_fuel outlen : forall f1 f2 in_ pos instop out,
  (length in_ <= f1)%nat -> (length in_ <= f2)%nat ->
  Forall is_byte in_ ->
  Z.min (pos + len in_) (pos + (outlen - len out)) <= instop ->
  isolat1ToUTF8_loop f1 outlen in_ pos instop out
    = isolat1ToUTF8_loop f2 outlen in_ pos instop out.
Proof.
  induction f1 as [|f1 IH]; intros f2 in_ pos instop out H1 H2 Hb Hinv.
  { destruct in_; [|cbn in H1; lia]. destruct f2; reflexivity. }
  destruct in_ as [|c in']; [destruct f2; reflexivity|].
  destruct f2 as [|f2]; [cbn in H2; lia|].
  inversion Hb as [|? ? [Hc0 Hc] Hb']; subst.
  rewrite len_cons in Hinv. pose proof (len_nonneg in') as Hin'.
  pose proof (len_nonneg out) as Hout. cbn [length] in H1, H2.
  cbn [isolat1ToUTF8_loop].
  destruct (Z.ltb_spec (len out) (outlen - 1)) as [Hroom|]; [|reflexivity].
  destruct (Z.leb_spec 0x80 c) as [Hhi|Hlo].
  - set (out1 := out ++ _).
    set (instop1 := if _ <? _ then _ else instop).
    destruct (isolat1_copy_spec instop1 in' (pos + 1) out1 Hb')
      as (a & rest & -> & Ha & -> & _).
    apply Forall_app in Hb' as [_ Hrest].
    revert H1 H2 Hinv. rewrite length_app. len_simpl. intros H1 H2 Hinv.
    apply IH; [lia|lia|assumption|].
    subst instop1 out1. len_simpl.
    match goal with
    | |- context [?x <? ?y] => destruct (Z.ltb_spec x y)
    end; lia.
  - set (instop1 := if _ <? _ then _ else instop).
    assert (Hstop : pos < instop1).
    { subst instop1. destruct (Z.ltb_spec (outlen - len out) (instop - pos));
        lia. }
    destruct (isolat1_copy_spec instop1 (c :: in') pos out)
      as (a & rest & Heq & Ha & -> & _ & _ & Hne);
      [constructor; [split; lia|assumption]|].
    assert (Hane : a <> []) by (apply (Hne c in'); [reflexivity|lia|lia]).
    assert (Hlen : len a + len rest = len in' + 1).
    { apply (f_equal len) in Heq. revert Heq. len_simpl. lia. }
    assert (Hlena : 0 < len a).
    { destruct a; [congruence|]. rewrite len_cons.
      pose proof (len_nonneg a). lia. }
    assert (Hrest : Forall is_byte rest).
    { assert (Hall : Forall is_byte (c :: in'))
        by (constructor; [split; lia|assumption]).
      rewrite Heq in Hall. apply Forall_app in Hall as [_ Hall]. exact Hall. }
    unfold len in Hlen, Hlena.
    apply IH; [lia|lia|assumption|].
    subst instop1. len_simpl. unfold len in *.
    destruct (Z.ltb_spec (outlen - Z.of_nat (length out)) (instop - pos)); lia.
Qed.

(** For any capacity, the loop of [isolat1ToUTF8] consumes a prefix of its
    input and appends the UTF-8 sequences of that prefix, within the
    capacity. *)
Lemma isolat1ToUTF8_loop_prefix outlen : forall fuel in_ pos instop out,
  Forall is_byte in_ ->
  len out <= Z.max 0 outlen ->
  exists a rest,
    in_ = a ++ rest /\
    isolat1ToUTF8_loop fuel outlen in_ pos instop out
      = (rest, pos + len a, out ++ flat_map utf8_seq a) /\
    len (out ++ flat_map utf8_seq a) <= Z.max 0 outlen /\
    (in_ <> [] -> fuel <> 0%nat -> len out < outlen - 1 -> pos < instop ->
     a <> []).
Proof.
  assert (Hstay : forall (in_ : list Z) pos out,
    len out <= Z.max 0 outlen ->
    exists a rest,
      in_ = a ++ rest /\
      (in_, pos, out) = (rest, pos + len a, out ++ flat_map utf8_seq a) /\
      len (out ++ flat_map utf8_seq a) <= Z.max 0 outlen).
  { intros in_ pos out Hout. exists [], in_. cbn [flat_map app].
    rewrite app_nil_r. change (len (@nil Z)) with 0. rewrite Z.add_0_r. auto. }
  induction fuel as [|fuel IH]; intros in_ pos instop out Hb Hout.
  { destruct (Hstay in_ pos out Hout) as (a & rest & H1 & H2 & H3).
    exists a, rest. destruct in_; cbn [isolat1ToUTF8_loop]; auto 6. }
  destruct in_ as [|c in'].
  { destruct (Hstay (@nil Z) pos out Hout) as (a & rest & H1 & H2 & H3).
    exists a, rest. cbn [isolat1ToUTF8_loop]. auto 6. }
  inversion Hb as [|? ? [Hc0 Hc] Hb']; subst.
  pose proof (len_nonneg in') as Hin'. pose proof (len_nonneg out) as Hlo.
  cbn [isolat1ToUTF8_loop].
  destruct (Z.ltb_spec (len out) (outlen - 1)) as [Hroom|].
  2:{ destruct (Hstay (c :: in') pos out Hout) as (a & rest & H1 & H2 & H3).
      exists a, rest. repeat split; try assumption. lia. }
  destruct (Z.leb_spec 0x80 c) as [Hhi|Hlow].
  - rewrite <- (utf8_seq_latin1 c) by lia.
    assert (Hseq : len (utf8_seq c) = 2)
      by (rewrite utf8_seq_latin1 by lia; reflexivity).
    set (instop1 := if _ <? _ then _ else instop).
    assert (Hstop : instop1 - (pos + 1) <= outlen - (len out + 2)).
    { subst instop1. len_simpl. rewrite Hseq.
      match goal with
      | |- context [?x <? ?y] => destruct (Z.ltb_spec x y)
      end; lia. }
    destruct (isolat1_copy_spec instop1 in' (pos + 1) (out ++ utf8_seq c) Hb')
      as (a1 & rest1 & -> & Ha1 & -> & Hbound & _).
    apply Forall_app in Hb' as [_ Hrest1]. pose proof (len_nonneg a1).
    destruct (IH rest1 (pos + 1 + len a1) instop1 ((out ++ utf8_seq c) ++ a1)
                Hrest1) as (a2 & rest & -> & -> & Hlen & _).
    { len_simpl. rewrite Hseq. lia. }
    exists (c :: a1 ++ a2), rest.
    split; [cbn [app]; rewrite <- app_assoc; reflexivity|].
    cbn [flat_map]. rewrite flat_map_app, (flat_map_utf8_ascii a1)
      by assumption.
    rewrite <- !app_assoc in *. split; [|split; [exact Hlen|discriminate]].
    f_equal. f_equal. len_simpl. lia.
  - set (instop1 := if _ <? _ then _ else instop).
    assert (Hstop : instop1 - pos <= outlen - len out).
    { subst instop1.
      destruct (Z.ltb_spec (outlen - len out) (instop - pos)); lia. }
    destruct (isolat1_copy_spec instop1 (c :: in') pos out)
      as (a1 & rest1 & Heq & Ha1 & -> & Hbound & _ & Hne);
      [constructor; [split; lia|assumption]|].
    assert (Hrest1 : Forall is_byte rest1).
    { assert (Hall : Forall is_byte (c :: in'))
        by (constructor; [split; lia|assumption]).
      rewrite Heq in Hall. apply Forall_app in Hall as [_ Hall]. exact Hall. }
    pose proof (len_nonneg a1).
    destruct (IH rest1 (pos + len a1) instop1 (out ++ a1) Hrest1)
      as (a2 & rest & -> & -> & Hlen & _).
    { len_simpl. lia. }
    exists (a1 ++ a2), rest. split; [rewrite Heq, <- app_assoc; reflexivity|].
    rewrite flat_map_app, (flat_map_utf8_ascii a1) by assumption.
    rewrite <- !app_assoc in *. split; [|split; [exact Hlen|]].
    + f_equal. f_equal. len_simpl. lia.
    + intros _ _ _ Hpos.
      assert (Ha1ne : a1 <> []).
      { apply (Hne c in'); [reflexivity|lia|]. subst instop1.
        match goal with
        | |- context [?x <? ?y] => destruct (Z.ltb_spec x y)
        end; lia. }
      destruct a1; [congruence|discriminate].
Qed.

(** [isolat1ToUTF8] consumes a prefix and stores its UTF-8 sequences; with
    room for two bytes it consumes something. *)
Lemma isolat1ToUTF8_takes_prefix outlen b :
  Forall is_byte b ->
  exists a rest,
    b = a ++ rest /\
    isolat1ToUTF8 outlen b = conv_done (flat_map utf8_seq a) (len a) /\
    len (flat_map utf8_seq a) <= Z.max 0 outlen /\
    (b <> [] -> 2 <= outlen -> a <> []).
Proof.
  intros Hb. unfold isolat1ToUTF8.
  destruct (isolat1ToUTF8_loop_prefix outlen (length b) b 0 (len b) [] Hb)
    as (a & rest & -> & -> & Hlen & Hne); [change (len (@nil Z)) with 0; lia|].
  cbn [app] in *. change (0 + len a) with (len a).
  assert (Hne' : a ++ rest <> [] -> 2 <= outlen -> a <> []).
  { intros H1 H2. apply Hne; [assumption| |change (len (@nil Z)) with 0; lia|].
    - destruct (a ++ rest); [congruence|discriminate].
    - destruct (a ++ rest) as [|x l] eqn:E; [congruence|].
      rewrite len_cons. pose proof (len_nonneg l). lia. }
  destruct rest as [|c rest].
  { exists a, []. auto. }
  destruct (Z.ltb_spec (len (flat_map utf8_seq a)) outlen) as [Hroom|];
    cbn [andb]; [|exists a, (c :: rest); auto].
  destruct (Z.ltb_spec c 0x80) as [Hc|]; [|exists a, (c :: rest); auto].
  apply Forall_app in Hb as [_ Hb].
  inversion Hb as [|? ? [Hc0 _] _]; subst.
  exists (a ++ [c]), rest. rewrite <- app_assoc. split; [reflexivity|].
  rewrite flat_map_app. cbn [flat_map]. rewrite app_nil_r.
  assert (Hseq : utf8_seq c = [c]) by (unfold utf8_seq; zbool; reflexivity).
  rewrite Hseq. len_simpl. split; [reflexivity|]. split; [lia|].
  intros _ _. destruct a; discriminate.
Qed.

(** X3: whatever the capacity, [isolat1ToUTF8] does not fail: it consumes
    a prefix of the input, stores the UTF-8 sequences of exactly that
    prefix, never more than [*outlen] bytes, and returns their number. *)
Theorem isolat1ToUTF8_prefix (outlen : Z) (b : list Z) :
  Forall is_byte b ->
  exists a rest,
    b = a ++ rest /\
    isolat1ToUTF8 outlen b = conv_done (flat_map utf8_seq a) (len a) /\
    len (flat_map utf8_seq a) <= Z.max 0 outlen.
Proof.
  intros Hb.
  destruct (isolat1ToUTF8_takes_prefix outlen b Hb)
    as (a & rest & H1 & H2 & H3 & _).
  exists a, rest. auto.
Qed.

Lemma isolat1ToUTF8_prefix_witness :
  exists a rest,
    [0x41; 0xE9; 0x42; 0xFF] = a ++ rest /\
    isolat1ToUTF8 3 [0x41; 0xE9; 0x42; 0xFF]
      = conv_done (flat_map utf8_seq a) (len a) /\
    len (flat_map utf8_seq a) <= Z.max 0 3.
Proof.
  apply (isolat1ToUTF8_prefix 3 [0x41; 0xE9; 0x42; 0xFF]).
  repeat (apply List.Forall_cons; [unfold is_byte; lia|]).
  apply List.Forall_nil.
Defined.

(** Reading back the sequence of a code point with the strict trailing
    loop of [UTF8Toisolat1]. *)
Lemma isolat1_read_back c rest :
  0 <= c < 0x200000 ->
  exists d l c0 t,
    utf8_seq c ++ rest = d :: l ++ rest /\
    utf8_lead d = Some (c0, t) /\
    Z.of_nat t <= len (l ++ rest) /\
    isolat1_trailing t c0 (l ++ rest) = Some (c, rest).
Proof.
  intros Hc. rewrite utf8_seq_arith by assumption.
  pose proof (len_nonneg rest) as Hrest.
  destruct (Z.ltb_spec c 0x80).
  { exists c, [], c, 0%nat. unfold utf8_lead. zbool.
    repeat split. cbn. lia. }
  destruct (Z.ltb_spec c 0x800).
  { destruct (lead_byte_2 (c / 64)) as [Hr Hl]; [lia|].
    exists (Z.lor (c / 64) 0xC0), [Z.lor (c mod 64) 0x80], (c / 64), 1%nat.
    unfold utf8_lead. zbool. rewrite Hl.
    repeat split; [len_simpl; lia|]. cbn [app].
    rewrite isolat1_trailing_continuation by lia.
    cbn [isolat1_trailing]. do 2 f_equal. lia. }
  destruct (Z.ltb_spec c 0x10000).
  { destruct (lead_byte_3 (c / 4096)) as [Hr Hl]; [lia|].
    exists (Z.lor (c / 4096) 0xE0),
      [Z.lor (c / 64 mod 64) 0x80; Z.lor (c mod 64) 0x80],
      (c / 4096), 2%nat.
    unfold utf8_lead. zbool. rewrite Hl.
    repeat split; [len_simpl; lia|]. cbn [app].
    rewrite !isolat1_trailing_continuation by lia.
    cbn [isolat1_trailing]. do 2 f_equal. lia. }
  destruct (lead_byte_4 (c / 262144)) as [Hr Hl]; [lia|].
  exists (Z.lor (c / 262144) 0xF0),
    [Z.lor (c / 4096 mod 64) 0x80; Z.lor (c / 64 mod 64) 0x80;
     Z.lor (c mod 64) 0x80],
    (c / 262144), 3%nat.
  unfold utf8_lead. zbool. rewrite Hl.
  repeat split; [len_simpl; lia|]. cbn [app].
  rewrite !isolat1_trailing_continuation by lia.
  cbn [isolat1_trailing]. do 2 f_equal. lia.
Qed.

(** The loop of [UTF8Toisolat1] over the sequences of Latin 1 characters,
    with more input behind them. *)
Lemma UTF8Toisolat1_loop_latin1_app inlen outlen s : forall b fuel out pr,
  (length b <= fuel)%nat ->
  Forall is_byte b ->
  len out + len b <= outlen ->
  pr = inlen - len (flat_map utf8_seq b ++ s) ->
  UTF8Toisolat1_loop fuel inlen outlen (flat_map utf8_seq b ++ s) out pr
    = UTF8Toisolat1_loop (fuel - length b) inlen outlen s (out ++ b)
        (inlen - len s).
Proof.
  induction b as [|c b IH]; intros fuel out pr Hf Hb Hroom Hpr.
  - cbn [flat_map app length] in *. rewrite app_nil_r, Nat.sub_0_r.
    rewrite Hpr. reflexivity.
  - inversion Hb as [|? ? Hc Hb']; subst. cbn [flat_map length] in *.
    destruct fuel as [|fuel]; [lia|].
    rewrite len_cons in Hroom. pose proof (len_nonneg b).
    rewrite <- app_assoc.
    rewrite UTF8Toisolat1_loop_step by (unfold is_byte in Hc; lia).
    rewrite IH; [|lia|assumption|len_simpl; lia|reflexivity].
    rewrite <- app_assoc. reflexivity.
Qed.

(** A code point takes one byte at least. *)
Lemma length_utf8_text b :
  (length b <= length (flat_map utf8_seq b))%nat.
Proof.
  induction b as [|c b IH]; [cbn; lia|].
  cbn [flat_map]. rewrite length_app.
  destruct (utf8_seq_length c) as [Hl _]. unfold len in Hl. cbn [length].
  lia.
Qed.

(** X4: what [UTF8Toisolat1] refuses, behind any Latin 1 text that fits
    the output.  The sequence of a code point above U+00FF makes the call
    return [XML_ENC_ERR_INPUT]; so does a lead byte that is followed by as
    many bytes as it announces, or more, when the first of them is no
    continuation byte.  A lead byte followed by fewer bytes than it
    announces is no error: the call returns the bytes of the text and
    leaves the lead byte unconsumed.  In each case the counts are those of
    the text in front: its characters stored, its bytes consumed. *)
Theorem UTF8Toisolat1_rejects (outlen : Z) (b : list Z) :
  Forall is_byte b ->
  len b <= outlen ->
  (forall c rest, 0x100 <= c < 0x200000 ->
     UTF8Toisolat1 outlen (Some (flat_map utf8_seq b ++ utf8_seq c ++ rest))
       = conv_input_error b (len (flat_map utf8_seq b))) /\
  (forall d x rest c0 t,
     utf8_lead d = Some (c0, S t) -> Z.land x 0xC0 <> 0x80 ->
     Z.of_nat (S t) <= len (x :: rest) ->
     UTF8Toisolat1 outlen (Some (flat_map utf8_seq b ++ d :: x :: rest))
       = conv_input_error b (len (flat_map utf8_seq b))) /\
  (forall d rest c0 t,
     utf8_lead d = Some (c0, t) -> len rest < Z.of_nat t ->
     UTF8Toisolat1 outlen (Some (flat_map utf8_seq b ++ d :: rest))
       = conv_done b (len (flat_map utf8_seq b))).
Proof.
  intros Hb Hroom.
  assert (Hgo : forall s, s <> [] ->
    exists fuel,
      UTF8Toisolat1 outlen (Some (flat_map utf8_seq b ++ s))
        = UTF8Toisolat1_loop (S fuel) (len (flat_map utf8_seq b ++ s)) outlen
            s b (len (flat_map utf8_seq b))).
  { intros s Hs. unfold UTF8Toisolat1.
    pose proof (length_utf8_text b) as Hlen.
    assert (Hfuel : (length b + 1 <=
                     length (flat_map utf8_seq b ++ s))%nat).
    { rewrite length_app. destruct s; [congruence|]. cbn [length]. lia. }
    rewrite UTF8Toisolat1_loop_latin1_app;
      [|lia|assumption|change (len (@nil Z)) with 0; lia|lia].
    cbn [app].
    exists (length (flat_map utf8_seq b ++ s) - length b - 1)%nat.
    replace (S (length (flat_map utf8_seq b ++ s) - length b - 1))
      with (length (flat_map utf8_seq b ++ s) - length b)%nat by lia.
    f_equal. len_simpl. lia. }
  split; [|split].
  - intros c rest Hc.
    destruct (Hgo (utf8_seq c ++ rest)) as [fuel ->].
    { destruct (utf8_seq_length c) as [Hl _]. destruct (utf8_seq c);
        [change (len (@nil Z)) with 0 in Hl; lia|discriminate]. }
    destruct (isolat1_read_back c rest) as (d & l & c0 & t & -> & Hlead & Hlen & Htr);
      [lia|].
    cbn [UTF8Toisolat1_loop]. rewrite Hlead. zbool. rewrite Htr. zbool.
    reflexivity.
  - intros d x rest c0 t Hlead Hx Hlen.
    destruct (Hgo (d :: x :: rest)) as [fuel ->]; [discriminate|].
    cbn [UTF8Toisolat1_loop]. rewrite Hlead. zbool.
    cbn [isolat1_trailing]. zbool. reflexivity.
  - intros d rest c0 t Hlead Hlen.
    destruct (Hgo (d :: rest)) as [fuel ->]; [discriminate|].
    cbn [UTF8Toisolat1_loop]. rewrite Hlead. zbool. reflexivity.
Qed.

(** "é" followed by U+0100, by [C3 41], and by [E0 41]. *)
Lemma UTF8Toisolat1_rejects_witness :
  UTF8Toisolat1 4 (Some (flat_map utf8_seq [0xE9] ++ utf8_seq 0x100 ++ []))
    = conv_input_error [0xE9] (len (flat_map utf8_seq [0xE9])) /\
  UTF8Toisolat1 4 (Some (flat_map utf8_seq [0xE9] ++ [0xC3; 0x41]))
    = conv_input_error [0xE9] (len (flat_map utf8_seq [0xE9])) /\
  UTF8Toisolat1 4 (Some (flat_map utf8_seq [0xE9] ++ [0xE0; 0x41]))
    = conv_done [0xE9] (len (flat_map utf8_seq [0xE9])).
Proof.
  assert (Hb : Forall is_byte [0xE9]).
  { apply List.Forall_cons; [unfold is_byte; lia|apply List.Forall_nil]. }
  assert (Hroom : len [0xE9] <= 4) by (vm_compute; discriminate).
  destruct (UTF8Toisolat1_rejects 4 [0xE9] Hb Hroom) as (H1 & H2 & H3).
  split; [|split].
  - apply H1. lia.
  - apply (H2 0xC3 0x41 [] 3 0%nat).
    + reflexivity.
    + vm_compute. discriminate.
    + vm_compute. discriminate.
  - apply (H3 0xE0 [0x41] 0 2%nat).
    + reflexivity.
    + vm_compute. reflexivity.
Defined.

(** ** UTF-16 in either byte order *)

Lemma store16BE_unit le b0 b1 :
  is_byte b0 -> is_byte b1 -> store16BE le (256 * b0 + b1) = [b0; b1].
Proof.
  unfold is_byte. intros H0 H1. unfold store16BE.
  change 0xFF with (Z.ones 8).
  rewrite !Z.land_ones, Z.shiftr_div_pow2 by lia.
  change (2 ^ 8) with 256.
  destruct le; f_equal; try f_equal; lia.
Qed.

Lemma unit_val_range big b0 b1 :
  is_byte b0 -> is_byte b1 -> 0 <= unit_val big b0 b1 < 65536.
Proof. unfold is_byte, unit_val. destruct big; lia. Qed.

Section Utf16RoundTrip.

Variable big : bool.
Variable unit : Z -> Z -> Z.
Variable store : Z -> list Z.

Hypothesis unit_ok : forall b0 b1,
  is_byte b0 -> is_byte b1 -> unit b0 b1 = unit_val big b0 b1.
Hypothesis store_ok : forall b0 b1,
  is_byte b0 -> is_byte b1 -> store (unit_val big b0 b1) = [b0; b1].

(** The units of an even number of bytes, stored again, are the bytes. *)
Lemma store_units : forall n b,
  (length b <= n)%nat ->
  Forall is_byte b -> decodable_utf16 big b = true ->
  flat_map store (utf16_units_of big b) = b /\
  len (utf16_units_of big b) * 2 = len b.
Proof using store_ok.
  induction n as [|n IH]; intros b Hn Hb Hv.
  - destruct b; [split; reflexivity|cbn in Hn; lia].
  - destruct b as [|b0 [|b1 b']]; [split; reflexivity|discriminate|].
    inversion Hb as [|? ? H0 Hb1]; subst.
    inversion Hb1 as [|? ? H1 Hb']; subst.
    assert (Hv' : decodable_utf16 big b' = true \/
                  exists d0 d1 b'', b' = d0 :: d1 :: b'' /\
                                    decodable_utf16 big b'' = true).
    { cbn [decodable_utf16] in Hv.
      destruct (is_high_surrogate (unit_val big b0 b1)).
      - destruct b' as [|d0 [|d1 b'']]; try discriminate.
        apply andb_true_iff in Hv as [_ Hv]. right. eauto.
      - left. assumption. }
    cbn [utf16_units_of flat_map]. rewrite store_ok by assumption.
    destruct Hv' as [Hv'|(d0 & d1 & b'' & -> & Hv'')].
    + destruct (IH b') as [Hbytes Hlen]; [cbn in Hn; lia|assumption..|].
      rewrite Hbytes. split; [reflexivity|]. len_simpl. lia.
    + inversion Hb' as [|? ? Hd0 Hb1']; subst.
      inversion Hb1' as [|? ? Hd1 Hb'']; subst.
      destruct (IH b'') as [Hbytes Hlen]; [cbn in Hn; lia|assumption..|].
      cbn [utf16_units_of flat_map]. rewrite store_ok by assumption.
      rewrite Hbytes. split; [reflexivity|]. len_simpl. lia.
Qed.

(** Decoder and encoder, turn by turn, for any sequence the decoder takes
    whole.  The decoder started with enough room consumes all of [b], and
    what it appends, [s], takes the encoder through the units of [b]. *)
Lemma utf16_round_trip_loops cap1 cap2 : forall n b,
  (length b <= n)%nat ->
  Forall is_byte b -> decodable_utf16 big b = true ->
  forall out pr,
  2 * len out + 3 * len b + 10 < 2 * cap1 ->
  exists s,
    UTF16ToUTF8_loop unit cap1 b out pr
      = conv_done (out ++ s) (pr + len b) /\
    forall fuel inlen uout upr,
      (length s <= fuel)%nat ->
      upr = inlen - len s ->
      2 * len uout + len b <= cap2 ->
      UTF8ToUTF16LE_loop fuel inlen cap2 s uout upr
        = (len (uout ++ utf16_units_of big b) * 2,
           uout ++ utf16_units_of big b, inlen).
Proof using unit_ok.
  induction n as [|n IH]; intros b Hn Hb Hv out pr Hcap.
  { destruct b; [|cbn in Hn; lia]. exists []. split.
    - cbn. rewrite app_nil_r. f_equal. change (len (@nil Z)) with 0. lia.
    - intros fuel inlen uout upr _ -> _. cbn [utf16_units_of].
      rewrite app_nil_r. change (len (@nil Z)) with 0. rewrite Z.sub_0_r.
      destruct fuel; reflexivity. }
  destruct b as [|b0 [|b1 b']].
  { exists []. split.
    - cbn. rewrite app_nil_r. f_equal. change (len (@nil Z)) with 0. lia.
    - intros fuel inlen uout upr _ -> _. cbn [utf16_units_of].
      rewrite app_nil_r. change (len (@nil Z)) with 0. rewrite Z.sub_0_r.
      destruct fuel; reflexivity. }
  { discriminate. }
  inversion Hb as [|? ? H0 Hb1]; subst.
  inversion Hb1 as [|? ? H1 Hb']; subst.
  pose proof (unit_val_range big b0 b1 H0 H1) as Hu.
  pose proof (len_nonneg out) as Hout. pose proof (len_nonneg b') as Hb'len.
  revert Hcap. len_simpl. intros Hcap.
  cbn [UTF16ToUTF8_loop decodable_utf16] in Hv |- *.
  rewrite unit_ok by assumption.
  destruct (surrogate_tests _ Hu) as [-> _]. zbool.
  destruct (is_high_surrogate (unit_val big b0 b1)) eqn:Hhi.
  - (* a surrogate pair *)
    destruct b' as [|d0 [|d1 b'']]; try discriminate.
    apply andb_true_iff in Hv as [Hlo Hv].
    inversion Hb' as [|? ? Hd0 Hb1']; subst.
    inversion Hb1' as [|? ? Hd1 Hb'']; subst.
    pose proof (unit_val_range big d0 d1 Hd0 Hd1) as Hd.
    revert Hcap. len_simpl. intros Hcap. pose proof (len_nonneg b'').
    rewrite unit_ok by assumption.
    destruct (surrogate_tests _ Hd) as [_ ->]. rewrite Hlo.
    rewrite put_utf8_room by lia.
    destruct (surrogate_pair_back _ _ Hu Hd Hhi Hlo) as [Hc Hunits].
    set (c := combine_surrogates (unit_val big b0 b1) (unit_val big d0 d1))
      in *.
    destruct (utf8_seq_length c) as [Hlen _].
    destruct (IH b'') with (out := out ++ utf8_seq c) (pr := pr + 4)
      as (s & Hdec & Henc); [cbn in Hn; lia|assumption|assumption| |].
    { len_simpl. lia. }
    exists (utf8_seq c ++ s). split.
    + rewrite Hdec, app_assoc. f_equal. lia.
    + intros fuel inlen uout upr Hfuel -> Hroom.
      destruct fuel as [|fuel];
        [rewrite length_app in Hfuel; unfold len in Hlen; lia|].
      rewrite UTF8ToUTF16LE_loop_step;
        [|lia|rewrite Hunits; len_simpl; lia].
      rewrite Hunits, Henc;
        [|rewrite length_app in Hfuel; unfold len in Hlen; lia
         |reflexivity|len_simpl; lia].
      cbn [utf16_units_of]. rewrite <- !app_assoc. reflexivity.
  - (* a unit on its own, a low surrogate included *)
    rewrite put_utf8_room by lia.
    set (c := unit_val big b0 b1) in *.
    destruct (utf8_seq_length c) as [Hlen Hlen3].
    destruct (IH b') with (out := out ++ utf8_seq c) (pr := pr + 2)
      as (s & Hdec & Henc); [cbn in Hn; lia|assumption|assumption| |].
    { len_simpl. lia. }
    assert (Hunits : utf16_units c = [c])
      by (unfold utf16_units; zbool; reflexivity).
    exists (utf8_seq c ++ s). split.
    + rewrite Hdec, app_assoc. f_equal. lia.
    + intros fuel inlen uout upr Hfuel -> Hroom.
      destruct fuel as [|fuel];
        [rewrite length_app in Hfuel; unfold len in Hlen; lia|].
      rewrite UTF8ToUTF16LE_loop_step;
        [|lia|rewrite Hunits; len_simpl; lia].
      rewrite Hunits, Henc;
        [|rewrite length_app in Hfuel; unfold len in Hlen; lia
         |reflexivity|len_simpl; lia].
      cbn [utf16_units_of]. rewrite <- !app_assoc. reflexivity.
Qed.

End Utf16RoundTrip.

(** X5: the UTF-16 round trip in both byte orders.  Every sequence of an
    even number of bytes in which each high surrogate is followed by a low
    one (a low surrogate on its own is let through), decoded by
    [UTF16LEToUTF8], respectively [UTF16BEToUTF8], into a buffer of at
    least twice its length plus 6 bytes, is consumed whole without error,
    and [UTF8ToUTF16LE], respectively [UTF8ToUTF16BE], given room for as
    many bytes turns the result back into the very same bytes. *)
Theorem utf16_round_trip_both (le : bool) (b : list Z) (cap1 cap2 : Z) :
  Forall is_byte b ->
  2 * len b + 6 <= cap1 ->
  len b <= cap2 ->
  (decodable_utf16 false b = true ->
   let r := UTF16LEToUTF8 le cap1 b in
   c_ret r = len (c_out r) /\ c_inlen r = len b /\
   UTF8ToUTF16LE le cap2 (Some (c_out r))
     = mkConv (len b) b (len b) (len (c_out r))) /\
  (decodable_utf16 true b = true ->
   let r := UTF16BEToUTF8 le cap1 b in
   c_ret r = len (c_out r) /\ c_inlen r = len b /\
   UTF8ToUTF16BE le cap2 (Some (c_out r))
     = mkConv (len b) b (len b) (len (c_out r))).
Proof.
  intros Hb Hcap1 Hcap2. pose proof (len_nonneg b) as Hlen.
  split; intros Hv; cbv zeta.
  - destruct (utf16_round_trip_loops false (unitLE le) (unitLE_val le)
                cap1 cap2 (length b) b) with (out := @nil Z) (pr := 0)
      as (s & Hdec & Henc); [lia|assumption|assumption| |].
    { change (len (@nil Z)) with 0. lia. }
    unfold UTF16LEToUTF8. zbool. rewrite Hdec.
    cbn [app conv_done c_ret c_out c_outlen c_inlen].
    split; [reflexivity|]. split; [lia|].
    unfold UTF8ToUTF16LE.
    rewrite (Henc (length s) (len s) [] 0);
      [|lia|lia|change (len (@nil Z)) with 0; lia].
    cbn [app].
    destruct (store_units false (store16 le) (store16_unit le) (length b) b)
      as [Hbytes Hunits]; [lia|assumption|assumption|].
    unfold unit_bytes. rewrite Hbytes, Hunits. reflexivity.
  - destruct (utf16_round_trip_loops true (unitBE le) (unitBE_val le)
                cap1 cap2 (length b) b) with (out := @nil Z) (pr := 0)
      as (s & Hdec & Henc); [lia|assumption|assumption| |].
    { change (len (@nil Z)) with 0. lia. }
    unfold UTF16BEToUTF8. zbool. rewrite Hdec.
    cbn [app conv_done c_ret c_out c_outlen c_inlen].
    split; [reflexivity|]. split; [lia|].
    unfold UTF8ToUTF16BE.
    rewrite (Henc (length s) (len s) [] 0);
      [|lia|lia|change (len (@nil Z)) with 0; lia].
    cbn [app].
    destruct (store_units true (store16BE le) (store16BE_unit le) (length b) b)
      as [Hbytes Hunits]; [lia|assumption|assumption|].
    unfold unit_bytesBE. rewrite Hbytes, Hunits.
    pose proof (len_nonneg (utf16_units_of true b)).
    unfold XML_ENC_ERR_INPUT. zbool. reflexivity.
Qed.

(** Big-endian "A", U+1F600 as the pair D83D DE00, and the low surrogate
    DC00 on its own. *)
Lemma utf16_round_trip_both_witness :
  UTF8ToUTF16BE true 8
    (Some (c_out (UTF16BEToUTF8 true 22
                    [0x00; 0x41; 0xD8; 0x3D; 0xDE; 0x00; 0xDC; 0x00])))
  = mkConv 8 [0x00; 0x41; 0xD8; 0x3D; 0xDE; 0x00; 0xDC; 0x00] 8 8.
Proof.
  assert (Hb : Forall is_byte
                 [0x00; 0x41; 0xD8; 0x3D; 0xDE; 0x00; 0xDC; 0x00]).
  { repeat (apply List.Forall_cons; [unfold is_byte; lia|]).
    apply List.Forall_nil. }
  apply (proj2 (utf16_round_trip_both true
           [0x00; 0x41; 0xD8; 0x3D; 0xDE; 0x00; 0xDC; 0x00] 22 8 Hb
           ltac:(vm_compute; discriminate) ltac:(vm_compute; discriminate))).
  reflexivity.
Defined.

(** ** Bounds *)

Lemma put_continuation_length outlen c : forall k out,
  len out <= len (put_continuation k outlen c out) <= len out + Z.of_nat k.
Proof.
  induction k as [|k IH]; intros out; cbn [put_continuation]; [lia|].
  destruct (outlen <=? len out); [lia|].
  specialize (IH (out ++ [Z.lor (Z.land (Z.shiftr c (6 * Z.of_nat k)) 0x3F)
                            0x80])).
  revert IH. len_simpl. lia.
Qed.

Lemma put_utf8_length outlen c out :
  len out <= len (put_utf8 outlen c out) <= len out + 4.
Proof.
  unfold put_utf8.
  repeat case_match;
    match goal with
    | |- _ <= len (put_continuation ?k _ _ ?o) <= _ =>
        generalize (put_continuation_length outlen c k o)
    end; len_simpl; lia.
Qed.

(** The loop of the UTF-16 decoders stays within the output and within
    the input. *)
Lemma UTF16ToUTF8_loop_bounds unit outlen : forall n in_ out pr,
  (length in_ <= n)%nat ->
  len out <= Z.max 0 outlen ->
  let r := UTF16ToUTF8_loop unit outlen in_ out pr in
  len (c_out r) <= Z.max 0 outlen /\
  c_outlen r = len (c_out r) /\
  pr <= c_inlen r <= pr + len in_ /\
  (c_ret r = c_outlen r \/ c_ret r = XML_ENC_ERR_INPUT).
Proof.
  assert (Hstop : forall (in_ : list Z) out pr,
    len out <= Z.max 0 outlen ->
    len (c_out (conv_done out pr)) <= Z.max 0 outlen /\
    c_outlen (conv_done out pr) = len (c_out (conv_done out pr)) /\
    pr <= c_inlen (conv_done out pr) <= pr + len in_ /\
    (c_ret (conv_done out pr) = c_outlen (conv_done out pr) \/
     c_ret (conv_done out pr) = XML_ENC_ERR_INPUT)).
  { intros in_ out pr Hout. pose proof (len_nonneg in_). cbn. auto with lia. }
  assert (Herr : forall (in_ : list Z) out pr,
    len out <= Z.max 0 outlen ->
    len (c_out (conv_input_error out pr)) <= Z.max 0 outlen /\
    c_outlen (conv_input_error out pr)
      = len (c_out (conv_input_error out pr)) /\
    pr <= c_inlen (conv_input_error out pr) <= pr + len in_ /\
    (c_ret (conv_input_error out pr) = c_outlen (conv_input_error out pr) \/
     c_ret (conv_input_error out pr) = XML_ENC_ERR_INPUT)).
  { intros in_ out pr Hout. pose proof (len_nonneg in_). cbn. auto with lia. }
  induction n as [|n IH]; intros in_ out pr Hn Hout; cbv zeta.
  { destruct in_; [|cbn in Hn; lia]. apply (Hstop []). assumption. }
  destruct in_ as [|b0 [|b1 in1]];
    [apply (Hstop []); assumption|apply (Hstop [b0]); assumption|].
  cbn [UTF16ToUTF8_loop].
  destruct (Z.ltb_spec (len out + 5) outlen) as [Hroom|];
    [|apply Hstop; assumption].
  destruct (Z.land (unit b0 b1) 0xFC00 =? 0xD800).
  - destruct in1 as [|d0 [|d1 in2]]; try (apply Hstop; assumption).
    destruct (Z.land (unit d0 d1) 0xFC00 =? 0xDC00);
      [|apply Herr; assumption].
    destruct (outlen <=? len out); [apply Hstop; assumption|].
    pose proof (put_utf8_length outlen
                  (combine_surrogates (unit b0 b1) (unit d0 d1)) out) as Hp.
    specialize (IH in2 (put_utf8 outlen
                          (combine_surrogates (unit b0 b1) (unit d0 d1)) out)
                  (pr + 4)).
    cbv zeta in IH. len_simpl.
    destruct IH as (H1 & H2 & H3 & H4); [cbn in Hn; lia|lia|].
    repeat split; try assumption; lia.
  - destruct (outlen <=? len out); [apply Hstop; assumption|].
    pose proof (put_utf8_length outlen (unit b0 b1) out) as Hp.
    specialize (IH in1 (put_utf8 outlen (unit b0 b1) out) (pr + 2)).
    cbv zeta in IH. len_simpl.
    destruct IH as (H1 & H2 & H3 & H4); [cbn in Hn; lia|lia|].
    repeat split; try assumption; lia.
Qed.

Lemma asciiToUTF8_loop_bounds outlen : forall in_ out pr,
  len out <= Z.max 0 outlen ->
  let r := asciiToUTF8_loop outlen in_ out pr in
  len (c_out r) <= Z.max 0 outlen /\
  c_outlen r = len (c_out r) /\
  pr <= c_inlen r <= pr + len in_ /\
  (c_ret r = c_outlen r \/ c_ret r = XML_ENC_ERR_INPUT).
Proof.
  induction in_ as [|c in' IH]; intros out pr Hout; cbv zeta;
    cbn [asciiToUTF8_loop].
  { change (len (@nil Z)) with 0. cbn. auto with lia. }
  pose proof (len_nonneg in'). len_simpl.
  repeat (case_match; try (cbn; auto with lia; fail)).
  specialize (IH (out ++ [c]) (pr + 1)). cbv zeta in IH. revert IH.
  len_simpl. intros IH.
  destruct IH as (B1 & B2 & B3 & B4);
    [match goal with H : (_ <? _) = true |- _ => apply Z.ltb_lt in H end; lia|].
  repeat split; try assumption; lia.
Qed.

(** X6: the decoders stay within their buffers.  For any capacity and any
    input, [asciiToUTF8], [UTF16LEToUTF8] and [UTF16BEToUTF8] store no more
    than [*outlen] bytes, report their number in [*outlen] and a count
    within the input in [*inlen], and return [*outlen] or
    [XML_ENC_ERR_INPUT]. *)
Theorem decoders_within_bounds (le : bool) (outlen : Z) (inb : list Z) :
  within_bounds outlen inb (asciiToUTF8 outlen inb) /\
  within_bounds outlen inb (UTF16LEToUTF8 le outlen inb) /\
  within_bounds outlen inb (UTF16BEToUTF8 le outlen inb).
Proof.
  pose proof (len_nonneg inb) as Hin.
  assert (H0 : len (@nil Z) <= Z.max 0 outlen)
    by (change (len (@nil Z)) with 0; lia).
  unfold within_bounds. split; [|split].
  - exact (asciiToUTF8_loop_bounds outlen inb [] 0 H0).
  - unfold UTF16LEToUTF8. destruct (Z.eqb_spec outlen 0) as [->|].
    + cbn. auto with lia.
    + exact (UTF16ToUTF8_loop_bounds _ outlen (length inb) inb [] 0
               (Nat.le_refl _) H0).
  - unfold UTF16BEToUTF8. destruct (Z.eqb_spec outlen 0) as [->|].
    + cbn. auto with lia.
    + exact (UTF16ToUTF8_loop_bounds _ outlen (length inb) inb [] 0
               (Nat.le_refl _) H0).
Qed.

Lemma utf8_trailing_len t c l :
  len (snd (utf8_trailing t c l)) <= len l.
Proof. pose proof (utf8_trailing_length t c l). unfold len. lia. Qed.

Lemma isolat1_trailing_len t : forall c l c' l',
  isolat1_trailing t c l = Some (c', l') -> len l' <= len l.
Proof.
  induction t as [|t IH]; intros c l c' l'; cbn [isolat1_trailing].
  - intros [= _ ->]. lia.
  - destruct l as [|d l]; [intros [= _ <-]; lia|].
    destruct (Z.land d 0xC0 =? 0x80); [|discriminate].
    intros H. apply IH in H. rewrite len_cons. lia.
Qed.

Lemma UTF8Toascii_loop_bounds inlen outlen : forall fuel in_ out pr,
  len in_ <= inlen -> 0 <= pr <= inlen ->
  len out <= Z.max 0 outlen ->
  let r := UTF8Toascii_loop fuel inlen outlen in_ out pr in
  len (c_out r) <= Z.max 0 outlen /\
  c_outlen r = len (c_out r) /\
  0 <= c_inlen r <= inlen /\
  (c_ret r = c_outlen r \/ c_ret r = XML_ENC_ERR_INPUT).
Proof.
  induction fuel as [|fuel IH]; intros in_ out pr Hin Hpr Hout; cbv zeta.
  { cbn. auto with lia. }
  destruct in_ as [|d in1]; [cbn; auto with lia|].
  cbn [UTF8Toascii_loop]. rewrite len_cons in Hin.
  destruct (utf8_lead d) as [[c t]|]; [|cbn; auto with lia].
  destruct (len in1 <? Z.of_nat t); [cbn; auto with lia|].
  pose proof (utf8_trailing_len t c in1) as Hl.
  destruct (utf8_trailing t c in1) as [c' in2]. cbn [snd] in Hl.
  pose proof (len_nonneg in2).
  destruct (c' <? 0x80); [|cbn; auto with lia].
  destruct (Z.leb_spec outlen (len out)); [cbn; auto with lia|].
  apply IH; [lia|lia|len_simpl; lia].
Qed.

Lemma UTF8Toisolat1_loop_bounds inlen outlen : forall fuel in_ out pr,
  len in_ <= inlen -> 0 <= pr <= inlen ->
  len out <= Z.max 0 outlen ->
  let r := UTF8Toisolat1_loop fuel inlen outlen in_ out pr in
  len (c_out r) <= Z.max 0 outlen /\
  c_outlen r = len (c_out r) /\
  0 <= c_inlen r <= inlen /\
  (c_ret r = c_outlen r \/ c_ret r = XML_ENC_ERR_INPUT).
Proof.
  induction fuel as [|fuel IH]; intros in_ out pr Hin Hpr Hout; cbv zeta.
  { cbn. auto with lia. }
  destruct in_ as [|d in1]; [cbn; auto with lia|].
  cbn [UTF8Toisolat1_loop]. rewrite len_cons in Hin.
  destruct (utf8_lead d) as [[c t]|]; [|cbn; auto with lia].
  destruct (len in1 <? Z.of_nat t); [cbn; auto with lia|].
  destruct (isolat1_trailing t c in1) as [[c' in2]|] eqn:Htr;
    [|cbn; auto with lia].
  apply isolat1_trailing_len in Htr. pose proof (len_nonneg in2).
  destruct (c' <=? 0xFF); [|cbn; auto with lia].
  destruct (Z.leb_spec outlen (len out)); [cbn; auto with lia|].
  apply IH; [lia|lia|len_simpl; lia].
Qed.

(** The units stored by the loop of [UTF8ToUTF16LE] fit in [*outlen / 2]
    units. *)
Lemma UTF8ToUTF16LE_loop_bounds inlen outlen : forall fuel in_ out pr,
  len in_ <= inlen -> 0 <= pr <= inlen ->
  2 * len out <= Z.max 0 outlen ->
  match UTF8ToUTF16LE_loop fuel inlen outlen in_ out pr with
  | (r, units, processed) =>
      2 * len units <= Z.max 0 outlen /\
      0 <= processed <= inlen /\
      (r = len units * 2 \/ r = XML_ENC_ERR_INPUT)
  end.
Proof.
  induction fuel as [|fuel IH]; intros in_ out pr Hin Hpr Hout.
  { cbn. auto with lia. }
  destruct in_ as [|d in1]; [cbn; auto with lia|].
  cbn [UTF8ToUTF16LE_loop]. rewrite len_cons in Hin.
  destruct (utf8_lead d) as [[c t]|]; [|auto with lia].
  destruct (len in1 <? Z.of_nat t); [auto with lia|].
  pose proof (utf8_trailing_len t c in1) as Hl.
  destruct (utf8_trailing t c in1) as [c' in2]. cbn [snd] in Hl.
  pose proof (len_nonneg in2). pose proof (len_nonneg out).
  destruct (c' <? 0x10000).
  - destruct (Z.leb_spec (Z.quot outlen 2) (len out)); [auto with lia|].
    apply IH; [lia|lia|len_simpl; lia].
  - destruct (c' <? 0x110000); [|auto with lia].
    destruct (Z.leb_spec (Z.quot outlen 2) (len out + 1)); [auto with lia|].
    apply IH; [lia|lia|len_simpl; lia].
Qed.

Lemma unit_bytes_length le units :
  len (unit_bytes le units) = 2 * len units.
Proof.
  unfold unit_bytes. induction units as [|u units IH]; [reflexivity|].
  cbn [flat_map]. rewrite len_app, IH, len_cons.
  unfold store16. destruct le; len_simpl; lia.
Qed.

Lemma unit_bytesBE_length le units :
  len (unit_bytesBE le units) = 2 * len units.
Proof.
  unfold unit_bytesBE. induction units as [|u units IH]; [reflexivity|].
  cbn [flat_map]. rewrite len_app, IH, len_cons.
  unfold store16BE. destruct le; len_simpl; lia.
Qed.

(** X7: the encoders stay within their buffers.  For any capacity and any
    input, [UTF8Toascii], [UTF8Toisolat1], [UTF8ToUTF16LE] and
    [UTF8ToUTF16] store no more than [*outlen] bytes, report their number
    in [*outlen] and a count within the input in [*inlen], and return
    [*outlen] or [XML_ENC_ERR_INPUT].  [UTF8ToUTF16BE] stays within the
    buffers as well, but when it returns [XML_ENC_ERR_INPUT] the [*outlen]
    it reports is the number of units, half the bytes stored. *)
Theorem encoders_within_bounds (le : bool) (outlen : Z) (l : list Z) :
  within_bounds outlen l (UTF8Toascii outlen (Some l)) /\
  within_bounds outlen l (UTF8Toisolat1 outlen (Some l)) /\
  within_bounds outlen l (UTF8ToUTF16LE le outlen (Some l)) /\
  within_bounds outlen l (UTF8ToUTF16 le outlen (Some l)) /\
  (let r := UTF8ToUTF16BE le outlen (Some l) in
   len (c_out r) <= Z.max 0 outlen /\
   0 <= c_inlen r <= len l /\
   (c_ret r = c_outlen r /\ c_outlen r = len (c_out r) \/
    c_ret r = XML_ENC_ERR_INPUT /\ c_outlen r * 2 = len (c_out r))).
Proof.
  pose proof (len_nonneg l) as Hl.
  assert (H0 : len (@nil Z) <= Z.max 0 outlen)
    by (change (len (@nil Z)) with 0; lia).
  assert (H2 : 2 * len (@nil Z) <= Z.max 0 outlen)
    by (change (len (@nil Z)) with 0; lia).
  assert (HLE : within_bounds outlen l (UTF8ToUTF16LE le outlen (Some l))).
  { unfold within_bounds, UTF8ToUTF16LE.
    pose proof (UTF8ToUTF16LE_loop_bounds (len l) outlen (length l) l [] 0
                  (Z.le_refl _) (conj (Z.le_refl 0) Hl) H2) as Hb.
    destruct (UTF8ToUTF16LE_loop _ _ _ _ _ _) as [[r units] processed].
    cbn [c_out c_outlen c_inlen c_ret]. rewrite unit_bytes_length.
    destruct Hb as (B1 & B2 & B3). repeat split; try lia. }
  split; [|split; [|split; [exact HLE|split; [exact HLE|]]]].
  - exact (UTF8Toascii_loop_bounds (len l) outlen (length l) l [] 0
             (Z.le_refl _) (conj (Z.le_refl 0) Hl) H0).
  - exact (UTF8Toisolat1_loop_bounds (len l) outlen (length l) l [] 0
             (Z.le_refl _) (conj (Z.le_refl 0) Hl) H0).
  - cbv zeta. unfold UTF8ToUTF16BE.
    pose proof (UTF8ToUTF16LE_loop_bounds (len l) outlen (length l) l [] 0
                  (Z.le_refl _) (conj (Z.le_refl 0) Hl) H2) as Hb.
    destruct (UTF8ToUTF16LE_loop _ _ _ _ _ _) as [[r units] processed].
    cbn [c_out c_outlen c_inlen c_ret]. rewrite unit_bytesBE_length.
    destruct Hb as (B1 & B2 & B3). pose proof (len_nonneg units).
    split; [lia|]. split; [lia|].
    unfold XML_ENC_ERR_INPUT in *.
    destruct B3 as [->| ->]; zbool; lia.
Qed.

(** ** The contract of [asciiToUTF8] *)

Lemma asciiToUTF8_loop_contract outlen : forall in_ out pr,
  Forall is_byte in_ ->
  exists a rest,
    in_ = a ++ rest /\ Forall is_ascii a /\
    c_out (asciiToUTF8_loop outlen in_ out pr) = out ++ a /\
    c_outlen (asciiToUTF8_loop outlen in_ out pr) = len out + len a /\
    c_inlen (asciiToUTF8_loop outlen in_ out pr) = pr + len a /\
    (c_ret (asciiToUTF8_loop outlen in_ out pr) = len out + len a /\
     (rest = [] \/ outlen <= len out + len a + 5) \/
     c_ret (asciiToUTF8_loop outlen in_ out pr) = XML_ENC_ERR_INPUT /\
     len out + len a + 5 < outlen /\
     exists c t, rest = c :: t /\ 0x80 <= c).
Proof.
  induction in_ as [|c in' IH]; intros out pr Hb.
  - exists [], []. cbn [asciiToUTF8_loop conv_done c_out c_outlen c_inlen
      c_ret app]. rewrite app_nil_r. change (len (@nil Z)) with 0.
    split; [reflexivity|]. split; [constructor|].
    split; [reflexivity|]. split; [lia|]. split; [lia|].
    left. split; [lia|left; reflexivity].
  - inversion Hb as [|? ? [Hc0 Hc] Hb']; subst. cbn [asciiToUTF8_loop].
    pose proof (len_nonneg out).
    destruct (Z.ltb_spec (len out + 5) outlen) as [Hroom|Hroom].
    + zbool. destruct (Z.ltb_spec c 0x80) as [Hlt|Hge].
      * destruct (IH (out ++ [c]) (pr + 1) Hb')
          as (a & rest & -> & Ha & H1 & H2 & H3 & H4).
        exists (c :: a), rest. revert H2 H4. len_simpl. intros H2 H4.
        rewrite H1, H2, H3, <- app_assoc.
        repeat split; try lia; try reflexivity.
        -- constructor; [split; lia|assumption].
        -- destruct H4 as [[-> H4]|(-> & H4 & H5)]; [left|right];
             repeat split; try lia; try assumption.
           destruct H4; [left; assumption|right; lia].
      * exists [], (c :: in').
        cbn [conv_input_error c_out c_outlen c_inlen c_ret app].
        rewrite app_nil_r. change (len (@nil Z)) with 0.
        split; [reflexivity|]. split; [constructor|].
        split; [reflexivity|]. split; [lia|]. split; [lia|].
        right. split; [reflexivity|]. split; [lia|]. eauto.
    + exists [], (c :: in').
      cbn [conv_done c_out c_outlen c_inlen c_ret app].
      rewrite app_nil_r. change (len (@nil Z)) with 0.
      split; [reflexivity|]. split; [constructor|].
      split; [reflexivity|]. split; [lia|]. split; [lia|].
      left. split; [lia|right; lia].
Qed.

(** X8: what [asciiToUTF8] does on any input.  It copies a run [a] of
    ASCII bytes from the head of the input, and both counts are the length
    of that run.  It returns that length when the input is exhausted or
    fewer than six bytes of room are left, and [XML_ENC_ERR_INPUT] exactly
    when, with six bytes of room left, the next byte has the high bit
    set. *)
Theorem asciiToUTF8_contract (outlen : Z) (inb : list Z) :
  Forall is_byte inb ->
  exists a rest,
    inb = a ++ rest /\ Forall is_ascii a /\
    c_out (asciiToUTF8 outlen inb) = a /\
    c_outlen (asciiToUTF8 outlen inb) = len a /\
    c_inlen (asciiToUTF8 outlen inb) = len a /\
    (c_ret (asciiToUTF8 outlen inb) = len a /\
     (rest = [] \/ outlen <= len a + 5) \/
     c_ret (asciiToUTF8 outlen inb) = XML_ENC_ERR_INPUT /\
     len a + 5 < outlen /\
     exists c t, rest = c :: t /\ 0x80 <= c).
Proof.
  intros Hb. unfold asciiToUTF8.
  destruct (asciiToUTF8_loop_contract outlen inb [] 0 Hb)
    as (a & rest & H0 & Ha & H1 & H2 & H3 & H4).
  exists a, rest. change (len (@nil Z)) with 0 in *.
  rewrite !Z.add_0_l in *. cbn [app] in H1. auto 8.
Qed.

Lemma asciiToUTF8_contract_witness :
  exists a rest,
    [0x41; 0xE9] = a ++ rest /\ Forall is_ascii a /\
    c_out (asciiToUTF8 16 [0x41; 0xE9]) = a /\
    c_outlen (asciiToUTF8 16 [0x41; 0xE9]) = len a /\
    c_inlen (asciiToUTF8 16 [0x41; 0xE9]) = len a /\
    (c_ret (asciiToUTF8 16 [0x41; 0xE9]) = len a /\
     (rest = [] \/ 16 <= len a + 5) \/
     c_ret (asciiToUTF8 16 [0x41; 0xE9]) = XML_ENC_ERR_INPUT /\
     len a + 5 < 16 /\
     exists c t, rest = c :: t /\ 0x80 <= c).
Proof.
  apply (asciiToUTF8_contract 16 [0x41; 0xE9]).
  repeat (apply List.Forall_cons; [unfold is_byte; lia|]).
  apply List.Forall_nil.
Defined.

(** ** Chunked conversion *)

Lemma xmlEncInputChunk_counts handler f outlen inb :
  h_input handler = Some f ->
  c_out (xmlEncInputChunk handler outlen inb) = c_out (f outlen inb) /\
  c_outlen (xmlEncInputChunk handler outlen inb) = c_outlen (f outlen inb) /\
  c_inlen (xmlEncInputChunk handler outlen inb) = c_inlen (f outlen inb) /\
  (0 <= c_ret (f outlen inb) ->
   c_ret (xmlEncInputChunk handler outlen inb) = XML_ENC_ERR_SUCCESS \/
   c_ret (xmlEncInputChunk handler outlen inb) = XML_ENC_ERR_SPACE) /\
  (c_ret (f outlen inb) < 0 ->
   xmlEncInputChunk handler outlen inb = f outlen inb
   \/ c_ret (f outlen inb) = XML_ENC_ERR_PARTIAL).
Proof.
  intros Hf. unfold xmlEncInputChunk, xmlEncInputChunk_raw. rewrite Hf.
  destruct (classify_counts_counts (len inb) (f outlen inb)) as (H1 & H2 & H3).
  repeat split.
  - destruct (_ =? _); cbn; assumption.
  - destruct (_ =? _); cbn; assumption.
  - destruct (_ =? _); cbn; assumption.
  - intros Hret. rewrite c_ret_if, classify_counts_ret by assumption.
    unfold XML_ENC_ERR_SPACE, XML_ENC_ERR_PARTIAL, XML_ENC_ERR_SUCCESS.
    repeat case_match; auto; discriminate.
  - intros Hret. rewrite classify_counts_error by assumption.
    destruct (Z.eqb_spec (c_ret (f outlen inb)) XML_ENC_ERR_PARTIAL); auto.
Qed.

(** A converter that at every call takes a non-empty prefix of what is
    left and stores its image under [g] delivers the image of the whole
    source in as many calls as the source has bytes. *)
Lemma convert_calls_delivers handler f cap (g : list Z -> list Z)
    (P : list Z -> Prop) :
  h_input handler = Some f ->
  g [] = [] ->
  (forall a b, g (a ++ b) = g a ++ g b) ->
  (forall s k, P s -> P (drop k s)) ->
  (forall s, P s ->
     0 <= c_ret (f cap s) /\
     0 <= c_inlen (f cap s) <= len s /\
     (s <> [] -> 0 < c_inlen (f cap s)) /\
     c_out (f cap s) = g (take (Z.to_nat (c_inlen (f cap s))) s)) ->
  forall n src, P src -> (length src <= n)%nat ->
  delivers n handler cap src (g src).
Proof.
  intros Hf Hnil Hhom Hdrop Hstep. unfold delivers.
  induction n as [|n IH]; intros src HP Hn.
  - destruct src; [|cbn in Hn; lia]. cbn. rewrite Hnil. auto.
  - rewrite convert_calls_S. cbv zeta. cbn [fst snd].
    destruct (xmlEncInputChunk_counts handler f cap src Hf)
      as (Hout & _ & Hin & Hret & _).
    destruct (Hstep src HP) as (Hr & Hk & Hprog & Hg).
    rewrite Hin.
    set (k := Z.to_nat (c_inlen (f cap src))) in *.
    destruct (IH (drop k src)) as (Hrest & Hcat & Hall).
    + apply Hdrop, HP.
    + rewrite length_drop. destruct src as [|x src]; [cbn; lia|].
      assert (0 < c_inlen (f cap (x :: src))) by (apply Hprog; discriminate).
      cbn [length] in *. lia.
    + split; [assumption|]. split.
      * cbn [map concat]. rewrite Hcat, Hout, Hg, <- Hhom, take_drop.
        reflexivity.
      * constructor; [apply Hret, Hr|assumption].
Qed.

(** X9: chunked conversion loses nothing.  Driven call after call into a
    destination of [cap] bytes, each call followed by a step over the
    bytes it consumed, a source is delivered whole in as many calls as
    it has bytes, whatever its length: ASCII text through the ASCII handler
    when [cap] is 6 or more, any bytes through the Latin 1 handler, as
    their UTF-8 sequences, when [cap] is 2 or more, and any bytes through
    the UTF-8 handler when [cap] is 1 or more. *)
Theorem chunked_conversion_delivers (cap : Z) (src : list Z) :
  (6 <= cap -> Forall is_ascii src ->
   delivers (length src) xmlAsciiHandler cap src src) /\
  (2 <= cap -> Forall is_byte src ->
   delivers (length src) xmlLatin1Handler cap src (flat_map utf8_seq src)) /\
  (1 <= cap ->
   delivers (length src) xmlUTF8Handler cap src src).
Proof.
  split; [|split].
  - intros Hcap Hsrc.
    apply (convert_calls_delivers xmlAsciiHandler asciiToUTF8 cap
             (fun l => l) (Forall is_ascii));
      [reflexivity|reflexivity|reflexivity| | |assumption|lia].
    + intros s k Hs. apply Forall_drop, Hs.
    + intros s Hs. rewrite asciiToUTF8_ascii by assumption.
      cbn [conv_done c_ret c_inlen c_out]. pose proof (len_nonneg s).
      split; [apply len_nonneg|]. split; [lia|]. split.
      * intros Hne. destruct s; [congruence|]. rewrite len_cons.
        pose proof (len_nonneg s). lia.
      * f_equal. lia.
  - intros Hcap Hsrc.
    apply (convert_calls_delivers xmlLatin1Handler isolat1ToUTF8 cap
             (flat_map utf8_seq) (Forall is_byte));
      [reflexivity|reflexivity|apply flat_map_app| | |assumption|lia].
    + intros s k Hs. apply Forall_drop, Hs.
    + intros s Hs.
      destruct (isolat1ToUTF8_takes_prefix cap s Hs)
        as (a & rest & -> & -> & _ & Hne).
      cbn [conv_done c_ret c_inlen c_out]. pose proof (len_nonneg a).
      pose proof (len_nonneg rest).
      split; [apply len_nonneg|]. split; [len_simpl; lia|]. split.
      * intros Hs'. specialize (Hne Hs' Hcap). destruct a; [congruence|].
        rewrite len_cons. pose proof (len_nonneg a). lia.
      * unfold len. rewrite Nat2Z.id, take_app_length. reflexivity.
  - intros Hcap.
    apply (convert_calls_delivers xmlUTF8Handler
             (fun outlen inb => UTF8ToUTF8 outlen (Some inb)) cap
             (fun l => l) (fun _ => True));
      [reflexivity|reflexivity|reflexivity|auto| |exact I|lia].
    intros s _. unfold UTF8ToUTF8. pose proof (len_nonneg s).
    destruct (Z.ltb_spec (len s) cap); zbool;
      cbn [c_ret c_inlen c_out].
    + repeat split; try lia.
      intros Hne. destruct s; [congruence|]. rewrite len_cons.
      pose proof (len_nonneg s). lia.
    + repeat split; try lia.
Qed.

Lemma chunked_conversion_delivers_witness :
  delivers 3 xmlAsciiHandler 6 [0x41; 0x42; 0x43] [0x41; 0x42; 0x43] /\
  delivers 2 xmlLatin1Handler 2 [0x41; 0xE9] (flat_map utf8_seq [0x41; 0xE9]) /\
  delivers 2 xmlUTF8Handler 1 [0xC3; 0xA9] [0xC3; 0xA9].
Proof.
  split; [|split].
  - apply (proj1 (chunked_conversion_delivers 6 [0x41; 0x42; 0x43]));
      [lia|ascii_list].
  - apply (proj1 (proj2 (chunked_conversion_delivers 2 [0x41; 0xE9])));
      [lia|].
    repeat (apply List.Forall_cons; [unfold is_byte; lia|]).
    apply List.Forall_nil.
  - apply (proj2 (proj2 (chunked_conversion_delivers 1 [0xC3; 0xA9]))). lia.
Defined.

(** ** The escape of the encode front-end, in general *)

(** The lead byte of a sequence of two bytes, as a sum. *)
Lemma lead_byte_2_val x : 0 <= x < 32 -> Z.lor x 0xC0 = x + 0xC0.
Proof.
  intros Hx.
  pose (f := fun x => Z.lor x 0xC0 =? x + 0xC0).
  assert (H : f x = true) by (by_enumeration f 32 0).
  subst f. cbv beta in H. apply Z.eqb_eq, H.
Qed.

(** [xmlGetUTF8Char] reads back the sequence of a scalar value. *)
Lemma xmlGetUTF8Char_seq c t n :
  is_scalar_value c ->
  len (utf8_seq c) <= n ->
  xmlGetUTF8Char (utf8_seq c ++ t) n = (c, len (utf8_seq c)).
Proof.
  intros Hs.
  assert (Hc : 0 <= c < 0x200000) by (unfold is_scalar_value in Hs; lia).
  rewrite utf8_seq_arith by assumption.
  unfold xmlGetUTF8Char. cbv zeta.
  destruct (Z.ltb_spec c 0x80).
  { len_simpl. intros Hn. cbn [app utf_at nth]. zbool. reflexivity. }
  destruct (Z.ltb_spec c 0x800).
  { len_simpl. intros Hn. cbn [app utf_at nth].
    destruct (lead_byte_2 (c / 64)) as [Hr Hl]; [lia|].
    pose proof (lead_byte_2_val (c / 64) ltac:(lia)) as Hv.
    destruct (continuation_byte (c mod 64)) as (_ & HC & H3F); [lia|].
    rewrite HC, H3F, Hl. zbool. cbn [andb].
    rewrite (lor_shiftl_add (c / 64) (c mod 64) 6) by lia.
    f_equal. lia. }
  destruct (Z.ltb_spec c 0x10000).
  { len_simpl. intros Hn. cbn [app utf_at nth].
    destruct (lead_byte_3 (c / 4096)) as [Hr Hl]; [lia|].
    destruct (continuation_byte (c / 64 mod 64)) as (_ & HC1 & L1); [lia|].
    destruct (continuation_byte (c mod 64)) as (_ & HC2 & L2); [lia|].
    rewrite HC1, HC2, L1, L2, Hl.
    assert (Hv : Z.lor (Z.lor (Z.shiftl (c / 4096) 12)
                          (Z.shiftl (c / 64 mod 64) 6)) (c mod 64) = c).
    { rewrite (Z.shiftl_mul_pow2 (c / 64 mod 64) 6) by lia.
      rewrite (lor_shiftl_add (c / 4096) (c / 64 mod 64 * 2 ^ 6) 12) by lia.
      replace (c / 4096 * 2 ^ 12 + c / 64 mod 64 * 2 ^ 6)
        with (c / 64 * 2 ^ 6) by lia.
      rewrite (lor_add_low (c / 64) (c mod 64) 6) by lia. lia. }
    rewrite Hv. destruct Hs as [Hs|Hs]; zbool; reflexivity. }
  len_simpl. intros Hn. cbn [app utf_at nth].
  destruct (lead_byte_4 (c / 262144)) as [Hr Hl]; [lia|].
  destruct (continuation_byte (c / 4096 mod 64)) as (_ & HC1 & L1); [lia|].
  destruct (continuation_byte (c / 64 mod 64)) as (_ & HC2 & L2); [lia|].
  destruct (continuation_byte (c mod 64)) as (_ & HC3 & L3); [lia|].
  rewrite HC1, HC2, HC3, L1, L2, L3, Hl.
  assert (Hv : Z.lor (Z.lor (Z.lor (Z.shiftl (c / 262144) 18)
                               (Z.shiftl (c / 4096 mod 64) 12))
                        (Z.shiftl (c / 64 mod 64) 6)) (c mod 64) = c).
  { rewrite (Z.shiftl_mul_pow2 (c / 4096 mod 64) 12) by lia.
    rewrite (Z.shiftl_mul_pow2 (c / 64 mod 64) 6) by lia.
    rewrite (lor_shiftl_add (c / 262144) (c / 4096 mod 64 * 2 ^ 12) 18)
      by lia.
    replace (c / 262144 * 2 ^ 18 + c / 4096 mod 64 * 2 ^ 12)
      with (c / 4096 * 2 ^ 12) by lia.
    rewrite (lor_add_low (c / 4096) (c / 64 mod 64 * 2 ^ 6) 12) by lia.
    replace (c / 4096 * 2 ^ 12 + c / 64 mod 64 * 2 ^ 6)
      with (c / 64 * 2 ^ 6) by lia.
    rewrite (lor_add_low (c / 64) (c mod 64) 6) by lia. lia. }
  rewrite Hv. destruct Hs as [Hs|Hs]; [lia|]. zbool. reflexivity.
Qed.

(** A character reference is ASCII text. *)
Lemma bytes_of_string_app s1 s2 :
  bytes_of_string (s1 ++ s2) = bytes_of_string s1 ++ bytes_of_string s2.
Proof.
  unfold bytes_of_string. induction s1 as [|a s1 IH]; [reflexivity|].
  change (String a s1 ++ s2)%string with (String a (s1 ++ s2)).
  cbn [list_ascii_of_string map app]. rewrite IH. reflexivity.
Qed.

Lemma string_of_digits_ascii d :
  Forall is_ascii (bytes_of_string (NilEmpty.string_of_uint d)).
Proof.
  induction d; cbn [NilEmpty.string_of_uint];
    [apply List.Forall_nil
    |apply List.Forall_cons;
       [vm_compute; split; [discriminate|reflexivity]|assumption]..].
Qed.

Lemma string_of_uint_ascii d :
  Forall is_ascii (bytes_of_string (NilZero.string_of_uint d)).
Proof.
  destruct d; try apply string_of_digits_ascii.
  apply List.Forall_cons; [vm_compute; split; [discriminate|reflexivity]|constructor].
Qed.

Lemma format_charref_ascii c : Forall is_ascii (format_charref c).
Proof.
  unfold format_charref. rewrite !bytes_of_string_app.
  change (bytes_of_string "&#") with [38; 35].
  change (bytes_of_string ";") with [59].
  apply Forall_app. split; [ascii_list|]. apply Forall_app. split.
  - destruct (Z.to_int c) as [d|d]; cbn [NilZero.string_of_int].
    + apply string_of_uint_ascii.
    + apply List.Forall_cons; [vm_compute; split; [discriminate|reflexivity]|].
      apply string_of_uint_ascii.
  - ascii_list.
Qed.

(** The loop of [UTF8Toascii] over a run of ASCII bytes with more input
    behind it. *)
Lemma UTF8Toascii_loop_ascii_app inlen outlen s : forall l fuel out p,
  (length l <= fuel)%nat ->
  Forall is_ascii l ->
  len out + len l <= outlen ->
  p = inlen - len (l ++ s) ->
  UTF8Toascii_loop fuel inlen outlen (l ++ s) out p
    = UTF8Toascii_loop (fuel - length l) inlen outlen s (out ++ l)
        (inlen - len s).
Proof.
  induction l as [|d l IH]; intros fuel out p Hf Hl Hroom Hp.
  - cbn [app length]. rewrite app_nil_r, Nat.sub_0_r, Hp. reflexivity.
  - destruct fuel as [|fuel]; [cbn in Hf; lia|].
    inversion Hl as [|? ? [Hd0 Hd] Hl']; subst.
    rewrite len_cons in Hroom. pose proof (len_nonneg l).
    cbn [app length Nat.sub].
    rewrite UTF8Toascii_loop_head by (unfold is_ascii; lia).
    rewrite IH; [|cbn in Hf; lia|assumption|len_simpl; lia|reflexivity].
    rewrite <- app_assoc. reflexivity.
Qed.

(** Behind ASCII text that fits the output, [UTF8Toascii] refuses the
    sequence of a code point outside ASCII. *)
Lemma UTF8Toascii_refuses outlen a c t :
  Forall is_ascii a -> 0x80 <= c < 0x200000 -> len a <= outlen ->
  UTF8Toascii outlen (Some (a ++ utf8_seq c ++ t))
    = conv_input_error a (len a).
Proof.
  intros Ha Hc Hroom. unfold UTF8Toascii.
  destruct (utf8_seq_length c) as [Hlen _]. pose proof (len_nonneg t).
  rewrite UTF8Toascii_loop_ascii_app;
    [|rewrite length_app; lia|assumption|change (len (@nil Z)) with 0; lia
     |lia].
  cbn [app].
  assert (Hfuel : exists fuel,
            (length (a ++ utf8_seq c ++ t) - length a)%nat = S fuel).
  { exists (length (utf8_seq c ++ t) - 1)%nat. rewrite !length_app.
    unfold len in Hlen. lia. }
  destruct Hfuel as [fuel ->].
  destruct (utf8_read_back c t) as (d & l & c0 & tr & -> & Hlead & Hl & Htr);
    [lia|].
  cbn [UTF8Toascii_loop]. rewrite Hlead. zbool. rewrite Htr. zbool.
  f_equal. len_simpl. lia.
Qed.

Lemma xmlEncOutputChunk_refuses outlen a c t :
  Forall is_ascii a -> 0x80 <= c < 0x200000 -> len a <= outlen ->
  xmlEncOutputChunk xmlAsciiHandler outlen (Some (a ++ utf8_seq c ++ t))
    = mkConv XML_ENC_ERR_INPUT a (len a) (len a).
Proof.
  intros Ha Hc Hroom. unfold xmlEncOutputChunk, xmlEncOutputChunk_raw.
  cbn [h_output xmlAsciiHandler inlen_of].
  rewrite UTF8Toascii_refuses by assumption. reflexivity.
Qed.

Lemma xmlBufferShrink_app x y sz :
  xmlBufferShrink (mkBuffer (x ++ y) sz) (len x) = mkBuffer y sz.
Proof.
  unfold xmlBufferShrink, use. cbn [content size].
  pose proof (len_nonneg y). len_simpl. zbool.
  unfold len. rewrite Nat2Z.id, drop_app_length. reflexivity.
Qed.

(** The escape of any code point outside ASCII: it is decoded, its
    reference goes through the handler and is appended, and the source is
    stepped past its sequence. *)
Lemma charref_fallback_ascii c t out insize writtentot :
  is_scalar_value c -> 0x80 <= c ->
  use out <= size out ->
  exists sz,
    charref_fallback xmlAsciiHandler XML_ENC_ERR_INPUT out
      (mkBuffer (utf8_seq c ++ t) insize) writtentot
    = FRetry (mkBuffer (content out ++ format_charref c) sz)
        (mkBuffer t insize) (writtentot + len (format_charref c)) /\
    use out + len (format_charref c) < sz.
Proof.
  intros Hs Hc Hwf. unfold charref_fallback.
  pose proof (len_nonneg t). pose proof (len_nonneg (format_charref c)).
  unfold use at 1. cbn [content].
  rewrite xmlGetUTF8Char_seq by (try assumption; len_simpl; lia).
  zbool. rewrite xmlBufferShrink_app.
  destruct (xmlBufferGrow_spec out (len (format_charref c) * 4) Hwf)
    as (Hct & Hu & Hr); [lia|].
  rewrite Hu.
  rewrite xmlEncOutputChunk_ascii; [|apply format_charref_ascii|lia].
  rewrite buffer_add_len_stored by reflexivity.
  cbn [c_ret c_inlen c_outlen c_out].
  unfold XML_ENC_ERR_SUCCESS. zbool. cbn [orb negb].
  exists (size (xmlBufferGrow out (len (format_charref c) * 4))).
  unfold buffer_add. rewrite Hct. split; [reflexivity|lia].
Qed.

(** One turn of [xmlCharEncOutFunc] with the ASCII handler: a run of ASCII
    bytes goes through, the code point behind it is escaped, and the
    conversion is resumed behind that code point. *)
Lemma ascii_retry_step fuel a c t out insize wt :
  Forall is_ascii a -> is_scalar_value c -> 0x80 <= c ->
  use out <= size out ->
  len (a ++ utf8_seq c ++ t) * 4 < 2 ^ 31 ->
  exists sz,
    xmlCharEncOutFunc_retry (S fuel) xmlAsciiHandler out
      (Some (mkBuffer (a ++ utf8_seq c ++ t) insize)) wt
    = xmlCharEncOutFunc_retry fuel xmlAsciiHandler
        (mkBuffer (content out ++ a ++ format_charref c) sz)
        (Some (mkBuffer t insize)) (wt + len a + len (format_charref c)) /\
    len (content out ++ a ++ format_charref c) <= sz.
Proof.
  intros Ha Hs Hc Hwf Hint. cbn [xmlCharEncOutFunc_retry].
  assert (Hc' : 0x80 <= c < 0x200000) by (unfold is_scalar_value in Hs; lia).
  pose proof (len_nonneg a). pose proof (len_nonneg t).
  destruct (utf8_seq_length c) as [Hseq _].
  unfold use at 1. cbn [content].
  assert (Hconv : 0 <= len (a ++ utf8_seq c ++ t)) by apply len_nonneg.
  destruct (out_room_spec out (len (a ++ utf8_seq c ++ t)) Hwf Hconv Hint)
    as (Hc1 & Hw1 & Hr1).
  destruct (out_room out (len (a ++ utf8_seq c ++ t))) as [o1 w1].
  cbn [fst snd] in Hc1, Hw1, Hr1.
  revert Hr1. len_simpl. intros Hr1.
  rewrite xmlEncOutputChunk_refuses by (try assumption; lia).
  rewrite buffer_add_len_stored by reflexivity.
  cbn [c_ret c_inlen c_outlen c_out].
  change (XML_ENC_ERR_INPUT =? XML_ENC_ERR_SPACE) with false.
  change (XML_ENC_ERR_INPUT =? XML_ENC_ERR_INPUT) with true.
  cbv iota. rewrite xmlBufferShrink_app.
  assert (Hwf1 : use (buffer_add o1 a) <= size (buffer_add o1 a)).
  { rewrite use_add. unfold use. rewrite Hc1. fold (use out).
    cbn [size buffer_add]. lia. }
  destruct (charref_fallback_ascii c t (buffer_add o1 a) insize
              (wt + len a) Hs Hc Hwf1) as (sz & Hfb & Hsz).
  rewrite Hfb. exists sz. unfold buffer_add. cbn [content]. rewrite Hc1.
  rewrite <- app_assoc. split; [reflexivity|].
  revert Hsz. rewrite use_add. unfold use. rewrite Hc1. len_simpl. lia.
Qed.

(** The last turn: what is left is ASCII. *)
Lemma ascii_retry_last fuel a out insize wt :
  Forall is_ascii a -> use out <= size out -> 0 <= wt ->
  len a * 4 < 2 ^ 31 ->
  exists sz,
    xmlCharEncOutFunc_retry (S fuel) xmlAsciiHandler out
      (Some (mkBuffer a insize)) wt
    = Some (mkOut (wt + len a) (mkBuffer (content out ++ a) sz)
              (Some (mkBuffer [] insize))).
Proof.
  intros Ha Hwf Hwt Hint. cbn [xmlCharEncOutFunc_retry].
  pose proof (len_nonneg a) as Hlen.
  unfold use at 1. cbn [content].
  destruct (out_room_spec out (len a) Hwf Hlen Hint) as (Hc1 & Hw1 & Hr1).
  destruct (out_room out (len a)) as [o1 w1]. cbn [fst snd] in Hc1, Hw1, Hr1.
  rewrite xmlEncOutputChunk_ascii by (try assumption; lia).
  rewrite buffer_add_len_stored by reflexivity.
  cbn [c_ret c_inlen c_outlen c_out].
  change (XML_ENC_ERR_SUCCESS =? XML_ENC_ERR_SPACE) with false.
  change (XML_ENC_ERR_SUCCESS =? XML_ENC_ERR_INPUT) with false.
  cbv iota.
  pose proof (xmlBufferShrink_app a [] insize) as Hs.
  rewrite app_nil_r in Hs. rewrite Hs.
  exists (size o1). unfold buffer_add. rewrite Hc1. f_equal. f_equal.
  unfold XML_ENC_ERR_SUCCESS. destruct (Z.eqb_spec (wt + len a) 0); lia.
Qed.

Lemma flat_map_escape_ascii a :
  Forall is_ascii a -> flat_map escape_ascii a = a.
Proof.
  induction 1 as [|c a [Hc0 Hc] _ IH]; [reflexivity|].
  cbn [flat_map]. rewrite IH. unfold escape_ascii. zbool. reflexivity.
Qed.

(** A text is a run of ASCII code points, then nothing or a code point
    outside ASCII and the rest. *)
Lemma ascii_run_split cps :
  Forall is_scalar_value cps ->
  exists a rest,
    cps = a ++ rest /\ Forall is_ascii a /\
    (rest = [] \/ exists c r, rest = c :: r /\ 0x80 <= c).
Proof.
  induction 1 as [|c cps Hc _ (a & rest & -> & Ha & Hrest)].
  - exists [], []. auto.
  - destruct (Z.ltb_spec c 0x80).
    + exists (c :: a), rest. repeat split; [|assumption].
      constructor; [unfold is_scalar_value in Hc; split; lia|assumption].
    + exists [], (c :: a ++ rest). repeat split; [constructor|]. eauto.
Qed.

Lemma xmlCharEncOutFunc_retry_ascii insize : forall n cps,
  (length cps <= n)%nat ->
  Forall is_scalar_value cps ->
  len (flat_map utf8_seq cps) * 4 < 2 ^ 31 ->
  forall fuel out wt,
  use out <= size out -> 0 <= wt ->
  (length cps < fuel)%nat ->
  exists sz,
    xmlCharEncOutFunc_retry fuel xmlAsciiHandler out
      (Some (mkBuffer (flat_map utf8_seq cps) insize)) wt
    = Some (mkOut (wt + len (flat_map escape_ascii cps))
              (mkBuffer (content out ++ flat_map escape_ascii cps) sz)
              (Some (mkBuffer [] insize))).
Proof.
  induction n as [|n IH]; intros cps Hn Hcps Hint fuel out wt Hwf Hwt Hfuel.
  { destruct cps; [|cbn in Hn; lia]. destruct fuel as [|fuel]; [cbn in Hfuel; lia|].
    cbn [flat_map].
    destruct (ascii_retry_last fuel [] out insize wt) as [sz Heq];
      [constructor|assumption|assumption|reflexivity|].
    exists sz. exact Heq. }
  destruct fuel as [|fuel]; [lia|].
  destruct (ascii_run_split cps Hcps) as (a & rest & -> & Ha & Hrest).
  apply Forall_app in Hcps as [_ Hr].
  rewrite !flat_map_app, (flat_map_utf8_ascii a), (flat_map_escape_ascii a)
    by assumption.
  rewrite flat_map_app, (flat_map_utf8_ascii a) in Hint by assumption.
  destruct Hrest as [->|(c & r & -> & Hc)].
  - cbn [flat_map] in *. rewrite !app_nil_r in *.
    apply ascii_retry_last; assumption.
  - inversion Hr as [|? ? Hc' Hr']; subst. cbn [flat_map] in *.
    destruct (ascii_retry_step fuel a c (flat_map utf8_seq r) out insize wt)
      as (sz1 & -> & Hsz1); [assumption..|].
    rewrite length_app in Hn, Hfuel. cbn [length] in Hn, Hfuel.
    pose proof (len_nonneg a). pose proof (len_nonneg (format_charref c)).
    pose proof (len_nonneg (utf8_seq c)).
    destruct (IH r) with
      (fuel := fuel)
      (out := mkBuffer (content out ++ a ++ format_charref c) sz1)
      (wt := wt + len a + len (format_charref c)) as [sz Heq];
      [lia|assumption|revert Hint; len_simpl; lia|exact Hsz1|lia|lia|].
    assert (Hesc : escape_ascii c = format_charref c)
      by (unfold escape_ascii; zbool; reflexivity).
    exists sz. rewrite Heq, Hesc. cbn [content]. len_simpl.
    rewrite <- !app_assoc. f_equal. f_equal. lia.
Qed.

(** X10: the ASCII handler through [xmlCharEncOutFunc], on any text of
    a size at which every [int] of the call holds its value: fewer than
    [2^26] bytes, appended to a well-formed output buffer of fewer than
    [2^28] bytes.  The text is the UTF-8 sequences of any Unicode scalar
    values, and the fuel is above their number.  Every ASCII code point
    is copied, every other one is written as its decimal character
    reference [&#N;], the number of bytes appended is returned and the
    source is left empty. *)
Theorem ascii_output_escapes (cps : list Z) (fuel : nat) (out : xmlBuffer)
    (insize : Z) :
  Forall is_scalar_value cps ->
  len (flat_map utf8_seq cps) < 2 ^ 26 ->
  use out <= size out < 2 ^ 28 ->
  (length cps < fuel)%nat ->
  exists sz,
    xmlCharEncOutFunc fuel xmlAsciiHandler out
      (Some (mkBuffer (flat_map utf8_seq cps) insize))
    = Some (mkOut (len (flat_map escape_ascii cps))
              (mkBuffer (content out ++ flat_map escape_ascii cps) sz)
              (Some (mkBuffer [] insize))).
Proof.
  intros Hcps Hlen [Hwf _] Hfuel. unfold xmlCharEncOutFunc.
  destruct (xmlCharEncOutFunc_retry_ascii insize (length cps) cps
              (Nat.le_refl _) Hcps ltac:(lia) fuel out 0 Hwf (Z.le_refl 0)
              Hfuel)
    as [sz Heq].
  exists sz. rewrite Heq. reflexivity.
Qed.

(** "é", U+20AC and "B". *)
Lemma ascii_output_escapes_witness :
  exists sz,
    xmlCharEncOutFunc 4 xmlAsciiHandler (mkBuffer [] 1)
      (Some (mkBuffer (flat_map utf8_seq [0xE9; 0x20AC; 0x42]) 7))
    = Some (mkOut (len (flat_map escape_ascii [0xE9; 0x20AC; 0x42]))
              (mkBuffer (flat_map escape_ascii [0xE9; 0x20AC; 0x42]) sz)
              (Some (mkBuffer [] 7))).
Proof.
  apply (ascii_output_escapes [0xE9; 0x20AC; 0x42] 4 (mkBuffer [] 1) 7).
  - repeat (apply List.Forall_cons; [unfold is_scalar_value; lia|]).
    apply List.Forall_nil.
  - vm_compute. reflexivity.
  - vm_compute. split; [discriminate|reflexivity].
  - cbn. lia.
Defined.

(** ** The decode front-end *)

(** The room [xmlCharEncInFunc] secures before it calls the converter,
    while its two sums fit their types: twice the input at least. *)
Lemma xmlCharEncInFunc_room out toconv :
  use out <= size out -> 0 <= toconv ->
  toconv * 2 < 2 ^ 31 -> size out + toconv * 2 < 2 ^ 32 ->
  let written := size out - use out - 1 in
  let toconv2 := wrap_int (toconv * 2) in
  let p :=
    if written <=? toconv2 then
      let out' := xmlBufferGrow out (wrap_uint (size out + toconv2)) in
      (out', size out' - use out' - 1)
    else (out, written) in
  content (fst p) = content out /\
  snd p = size (fst p) - use out - 1 /\
  toconv * 2 <= snd p.
Proof.
  intros Hwf Ht Hint Huint. cbv zeta.
  pose proof (len_nonneg (content out)) as Hu.
  fold (use out) in Hu.
  rewrite wrap_int_small, wrap_uint_small by lia.
  destruct (Z.leb_spec (size out - use out - 1) (toconv * 2)).
  - destruct (xmlBufferGrow_spec out (size out + toconv * 2) Hwf)
      as (Hc & Hu' & Hr); [lia|].
    cbn [fst snd]. rewrite Hu'. repeat split; [assumption|lia].
  - cbn [fst snd]. repeat split; lia.
Qed.

(** A converter that consumes all its input makes the chunk a success. *)
Lemma xmlEncInputChunk_whole handler f outlen inb o :
  h_input handler = Some f ->
  f outlen inb = conv_done o (len inb) ->
  xmlEncInputChunk handler outlen inb
    = mkConv XML_ENC_ERR_SUCCESS o (len o) (len inb).
Proof.
  intros Hf Heq. unfold xmlEncInputChunk, xmlEncInputChunk_raw.
  rewrite Hf, Heq. unfold classify_counts, conv_done.
  cbn [c_ret c_inlen c_outlen c_out]. pose proof (len_nonneg o). zbool.
  reflexivity.
Qed.

(** With room for five bytes or fewer the ASCII chunk does nothing. *)
Lemma xmlEncInputChunk_stuck cap src :
  cap <= 5 ->
  xmlEncInputChunk xmlAsciiHandler cap src
    = mkConv XML_ENC_ERR_SUCCESS [] 0 0.
Proof.
  intros Hcap. unfold xmlEncInputChunk, xmlEncInputChunk_raw.
  cbn [h_input xmlAsciiHandler]. unfold asciiToUTF8.
  rewrite asciiToUTF8_loop_small by (len_simpl; lia).
  unfold classify_counts, conv_done. len_simpl. cbn [c_ret c_inlen c_outlen].
  destruct (0 <? len src); reflexivity.
Qed.

(** X11: through [xmlCharEncInFunc] the Latin 1 handler converts its
    input in a single call, whenever input and output are of a size at
    which every [int] of the call holds its value (fewer than [2^29]
    bytes each): the room of twice the input that the function secures is
    enough.  The UTF-8 sequences of all the bytes are appended to the
    output, their number is returned, and the input buffer is left
    empty. *)
Theorem xmlCharEncInFunc_latin1 (out : xmlBuffer) (b : list Z) (insize : Z) :
  Forall is_byte b ->
  len b < 2 ^ 29 ->
  use out <= size out < 2 ^ 29 ->
  exists sz,
    xmlCharEncInFunc xmlLatin1Handler out (mkBuffer b insize)
    = (len (flat_map utf8_seq b),
       mkBuffer (content out ++ flat_map utf8_seq b) sz,
       mkBuffer [] insize).
Proof.
  intros Hb Hlen [Hwf Hsize]. unfold xmlCharEncInFunc. unfold use at 1.
  cbn [content].
  destruct b as [|c b].
  { exists (size out). cbn. rewrite app_nil_r. destruct out; reflexivity. }
  set (l := c :: b) in *.
  assert (Hl : 0 < len l) by (subst l; rewrite len_cons;
                              pose proof (len_nonneg b); lia).
  zbool.
  destruct (xmlCharEncInFunc_room out (len l) Hwf) as (Hc & Hw & Hr);
    [lia..|].
  cbv zeta in Hc, Hw, Hr.
  destruct (if size out - use out - 1 <=? wrap_int (len l * 2)
            then _ else _)
    as [o1 w1]. cbn [fst snd] in Hc, Hw, Hr.
  rewrite (xmlEncInputChunk_whole xmlLatin1Handler isolat1ToUTF8 w1 l
             (flat_map utf8_seq l) eq_refl)
    by (apply isolat1ToUTF8_room; [assumption|lia]).
  rewrite buffer_add_len_stored by reflexivity.
  assert (Hpos : 0 < len (flat_map utf8_seq l)).
  { pose proof (length_utf8_text l). unfold len in *. lia. }
  cbn [c_ret c_out c_outlen c_inlen]. zbool.
  pose proof (xmlBufferShrink_app l [] insize) as Hs.
  rewrite app_nil_r in Hs. rewrite Hs.
  exists (size o1). unfold buffer_add. rewrite Hc. reflexivity.
Qed.

Lemma xmlCharEncInFunc_latin1_witness :
  exists sz,
    xmlCharEncInFunc xmlLatin1Handler (mkBuffer [] 1)
      (mkBuffer [0x41; 0xE9] 10)
    = (len (flat_map utf8_seq [0x41; 0xE9]),
       mkBuffer ([] ++ flat_map utf8_seq [0x41; 0xE9]) sz,
       mkBuffer [] 10).
Proof.
  apply (xmlCharEncInFunc_latin1 (mkBuffer [] 1) [0x41; 0xE9] 10).
  - repeat (apply List.Forall_cons; [unfold is_byte; lia|]).
    apply List.Forall_nil.
  - vm_compute. reflexivity.
  - vm_compute. split; [discriminate|reflexivity].
Defined.

(** X12: the ASCII handler through [xmlCharEncInFunc].  ASCII input of
    five bytes or more is converted whole in one call, whenever input and
    output are of a size at which every [int] of the call holds its value
    (fewer than [2^29] bytes each).  But when the output has between
    three and five bytes free beyond the terminating zero, and that is
    more than twice the input, the call returns 0 and changes neither
    buffer: no room is made, and [asciiToUTF8] does not start with fewer
    than six bytes. *)
Theorem xmlCharEncInFunc_ascii (out : xmlBuffer) (l : list Z) (insize : Z) :
  use out <= size out ->
  (Forall is_ascii l -> 5 <= len l < 2 ^ 29 -> size out < 2 ^ 29 ->
   exists sz,
     xmlCharEncInFunc xmlAsciiHandler out (mkBuffer l insize)
     = (len l, mkBuffer (content out ++ l) sz, mkBuffer [] insize)) /\
  (l <> [] -> len l * 2 < size out - use out - 1 <= 5 ->
   xmlCharEncInFunc xmlAsciiHandler out (mkBuffer l insize)
   = (0, out, mkBuffer l insize)).
Proof.
  intros Hwf. pose proof (len_nonneg l) as Hl. split.
  - intros Ha Hlen Hsize. unfold xmlCharEncInFunc. unfold use at 1.
    cbn [content]. zbool.
    destruct (xmlCharEncInFunc_room out (len l) Hwf) as (Hc & Hw & Hr);
      [lia..|].
    cbv zeta in Hc, Hw, Hr.
    destruct (if size out - use out - 1 <=? wrap_int (len l * 2)
              then _ else _)
      as [o1 w1]. cbn [fst snd] in Hc, Hw, Hr.
    rewrite (xmlEncInputChunk_whole xmlAsciiHandler asciiToUTF8 w1 l l
               eq_refl).
    2:{ rewrite asciiToUTF8_ascii by assumption.
        replace (Z.min (len l) (w1 - 5)) with (len l) by lia.
        replace (Z.max 0 (len l)) with (len l) by lia.
        unfold len at 1. rewrite Nat2Z.id, firstn_all. reflexivity. }
    rewrite buffer_add_len_stored by reflexivity.
    cbn [c_ret c_out c_outlen c_inlen]. zbool.
    pose proof (xmlBufferShrink_app l [] insize) as Hs.
    rewrite app_nil_r in Hs. rewrite Hs.
    exists (size o1). unfold buffer_add. rewrite Hc. reflexivity.
  - intros Hne Hroom. unfold xmlCharEncInFunc.
    change (use (mkBuffer l insize)) with (len l).
    assert (0 < len l).
    { destruct l; [congruence|]. rewrite len_cons.
      pose proof (len_nonneg l). lia. }
    rewrite wrap_int_small by lia.
    zbool. rewrite xmlEncInputChunk_stuck by lia.
    rewrite buffer_add_len_stored by reflexivity.
    cbn [c_ret c_out c_outlen c_inlen]. zbool.
    unfold xmlBufferShrink, buffer_add, use. cbn [content size]. zbool.
    cbn [drop Z.to_nat]. rewrite app_nil_r. destruct out; reflexivity.
Qed.

Lemma xmlCharEncInFunc_ascii_witness :
  (exists sz,
     xmlCharEncInFunc xmlAsciiHandler (mkBuffer [] 1)
       (mkBuffer [0x48; 0x65; 0x6C; 0x6C; 0x6F] 8)
     = (len [0x48; 0x65; 0x6C; 0x6C; 0x6F],
        mkBuffer ([] ++ [0x48; 0x65; 0x6C; 0x6C; 0x6F]) sz,
        mkBuffer [] 8)) /\
  xmlCharEncInFunc xmlAsciiHandler (mkBuffer [] 5) (mkBuffer [0x41] 8)
    = (0, mkBuffer [] 5, mkBuffer [0x41] 8).
Proof.
  split.
  - apply (proj1 (xmlCharEncInFunc_ascii (mkBuffer [] 1)
                    [0x48; 0x65; 0x6C; 0x6C; 0x6F] 8
                    ltac:(vm_compute; discriminate))).
    + ascii_list.
    + vm_compute. split; [discriminate|reflexivity].
    + vm_compute. reflexivity.
  - apply (proj2 (xmlCharEncInFunc_ascii (mkBuffer [] 5) [0x41] 8
                    ltac:(vm_compute; discriminate))).
    + discriminate.
    + vm_compute. split; [reflexivity|discriminate].
Defined.

(** ** Detection is complete *)

(** X13: an input that starts with one of the patterns of
    [xmlDetectCharEncoding] is detected as the encoding of that pattern,
    whatever bytes follow: no pattern is shadowed by another, and a byte
    order mark is recognised in front of any content. *)
Theorem detect_complete (p rest : list Z) (e : xmlCharEncoding) :
  In (p, e) detect_patterns -> detect (p ++ rest) = e.
Proof.
  intros Hin. rewrite detect_leading_four. cbn in Hin.
  repeat (destruct Hin as [Hin|Hin];
          [injection Hin as <- <-;
           destruct rest as [|x [|y rest]]; reflexivity|]).
  destruct Hin.
Qed.

Lemma detect_complete_witness :
  detect ([0xFF; 0xFE] ++ [0x00; 0x00; 0x41; 0x00])
    = XML_CHAR_ENCODING_UTF16LE.
Proof.
  apply (detect_complete [0xFF; 0xFE] [0x00; 0x00; 0x41; 0x00]).
  cbn. tauto.
Defined.

(** ** The alias registry over time *)

Lemma find_alias_replace_other key key' name t t' :
  key <> key' ->
  replace_alias key' name t = Some t' ->
  find_alias key t' = find_alias key t.
Proof.
  intros Hne. revert t'. induction t as [|e t IH]; intros t'; cbn;
    [discriminate|].
  destruct (String.eqb_spec (a_alias e) key') as [->|Hne'].
  - intros [= <-]. cbn. destruct (String.eqb_spec key' key); [congruence|].
    reflexivity.
  - destruct (replace_alias key' name t) as [t1|]; [|discriminate].
    intros [= <-]. cbn. rewrite (IH t1 eq_refl). reflexivity.
Qed.

Lemma find_alias_snoc_other key key' name t :
  key <> key' ->
  find_alias key (t ++ [mkAlias name key']) = find_alias key t.
Proof.
  intros Hne. induction t as [|e t IH]; cbn.
  - destruct (String.eqb_spec key' key); [congruence|reflexivity].
  - rewrite IH. reflexivity.
Qed.

Lemma find_alias_remove_other key key' t t' :
  key <> key' ->
  remove_alias key' t = Some t' ->
  find_alias key t' = find_alias key t.
Proof.
  intros Hne. revert t'. induction t as [|e t IH]; intros t'; cbn;
    [discriminate|].
  destruct (String.eqb_spec (a_alias e) key') as [->|Hne'].
  - intros [= <-]. destruct (String.eqb_spec key' key); [congruence|].
    reflexivity.
  - destruct (remove_alias key' t) as [t1|]; [|discriminate].
    intros [= <-]. cbn. rewrite (IH t1 eq_refl). reflexivity.
Qed.

Lemma replace_alias_length key name t t' :
  replace_alias key name t = Some t' -> length t' = length t.
Proof.
  revert t'. induction t as [|e t IH]; intros t'; cbn; [discriminate|].
  destruct (String.eqb (a_alias e) key); [intros [= <-]; reflexivity|].
  destruct (replace_alias key name t) as [t1|]; [|discriminate].
  intros [= <-]. cbn. rewrite (IH t1 eq_refl). reflexivity.
Qed.

Lemma remove_alias_length key t t' :
  remove_alias key t = Some t' -> S (length t') = length t.
Proof.
  revert t'. induction t as [|e t IH]; intros t'; cbn; [discriminate|].
  destruct (String.eqb (a_alias e) key); [intros [= <-]; reflexivity|].
  destruct (remove_alias key t) as [t1|]; [|discriminate].
  intros [= <-]. cbn. rewrite (IH t1 eq_refl). reflexivity.
Qed.

(** The lookup in terms of the entries. *)
Lemma xmlGetEncodingAlias_entries st alias :
  xmlGetEncodingAlias st alias
    = option_map a_name (find_alias (upper99 alias) (alias_entries st)).
Proof.
  unfold xmlGetEncodingAlias, alias_entries.
  destruct (xmlCharEncodingAliases st); [|reflexivity].
  destruct (find_alias _ _); reflexivity.
Qed.

Lemma xmlCharEncodingAliasesNb_entries st :
  xmlCharEncodingAliasesNb st = len (alias_entries st).
Proof.
  unfold xmlCharEncodingAliasesNb, alias_entries.
  destruct (xmlCharEncodingAliases st); reflexivity.
Qed.

(** What an addition does to the entries and to the capacity, whatever
    its allocations give. *)
Lemma xmlAddEncodingAlias_entries m st name alias :
  let st' := snd (xmlAddEncodingAlias m st name alias) in
  (alias_entries st' = alias_entries st \/
   replace_alias (upper99 alias) name (alias_entries st)
     = Some (alias_entries st') \/
   replace_alias (upper99 alias) name (alias_entries st) = None /\
   alias_entries st' = alias_entries st ++ [mkAlias name (upper99 alias)]) /\
  (xmlCharEncodingAliases st' = None ->
   xmlCharEncodingAliases st = None /\ st' = st) /\
  (alias_fits st -> alias_fits st').
Proof.
  cbv zeta. unfold xmlAddEncodingAlias, alias_fits.
  rewrite !xmlCharEncodingAliasesNb_entries.
  pose proof (len_nonneg (alias_entries st)) as Hn.
  assert (Hgrow : len (alias_entries st) <= xmlCharEncodingAliasesMax st ->
                  len (alias_entries st) + 1 <=
                  (if xmlCharEncodingAliasesMax st =? 0 then 20
                   else xmlCharEncodingAliasesMax st * 2)).
  { intros H. destruct (Z.eqb_spec (xmlCharEncodingAliasesMax st) 0); lia. }
  destruct (Z.leb_spec (xmlCharEncodingAliasesMax st) (len (alias_entries st)))
    as [Hfull|Hroom].
  - destruct (realloc_ok m); [|cbn [snd]; auto].
    rewrite alias_entries_mk. cbn [xmlCharEncodingAliasesMax].
    destruct (replace_alias _ _ _) as [t'|] eqn:Hrep.
    + pose proof (replace_alias_length _ _ _ _ Hrep) as Hlen.
      destruct (name_dup_ok m); cbn [snd];
        rewrite ?xmlCharEncodingAliasesNb_entries, ?alias_entries_mk;
        cbn [xmlCharEncodingAliases xmlCharEncodingAliasesMax];
        (split; [auto|split; [discriminate|]]);
        intros Hfit; specialize (Hgrow Hfit); unfold len in *; lia.
    + destruct (name_dup_ok m), (alias_dup_ok m); cbn [snd];
        rewrite ?xmlCharEncodingAliasesNb_entries, ?alias_entries_mk;
        cbn [xmlCharEncodingAliases xmlCharEncodingAliasesMax];
        (split; [auto|split; [discriminate|]]);
        intros Hfit; specialize (Hgrow Hfit); len_simpl; lia.
  - destruct (replace_alias _ _ _) as [t'|] eqn:Hrep.
    + pose proof (replace_alias_length _ _ _ _ Hrep) as Hlen.
      destruct (name_dup_ok m); cbn [snd];
        rewrite ?xmlCharEncodingAliasesNb_entries, ?alias_entries_mk;
        cbn [xmlCharEncodingAliases xmlCharEncodingAliasesMax];
        (split; [auto|split; [try discriminate; auto|]]);
        intros Hfit; unfold len in *; lia.
    + destruct (name_dup_ok m), (alias_dup_ok m); cbn [snd];
        rewrite ?xmlCharEncodingAliasesNb_entries, ?alias_entries_mk;
        cbn [xmlCharEncodingAliases xmlCharEncodingAliasesMax];
        (split; [auto|split; [try discriminate; auto|]]);
        intros Hfit; len_simpl; lia.
Qed.

(** Every call keeps the invariants. *)
Lemma alias_step_ok st c :
  alias_wf st -> alias_fits st ->
  alias_wf (alias_step st c) /\ alias_fits (alias_step st c).
Proof.
  intros (Hmax & Hup & Hnd) Hfit. destruct c as [m name alias|alias|].
  - cbn [alias_step].
    destruct (xmlAddEncodingAlias_entries m st name alias)
      as (Hent & Hnone & Hcap).
    set (st' := snd (xmlAddEncodingAlias m st name alias)) in *.
    specialize (Hcap Hfit). split; [|exact Hcap].
    destruct Hent as [Heq|[Hrep|(Hrep & Heq)]].
    + split; [|rewrite Heq; auto].
      intros Hn. destruct (Hnone Hn) as [Hn' ->]. auto.
    + destruct (replace_alias_some _ _ _ _ Hrep) as [Hmap _].
      split; [|split].
      * intros Hn. destruct (Hnone Hn) as [Hn' ->]. auto.
      * apply (Forall_same_aliases (fun a => upper99 a = a) _ _ Hmap Hup).
      * rewrite Hmap. assumption.
    + apply replace_alias_none in Hrep. split; [|rewrite Heq; split].
      * intros Hn. destruct (Hnone Hn) as [Hn' Hst]. rewrite Hst in Heq.
        apply (f_equal (@length _)) in Heq. rewrite length_app in Heq.
        cbn in Heq. lia.
      * apply Forall_app. split; [assumption|].
        constructor; [apply upper99_idem|constructor].
      * rewrite map_app. apply NoDup_app. split; [assumption|].
        split; [|apply NoDup_singleton].
        intros x Hx Hx'. apply list_elem_of_In in Hx, Hx'.
        destruct Hx' as [<-|[]]. auto.
  - cbn [alias_step]. unfold xmlDelEncodingAlias, alias_fits in *.
    rewrite xmlCharEncodingAliasesNb_entries in Hfit.
    unfold alias_entries in Hup, Hnd, Hfit.
    destruct (xmlCharEncodingAliases st) as [t|] eqn:Ht.
    2:{ cbn [snd]. unfold alias_fits.
        rewrite xmlCharEncodingAliasesNb_entries. unfold alias_wf, alias_entries.
        rewrite Ht. auto. }
    destruct (remove_alias alias t) as [t'|] eqn:Hrm; cbn [snd].
    + destruct (remove_alias_some _ _ _ Hrm Hnd) as (_ & Hnd' & Hsub).
      apply remove_alias_length in Hrm.
      rewrite xmlCharEncodingAliasesNb_entries, alias_entries_mk.
      cbn [xmlCharEncodingAliasesMax]. unfold len in *.
      split; [|lia]. split; [discriminate|]. rewrite alias_entries_mk.
      split; [|assumption]. rewrite List.Forall_forall in *. auto.
    + rewrite xmlCharEncodingAliasesNb_entries. unfold alias_wf, alias_entries.
      rewrite Ht. auto.
  - cbn [alias_step]. unfold xmlCleanupEncodingAliases.
    destruct (xmlCharEncodingAliases st) eqn:Ht.
    + split; [exact alias_init_wf|]. unfold alias_fits. cbn. lia.
    + split; [|assumption]. repeat split; try assumption.
      rewrite Ht. assumption.
Qed.

Lemma alias_run_ok calls : forall st,
  alias_wf st -> alias_fits st ->
  alias_wf (alias_run calls st) /\ alias_fits (alias_run calls st).
Proof.
  induction calls as [|c calls IH]; intros st Hwf Hfit; [auto|].
  cbn [alias_run fold_left].
  destruct (alias_step_ok st c Hwf Hfit) as [Hwf' Hfit'].
  apply IH; assumption.
Qed.

(** X14: the invariants of the alias registry.  After any sequence of
    additions, removals and cleanups from the initial state, whatever the
    outcome of the allocations: the table exists whenever a capacity is
    recorded, every stored alias is in upper case, no alias is stored
    twice, and the entries in use never exceed the allocated capacity.
    A cleanup at that point gives the initial state back. *)
Theorem alias_registry_invariants (calls : list alias_call) :
  let st := alias_run calls alias_init in
  alias_wf st /\ alias_fits st /\
  xmlCleanupEncodingAliases st = alias_init.
Proof.
  cbv zeta.
  destruct (alias_run_ok calls alias_init alias_init_wf) as [Hwf Hfit];
    [unfold alias_fits; cbn; lia|].
  split; [assumption|]. split; [assumption|].
  destruct Hwf as (Hmax & _). unfold xmlCleanupEncodingAliases.
  destruct (alias_run calls alias_init) as [[t|] mx]; [reflexivity|].
  cbn in Hmax |- *. rewrite Hmax by reflexivity. reflexivity.
Qed.

(** X15: an addition or a removal touches one alias only.  Whatever the
    outcome of an addition, the lookup of every spelling that does not
    uppercase to the added alias is unchanged, the number of entries grows
    by one at most, and it does not grow when the alias was already
    registered: the name is replaced in place.  After a removal the lookup
    of every spelling that does not uppercase to the removed key is
    unchanged. *)
Theorem alias_updates_are_local (m : alloc_oracle) (st : alias_state)
    (name alias key : string) :
  (let st' := snd (xmlAddEncodingAlias m st name alias) in
   (forall s, upper99 s <> upper99 alias ->
      xmlGetEncodingAlias st' s = xmlGetEncodingAlias st s) /\
   xmlCharEncodingAliasesNb st <= xmlCharEncodingAliasesNb st'
     <= xmlCharEncodingAliasesNb st + 1 /\
   (xmlGetEncodingAlias st alias <> None ->
    xmlCharEncodingAliasesNb st' = xmlCharEncodingAliasesNb st)) /\
  (forall s, upper99 s <> key ->
     xmlGetEncodingAlias (snd (xmlDelEncodingAlias st key)) s
       = xmlGetEncodingAlias st s).
Proof.
  split.
  - cbv zeta.
    destruct (xmlAddEncodingAlias_entries m st name alias) as (Hent & _ & _).
    set (st' := snd (xmlAddEncodingAlias m st name alias)) in *.
    rewrite !xmlCharEncodingAliasesNb_entries.
    destruct Hent as [Heq|[Hrep|(Hrep & Heq)]].
    + split; [|rewrite Heq; split; [lia|reflexivity]].
      intros s _. rewrite !xmlGetEncodingAlias_entries, Heq. reflexivity.
    + pose proof (replace_alias_length _ _ _ _ Hrep) as Hlen.
      unfold len. rewrite Hlen. split; [|split; [lia|reflexivity]].
      intros s Hs. rewrite !xmlGetEncodingAlias_entries.
      rewrite (find_alias_replace_other _ _ _ _ _ Hs Hrep). reflexivity.
    + rewrite Heq. len_simpl. split; [|split; [lia|]].
      * intros s Hs. rewrite !xmlGetEncodingAlias_entries, Heq.
        rewrite find_alias_snoc_other by assumption. reflexivity.
      * intros Hget. exfalso. apply Hget.
        rewrite xmlGetEncodingAlias_entries.
        apply replace_alias_none, find_alias_none in Hrep. rewrite Hrep.
        reflexivity.
  - intros s Hs. unfold xmlDelEncodingAlias.
    destruct (xmlCharEncodingAliases st) as [t|] eqn:Ht; [|reflexivity].
    destruct (remove_alias key t) as [t'|] eqn:Hrm; [|reflexivity].
    cbn [snd]. unfold xmlGetEncodingAlias. rewrite Ht.
    cbn [xmlCharEncodingAliases].
    rewrite (find_alias_remove_other _ _ _ _ Hs Hrm). reflexivity.
Qed.

(** ** The handler registry over time *)

(** [free_handler] only frees. *)
Lemma free_handler_shrinks hp h p :
  free_handler hp h !! p = None \/ free_handler hp h !! p = hp !! p.
Proof.
  destruct (free_handler_spec hp h) as (Hh & Hn & Hp).
  destruct (decide (p = h)) as [->|Hne]; [auto|].
  destruct (hp !! h) as [[s|[n|]]|] eqn:E;
    try (right; apply Hp; [assumption|discriminate]).
  destruct (decide (n = p)) as [->|Hnp]; [left; apply Hn; reflexivity|].
  right. apply Hp; [assumption|congruence].
Qed.

Lemma free_handler_none hp h p :
  hp !! p = None -> free_handler hp h !! p = None.
Proof.
  intros H. destruct (free_handler_shrinks hp h p) as [H'|H']; congruence.
Qed.

(** A registration that is accepted appends to the registered handlers. *)
Lemma registered_snoc hp t nb h :
  0 <= nb < len t ->
  registered (mkRegistry hp (Some (<[Z.to_nat nb := Some h]> t)) (nb + 1))
    = take (Z.to_nat nb) t ++ [Some h].
Proof.
  intros Hnb. unfold registered. cbn [handlers nbCharEncodingHandler].
  replace (Z.to_nat (nb + 1)) with (S (Z.to_nat nb)) by lia.
  rewrite (take_S_r _ _ (Some h)).
  - rewrite take_insert_ge by lia. reflexivity.
  - apply list_lookup_insert_eq. unfold len in Hnb. lia.
Qed.

(** What one call of [xmlRegisterCharEncodingHandler] does: the handler
    is appended and the heap is left alone, or the handler is freed and
    the registered handlers are left alone. *)
Lemma xmlRegisterCharEncodingHandler_cases ok st h :
  registry_wf st ->
  let st' := xmlRegisterCharEncodingHandler ok st (Some h) in
  (heap st' = heap st /\ registered st' = registered st ++ [Some h]) \/
  (heap st' = free_handler (heap st) h /\ registered st' = registered st).
Proof.
  intros [Hnb Ht]. cbv zeta. unfold xmlRegisterCharEncodingHandler.
  unfold MAX_ENCODING_HANDLERS in *.
  destruct (handlers st) as [t|] eqn:Hh.
  - destruct (Z.leb_spec 50 (nbCharEncodingHandler st)).
    + right. unfold registered. cbn [heap handlers nbCharEncodingHandler].
      rewrite Hh. auto.
    + left. split; [reflexivity|].
      rewrite registered_snoc by lia. unfold registered. rewrite Hh.
      reflexivity.
  - destruct ok.
    + rewrite Ht. change (50 <=? 0) with false. cbv iota. left.
      split; [reflexivity|].
      rewrite registered_snoc
        by (unfold len; rewrite length_replicate; lia).
      unfold registered. rewrite Hh. reflexivity.
    + right. unfold registered. cbn [heap handlers nbCharEncodingHandler].
      rewrite Hh. auto.
Qed.

Lemma tracks_init hp : tracks hp [] (registry_init hp).
Proof.
  unfold tracks, registered. cbn. repeat split; auto; intros; tauto.
Qed.

(** One registration of a handler not passed before keeps track. *)
Lemma xmlRegisterCharEncodingHandler_tracks hp all hs ok st h :
  owned_apart hp all ->
  (forall x, In x hs -> In x all) -> In h all -> ~ In h hs ->
  registry_wf st -> tracks hp hs st ->
  tracks hp (hs ++ [h]) (xmlRegisterCharEncodingHandler ok st (Some h)).
Proof.
  intros [Hnd Hown] Hsub Hall Hnew Hwf (Hshr & Hhs & Hframe & Hreg).
  assert (Hintact : heap st !! h = hp !! h).
  { apply Hframe. intros h' Hh'. split; [congruence|].
    apply Hown; auto. }
  destruct (xmlRegisterCharEncodingHandler_cases ok st h Hwf)
    as [[Hheap Hr]|[Hheap Hr]];
    cbv zeta in Hheap, Hr; unfold tracks; rewrite Hheap, Hr.
  - split; [exact Hshr|]. split; [|split].
    + intros h' Hin. apply in_app_or in Hin as [Hin|[<-|[]]].
      * destruct (Hhs h' Hin) as [Hl|[Hin' Heq]]; [left; exact Hl|].
        right. split; [apply in_or_app; auto|assumption].
      * right. split; [apply in_or_app; right; left; reflexivity|].
        assumption.
    + intros p Hp. apply Hframe. intros h' Hh'. apply Hp.
      apply in_or_app. auto.
    + intros x Hx. apply in_app_or in Hx as [Hx|[<-|[]]].
      * destruct (Hreg x Hx) as (h' & -> & Hin). exists h'.
        split; [reflexivity|apply in_or_app; auto].
      * exists h. split; [reflexivity|].
        apply in_or_app. right. left. reflexivity.
  - destruct (free_handler_spec (heap st) h) as (Fh & Fn & Fp).
    split; [|split; [|split]].
    + intros p. destruct (free_handler_shrinks (heap st) h p) as [->| ->];
        [auto|apply Hshr].
    + intros h' Hin. apply in_app_or in Hin as [Hin|[<-|[]]].
      * destruct (Hhs h' Hin) as [[Hl Hnames]|[Hin' Heq]].
        -- left. split; [apply free_handler_none, Hl|].
           intros n Hn. apply free_handler_none, Hnames, Hn.
        -- right. split; [assumption|]. rewrite Fp; [assumption| |].
           ++ intros ->. contradiction.
           ++ rewrite Hintact. apply Hown; auto.
      * left. split; [exact Fh|]. intros n Hn. apply Fn.
        rewrite Hintact. exact Hn.
    + intros p Hp.
      destruct (Hp h) as [Hne Hname];
        [apply in_or_app; right; left; reflexivity|].
      rewrite Fp; [|assumption|rewrite Hintact; assumption].
      apply Hframe. intros h' Hh'. apply Hp. apply in_or_app. auto.
    + intros x Hx. destruct (Hreg x Hx) as (h' & -> & Hin). exists h'.
      split; [reflexivity|apply in_or_app; auto].
Qed.

Lemma register_all_tracks hp all : forall regs hs st,
  owned_apart hp all ->
  all = hs ++ submitted regs ->
  registry_wf st -> tracks hp hs st ->
  registry_wf (register_all regs st) /\
  tracks hp all (register_all regs st).
Proof.
  induction regs as [|[ok [h|]] regs IH]; intros hs st Hown Hall Hwf Htr.
  - cbn in Hall. rewrite app_nil_r in Hall. subst. auto.
  - cbn [register_all fold_left fst snd].
    change (submitted ((ok, Some h) :: regs)) with (h :: submitted regs)
      in Hall.
    apply (IH (hs ++ [h])); try assumption.
    + rewrite <- app_assoc. exact Hall.
    + apply xmlRegisterCharEncodingHandler_wf, Hwf.
    + apply (xmlRegisterCharEncodingHandler_tracks hp all); try assumption.
      * intros x Hx. rewrite Hall. apply in_or_app. auto.
      * rewrite Hall. apply in_or_app. right. left. reflexivity.
      * destruct Hown as [Hnd _]. rewrite Hall in Hnd.
        apply NoDup_app in Hnd as (_ & Hdis & _). intros Hin.
        apply (Hdis h); [apply list_elem_of_In; assumption|].
        apply list_elem_of_In. left. reflexivity.
  - cbn [register_all fold_left fst snd].
    change (submitted ((ok, None) :: regs)) with (submitted regs) in Hall.
    apply (IH hs); assumption.
Qed.

(** The loop of the cleanup frees what is still registered. *)
Lemma free_handlers_tracks hp all t : forall n cur,
  owned_apart hp all ->
  (forall i h, t !! i = Some (Some h) -> (i < n)%nat -> In h all) ->
  (forall p, cur !! p = None \/ cur !! p = hp !! p) ->
  (forall h, In h all ->
     (cur !! h = None /\
      forall m, hp !! h = Some (BHandler (Some m)) -> cur !! m = None) \/
     ((exists i, (i < n)%nat /\ t !! i = Some (Some h)) /\
      cur !! h = hp !! h)) ->
  (forall p,
     (forall h, In h all -> p <> h /\ hp !! h <> Some (BHandler (Some p))) ->
     cur !! p = hp !! p) ->
  (forall h, In h all ->
     free_handlers n t cur !! h = None /\
     forall m, hp !! h = Some (BHandler (Some m)) ->
               free_handlers n t cur !! m = None) /\
  (forall p,
     (forall h, In h all -> p <> h /\ hp !! h <> Some (BHandler (Some p))) ->
     free_handlers n t cur !! p = hp !! p).
Proof.
  induction n as [|n IH]; intros cur Hown Hslots Hshr Hhs Hframe.
  { cbn [free_handlers]. split; [|exact Hframe].
    intros h Hin. destruct (Hhs h Hin) as [Hl|[(i & Hi & _) _]]; [exact Hl|lia]. }
  cbn [free_handlers].
  destruct (t !! n) as [[h|]|] eqn:Hn.
  - assert (Hall : In h all) by (apply (Hslots n); [assumption|lia]).
    destruct (free_handler_spec cur h) as (Fh & Fn & Fp).
    assert (Hcur : cur !! h = None \/ cur !! h = hp !! h) by apply Hshr.
    apply IH; try assumption.
    + intros i h' Hi Hlt. apply (Hslots i); [assumption|lia].
    + intros p. destruct (free_handler_shrinks cur h p) as [->| ->];
        [auto|apply Hshr].
    + intros h' Hin. destruct (decide (h' = h)) as [->|Hne].
      * left. split; [exact Fh|]. intros m Hm.
        destruct (Hhs h Hin) as [[_ Hnames]|[_ Heq]].
        -- apply free_handler_none, Hnames, Hm.
        -- apply Fn. rewrite Heq. exact Hm.
      * destruct (Hhs h' Hin) as [[Hl Hnames]|[(i & Hi & Hti) Heq]].
        -- left. split; [apply free_handler_none, Hl|].
           intros m Hm. apply free_handler_none, Hnames, Hm.
        -- right. split.
           ++ exists i. split; [|assumption].
              destruct (decide (i = n)) as [->|]; [congruence|lia].
           ++ rewrite Fp; [assumption|assumption|].
              destruct Hcur as [-> | ->]; [discriminate|].
              destruct Hown as [_ Hown]. apply Hown; assumption.
    + intros p Hp. destruct (Hp h Hall) as [Hne Hname].
      rewrite Fp; [apply Hframe, Hp|assumption|].
      destruct Hcur as [-> | ->]; [discriminate|assumption].
  - apply IH; try assumption.
    + intros i h' Hi Hlt. apply (Hslots i); [assumption|lia].
    + intros h' Hin. destruct (Hhs h' Hin) as [Hl|[(i & Hi & Hti) Heq]];
        [left; exact Hl|]. right. split; [|assumption].
      exists i. split; [|assumption].
      destruct (decide (i = n)) as [->|]; [congruence|lia].
  - apply IH; try assumption.
    + intros i h' Hi Hlt. apply (Hslots i); [assumption|lia].
    + intros h' Hin. destruct (Hhs h' Hin) as [Hl|[(i & Hi & Hti) Heq]];
        [left; exact Hl|]. right. split; [|assumption].
      exists i. split; [|assumption].
      destruct (decide (i = n)) as [->|]; [congruence|lia].
Qed.

(** X16: nothing is leaked and nothing else is touched.  Take any run of
    registrations from the empty registry, accepted or not, table
    allocated or not, in which each handler is passed once and none is the
    name of a handler.  After [xmlCleanupCharEncodingHandlers] the table is
    gone and the count is 0; every handler that was passed has been freed,
    and so has its name; and every block that is neither one of these
    handlers nor the name of one is as it was before the first
    registration. *)
Theorem cleanup_frees_every_handler (hp : gmap ptr block)
    (regs : list (bool * option ptr)) (aliases : alias_state) :
  owned_apart hp (submitted regs) ->
  let st' :=
    snd (xmlCleanupCharEncodingHandlers aliases
           (register_all regs (registry_init hp))) in
  handlers st' = None /\ nbCharEncodingHandler st' = 0 /\
  (forall h, In h (submitted regs) ->
     heap st' !! h = None /\
     forall n, hp !! h = Some (BHandler (Some n)) -> heap st' !! n = None) /\
  (forall p,
     (forall h, In h (submitted regs) ->
        p <> h /\ hp !! h <> Some (BHandler (Some p))) ->
     heap st' !! p = hp !! p).
Proof.
  intros Hown. cbv zeta.
  destruct (register_all_tracks hp (submitted regs) regs [] (registry_init hp)
              Hown eq_refl (registry_init_wf hp) (tracks_init hp))
    as [[Hnb Ht] (Hshr & Hhs & Hframe & Hreg)].
  unfold xmlCleanupCharEncodingHandlers.
  set (st := register_all regs (registry_init hp)) in *.
  unfold registered in Hhs, Hreg.
  destruct (handlers st) as [t|] eqn:Hh; cbn [snd].
  - cbn [handlers nbCharEncodingHandler heap].
    split; [reflexivity|]. split; [reflexivity|].
    apply (free_handlers_tracks hp (submitted regs) t); try assumption.
    + intros i h Hi Hlt. destruct (Hreg (Some h)) as (h' & [= <-] & Hin);
        [|exact Hin].
      apply list_elem_of_In, elem_of_take. exists i. auto.
    + intros h Hin. destruct (Hhs h Hin) as [Hl|[Hin' Heq]];
        [left; exact Hl|]. right. split; [|assumption].
      apply list_elem_of_In, elem_of_take in Hin' as (i & Hi & Hlt).
      exists i. auto.
  - rewrite Hh. split; [reflexivity|]. split; [exact Ht|].
    split; [|exact Hframe].
    intros h Hin. destruct (Hhs h Hin) as [Hl|[[] _]]. exact Hl.
Qed.

(** Two handlers with their names and a block of somebody else. *)
Lemma cleanup_frees_every_handler_witness :
  let hp : gmap ptr block :=
    {[ 1%positive := BHandler (Some 2%positive);
       2%positive := BString "A";
       3%positive := BHandler (Some 4%positive);
       4%positive := BString "B";
       9%positive := BString "other" ]} in
  let st' :=
    snd (xmlCleanupCharEncodingHandlers alias_init
           (register_all [(true, Some 1%positive); (true, Some 3%positive)]
              (registry_init hp))) in
  handlers st' = None /\ nbCharEncodingHandler st' = 0 /\
  (forall h, In h [1%positive; 3%positive] ->
     heap st' !! h = None /\
     forall n, hp !! h = Some (BHandler (Some n)) -> heap st' !! n = None) /\
  (forall p,
     (forall h, In h [1%positive; 3%positive] ->
        p <> h /\ hp !! h <> Some (BHandler (Some p))) ->
     heap st' !! p = hp !! p).
Proof.
  intros hp.
  apply (cleanup_frees_every_handler hp
           [(true, Some 1%positive); (true, Some 3%positive)] alias_init).
  split.
  - cbn. apply NoDup_cons_2;
      [rewrite list_elem_of_In; cbn; intros [H|[]]; discriminate|].
    apply NoDup_cons_2; [rewrite list_elem_of_In; cbn; tauto|].
    apply NoDup_nil_2.
  - intros h h' Hh Hh'. cbn in Hh, Hh'.
    destruct Hh as [<-|[<-|[]]], Hh' as [<-|[<-|[]]]; vm_compute; discriminate.
Defined.

(** ** Creating a handler *)

(** Freeing a handler that has just been allocated with its name gives the
    heap back. *)
Lemma free_new_handler hp u h s :
  hp !! u = None -> hp !! h = None -> u <> h ->
  free_handler (<[h := BHandler (Some u)]> (<[u := BString s]> hp)) h = hp.
Proof.
  intros Hu Hh Hne. unfold free_handler. rewrite lookup_insert_eq.
  rewrite (delete_insert_ne _ u h) by assumption.
  rewrite (delete_insert_id _ u) by assumption.
  apply delete_insert_id. assumption.
Qed.

(** X17: [xmlNewCharEncodingHandler] with its two allocations succeeding
    at fresh addresses.  It returns the address of the new handler in
    every case.  When the registry takes the handler, the heap holds the
    handler with its name, the name being the upper case of the
    alias-resolved name, at most 499 characters of it, and the handler is
    appended to the registered ones.  When the registry is full, or its
    table cannot be allocated, handler and name are freed again: the
    registry and the heap are as before the call, and the address returned
    is that of no live block.  When one of the two allocations fails
    nothing is left behind and [NULL] is returned. *)
Theorem xmlNewCharEncodingHandler_outcomes (aliases : alias_state)
    (u h : ptr) (ok : bool) (st : registry) (name : string) :
  registry_wf st ->
  heap st !! u = None -> heap st !! h = None -> u <> h ->
  let resolved :=
    match xmlGetEncodingAlias aliases name with
    | Some alias => alias
    | None => name
    end in
  let r :=
    xmlNewCharEncodingHandler aliases (Some u) (Some h) ok st (Some name) in
  fst r = Some h /\
  (nbCharEncodingHandler st < MAX_ENCODING_HANDLERS ->
   handlers st <> None \/ ok = true ->
   heap (snd r)
     = <[h := BHandler (Some u)]>
         (<[u := BString (upper499 resolved)]> (heap st)) /\
   registered (snd r) = registered st ++ [Some h]) /\
  (nbCharEncodingHandler st = MAX_ENCODING_HANDLERS \/
   handlers st = None /\ ok = false ->
   snd r = st /\ heap (snd r) !! h = None) /\
  xmlNewCharEncodingHandler aliases None (Some h) ok st (Some name)
    = (None, st) /\
  xmlNewCharEncodingHandler aliases (Some u) None ok st (Some name)
    = (None, st).
Proof.
  intros Hwf Hu Hh Hne. cbv zeta. unfold xmlNewCharEncodingHandler.
  set (resolved := match xmlGetEncodingAlias aliases name with
                   | Some alias => alias | None => name end).
  assert (Hres : match xmlGetEncodingAlias aliases name with
                 | Some alias => Some alias | None => Some name end
                 = Some resolved)
    by (subst resolved; destruct (xmlGetEncodingAlias aliases name);
        reflexivity).
  rewrite Hres. cbn [fst snd].
  set (hp' := <[h := BHandler (Some u)]>
                (<[u := BString (upper499 resolved)]> (heap st))).
  set (st1 := mkRegistry hp' (handlers st) (nbCharEncodingHandler st)).
  assert (Hwf1 : registry_wf st1) by exact Hwf.
  destruct Hwf as [Hnb Ht]. unfold MAX_ENCODING_HANDLERS in *.
  split; [reflexivity|]. split; [|split; [|split]].
  - intros Hroom Htable.
    unfold xmlRegisterCharEncodingHandler, MAX_ENCODING_HANDLERS. subst st1.
    cbn [handlers nbCharEncodingHandler heap].
    destruct (handlers st) as [t|] eqn:Hh'.
    + zbool. cbn [heap]. split; [reflexivity|].
      rewrite registered_snoc by lia. unfold registered. rewrite Hh'.
      reflexivity.
    + destruct Htable as [Hc| ->]; [congruence|]. rewrite Ht.
      change (50 <=? 0) with false. cbn [heap]. split; [reflexivity|].
      rewrite registered_snoc
        by (unfold len; rewrite length_replicate; lia).
      unfold registered. rewrite Hh'. reflexivity.
  - intros Hfull.
    assert (Heq : xmlRegisterCharEncodingHandler ok st1 (Some h)
                  = mkRegistry (free_handler hp' h) (handlers st)
                      (nbCharEncodingHandler st)).
    { unfold xmlRegisterCharEncodingHandler. subst st1.
      cbn [handlers nbCharEncodingHandler heap].
      destruct (handlers st) as [t|] eqn:Hh'.
      - destruct Hfull as [Hfull|[Hc _]]; [|discriminate].
        rewrite Hfull. reflexivity.
      - destruct Hfull as [Hfull|[_ ->]]; [lia|]. reflexivity. }
    rewrite Heq. subst hp'. rewrite free_new_handler by assumption.
    split; [destruct st; reflexivity|exact Hh].
  - reflexivity.
  - rewrite delete_insert_id by assumption. destruct st; reflexivity.
Qed.

(** Into the empty registry, and into the full one. *)
Lemma xmlNewCharEncodingHandler_outcomes_witness :
  fst (xmlNewCharEncodingHandler alias_init (Some 7%positive)
         (Some 8%positive) true (registry_init extra_heap)
         (Some "x-custom"%string)) = Some 8%positive /\
  snd (xmlNewCharEncodingHandler alias_init (Some 7%positive)
         (Some 8%positive) true full_registry (Some "x-custom"%string))
    = full_registry.
Proof.
  assert (Hne : 7%positive <> 8%positive) by discriminate.
  split.
  - apply (xmlNewCharEncodingHandler_outcomes alias_init 7%positive
             8%positive true (registry_init extra_heap) "x-custom"
             (registry_init_wf extra_heap) eq_refl eq_refl Hne).
  - assert (Hwf : registry_wf full_registry)
      by (apply register_all_wf, registry_init_wf).
    destruct (xmlNewCharEncodingHandler_outcomes alias_init 7%positive
                8%positive true full_registry "x-custom" Hwf
                ltac:(vm_compute; reflexivity) ltac:(vm_compute; reflexivity)
                Hne) as (_ & _ & Hfull & _).
    apply Hfull. left. vm_compute. reflexivity.
Defined.

(** ** Encoding names *)

(** Cutting the upper case of a longer cut gives the shorter cut. *)
Lemma upper_loop_cut n : forall m s,
  (n <= m)%nat -> upper_loop n (upper_loop m s) = upper_loop n s.
Proof.
  induction n as [|n IH]; intros m s Hm; [reflexivity|].
  destruct m as [|m]; [lia|]. destruct s as [|c s]; [reflexivity|].
  cbn [upper_loop]. rewrite toupper_idem, IH by lia. reflexivity.
Qed.

(** X18: [xmlParseCharEncoding] does not tell letter case apart, alias
    resolution included: two names with the same upper-case form (as the
    function builds it, 499 characters at most) are parsed to the same
    encoding, whatever aliases are registered. *)
Theorem xmlParseCharEncoding_ignores_case (aliases : alias_state)
    (n1 n2 : string) :
  upper499 n1 = upper499 n2 ->
  xmlParseCharEncoding aliases (Some n1)
    = xmlParseCharEncoding aliases (Some n2).
Proof.
  intros Hup. unfold xmlParseCharEncoding.
  assert (H99 : upper99 n1 = upper99 n2).
  { unfold upper99, upper499 in *.
    rewrite <- (upper_loop_cut 99 499 n1), <- (upper_loop_cut 99 499 n2)
      by lia.
    rewrite Hup. reflexivity. }
  rewrite !xmlGetEncodingAlias_entries, H99.
  destruct (find_alias (upper99 n2) (alias_entries aliases)); cbn [option_map];
    [reflexivity|].
  rewrite Hup. reflexivity.
Qed.

Lemma xmlParseCharEncoding_ignores_case_witness :
  xmlParseCharEncoding alias_init (Some "utf-8"%string)
    = xmlParseCharEncoding alias_init (Some "UTF-8"%string).
Proof.
  apply (xmlParseCharEncoding_ignores_case alias_init "utf-8" "UTF-8").
  reflexivity.
Defined.

(** X19: names and encodings, there and back.  For every encoding that
    has a canonical name, parsing that name, when no alias is registered
    for it, gives an encoding with the same canonical name; except that
    the canonical names of EBCDIC and of Shift-JIS are not among the names
    [xmlParseCharEncoding] knows: for them the result is
    [XML_CHAR_ENCODING_ERROR]. *)
Theorem encoding_name_round_trip (aliases : alias_state)
    (enc : xmlCharEncodingTag) (n : string) :
  xmlGetCharEncodingName enc = Some n ->
  xmlGetEncodingAlias aliases n = None ->
  match enc with
  | Detectable XML_CHAR_ENCODING_EBCDIC | XML_CHAR_ENCODING_SHIFT_JIS =>
      xmlParseCharEncoding aliases (Some n) = XML_CHAR_ENCODING_ERROR
  | _ =>
      xmlGetCharEncodingName (xmlParseCharEncoding aliases (Some n)) = Some n
  end.
Proof.
  intros Hname Halias. unfold xmlParseCharEncoding. rewrite Halias.
  destruct enc as [[]| | | | | | | | | | | | | | |];
    cbn in Hname; try discriminate; injection Hname as <-; reflexivity.
Qed.

Lemma encoding_name_round_trip_witness :
  xmlGetCharEncodingName
    (xmlParseCharEncoding alias_init (Some "UTF-16"%string))
    = Some "UTF-16"%string /\
  xmlParseCharEncoding alias_init (Some "Shift-JIS"%string)
    = XML_CHAR_ENCODING_ERROR.
Proof.
  split.
  - apply (encoding_name_round_trip alias_init
             (Detectable XML_CHAR_ENCODING_UTF16BE) "UTF-16");
      reflexivity.
  - apply (encoding_name_round_trip alias_init XML_CHAR_ENCODING_SHIFT_JIS
             "Shift-JIS"); reflexivity.
Defined.

(** ** ISO-8859-2 .. ISO-8859-16 *)

Lemma tables_agree_spec uni xlat b :
  tables_agree uni xlat = true -> 0x80 <= b < 0x100 ->
  table_at uni (b - 0x80) <> 0 ->
  0x80 <= table_at uni (b - 0x80) < 0x10000 /\
  xlat_of xlat (table_at uni (b - 0x80)) = b.
Proof.
  intros Hag Hb Hdef. unfold tables_agree in Hag.
  pose proof (forall_range_spec _ 128 0x80 Hag b ltac:(lia)) as H.
  unfold tables_agree_at in H.
  apply orb_true_iff in H as [H|H]; [apply Z.eqb_eq in H; contradiction|].
  rewrite !andb_true_iff, Z.leb_le, Z.ltb_lt, Z.eqb_eq in H. tauto.
Qed.

(** Every pair of tables of the file agrees on every byte. *)
Lemma iso8859_tables_agree name uni xlat :
  In (name, (uni, xlat)) iso8859_tables -> tables_agree uni xlat = true.
Proof.
  intros Hin. cbn in Hin.
  repeat (destruct Hin as [Hin|Hin];
          [injection Hin as _ <- <-; vm_compute; reflexivity|]).
  destruct Hin.
Qed.

(** One turn of the loop of [UTF8ToISO8859x] on an ASCII byte. *)
Lemma UTF8ToISO8859x_loop_ascii xlat inlen d rest out pr :
  0 <= d < 0x80 ->
  UTF8ToISO8859x_loop xlat inlen (d :: rest) out pr
    = UTF8ToISO8859x_loop xlat inlen rest (out ++ [d]) (inlen - len rest).
Proof. intros Hd. cbn [UTF8ToISO8859x_loop]. zbool. reflexivity. Qed.

(** One turn on the sequence of a code point of the character set. *)
Lemma UTF8ToISO8859x_loop_seq xlat inlen c rest out pr :
  0x80 <= c < 0x10000 -> xlat_of xlat c <> 0 ->
  UTF8ToISO8859x_loop xlat inlen (utf8_seq c ++ rest) out pr
    = UTF8ToISO8859x_loop xlat inlen rest (out ++ [xlat_of xlat c])
        (inlen - len rest).
Proof.
  intros Hc Hx. rewrite utf8_seq_arith by lia. unfold xlat_of in *. zbool.
  destruct (Z.ltb_spec c 0x800).
  - destruct (lead_byte_2 (c / 64)) as [Hr Hl]; [lia|].
    destruct (continuation_byte (c mod 64)) as (_ & HC0 & H3F); [lia|].
    cbn [app UTF8ToISO8859x_loop]. zbool. cbn [negb].
    rewrite H3F, Hl. zbool. reflexivity.
  - zbool. destruct (lead_byte_3 (c / 4096)) as [Hr Hl]; [lia|].
    destruct (continuation_byte (c / 64 mod 64)) as (_ & HC1 & H1); [lia|].
    destruct (continuation_byte (c mod 64)) as (_ & HC2 & H2); [lia|].
    cbn [app UTF8ToISO8859x_loop]. zbool. cbn [negb].
    rewrite H1, H2, Hl. zbool. reflexivity.
Qed.

(** The loop of [UTF8ToISO8859x] over the text of bytes of the character
    set gives the bytes back, with no look at the capacity. *)
Lemma UTF8ToISO8859x_loop_text uni xlat inlen s :
  tables_agree uni xlat = true ->
  forall b out pr,
  Forall (iso_defined uni) b ->
  pr = inlen - len (iso_text uni b ++ s) ->
  UTF8ToISO8859x_loop xlat inlen (iso_text uni b ++ s) out pr
    = UTF8ToISO8859x_loop xlat inlen s (out ++ b) (inlen - len s).
Proof.
  intros Hag. induction b as [|x b IH]; intros out pr Hb Hpr.
  - cbn [iso_text flat_map app] in *. rewrite app_nil_r, Hpr. reflexivity.
  - inversion Hb as [|? ? [Hx Hdef] Hb']; subst.
    unfold iso_text in *. cbn [flat_map]. rewrite <- app_assoc.
    unfold iso_code_point at 1. destruct (Z.ltb_spec x 0x80) as [Hlo|Hhi].
    + assert (Hseq : utf8_seq x = [x]) by (unfold utf8_seq; zbool; reflexivity).
      rewrite Hseq. cbn [app].
      rewrite UTF8ToISO8859x_loop_ascii by lia.
      rewrite IH by (try assumption; reflexivity).
      rewrite <- app_assoc. reflexivity.
    + destruct (tables_agree_spec uni xlat x Hag) as [Hc Hback];
        [lia|apply Hdef; lia|].
      rewrite UTF8ToISO8859x_loop_seq by (try assumption; rewrite Hback; lia).
      rewrite Hback. rewrite IH by (try assumption; reflexivity).
      rewrite <- app_assoc. reflexivity.
Qed.

(** The bytes [ISO8859xToUTF8] stores for a code point between U+0080 and
    U+FFFF are its UTF-8 sequence. *)
Lemma utf8_seq_two c :
  0x80 <= c < 0x800 ->
  utf8_seq c = [Z.lor (Z.land (Z.shiftr c 6) 0x1F) 0xC0;
                Z.lor (Z.land c 0x3F) 0x80].
Proof. intros Hc. unfold utf8_seq. zbool. reflexivity. Qed.

Lemma utf8_seq_three c :
  0x800 <= c < 0x10000 ->
  utf8_seq c = [Z.lor (Z.land (Z.shiftr c 12) 0x0F) 0xE0;
                Z.lor (Z.land (Z.shiftr c 6) 0x3F) 0x80;
                Z.lor (Z.land c 0x3F) 0x80].
Proof. intros Hc. unfold utf8_seq. zbool. reflexivity. Qed.

Lemma iso_text_ascii uni a :
  Forall is_ascii a -> iso_text uni a = a.
Proof.
  induction 1 as [|c a [Hc0 Hc] _ IH]; [reflexivity|].
  unfold iso_text in *. cbn [flat_map]. rewrite IH.
  unfold iso_code_point, utf8_seq. zbool. reflexivity.
Qed.

Lemma iso_text_app uni a b :
  iso_text uni (a ++ b) = iso_text uni a ++ iso_text uni b.
Proof. apply flat_map_app. Qed.

Lemma iso_defined_byte uni l :
  Forall (iso_defined uni) l -> Forall is_byte l.
Proof.
  intros H. eapply Forall_impl; [exact H|]. intros x [Hx _]. exact Hx.
Qed.

(** With three bytes of room for every byte of the input, the loop of
    [ISO8859xToUTF8] runs to the end of an input in which every byte has
    a code point. *)
Lemma ISO8859xToUTF8_loop_room uni xlat outlen :
  tables_agree uni xlat = true ->
  forall fuel in_ pos out,
  (length in_ <= fuel)%nat ->
  Forall (iso_defined uni) in_ ->
  len out + 3 * len in_ <= outlen ->
  ISO8859xToUTF8_loop fuel uni outlen in_ pos (pos + len in_) out
    = IsoLeft [] (pos + len in_) (out ++ iso_text uni in_).
Proof.
  intros Hag.
  induction fuel as [|fuel IH]; intros in_ pos out Hf Hb Hroom.
  { destruct in_; [|cbn in Hf; lia]. cbn. rewrite app_nil_r.
    change (len (@nil Z)) with 0. rewrite Z.add_0_r. reflexivity. }
  destruct in_ as [|c in'].
  { cbn. rewrite app_nil_r. change (len (@nil Z)) with 0.
    rewrite Z.add_0_r. reflexivity. }
  inversion Hb as [|? ? [[Hc0 Hc] Hdef] Hb']; subst.
  rewrite len_cons in *. pose proof (len_nonneg in') as Hin'.
  pose proof (len_nonneg out) as Hout.
  cbn [ISO8859xToUTF8_loop]. zbool.
  destruct (Z.leb_spec 0x80 c) as [Hhi|Hlo].
  - destruct (tables_agree_spec uni xlat c Hag) as [Hcp _];
      [lia|apply Hdef; lia|].
    set (cp := table_at uni (c - 0x80)) in *. zbool.
    assert (Hstep :
      (if cp <? 0x800
       then Some (in', pos + 1,
                  out ++ [Z.lor (Z.land (Z.shiftr cp 6) 0x1F) 0xC0;
                          Z.lor (Z.land cp 0x3F) 0x80])
       else Some (in', pos + 1,
                  out ++ [Z.lor (Z.land (Z.shiftr cp 12) 0x0F) 0xE0;
                          Z.lor (Z.land (Z.shiftr cp 6) 0x3F) 0x80;
                          Z.lor (Z.land cp 0x3F) 0x80]))
      = Some (in', pos + 1, out ++ utf8_seq cp)).
    { destruct (Z.ltb_spec cp 0x800);
        [rewrite utf8_seq_two by lia|rewrite utf8_seq_three by lia];
        reflexivity. }
    rewrite Hstep. clear Hstep.
    destruct (utf8_seq_length cp) as [Hl1 Hl3]. specialize (Hl3 ltac:(lia)).
    len_simpl. zbool.
    destruct (isolat1_copy_spec (pos + (len in' + 1)) in' (pos + 1)
                (out ++ utf8_seq cp) (iso_defined_byte uni in' Hb'))
      as (a & rest & -> & Ha & -> & _).
    apply Forall_app in Hb' as [_ Hrest].
    cbn [length] in Hf. revert Hf Hroom. rewrite length_app. len_simpl.
    intros Hf Hroom.
    pose proof (len_nonneg a). pose proof (len_nonneg rest).
    replace (pos + (len a + len rest + 1)) with (pos + 1 + len a + len rest)
      by lia.
    rewrite IH; [|lia|assumption|len_simpl; lia].
    unfold iso_text at 2. cbn [flat_map]. fold (iso_text uni (a ++ rest)).
    rewrite iso_text_app, (iso_text_ascii uni a) by assumption.
    unfold iso_code_point at 1. zbool. fold cp.
    rewrite <- !app_assoc. f_equal; try f_equal; lia.
  - zbool.
    destruct (isolat1_copy_spec (pos + (len in' + 1)) (c :: in') pos out)
      as (a & rest & Heq & Ha & -> & _ & _ & Hne);
      [constructor; [split; lia|apply (iso_defined_byte uni), Hb']|].
    assert (Hane : a <> []) by (apply (Hne c in'); [reflexivity|lia|lia]).
    assert (Hlen : len a + len rest = len in' + 1).
    { apply (f_equal len) in Heq. revert Heq. len_simpl. lia. }
    assert (Hlena : (length rest < length (c :: in'))%nat).
    { rewrite Heq, length_app. destruct a; [congruence|cbn; lia]. }
    assert (Hrest : Forall (iso_defined uni) rest).
    { assert (Hall : Forall (iso_defined uni) (c :: in'))
        by (constructor; [split; [lia|assumption]|assumption]).
      rewrite Heq in Hall. apply Forall_app in Hall as [_ Hall]. exact Hall. }
    pose proof (len_nonneg a). pose proof (len_nonneg rest).
    replace (pos + (len in' + 1)) with (pos + len a + len rest) by lia.
    rewrite IH; [|cbn in Hlena, Hf; lia|assumption|len_simpl; lia].
    rewrite Heq, iso_text_app, (iso_text_ascii uni a) by assumption.
    rewrite <- !app_assoc. f_equal; try f_equal; lia.
Qed.

Lemma ISO8859xToUTF8_room uni xlat outlen b :
  tables_agree uni xlat = true ->
  Forall (iso_defined uni) b -> 3 * len b <= outlen ->
  ISO8859xToUTF8 uni outlen b = conv_done (iso_text uni b) (len b).
Proof.
  intros Hag Hb Hroom. unfold ISO8859xToUTF8.
  pose proof (ISO8859xToUTF8_loop_room uni xlat outlen Hag (length b) b 0 [])
    as H.
  change (0 + len b) with (len b) in H.
  rewrite H; [reflexivity|lia|assumption|change (len (@nil Z)) with 0; lia].
Qed.

(** X20: the round trip through each of the fourteen character sets
    ISO-8859-2 to ISO-8859-16.  Any bytes that all have a code point in the
    table of the set are converted by [ISO8859xToUTF8], given three bytes
    of room for each, to the UTF-8 sequences of their code points, and
    [UTF8ToISO8859x] with the transcoding table of the same set turns that
    text back into the very same bytes, whatever [*outlen] it is given:
    the two tables of every set are inverse to each other. *)
Theorem iso8859_round_trip (name : string) (uni xlat : list Z)
    (b : list Z) (cap1 cap2 : Z) :
  In (name, (uni, xlat)) iso8859_tables ->
  Forall (iso_defined uni) b ->
  3 * len b <= cap1 ->
  ISO8859xToUTF8 uni cap1 b = conv_done (iso_text uni b) (len b) /\
  UTF8ToISO8859x xlat cap2 (Some (iso_text uni b))
    = conv_done b (len (iso_text uni b)).
Proof.
  intros Hin Hb Hroom.
  pose proof (iso8859_tables_agree name uni xlat Hin) as Hag.
  split; [apply (ISO8859xToUTF8_room uni xlat); assumption|].
  unfold UTF8ToISO8859x.
  pose proof (UTF8ToISO8859x_loop_text uni xlat (len (iso_text uni b)) []
                Hag b [] 0 Hb) as H.
  rewrite app_nil_r in H. rewrite H by lia. cbn [UTF8ToISO8859x_loop app].
  change (len (@nil Z)) with 0. rewrite Z.sub_0_r. reflexivity.
Qed.

(** "A" and the Euro sign, byte A4 of ISO-8859-15. *)
Lemma iso8859_round_trip_witness :
  ISO8859xToUTF8 xmlunicodetable_ISO8859_15 6 [0x41; 0xA4]
    = conv_done (iso_text xmlunicodetable_ISO8859_15 [0x41; 0xA4]) 2 /\
  UTF8ToISO8859x xmltranscodetable_ISO8859_15 0
    (Some (iso_text xmlunicodetable_ISO8859_15 [0x41; 0xA4]))
    = conv_done [0x41; 0xA4]
        (len (iso_text xmlunicodetable_ISO8859_15 [0x41; 0xA4])).
Proof.
  apply (iso8859_round_trip "ISO-8859-15" xmlunicodetable_ISO8859_15
           xmltranscodetable_ISO8859_15 [0x41; 0xA4] 6 0).
  - cbn. tauto.
  - repeat (apply List.Forall_cons;
            [split; [lia|intros _; vm_compute; discriminate]|]).
    apply List.Forall_nil.
  - vm_compute. discriminate.
Defined.

(** For any capacity, the loop of [ISO8859xToUTF8] consumes a prefix of
    bytes that have code points and appends their text, within the
    capacity; it stops at the end of its turns or in front of a byte that
    has no code point. *)
Lemma ISO8859xToUTF8_loop_prefix uni xlat outlen :
  tables_agree uni xlat = true ->
  forall fuel in_ pos instop out,
  Forall is_byte in_ ->
  len out <= Z.max 0 outlen ->
  exists a rest,
    in_ = a ++ rest /\ Forall (iso_defined uni) a /\
    len (out ++ iso_text uni a) <= Z.max 0 outlen /\
    (ISO8859xToUTF8_loop fuel uni outlen in_ pos instop out
       = IsoLeft rest (pos + len a) (out ++ iso_text uni a) \/
     ISO8859xToUTF8_loop fuel uni outlen in_ pos instop out
       = IsoUndefined (pos + len a) (out ++ iso_text uni a) /\
     exists x t, rest = x :: t /\ 0x80 <= x /\
                 table_at uni (x - 0x80) = 0).
Proof.
  intros Hag.
  assert (Hstay : forall (in_ : list Z) pos out,
    len out <= Z.max 0 outlen ->
    exists a rest,
      in_ = a ++ rest /\ Forall (iso_defined uni) a /\
      len (out ++ iso_text uni a) <= Z.max 0 outlen /\
      (IsoLeft in_ pos out
         = IsoLeft rest (pos + len a) (out ++ iso_text uni a) \/
       IsoLeft in_ pos out
         = IsoUndefined (pos + len a) (out ++ iso_text uni a) /\
       exists x t, rest = x :: t /\ 0x80 <= x /\
                   table_at uni (x - 0x80) = 0)).
  { intros in_ pos out Hout. exists [], in_. cbn [iso_text flat_map app].
    rewrite app_nil_r. change (len (@nil Z)) with 0. rewrite Z.add_0_r.
    split; [reflexivity|]. split; [constructor|]. split; [assumption|].
    left. reflexivity. }
  induction fuel as [|fuel IH]; intros in_ pos instop out Hb Hout.
  { destruct in_; apply Hstay; assumption. }
  destruct in_ as [|c in']; [apply Hstay; assumption|].
  inversion Hb as [|? ? [Hc0 Hc] Hb']; subst.
  pose proof (len_nonneg in') as Hin'. pose proof (len_nonneg out) as Hlo.
  cbn [ISO8859xToUTF8_loop].
  destruct (Z.ltb_spec (len out) (outlen - 2)) as [Hroom|];
    [|apply Hstay; assumption].
  destruct (Z.leb_spec 0x80 c) as [Hhi|Hlow].
  - destruct (Z.eqb_spec (table_at uni (c - 0x80)) 0) as [Hundef|Hdef].
    { exists [], (c :: in'). cbn [iso_text flat_map app].
      rewrite app_nil_r. change (len (@nil Z)) with 0. rewrite Z.add_0_r.
      split; [reflexivity|]. split; [constructor|]. split; [assumption|].
      right. split; [reflexivity|]. eauto. }
    destruct (tables_agree_spec uni xlat c Hag) as [Hcp _]; [lia|assumption|].
    set (cp := table_at uni (c - 0x80)) in *.
    assert (Hstep :
      (if cp <? 0x800
       then Some (in', pos + 1,
                  out ++ [Z.lor (Z.land (Z.shiftr cp 6) 0x1F) 0xC0;
                          Z.lor (Z.land cp 0x3F) 0x80])
       else Some (in', pos + 1,
                  out ++ [Z.lor (Z.land (Z.shiftr cp 12) 0x0F) 0xE0;
                          Z.lor (Z.land (Z.shiftr cp 6) 0x3F) 0x80;
                          Z.lor (Z.land cp 0x3F) 0x80]))
      = Some (in', pos + 1, out ++ utf8_seq cp)).
    { destruct (Z.ltb_spec cp 0x800);
        [rewrite utf8_seq_two by lia|rewrite utf8_seq_three by lia];
        reflexivity. }
    rewrite Hstep. clear Hstep.
    destruct (utf8_seq_length cp) as [Hl1 Hl3]. specialize (Hl3 ltac:(lia)).
    set (instop1 := if _ <? _ then _ else instop).
    assert (Hstop : instop1 - (pos + 1)
                    <= outlen - (len out + len (utf8_seq cp))).
    { subst instop1. len_simpl.
      match goal with
      | |- context [?x <? ?y] => destruct (Z.ltb_spec x y)
      end; lia. }
    destruct (isolat1_copy_spec instop1 in' (pos + 1) (out ++ utf8_seq cp) Hb')
      as (a1 & rest1 & -> & Ha1 & -> & Hbound & _).
    apply Forall_app in Hb' as [_ Hrest1]. pose proof (len_nonneg a1).
    destruct (IH rest1 (pos + 1 + len a1) instop1
                ((out ++ utf8_seq cp) ++ a1) Hrest1)
      as (a2 & rest & -> & Ha2 & Hlen & Hres).
    { len_simpl. lia. }
    assert (Hdefc : iso_defined uni c) by (split; [lia|intros _; exact Hdef]).
    assert (Hdefa : Forall (iso_defined uni) a1).
    { eapply Forall_impl; [exact Ha1|]. intros x [Hx0 Hx].
      split; [lia|]. intros Hx'. lia. }
    assert (Htext : iso_text uni (c :: a1 ++ a2)
                    = utf8_seq cp ++ a1 ++ iso_text uni a2).
    { unfold iso_text at 1. cbn [flat_map]. fold (iso_text uni (a1 ++ a2)).
      rewrite iso_text_app, (iso_text_ascii uni a1) by assumption.
      unfold iso_code_point. zbool. reflexivity. }
    exists (c :: a1 ++ a2), rest.
    split; [cbn [app]; rewrite <- app_assoc; reflexivity|].
    split; [constructor; [assumption|apply Forall_app; auto]|].
    rewrite Htext. rewrite <- !app_assoc in *. split; [exact Hlen|].
    replace (pos + len (c :: a1 ++ a2)) with (pos + 1 + len a1 + len a2)
      by (len_simpl; lia).
    exact Hres.
  - set (instop1 := if _ <? _ then _ else instop).
    assert (Hstop : instop1 - pos <= outlen - len out).
    { subst instop1.
      destruct (Z.ltb_spec (outlen - len out) (instop - pos)); lia. }
    destruct (isolat1_copy_spec instop1 (c :: in') pos out)
      as (a1 & rest1 & Heq & Ha1 & -> & Hbound & _);
      [constructor; [split; lia|assumption]|].
    assert (Hrest1 : Forall is_byte rest1).
    { assert (Hall : Forall is_byte (c :: in'))
        by (constructor; [split; lia|assumption]).
      rewrite Heq in Hall. apply Forall_app in Hall as [_ Hall]. exact Hall. }
    pose proof (len_nonneg a1).
    destruct (IH rest1 (pos + len a1) instop1 (out ++ a1) Hrest1)
      as (a2 & rest & -> & Ha2 & Hlen & Hres).
    { len_simpl. lia. }
    assert (Hdefa : Forall (iso_defined uni) a1).
    { eapply Forall_impl; [exact Ha1|]. intros x [Hx0 Hx].
      split; [lia|]. intros Hx'. lia. }
    exists (a1 ++ a2), rest. split; [rewrite Heq, <- app_assoc; reflexivity|].
    split; [apply Forall_app; auto|].
    rewrite iso_text_app, (iso_text_ascii uni a1) by assumption.
    rewrite <- !app_assoc in *. split; [exact Hlen|].
    replace (pos + len (a1 ++ a2)) with (pos + len a1 + len a2)
      by (len_simpl; lia).
    exact Hres.
Qed.

(** X21: what [ISO8859xToUTF8] does for any capacity, with the table of
    any of the fourteen character sets.  It consumes a prefix of the
    input made of bytes that have code points, and stores the UTF-8 text
    of exactly that prefix, never more than [*outlen] bytes.  It returns
    the number of bytes stored, or [XML_ENC_ERR_INPUT] when the byte
    behind that prefix has no code point in the table. *)
Theorem ISO8859xToUTF8_prefix (name : string) (uni xlat : list Z)
    (outlen : Z) (b : list Z) :
  In (name, (uni, xlat)) iso8859_tables ->
  Forall is_byte b ->
  exists a rest,
    b = a ++ rest /\ Forall (iso_defined uni) a /\
    len (iso_text uni a) <= Z.max 0 outlen /\
    (ISO8859xToUTF8 uni outlen b = conv_done (iso_text uni a) (len a) \/
     ISO8859xToUTF8 uni outlen b = conv_input_error (iso_text uni a) (len a) /\
     exists x t, rest = x :: t /\ 0x80 <= x /\ table_at uni (x - 0x80) = 0).
Proof.
  intros Hin Hb.
  pose proof (iso8859_tables_agree name uni xlat Hin) as Hag.
  unfold ISO8859xToUTF8.
  destruct (ISO8859xToUTF8_loop_prefix uni xlat outlen Hag (length b) b 0
              (len b) [] Hb)
    as (a & rest & -> & Ha & Hlen & Hres);
    [change (len (@nil Z)) with 0; lia|].
  cbn [app] in *. change (0 + len a) with (len a) in *.
  destruct Hres as [-> |[-> Hundef]].
  2:{ exists a, rest. auto 6. }
  assert (Hone : forall a rest,
    Forall (iso_defined uni) a -> Forall is_byte (a ++ rest) ->
    len (iso_text uni a) <= Z.max 0 outlen ->
    exists a' rest',
      a ++ rest = a' ++ rest' /\ Forall (iso_defined uni) a' /\
      len (iso_text uni a') <= Z.max 0 outlen /\
      iso_copy_one outlen (rest, len a, iso_text uni a)
        = (rest', len a', iso_text uni a')).
  { clear. intros a rest Ha Hb Hlen. unfold iso_copy_one.
    destruct rest as [|c rest]; [exists a, []; auto|].
    destruct (Z.ltb_spec (len (iso_text uni a)) outlen); cbn [andb];
      [|exists a, (c :: rest); auto].
    destruct (Z.ltb_spec c 0x80); [|exists a, (c :: rest); auto].
    apply Forall_app in Hb as [_ Hb].
    inversion Hb as [|? ? [Hc0 Hc] _]; subst.
    exists (a ++ [c]), rest. rewrite <- app_assoc. split; [reflexivity|].
    assert (Htext : iso_text uni (a ++ [c]) = iso_text uni a ++ [c]).
    { rewrite iso_text_app. f_equal. apply (iso_text_ascii uni [c]).
      constructor; [split; lia|constructor]. }
    rewrite Htext. len_simpl. split; [|split; [lia|reflexivity]].
    apply Forall_app. split; [assumption|].
    constructor; [split; [lia|intros; lia]|constructor]. }
  destruct (Hone a rest Ha Hb Hlen) as (a1 & rest1 & Heq1 & Ha1 & Hlen1 & ->).
  rewrite Heq1 in Hb.
  destruct (Hone a1 rest1 Ha1 Hb Hlen1) as (a2 & rest2 & Heq2 & Ha2 & Hlen2 & ->).
  exists a2, rest2. rewrite Heq1, Heq2. auto 6.
Qed.

Lemma ISO8859xToUTF8_prefix_witness :
  exists a rest,
    [0x41; 0xA5; 0x42] = a ++ rest /\
    Forall (iso_defined xmlunicodetable_ISO8859_3) a /\
    len (iso_text xmlunicodetable_ISO8859_3 a) <= Z.max 0 16 /\
    (ISO8859xToUTF8 xmlunicodetable_ISO8859_3 16 [0x41; 0xA5; 0x42]
       = conv_done (iso_text xmlunicodetable_ISO8859_3 a) (len a) \/
     ISO8859xToUTF8 xmlunicodetable_ISO8859_3 16 [0x41; 0xA5; 0x42]
       = conv_input_error (iso_text xmlunicodetable_ISO8859_3 a) (len a) /\
     exists x t, rest = x :: t /\ 0x80 <= x /\
                 table_at xmlunicodetable_ISO8859_3 (x - 0x80) = 0).
Proof.
  apply (ISO8859xToUTF8_prefix "ISO-8859-3" xmlunicodetable_ISO8859_3
           xmltranscodetable_ISO8859_3 16 [0x41; 0xA5; 0x42]).
  - cbn. tauto.
  - repeat (apply List.Forall_cons; [unfold is_byte; lia|]).
    apply List.Forall_nil.
Defined.

(** X22: what [UTF8ToISO8859x] refuses, with the table of any of the
    fourteen character sets, behind the text of any bytes of the set.
    The sequence of a code point that the set does not have, or of one
    above U+FFFF, makes it return [XML_ENC_ERR_INPUT].  A sequence cut
    short by the end of the input makes it return [XML_ENC_ERR_PARTIAL],
    and the encode engine turns that into [XML_ENC_ERR_INTERNAL].  In each
    case the counts are those of the text in front. *)
Theorem UTF8ToISO8859x_refuses (t : string * (list Z * list Z))
    (outlen : Z) (b : list Z) :
  In t iso8859_tables ->
  Forall (iso_defined (fst (snd t))) b ->
  let text := iso_text (fst (snd t)) b in
  let enc := UTF8ToISO8859x (snd (snd t)) outlen in
  (forall c rest,
     0x80 <= c < 0x10000 /\ xlat_of (snd (snd t)) c = 0 \/
     0x10000 <= c < 0x200000 ->
     enc (Some (text ++ utf8_seq c ++ rest))
       = conv_input_error b (len text)) /\
  (forall c s1 s2,
     0x80 <= c < 0x10000 -> utf8_seq c = s1 ++ s2 ->
     s1 <> [] -> s2 <> [] ->
     enc (Some (text ++ s1)) = conv_partial b (len text) /\
     c_ret (xmlEncOutputChunk (iso8859_handler t) outlen (Some (text ++ s1)))
       = XML_ENC_ERR_INTERNAL).
Proof.
  destruct t as [name [uni xlat]]. cbn [fst snd]. intros Hin Hb. cbv zeta.
  pose proof (iso8859_tables_agree name uni xlat Hin) as Hag.
  assert (Hgo : forall s,
    UTF8ToISO8859x xlat outlen (Some (iso_text uni b ++ s))
      = UTF8ToISO8859x_loop xlat (len (iso_text uni b ++ s)) s b
          (len (iso_text uni b))).
  { intros s. unfold UTF8ToISO8859x.
    rewrite (UTF8ToISO8859x_loop_text uni xlat _ s Hag b [] 0 Hb) by lia.
    cbn [app]. f_equal. len_simpl. lia. }
  split.
  - intros c rest Hc. rewrite Hgo.
    rewrite utf8_seq_arith by lia.
    destruct Hc as [[Hc Hx]|Hc].
    + unfold xlat_of in Hx. zbool. destruct (Z.ltb_spec c 0x800).
      * destruct (lead_byte_2 (c / 64)) as [Hr Hl]; [lia|].
        destruct (continuation_byte (c mod 64)) as (_ & HC0 & H3F); [lia|].
        cbn [app UTF8ToISO8859x_loop]. zbool. cbn [negb].
        rewrite H3F, Hl, Hx. reflexivity.
      * zbool. destruct (lead_byte_3 (c / 4096)) as [Hr Hl]; [lia|].
        destruct (continuation_byte (c / 64 mod 64)) as (_ & HC1 & H1); [lia|].
        destruct (continuation_byte (c mod 64)) as (_ & HC2 & H2); [lia|].
        cbn [app UTF8ToISO8859x_loop]. zbool. cbn [negb].
        rewrite H1, H2, Hl, Hx. reflexivity.
    + zbool. destruct (lead_byte_4 (c / 262144)) as [Hr Hl]; [lia|].
      cbn [app UTF8ToISO8859x_loop]. zbool. reflexivity.
  - intros c s1 s2 Hc Hseq Hs1 Hs2.
    assert (Hpart : UTF8ToISO8859x xlat outlen (Some (iso_text uni b ++ s1))
                    = conv_partial b (len (iso_text uni b))).
    { rewrite Hgo. rewrite utf8_seq_arith in Hseq by lia. revert Hseq. zbool.
      destruct (Z.ltb_spec c 0x800).
      - destruct (lead_byte_2 (c / 64)) as [Hr Hl]; [lia|].
        destruct s1 as [|x [|y s1]]; [congruence| |].
        + intros [= <- <-]. cbn [UTF8ToISO8859x_loop]. zbool. reflexivity.
        + intros [= _ _ H1]. destruct s1; [|discriminate].
          cbn in H1. congruence.
      - zbool. destruct (lead_byte_3 (c / 4096)) as [Hr Hl]; [lia|].
        destruct s1 as [|x [|y [|z s1]]]; [congruence| | |].
        + intros [= <- <-]. cbn [UTF8ToISO8859x_loop]. zbool. reflexivity.
        + intros [= <- <- <-]. cbn [UTF8ToISO8859x_loop]. zbool.
          reflexivity.
        + intros [= _ _ _ H1]. destruct s1; [|discriminate].
          cbn in H1. congruence. }
    split; [exact Hpart|].
    unfold xmlEncOutputChunk, xmlEncOutputChunk_raw, iso8859_handler.
    cbn [h_output fst snd]. rewrite Hpart.
    unfold classify_counts, conv_partial. cbn [c_ret]. reflexivity.
Qed.

(** ISO-8859-2 has no Euro sign; and "Ą" cut after its first byte. *)
Lemma UTF8ToISO8859x_refuses_witness :
  UTF8ToISO8859x xmltranscodetable_ISO8859_2 8
    (Some (iso_text xmlunicodetable_ISO8859_2 [0x41] ++ utf8_seq 0x20AC ++ []))
    = conv_input_error [0x41]
        (len (iso_text xmlunicodetable_ISO8859_2 [0x41])) /\
  c_ret (xmlEncOutputChunk
           (iso8859_handler
              ("ISO-8859-2"%string,
               (xmlunicodetable_ISO8859_2, xmltranscodetable_ISO8859_2)))
           8 (Some (iso_text xmlunicodetable_ISO8859_2 [0x41] ++ [0xC4])))
    = XML_ENC_ERR_INTERNAL.
Proof.
  assert (Hin : In ("ISO-8859-2"%string,
                    (xmlunicodetable_ISO8859_2, xmltranscodetable_ISO8859_2))
                  iso8859_tables) by (cbn; tauto).
  assert (Hb : Forall (iso_defined xmlunicodetable_ISO8859_2) [0x41]).
  { apply List.Forall_cons; [split; [lia|intros; lia]|apply List.Forall_nil]. }
  destruct (UTF8ToISO8859x_refuses _ 8 [0x41] Hin Hb) as [Hinput Hpartial].
  split.
  - apply Hinput. left. split; [lia|reflexivity].
  - apply (Hpartial 0x104 [0xC4] [0x84]); [lia|reflexivity|discriminate..].
Defined.

